(** * Merge-request quality validator: dump parser, diff synthesizer and
      response normalizer

    A shallow embedding of the text-processing core of the repository:

    - [src/main.py]: [parse_repository_file], [generate_diff_content];
    - [src/analyzer.py]: the older [parse_repository_file] and
      [generate_diff_content] (binary skipping, size truncation);
    - [src/repository_parser.py]: [parse_repository_file];
    - [src/app/modules/analyzer.py]:
      [MergeRequestAnalyzer._parse_analysis_response].

    Python [str] values are lists of Unicode code points.  The functions of
    the Python standard library that the code calls ([str.strip],
    [str.split], [re.search], [re.findall], ...) are written out for the
    fragment the code uses; [json.loads], [float] on a [str] and the part of
    the Unicode character database beyond ASCII are parameters. *)

From Stdlib Require Import List ZArith NArith Bool Lia String Ascii Floats.
From Stdlib Require Import DecimalString.
Import ListNotations.

Set Implicit Arguments.

(** ** Python strings *)

Definition char := N.
Definition pystr := list char.

(** An ASCII literal as a Python string. *)
Definition str (s : string) : pystr :=
  map N_of_ascii (list_ascii_of_string s).

Definition chr (a : ascii) : char := N_of_ascii a.

Definition NL : char := 10%N.
Definition CR : char := 13%N.
Definition TAB : char := 9%N.
Definition NUL : char := 0%N.

Fixpoint str_eqb (a b : pystr) : bool :=
  match a, b with
  | [], [] => true
  | x :: a', y :: b' => N.eqb x y && str_eqb a' b'
  | _, _ => false
  end.

(** [s.startswith(p)] *)
Fixpoint startswith (p s : pystr) : bool :=
  match p, s with
  | [], _ => true
  | x :: p', y :: s' => N.eqb x y && startswith p' s'
  | _ :: _, [] => false
  end.

(** [s.endswith(p)] *)
Definition endswith (p s : pystr) : bool :=
  startswith (rev p) (rev s).

(** [p in s] *)
Fixpoint contains (p s : pystr) : bool :=
  startswith p s ||
  match s with
  | [] => false
  | _ :: s' => contains p s'
  end.

(** [c in s] for a single character. *)
Definition has_char (c : char) (s : pystr) : bool :=
  existsb (N.eqb c) s.

(** [s.find(p)]: [None] stands for -1. *)
Fixpoint find (p s : pystr) : option nat :=
  if startswith p s then Some 0
  else match s with
       | [] => None
       | _ :: s' => option_map S (find p s')
       end.

Fixpoint dropwhile (f : char -> bool) (s : pystr) : pystr :=
  match s with
  | [] => []
  | c :: s' => if f c then dropwhile f s' else s
  end.

(** [s.rstrip(chars)] and [s.lstrip(chars)] for a set of characters [f]. *)
Definition lstrip_by (f : char -> bool) (s : pystr) : pystr := dropwhile f s.
Definition rstrip_by (f : char -> bool) (s : pystr) : pystr :=
  rev (dropwhile f (rev s)).
Definition strip_by (f : char -> bool) (s : pystr) : pystr :=
  rstrip_by f (lstrip_by f s).

(** [s.split(sep)] for a non-empty separator: cut at the leftmost
    occurrences, left to right, without overlap.  [skip] counts the
    characters of a separator still to be passed over, [acc] holds the
    current field, reversed. *)
Fixpoint split_go (sep : pystr) (skip : nat) (acc : pystr) (s : pystr)
  : list pystr :=
  match s with
  | [] => [rev acc]
  | c :: s' =>
      match skip with
      | S n => split_go sep n acc s'
      | O =>
          if startswith sep s
          then rev acc :: split_go sep (List.length sep - 1) [] s'
          else split_go sep 0 (c :: acc) s'
      end
  end.

Definition split (sep s : pystr) : list pystr := split_go sep 0 [] s.

(** [s.split(c)] for a single character. *)
Fixpoint split_char_go (c : char) (acc : pystr) (s : pystr) : list pystr :=
  match s with
  | [] => [rev acc]
  | x :: s' =>
      if N.eqb x c then rev acc :: split_char_go c [] s'
      else split_char_go c (x :: acc) s'
  end.

Definition split_char (c : char) (s : pystr) : list pystr :=
  split_char_go c [] s.

(** [s.split(c, 1)]: at most one cut. *)
Fixpoint split1_go (c : char) (acc : pystr) (s : pystr) : list pystr :=
  match s with
  | [] => [rev acc]
  | x :: s' =>
      if N.eqb x c then [rev acc; s'] else split1_go c (x :: acc) s'
  end.

Definition split1 (c : char) (s : pystr) : list pystr := split1_go c [] s.

(** [sep.join(parts)] *)
Fixpoint join (sep : pystr) (parts : list pystr) : pystr :=
  match parts with
  | [] => []
  | [p] => p
  | p :: ps => p ++ sep ++ join sep ps
  end.

(** [str(n)] for a non-negative integer. *)
Definition str_of_nat (n : nat) : pystr :=
  str (NilEmpty.string_of_uint (Nat.to_uint n)).

(** [c * n] *)
Definition repeat_char (c : char) (n : nat) : pystr := repeat c n.

(** ** Exceptions *)

Inductive exn :=
| JSONDecodeError
| ValueError
| TypeError
| OverflowError
| IndexError
| FileNotFoundError
| OtherError (name : pystr).

Inductive result (A : Type) :=
| Ok (a : A)
| Raise (e : exn).
Arguments Ok {A} a.
Arguments Raise {A} e.

Definition bind {A B} (r : result A) (f : A -> result B) : result B :=
  match r with
  | Ok a => f a
  | Raise e => Raise e
  end.

Notation "x <- r ;; k" := (bind r (fun x => k))
  (at level 61, r at next level, right associativity).

(** [json.JSONDecodeError] is a subclass of [ValueError]. *)
Definition is_JSONDecodeError (e : exn) : bool :=
  match e with JSONDecodeError => true | _ => false end.

Definition is_ValueError_or_TypeError (e : exn) : bool :=
  match e with
  | JSONDecodeError | ValueError | TypeError => true
  | _ => false
  end.

(** ** Python dictionaries: insertion-ordered, unique keys *)

Section Dict.
Variable V : Type.

Definition pydict := list (pystr * V).

Fixpoint dict_get (k : pystr) (d : pydict) : option V :=
    match d with
    | [] => None
    | (k', v) :: d' => if str_eqb k k' then Some v else dict_get k d'
    end.

  (** [d[k] = v]: an existing key keeps its place, a new one goes last. *)
Fixpoint dict_set (k : pystr) (v : V) (d : pydict) : pydict :=
    match d with
    | [] => [(k, v)]
    | (k', v') :: d' =>
        if str_eqb k k' then (k', v) :: d' else (k', v') :: dict_set k v d'
    end.

Definition keys (d : pydict) : list pystr := map fst d.
End Dict.

Arguments str s%_string.

(** ** Character classes

    Python classifies characters with the Unicode character database.  The
    ASCII part is written out; beyond ASCII the database is a parameter. *)

Record unicode_db := {
  (** [str.isspace] of a non-ASCII character *)
  ucd_isspace : char -> bool;
  (** [str.isdecimal] of a non-ASCII character *)
  ucd_isdecimal : char -> bool;
  (** [str.isprintable] of a non-ASCII character *)
  ucd_isprintable : char -> bool;
  (** whether a non-ASCII character matches an ASCII letter of a pattern
      compiled with [re.IGNORECASE] *)
  ucd_caseless : char -> char -> bool
}.

Definition is_ascii (c : char) : bool := (c <? 128)%N.

Definition between (lo hi c : char) : bool := ((lo <=? c) && (c <=? hi))%N.
Arguments between (lo hi c)%_N.

(** ASCII whitespace: TAB, LF, VT, FF, CR, FS, GS, RS, US and space. *)
Definition ascii_isspace (c : char) : bool :=
  between 9 13 c || between 28 31 c || (c =? 32)%N.

Definition ascii_isdigit (c : char) : bool := between 48 57 c.

Definition ascii_isprintable (c : char) : bool := between 32 126 c.

Definition ascii_isalpha (c : char) : bool :=
  between 65 90 c || between 97 122 c.

Definition ascii_lower (c : char) : char :=
  if between 65 90 c then (c + 32)%N else c.

Section Text.
Variable U : unicode_db.

Definition isspace (c : char) : bool :=
    if is_ascii c then ascii_isspace c else ucd_isspace U c.

Definition isdecimal (c : char) : bool :=
    if is_ascii c then ascii_isdigit c else ucd_isdecimal U c.

Definition isprintable_char (c : char) : bool :=
    if is_ascii c then ascii_isprintable c else ucd_isprintable U c.

  (** [s.isprintable()]: every character printable; true of the empty
      string. *)
Definition isprintable (s : pystr) : bool := forallb isprintable_char s.

  (** [s.strip()] *)
Definition strip (s : pystr) : pystr := strip_by isspace s.

  (** A literal [p] of a pattern compiled with [re.IGNORECASE], against a
      character [c] of the text. *)
Definition caseless (p c : char) : bool :=
    if ascii_isalpha p then
      if is_ascii c then (ascii_lower c =? ascii_lower p)%N
      else ucd_caseless U (ascii_lower p) c
    else (c =? p)%N.

  (** ** Regular expressions

      The fragment of Python's [re] that the program uses, with the
      backtracking order of the library: alternatives left to right, a
      greedy repetition longest first, a lazy one shortest first.
      Repetition is over one-character classes, the only kind in the
      program's patterns, and there is at most one capturing group. *)

Inductive regex :=
  | Eps
  | Chr (p : char -> bool)
  | Seq (r1 r2 : regex)
  | Alt (r1 r2 : regex)
  | Rep (greedy : bool) (min : nat) (p : char -> bool)
  | Group (r : regex)
  | Look (r : regex)    (* (?=r) *)
  | Bol                 (* ^ under re.MULTILINE *)
  | Eos.                (* \Z *)

  (** The state of a match: the character before the cursor, the text from
      the cursor on, and the text of group 1 when it has taken part. *)
Record mstate := {
    m_prev : option char;
    m_rest : pystr;
    m_group : option pystr
  }.

Definition orelse {A} (a b : option A) : option A :=
    match a with Some _ => a | None => b end.

Fixpoint rep (greedy : bool) (p : char -> bool)
           (k : option char -> pystr -> option mstate)
           (min : nat) (prev : option char) (s : pystr) {struct s}
    : option mstate :=
    match min with
    | S m =>
        match s with
        | c :: s' => if p c then rep greedy p k m (Some c) s' else None
        | [] => None
        end
    | O =>
        match s with
        | c :: s' =>
            if p c then
              if greedy
              then orelse (rep greedy p k 0 (Some c) s') (k prev s)
              else orelse (k prev s) (rep greedy p k 0 (Some c) s')
            else k prev s
        | [] => k prev s
        end
    end.

Definition at_line_start (prev : option char) : bool :=
    match prev with
    | None => true
    | Some c => (c =? NL)%N
    end.

Fixpoint rmatch (r : regex) (prev : option char) (s : pystr)
           (g : option pystr)
           (k : option char -> pystr -> option pystr -> option mstate)
    : option mstate :=
    match r with
    | Eps => k prev s g
    | Chr p =>
        match s with
        | c :: s' => if p c then k (Some c) s' g else None
        | [] => None
        end
    | Seq r1 r2 =>
        rmatch r1 prev s g (fun prev' s' g' => rmatch r2 prev' s' g' k)
    | Alt r1 r2 => orelse (rmatch r1 prev s g k) (rmatch r2 prev s g k)
    | Rep greedy min p => rep greedy p (fun prev' s' => k prev' s' g) min prev s
    | Group r1 =>
        rmatch r1 prev s g
          (fun prev' s' _ =>
             k prev' s' (Some (firstn (List.length s - List.length s') s)))
    | Look r1 =>
        match rmatch r1 prev s g (fun p' s' g' => Some (Build_mstate p' s' g')) with
        | Some m => k prev s (m_group m)
        | None => None
        end
    | Bol => if at_line_start prev then k prev s g else None
    | Eos => match s with [] => k prev s g | _ :: _ => None end
    end.

Definition match_here (r : regex) (prev : option char) (s : pystr)
    : option mstate :=
    rmatch r prev s None (fun p' s' g' => Some (Build_mstate p' s' g')).

  (** [re.search]: the match at the leftmost position that has one. *)
Fixpoint search_go (r : regex) (prev : option char) (s : pystr)
    : option mstate :=
    match match_here r prev s with
    | Some m => Some m
    | None =>
        match s with
        | [] => None
        | c :: s' => search_go r (Some c) s'
        end
    end.

Definition re_search (r : regex) (s : pystr) : option mstate :=
    search_go r None s.

  (** [m.group(1)] *)
Definition group1 (m : mstate) : pystr :=
    match m_group m with Some g => g | None => [] end.

  (** [re.findall] for a pattern with one group: the text of group 1 in
      each match, the matches taken left to right without overlap.  Every
      pattern the program hands to [findall] consumes at least one
      character in a match. *)
Fixpoint findall_go (fuel : nat) (r : regex) (prev : option char)
           (s : pystr) : list pystr :=
    match fuel with
    | O => []
    | S n =>
        match search_go r prev s with
        | None => []
        | Some m => group1 m :: findall_go n r (m_prev m) (m_rest m)
        end
    end.

Definition re_findall (r : regex) (s : pystr) : list pystr :=
    findall_go (S (List.length s)) r None s.

  (** Pattern building blocks. *)
Definition lit (c : char) : regex := Chr (N.eqb c).
Definition lit_i (c : char) : regex := Chr (caseless c).

Fixpoint seq_of (rs : list regex) : regex :=
    match rs with
    | [] => Eps
    | [r] => r
    | r :: rs' => Seq r (seq_of rs')
    end.

  (** A literal text, and the same under [re.IGNORECASE]. *)
Definition lits (s : pystr) : regex := seq_of (map lit s).
Definition lits_i (s : pystr) : regex := seq_of (map lit_i s).

Definition opt (r : regex) : regex := Alt r Eps.          (* r? *)
Definition any_char (c : char) : bool := true.             (* . under re.DOTALL *)
Definition not_newline (c : char) : bool := negb (c =? NL)%N. (* . *)
Definition ws_star : regex := Rep true 0 isspace.          (* \s* *)
Definition ws_plus : regex := Rep true 1 isspace.          (* \s+ *)
Definition digits : regex := Rep true 1 isdecimal.         (* \d+ *)

End Text.

(** ** JSON values, as [json.loads] returns them *)

#[local] Unset Elimination Schemes.
Inductive json :=
| JNull                               (* None *)
| JBool (b : bool)
| JInt (z : Z)
| JFloat (f : float)
| JStr (s : pystr)
| JList (l : list json)
| JDict (d : list (pystr * json)).
#[local] Set Elimination Schemes.

Definition is_none (v : json) : bool :=
  match v with JNull => true | _ => false end.

(** [float(n)] for an [int]: the nearest binary64 value, ties to even;
    [OverflowError] when that is not finite. *)
Definition float_of_int (z : Z) : result float :=
  match binary_normalize prec emax z 0 false with
  | S754_infinity _ => Raise OverflowError
  | sf => Ok (SF2Prim sf)
  end.

(** * The response normalizer: [src/app/modules/analyzer.py] *)

Module Normalizer.

  (** The value that [_parse_analysis_response] returns. *)
Record analysis := {
    quality_issues : list json;
    good_practices : list json;
    patterns : list json;
    anti_patterns : list json;
    overall_score : option float;
    raw_response : pystr;
    error : option pystr
  }.

  (** The shapes of an alternative that the code tells apart. *)
Inductive alternative :=
  | AltMessageText (text : pystr)  (* {'message': {'text': text, ...}, ...} *)
  | AltDictText (text : pystr)     (* {'text': text, ...} *)
  | AltDictOther (repr : pystr)    (* another dict; [repr] is its str() *)
  | AltObjText (text : pystr)      (* an object with a [text] attribute *)
  | AltOther (repr : pystr).       (* anything else; [repr] is its str() *)

  (** The reply of the model client: the value under the key [error] when
      that key is present, and the list under [result], [alternatives]
      (empty when either key is absent). *)
Record response := {
    resp_error : option pystr;
    resp_alternatives : list alternative
  }.

Definition alt_message (first_alt : alternative) : pystr :=
    match first_alt with
    | AltMessageText text => text
    | AltDictText text => text
    | AltDictOther repr => repr
    | AltObjText text => text
    | AltOther repr => repr
    end.

Definition is_nil {A} (l : list A) : bool :=
    match l with [] => true | _ :: _ => false end.

Section Parse.
Variable U : unicode_db.
    (** [json.loads] *)
Variable json_loads : pystr -> result json.
    (** [float(s)] for a [str]; [None] is a [ValueError]. *)
Variable float_of_str : pystr -> option float.

Definition fence_open : pystr := str "```json".
Definition fence_close : pystr := str "```".

    (** Lines 327-332. *)
Definition clean_message (message : pystr) : pystr :=
      let cleaned_message := strip U message in
      if startswith fence_open cleaned_message then
        let cleaned_message := skipn 7 cleaned_message in
        let cleaned_message :=
          if endswith fence_close cleaned_message
          then firstn (List.length cleaned_message - 3) cleaned_message
          else cleaned_message in
        strip U cleaned_message
      else cleaned_message.

    (** [json.loads] under [except json.JSONDecodeError: parsed_json = None]. *)
Definition loads_or_none (text : pystr) : result json :=
      match json_loads text with
      | Ok v => Ok v
      | Raise e => if is_JSONDecodeError e then Ok JNull else Raise e
      end.

    (** Tier 1, lines 325-341. *)
Definition direct_json (message : pystr) : result json :=
      let cleaned_message := clean_message message in
      if startswith (str "{") cleaned_message
         && endswith (str "}") cleaned_message
      then loads_or_none cleaned_message
      else Ok JNull.

    (** The pattern of line 344, compiled with [re.DOTALL]; token by token:
        [```json  \s*  ( \{ .*? \} )  \s*  ```]. *)
Definition json_block_re : regex :=
      seq_of [ lits fence_open; ws_star U;
               Group (seq_of [lit (chr "{"); Rep false 0 any_char; lit (chr "}")]);
               ws_star U; lits fence_close ].

    (** Tier 2, lines 343-354. *)
Definition embedded_json (parsed_json : json) (message : pystr)
      : result json :=
      if is_none parsed_json then
        match re_search json_block_re message with
        | Some json_match => loads_or_none (group1 json_match)
        | None => Ok JNull
        end
      else Ok parsed_json.

    (** [parsed_json] after both JSON tiers. *)
Definition json_tiers (message : pystr) : result json :=
      parsed_json <- direct_json message ;;
      embedded_json parsed_json message.

    (** [float(score_val)] *)
Definition py_float (v : json) : result float :=
      match v with
      | JNull => Raise TypeError
      | JBool b => Ok (if b then 1%float else 0%float)
      | JInt z => float_of_int z
      | JFloat f => Ok f
      | JStr s =>
          match float_of_str s with
          | Some f => Ok f
          | None => Raise ValueError
          end
      | JList _ | JDict _ => Raise TypeError
      end.

    (** Lines 361-368. *)
Definition score_of (parsed_json : pydict json) : result (option float) :=
      match dict_get (str "overall_score") parsed_json with
      | None | Some JNull => Ok None
      | Some score_val =>
          match py_float score_val with
          | Ok f => Ok (Some f)
          | Raise e =>
              if is_ValueError_or_TypeError e then Ok None else Raise e
          end
      end.

    (** [parsed_json.get(key, [])], reset to [[]] when it is not a list
        (lines 357-360 and 369-372). *)
Definition list_field (key : pystr) (parsed_json : pydict json)
      : list json :=
      let v := match dict_get key parsed_json with
               | Some v => v
               | None => JList []
               end in
      match v with
      | JList l => l
      | _ => []
      end.

    (** The pattern of line 377, [re.DOTALL | re.IGNORECASE]; token by
        token: [1\.  \s*  Code quality issues  :?  \s*  \n  ( .*? )
        (?= \n \s* 2\. | \Z )]. *)
Definition quality_re : regex :=
      seq_of [ lits_i U (str "1."); ws_star U;
               lits_i U (str "Code quality issues"); opt (lit_i U (chr ":"));
               ws_star U; lit_i U NL;
               Group (Rep false 0 any_char);
               Look (Alt (seq_of [lit_i U NL; ws_star U; lits_i U (str "2.")])
                         Eos) ].

    (** The pattern of line 384, [re.DOTALL | re.IGNORECASE]; token by
        token: [2\.  \s*  Good practices  :?  \s*  \n  ( .*? )
        (?= \n \s* 3\. | \Z )]. *)
Definition practices_re : regex :=
      seq_of [ lits_i U (str "2."); ws_star U;
               lits_i U (str "Good practices"); opt (lit_i U (chr ":"));
               ws_star U; lit_i U NL;
               Group (Rep false 0 any_char);
               Look (Alt (seq_of [lit_i U NL; ws_star U; lits_i U (str "3.")])
                         Eos) ].

    (** The pattern of line 391, [re.DOTALL | re.IGNORECASE]; token by
        token: [3\.  \s*  Overall quality score  :?  \s*  .*?
        ( \d+ (?: \. \d+ )? )  \s*  (?: / | out of )  \s*  10]. *)
Definition score_re : regex :=
      seq_of [ lits_i U (str "3."); ws_star U;
               lits_i U (str "Overall quality score"); opt (lit_i U (chr ":"));
               ws_star U; Rep false 0 any_char;
               Group (Seq (digits U) (opt (Seq (lit_i U (chr ".")) (digits U))));
               ws_star U;
               Alt (lit_i U (chr "/")) (lits_i U (str "out of"));
               ws_star U; lits_i U (str "10") ].

    (** The characters of the class of lines 380 and 387: hyphen, bullet
        (U+2022) and asterisk. *)
Definition is_bullet (c : char) : bool :=
      ((c =? chr "-") || (c =? 8226) || (c =? chr "*"))%N.

    (** The pattern of lines 380 and 387, [re.MULTILINE]; token by token:
        [^  \s*  <bullet>  \s+  ( .* )]. *)
Definition bullet_re : regex :=
      seq_of [ Bol; ws_star U; Chr is_bullet; ws_plus U;
               Group (Rep true 0 not_newline) ].

    (** The pattern of lines 381 and 388, [re.MULTILINE]; token by token:
        [^  \s*  \d+  \.  \s+  ( .* )]. *)
Definition numbered_re : regex :=
      seq_of [ Bol; ws_star U; digits U; lit (chr "."); ws_plus U;
               Group (Rep true 0 not_newline) ].

    (** Lines 379-382 and 386-389: the items of a section. *)
Definition section_items (section_text : pystr) : list json :=
      let text := strip U section_text in
      let items := re_findall bullet_re text in
      let items := if is_nil items then re_findall numbered_re text
                   else items in
      map (fun item => JStr (strip U item))
          (filter (fun item => negb (is_nil (strip U item))) items).

Definition section_of (re : regex) (message : pystr) : list json :=
      match re_search re message with
      | Some m => section_items (group1 m)
      | None => []
      end.

    (** Lines 391-397. *)
Definition fallback_score (message : pystr) : option float :=
      match re_search score_re message with
      | Some score_match => float_of_str (group1 score_match)
      | None => None
      end.

Definition api_error_prefix : pystr := str "API Error: ".
Definition no_alternatives : pystr :=
      str "API response contained no alternatives.".

    (** [_parse_analysis_response], lines 278-401. *)
Definition parse_analysis_response (response : response)
      : result analysis :=
      match resp_error response with
      | Some e =>
          Ok {| quality_issues := []; good_practices := []; patterns := [];
                anti_patterns := []; overall_score := None;
                raw_response := api_error_prefix ++ e;
                error := Some (api_error_prefix ++ e) |}
      | None =>
          match resp_alternatives response with
          | [] =>
              Ok {| quality_issues := []; good_practices := [];
                    patterns := []; anti_patterns := [];
                    overall_score := None;
                    raw_response := no_alternatives;
                    error := Some no_alternatives |}
          | first_alt :: _ =>
              let message := alt_message first_alt in
              parsed_json <- json_tiers message ;;
              match parsed_json with
              | JDict d =>
                  score <- score_of d ;;
                  Ok {| quality_issues := list_field (str "quality_issues") d;
                        good_practices := list_field (str "good_practices") d;
                        patterns := list_field (str "patterns") d;
                        anti_patterns := list_field (str "anti_patterns") d;
                        overall_score := score;
                        raw_response := message;
                        error := None |}
              | _ =>
                  Ok {| quality_issues := section_of quality_re message;
                        good_practices := section_of practices_re message;
                        patterns := []; anti_patterns := [];
                        overall_score := fallback_score message;
                        raw_response := message;
                        error := None |}
              end
          end
      end.
End Parse.
End Normalizer.

(** ** A character database for running the code

    Exact on ASCII, where the definitions above decide alone.  Beyond ASCII
    it knows the whitespace characters of Unicode and the three characters
    that match an ASCII letter without regard to case; it takes no
    character beyond ASCII for a decimal digit or for printable, which
    Unicode does for many.  It stands for Python's database on texts whose
    characters beyond ASCII are neither tested for digits nor for being
    printable. *)

Definition sample_isspace (c : char) : bool :=
  (c =? 133)%N || (c =? 160)%N || (c =? 5760)%N || between 8192 8202 c
  || (c =? 8232)%N || (c =? 8233)%N || (c =? 8239)%N || (c =? 8287)%N
  || (c =? 12288)%N.

Definition sample_caseless (p c : char) : bool :=
  ((p =? chr "k") && (c =? 8490))%N          (* KELVIN SIGN *)
  || ((p =? chr "s") && (c =? 383))%N        (* LATIN SMALL LETTER LONG S *)
  || ((p =? chr "i") && ((c =? 304) || (c =? 305)))%N.

Definition sample_db : unicode_db :=
  {| ucd_isspace := sample_isspace;
     ucd_isdecimal := fun _ => false;
     ucd_isprintable := fun _ => false;
     ucd_caseless := sample_caseless |}.

(** * The repository-dump parsers and the diff synthesizers *)

(** The file system, as far as the parsers look at it: the decoded text of
    the file at a path, or [None] when there is no such file.  Decoding is
    with [errors='replace'] and cannot fail. *)
Definition filesystem := pystr -> option pystr.

(** The 48 [=] characters of the delimiter. *)
Definition delimiter_bar : pystr := repeat_char (chr "=") 48.

(** The pattern of [src/analyzer.py], line 83, and of
    [src/repository_parser.py], line 36; token by token:
    [FILE:  <space>  ( .+? )  \n]. *)
Definition file_re : regex :=
  seq_of [ lits (str "FILE: "); Group (Rep false 1 not_newline); lit NL ].

(** ** [src/main.py] *)

Module Main.
Section Parse.
Variable U : unicode_db.

    (** Line 69. *)
Definition file_delimiter : pystr := [NL] ++ delimiter_bar ++ [NL].

    (** The body of the loop of lines 73-91, on the dictionary built so
        far. *)
Definition parse_section (repository_files : pydict pystr)
               (section : pystr) : pydict pystr :=
      if Normalizer.is_nil (strip U section) then repository_files
      else
        match split1 NL (strip U section) with
        | line0 :: rest =>
            if startswith (str "FILE:") line0 then
              let filename := strip U (skipn 5 line0) in
              let file_content :=
                match rest with
                | line1 :: _ => strip U line1
                | [] => []
                end in
              if Normalizer.is_nil filename then repository_files
              else dict_set filename file_content repository_files
            else repository_files
        | [] => repository_files
        end.

    (** Lines 62-98, on the text that was read. *)
Definition parse_repository_text (content : pystr) : pydict pystr :=
      if Normalizer.is_nil content then []
      else fold_left parse_section (split file_delimiter content) [].

    (** [parse_repository_file], lines 42-104. *)
Definition parse_repository_file (fs : filesystem) (file_path : pystr)
      : result (pydict pystr) :=
      match fs file_path with
      | None => Raise FileNotFoundError
      | Some content => Ok (parse_repository_text content)
      end.
End Parse.

  (** [line.rstrip('\r\n')] *)
Definition is_crlf (c : char) : bool := ((c =? CR) || (c =? NL))%N.

  (** The inner loop of lines 142-144. *)
Definition add_lines (diff_parts : list pystr) (file_lines : list pystr)
    : list pystr :=
    fold_left
      (fun parts line => parts ++ [str "+" ++ rstrip_by is_crlf line])
      file_lines diff_parts.

  (** The body of the loop of lines 125-147. *)
Definition add_file (diff_parts : list pystr) (entry : pystr * pystr)
    : list pystr :=
    let (file_path, content) := entry in
    let diff_parts := diff_parts ++ [str "--- a/" ++ file_path] in
    let diff_parts := diff_parts ++ [str "+++ b/" ++ file_path] in
    let file_lines := split_char NL content in
    let diff_parts :=
      diff_parts
      ++ [str "@@ -0,0 +1," ++ str_of_nat (List.length file_lines)
          ++ str " @@"] in
    let diff_parts := add_lines diff_parts file_lines in
    diff_parts ++ [[]].

  (** [generate_diff_content], lines 106-159. *)
Definition generate_diff_content (repository_files : pydict pystr)
    : pystr :=
    if Normalizer.is_nil repository_files then []
    else join [NL] (fold_left add_file repository_files []).
End Main.

(** ** [src/analyzer.py] *)

Module Legacy.
Section Parse.
Variable U : unicode_db.

    (** Line 65. *)
Definition file_delimiter : pystr := delimiter_bar.

    (** Lines 55-61: the text after the directory listing. *)
Definition skip_directory_structure (content : pystr) : pystr :=
      if startswith (str "Directory structure:") content then
        match find [NL; NL] content with
        | Some structure_end_idx => skipn (structure_end_idx + 2) content
        | None => content
        end
      else content.

    (** The loop of lines 67-69 over the indices [range(len(file_sections))];
        an index past the end of a list raises [IndexError]. *)
Fixpoint pair_sections (file_sections : list pystr) (indices : list nat)
             (filtered_file_sections : list pystr) : result (list pystr) :=
      match indices with
      | [] => Ok filtered_file_sections
      | i :: indices' =>
          match nth_error file_sections i with
          | None => Raise IndexError
          | Some section =>
              if contains (str "FILE: ") section then
                match nth_error file_sections (i + 1) with
                | None => Raise IndexError
                | Some next =>
                    pair_sections file_sections indices'
                      (filtered_file_sections ++ [section ++ next])
                end
              else pair_sections file_sections indices' filtered_file_sections
          end
      end.

    (** The body of the loop of lines 81-100. *)
Definition parse_section (repository_files : pydict pystr)
               (section : pystr) : pydict pystr :=
      match re_search file_re section with
      | Some file_match =>
          let filename := strip U (group1 file_match) in
          if Normalizer.is_nil filename then repository_files
          else
            let file_content := strip U (m_rest file_match) in
            dict_set filename file_content repository_files
      | None => repository_files
      end.

    (** Lines 49-103, on the text that was read. *)
Definition parse_repository_text (content : pystr)
      : result (pydict pystr) :=
      if Normalizer.is_nil content then Ok []
      else
        let content := skip_directory_structure content in
        let file_sections := split file_delimiter content in
        filtered_file_sections <-
          pair_sections file_sections (seq 0 (List.length file_sections)) [] ;;
        if Normalizer.is_nil filtered_file_sections then Ok []
        else Ok (fold_left parse_section filtered_file_sections []).

    (** [parse_repository_file], lines 29-106. *)
Definition parse_repository_file (fs : filesystem) (file_path : pystr)
      : result (pydict pystr) :=
      match fs file_path with
      | None => Raise FileNotFoundError
      | Some content => parse_repository_text content
      end.

Definition max_file_chars : nat := N.to_nat 10000.
Definition max_diff_chars : nat := N.to_nat 100000.
Definition truncation_marker : pystr :=
      [NL] ++ str "[... TRUNCATED DUE TO SIZE ...]".

    (** Line 130: the file is passed over. *)
Definition looks_binary (content : pystr) : bool :=
      has_char NUL content || negb (isprintable U content).

    (** Lines 135-137. *)
Definition limit_content (content : pystr) : pystr :=
      if max_file_chars <? List.length content
      then firstn max_file_chars content ++ truncation_marker
      else content.

    (** The inner loop of lines 145-146. *)
Definition add_lines (diff_content : pystr) (file_lines : list pystr)
      : pystr :=
      fold_left (fun acc line => acc ++ str "+" ++ line ++ [NL])
                file_lines diff_content.

    (** The body of the loop of lines 126-148. *)
Definition add_file (diff_content : pystr) (entry : pystr * pystr)
      : pystr :=
      let (file_path, content) := entry in
      if looks_binary content then diff_content
      else
        let content := limit_content content in
        let file_lines := split_char NL content in
        let diff_content :=
          diff_content ++ str "--- /dev/null" ++ [NL] ++ str "+++ b/"
          ++ file_path ++ [NL] in
        let diff_content :=
          diff_content ++ str "@@ -0,0 +1,"
          ++ str_of_nat (List.length file_lines) ++ str " @@" ++ [NL] in
        let diff_content := add_lines diff_content file_lines in
        diff_content ++ [NL].

    (** Lines 153-155. *)
Definition limit_diff (diff_content : pystr) : pystr :=
      if max_diff_chars <? List.length diff_content
      then firstn max_diff_chars diff_content ++ truncation_marker
      else diff_content.

    (** [generate_diff_content], lines 108-160. *)
Definition generate_diff_content (repository_files : pydict pystr)
      : pystr :=
      if Normalizer.is_nil repository_files then []
      else limit_diff (fold_left add_file repository_files []).
End Parse.
End Legacy.

(** ** [src/repository_parser.py] *)

Module RepositoryParser.
Section Parse.
Variable U : unicode_db.

    (** Line 26. *)
Definition file_delimiter : pystr := delimiter_bar.

    (** The body of the loop of lines 34-45. *)
Definition parse_section (repository_files : pydict pystr)
               (section : pystr) : pydict pystr :=
      match re_search file_re section with
      | Some file_match =>
          let filename := strip U (group1 file_match) in
          let file_content := strip U (m_rest file_match) in
          dict_set filename file_content repository_files
      | None => repository_files
      end.

    (** Lines 18-47, on the text that was read.  The directory listing is
        looked for (lines 19-23) and then not used. *)
Definition parse_repository_text (content : pystr) : pydict pystr :=
      let file_sections := split file_delimiter content in
      let file_sections := filter (contains (str "FILE: ")) file_sections in
      fold_left parse_section file_sections [].

    (** [parse_repository_file], lines 5-47; [open] raises
        [FileNotFoundError] when there is no such file. *)
Definition parse_repository_file (fs : filesystem) (file_path : pystr)
      : result (pydict pystr) :=
      match fs file_path with
      | None => Raise FileNotFoundError
      | Some content => Ok (parse_repository_text content)
      end.
End Parse.
End RepositoryParser.

(** * Library functions for running the code

    [json.loads] and [float] belong to the Python standard library and are
    parameters of the normalizer.  The definitions below follow their
    documented grammar closely enough to evaluate the normalizer on
    concrete replies: JSON per RFC 8259 with the literals [NaN],
    [Infinity] and [-Infinity] that Python adds, and decimal literals
    rounded to the nearest binary64 value, ties to even.  Two limits of
    CPython are left out: [json.loads] raises [ValueError] on an integer
    of more than 4300 digits and [RecursionError] on nesting deeper than
    the recursion limit, where the definitions below read the value.  No
    statement for every [json.loads] rests on them. *)

Module Sample.

Definition DQ : char := 34%N.          (* the double quote *)
Definition BACKSLASH : char := 92%N.

Fixpoint span (f : char -> bool) (s : pystr) : pystr * pystr :=
    match s with
    | c :: s' =>
        if f c then let (a, b) := span f s' in (c :: a, b) else ([], s)
    | [] => ([], [])
    end.

Definition digit_value (c : char) : Z := Z.of_N c - 48.

Definition int_of_digits (ds : pystr) : Z :=
    fold_left (fun acc c => 10 * acc + digit_value c)%Z ds 0%Z.

  (** The binary64 value nearest to [m * 10^e], for [0 <= m]. *)
Definition float_of_decimal (negative : bool) (m e : Z) : float :=
    let sign (z : Z) := if negative then (- z)%Z else z in
    if (m =? 0)%Z then (if negative then neg_zero else zero)
    else if (0 <=? e)%Z then
      SF2Prim (binary_normalize prec emax (sign (m * 10 ^ e)%Z) 0 false)
    else
      let d := (10 ^ (- e))%Z in
      let k := (Z.log2 d + 66)%Z in
      let q := (m * 2 ^ k / d)%Z in
      let sticky := if ((m * 2 ^ k) mod d =? 0)%Z then 0%Z else 1%Z in
      SF2Prim (binary_normalize prec emax (sign (2 * q + sticky)%Z)
                                (- (k + 1)) negative).

  (** [digits], [.digits] and [e±digits] of a decimal literal; the parts
      that are absent are empty. *)
Record decimal := {
    dec_int : pystr;
    dec_frac : option pystr;
    dec_exp : option (bool * pystr)
  }.

Definition is_e (c : char) : bool := ((c =? chr "e") || (c =? chr "E"))%N.

Definition scan_exponent (s : pystr) : option (bool * pystr) * pystr :=
    match s with
    | c :: s1 =>
        if is_e c then
          let (neg, s2) :=
            match s1 with
            | x :: s2 =>
                if (x =? chr "-")%N then (true, s2)
                else if (x =? chr "+")%N then (false, s2)
                else (false, s1)
            | [] => (false, s1)
            end in
          let (ds, s3) := span ascii_isdigit s2 in
          match ds with
          | [] => (None, s)
          | _ :: _ => (Some (neg, ds), s3)
          end
        else (None, s)
    | [] => (None, s)
    end.

Definition decimal_float (negative : bool) (d : decimal) : float :=
    let frac := match dec_frac d with Some f => f | None => [] end in
    let e := match dec_exp d with
             | Some (neg, ds) =>
                 if neg then (- int_of_digits ds)%Z else int_of_digits ds
             | None => 0%Z
             end in
    float_of_decimal negative (int_of_digits (dec_int d ++ frac))
                     (e - Z.of_nat (List.length frac)).

  (** A JSON number at the head of [s]: an [int] when it has neither
      fraction nor exponent, a [float] otherwise. *)
Definition scan_number (s : pystr) : option (json * pystr) :=
    let (negative, s0) :=
      match s with
      | c :: s' => if (c =? chr "-")%N then (true, s') else (false, s)
      | [] => (false, s)
      end in
    let (ip, s1) := span ascii_isdigit s0 in
    match ip with
    | [] => None
    | d0 :: ip' =>
        (* a leading zero stands alone *)
        let (ip, s1) :=
          if (d0 =? chr "0")%N then ([d0], ip' ++ s1) else (ip, s1) in
        let (frac, s2) :=
          match s1 with
          | c :: s1' =>
              if (c =? chr ".")%N then
                let (ds, s2) := span ascii_isdigit s1' in
                match ds with
                | [] => (None, s1)
                | _ :: _ => (Some ds, s2)
                end
              else (None, s1)
          | [] => (None, s1)
          end in
        let (ex, s3) := scan_exponent s2 in
        match frac, ex with
        | None, None =>
            let z := int_of_digits ip in
            Some (JInt (if negative then (- z)%Z else z), s3)
        | _, _ =>
            Some (JFloat (decimal_float negative
                            {| dec_int := ip; dec_frac := frac;
                               dec_exp := ex |}), s3)
        end
    end.

Definition hex_value (c : char) : option N :=
    if between 48 57 c then Some (c - 48)%N
    else if between 97 102 c then Some (c - 87)%N
    else if between 65 70 c then Some (c - 55)%N
    else None.

Definition scan_hex4 (s : pystr) : option (N * pystr) :=
    match s with
    | a :: b :: c :: d :: s' =>
        match hex_value a, hex_value b, hex_value c, hex_value d with
        | Some a, Some b, Some c, Some d =>
            Some (((a * 16 + b) * 16 + c) * 16 + d, s')%N
        | _, _, _, _ => None
        end
    | _ => None
    end.

Definition simple_escape (c : char) : option char :=
    if (c =? DQ)%N then Some DQ
    else if (c =? BACKSLASH)%N then Some BACKSLASH
    else if (c =? chr "/")%N then Some (chr "/")
    else if (c =? chr "b")%N then Some 8%N
    else if (c =? chr "f")%N then Some 12%N
    else if (c =? chr "n")%N then Some NL
    else if (c =? chr "r")%N then Some CR
    else if (c =? chr "t")%N then Some TAB
    else None.

  (** The body of a JSON string, after its opening quote. *)
Fixpoint scan_string (fuel : nat) (s : pystr) (acc : pystr)
    : option (pystr * pystr) :=
    match fuel with
    | O => None
    | S n =>
        match s with
        | [] => None
        | c :: s' =>
            if (c =? DQ)%N then Some (rev acc, s')
            else if (c <? 32)%N then None
            else if (c =? BACKSLASH)%N then
              match s' with
              | e :: s2 =>
                  if (e =? chr "u")%N then
                    match scan_hex4 s2 with
                    | Some (hi, s3) =>
                        let pair :=
                          if between 55296 56319 hi then
                            match s3 with
                            | b :: u :: s4 =>
                                if ((b =? BACKSLASH) && (u =? chr "u"))%N then
                                  match scan_hex4 s4 with
                                  | Some (lo, s5) =>
                                      if between 56320 57343 lo
                                      then Some (65536 + (hi - 55296) * 1024
                                                 + (lo - 56320), s5)%N
                                      else None
                                  | None => None
                                  end
                                else None
                            | _ => None
                            end
                          else None in
                        match pair with
                        | Some (cp, s5) => scan_string n s5 (cp :: acc)
                        | None => scan_string n s3 (hi :: acc)
                        end
                    | None => None
                    end
                  else
                    match simple_escape e with
                    | Some x => scan_string n s2 (x :: acc)
                    | None => None
                    end
              | [] => None
              end
            else scan_string n s' (c :: acc)
        end
    end.

Definition json_ws (c : char) : bool :=
    ((c =? 32) || (c =? TAB) || (c =? NL) || (c =? CR))%N.

Definition skip_ws (s : pystr) : pystr := dropwhile json_ws s.

Definition after (p s : pystr) : option pystr :=
    if startswith p s then Some (skipn (List.length p) s) else None.

  (** A JSON value at the head of [s] and the text after it. *)
Fixpoint scan_value (fuel : nat) (s : pystr) : option (json * pystr) :=
    match fuel with
    | O => None
    | S n =>
        match s with
        | [] => None
        | c :: s' =>
            if (c =? DQ)%N then
              match scan_string (S (List.length s')) s' [] with
              | Some (t, s1) => Some (JStr t, s1)
              | None => None
              end
            else if (c =? chr "{")%N then
              match skip_ws s' with
              | x :: s1 =>
                  if (x =? chr "}")%N then Some (JDict [], s1)
                  else
                    (fix members (m : nat) (s : pystr) (acc : pydict json)
                       : option (json * pystr) :=
                       match m with
                       | O => None
                       | S m' =>
                           match s with
                           | q :: s2 =>
                               if (q =? DQ)%N then
                                 match scan_string (S (List.length s2)) s2 [] with
                                 | Some (key, s3) =>
                                     match skip_ws s3 with
                                     | colon :: s4 =>
                                         if (colon =? chr ":")%N then
                                           match scan_value n (skip_ws s4) with
                                           | Some (v, s5) =>
                                               let acc := dict_set key v acc in
                                               match skip_ws s5 with
                                               | y :: s6 =>
                                                   if (y =? chr "}")%N
                                                   then Some (JDict acc, s6)
                                                   else if (y =? chr ",")%N
                                                   then members m' (skip_ws s6) acc
                                                   else None
                                               | [] => None
                                               end
                                           | None => None
                                           end
                                         else None
                                     | [] => None
                                     end
                                 | None => None
                                 end
                               else None
                           | [] => None
                           end
                       end) n (x :: s1) []
              | [] => None
              end
            else if (c =? chr "[")%N then
              match skip_ws s' with
              | x :: s1 =>
                  if (x =? chr "]")%N then Some (JList [], s1)
                  else
                    (fix elements (m : nat) (s : pystr) (acc : list json)
                       : option (json * pystr) :=
                       match m with
                       | O => None
                       | S m' =>
                           match scan_value n s with
                           | Some (v, s2) =>
                               match skip_ws s2 with
                               | y :: s3 =>
                                   if (y =? chr "]")%N
                                   then Some (JList (rev (v :: acc)), s3)
                                   else if (y =? chr ",")%N
                                   then elements m' (skip_ws s3) (v :: acc)
                                   else None
                               | [] => None
                               end
                           | None => None
                           end
                       end) n (x :: s1) []
              | [] => None
              end
            else
              match after (str "null") s, after (str "true") s,
                    after (str "false") s with
              | Some s1, _, _ => Some (JNull, s1)
              | _, Some s1, _ => Some (JBool true, s1)
              | _, _, Some s1 => Some (JBool false, s1)
              | None, None, None =>
                  match after (str "NaN") s, after (str "Infinity") s,
                        after (str "-Infinity") s with
                  | Some s1, _, _ => Some (JFloat nan, s1)
                  | _, Some s1, _ => Some (JFloat infinity, s1)
                  | _, _, Some s1 => Some (JFloat neg_infinity, s1)
                  | None, None, None => scan_number s
                  end
              end
        end
    end.

  (** [json.loads]: one value, with whitespace around it and nothing
      else. *)
Definition json_loads (s : pystr) : result json :=
    match scan_value (S (List.length s)) (skip_ws s) with
    | Some (v, s') =>
        match skip_ws s' with
        | [] => Ok v
        | _ :: _ => Raise JSONDecodeError
        end
    | None => Raise JSONDecodeError
    end.

  (** [float(s)] for a decimal literal with an optional sign; [None] is a
      [ValueError].  Python also reads [inf], [nan] and digits grouped by
      underscores, which the examples do not use. *)
Definition float_of_str (U : unicode_db) (s : pystr) : option float :=
    let s := strip U s in
    let (negative, s0) :=
      match s with
      | c :: s' =>
          if (c =? chr "-")%N then (true, s')
          else if (c =? chr "+")%N then (false, s')
          else (false, s)
      | [] => (false, s)
      end in
    let (ip, s1) := span ascii_isdigit s0 in
    let (frac, s2) :=
      match s1 with
      | c :: s1' =>
          if (c =? chr ".")%N
          then let (ds, s2) := span ascii_isdigit s1' in (Some ds, s2)
          else (None, s1)
      | [] => (None, s1)
      end in
    let fd := match frac with Some f => f | None => [] end in
    match ip ++ fd with
    | [] => None
    | _ :: _ =>
        let (ex, s3) := scan_exponent s2 in
        match s3 with
        | [] => Some (decimal_float negative
                        {| dec_int := ip; dec_frac := frac; dec_exp := ex |})
        | _ :: _ => None
        end
    end.

  (** The normalizer with these library functions. *)
Definition normalize (response : Normalizer.response)
    : result Normalizer.analysis :=
    Normalizer.parse_analysis_response sample_db json_loads
      (float_of_str sample_db) response.

End Sample.

(** * The statements of the specification, and inputs to run the code on *)

(** [overall_score] within the interval from 0 to 10. *)
Definition score_in_range (s : float) : bool :=
  ((0 <=? s) && (s <=? 10))%float.

(** A JSON field coerced to a list: empty when the key is absent or its
    value is not a list. *)
Definition coerce_list (field : option json) : list json :=
  match field with
  | Some (JList l) => l
  | _ => []
  end.

(** A JSON field coerced to a float: null when the key is absent, and when
    [float] does not convert its value. *)
Definition coerce_score (float_of_str : pystr -> option float)
           (field : option json) : option float :=
  match field with
  | None => None
  | Some v =>
      match Normalizer.py_float float_of_str v with
      | Ok f => Some f
      | Raise _ => None
      end
  end.

(** The alternatives whose text is [text]: a dictionary with the text
    under [message] and [text], a dictionary with the text under [text],
    an object with the text in its attribute [text], and any other
    alternative, of which [str] gives [text]. *)
Definition carries (text : pystr) (first_alt : Normalizer.alternative)
  : Prop :=
  In first_alt
     [ Normalizer.AltMessageText text; Normalizer.AltDictText text;
       Normalizer.AltObjText text;
       Normalizer.AltDictOther text; Normalizer.AltOther text ].

(** The reply that carries one alternative with the given text. *)
Definition reply_of_text (text : pystr) : Normalizer.response :=
  {| Normalizer.resp_error := None;
     Normalizer.resp_alternatives := [Normalizer.AltObjText text] |}.

Definition quoted (s : pystr) : pystr := [Sample.DQ] ++ s ++ [Sample.DQ].

(** A JSON object with the one key [overall_score] and the given value
    text. *)
Definition score_object (value : pystr) : pystr :=
  str "{" ++ quoted (str "overall_score") ++ str ": " ++ value ++ str "}".

(** A JSON integer of 401 digits. *)
Definition huge_int : pystr := str "1" ++ repeat_char (chr "0") 400.

(** The reply of scenario 2 of the specification: a fenced JSON object. *)
Definition fenced_reply_text : pystr :=
  str "```json" ++ [NL]
  ++ str "{" ++ quoted (str "quality_issues") ++ str ":["
  ++ quoted (str "X") ++ str "],"
  ++ quoted (str "good_practices") ++ str ":[],"
  ++ quoted (str "patterns") ++ str ":[],"
  ++ quoted (str "anti_patterns") ++ str ":[],"
  ++ quoted (str "overall_score") ++ str ":7.5}" ++ [NL]
  ++ str "```".

(** Prose with neither JSON nor numbered sections. *)
Definition plain_prose : pystr :=
  str "The change looks fine to me" ++ [NL] ++ str "Ship it".

(** A section of prose in the numbered layout: its bulleted lines. *)
Definition bullet_lines (items : list pystr) : pystr :=
  join [NL] (map (fun item => str "- " ++ item) items).

(** The numbered layout, from the items of its two lists and the text of
    its score. *)
Definition render_prose (issues practices : list pystr) (score : pystr)
  : pystr :=
  str "1. Code quality issues:" ++ [NL] ++ bullet_lines issues ++ [NL]
  ++ str "2. Good practices:" ++ [NL] ++ bullet_lines practices ++ [NL]
  ++ str "3. Overall quality score: " ++ score ++ str "/10".

(** The dump of scenario 1 of the specification. *)
Definition two_files : pydict pystr :=
  [ (str "a.py", str "print(1)"); (str "b.py", str "print(2)") ].

(** A file whose text ends with a newline, as source files do. *)
Definition newline_terminated : pydict pystr :=
  [ (str "a.py", str "x" ++ [NL]) ].

(** A dump text in which nothing follows the only [FILE:] section. *)
Definition unterminated_dump : pystr :=
  str "FILE: a.py" ++ [NL] ++ str "print(1)" ++ [NL].

Definition dump_path : pystr := str "repo.txt".

(** A file system with one file. *)
Definition one_file (path content : pystr) : filesystem :=
  fun p => if str_eqb p path then Some content else None.

(** Modelled from the spec: the serializer of the canonical dump format,
    which the repository does not contain.  Each section begins with
    [FILE: <path>] followed by the content, and the sections are separated
    by a line of 48 [=] characters. *)
Definition serialize_section (entry : pystr * pystr) : pystr :=
  str "FILE: " ++ fst entry ++ [NL] ++ snd entry.

Definition section_separator : pystr := [NL] ++ delimiter_bar ++ [NL].

Definition serialize (dump : pydict pystr) : pystr :=
  join section_separator (map serialize_section dump).

(** A path or content that [strip] leaves as it is. *)
Definition trimmed (U : unicode_db) (s : pystr) : bool :=
  str_eqb (strip U s) s.

(** An entry that the canonical format can carry: the path is not empty
    and on one line, neither path nor content has whitespace around it or
    48 [=] characters in a row. *)
Definition plain_entry (U : unicode_db) (entry : pystr * pystr) : bool :=
  let (path, content) := entry in
  negb (Normalizer.is_nil path) && trimmed U path
  && negb (has_char NL path) && negb (contains delimiter_bar path)
  && trimmed U content && negb (contains delimiter_bar content).

(** No path occurs twice. *)
Fixpoint unique_paths (dump : pydict pystr) : bool :=
  match dump with
  | [] => true
  | (path, _) :: dump' =>
      negb (existsb (str_eqb path) (keys dump')) && unique_paths dump'
  end.

(** The hunk header of a file of [n] lines. *)
Definition hunk_header (n : nat) : pystr :=
  str "@@ -0,0 +1," ++ str_of_nat n ++ str " @@".

(** The number of newline characters of a text. *)
Definition newline_count (content : pystr) : nat :=
  count_occ N.eq_dec content NL.

(** The characters that end a line: carriage return (13) and line feed
    (10). *)
Definition is_line_end (c : char) : bool := ((c =? 13) || (c =? 10))%N.

(** A line without the carriage returns and line feeds at its end. *)
Definition without_line_end (line : pystr) : pystr :=
  rstrip_by is_line_end line.

(** The lines that the specification gives one file in the diff blob. *)
Definition file_block (entry : pystr * pystr) : list pystr :=
  let (path, content) := entry in
  [ str "--- a/" ++ path; str "+++ b/" ++ path;
    hunk_header (S (newline_count content)) ]
  ++ map (fun line => str "+" ++ without_line_end line)
         (split_char NL content)
  ++ [[]].

(** A dump whose first file has lines that end with a carriage return. *)
Definition crlf_files : pydict pystr :=
  [ (str "a.py", str "x = 1" ++ [13; 10]%N ++ str "y = 2" ++ [13]%N);
    (str "b.py", str "print(2)") ].

(** The text that [src/analyzer.py] gives one file, from the content it
    formats. *)
Definition legacy_block (path content : pystr) : pystr :=
  str "--- /dev/null" ++ [NL] ++ str "+++ b/" ++ path ++ [NL]
  ++ hunk_header (List.length (split_char NL content)) ++ [NL]
  ++ List.concat (map (fun line => str "+" ++ line ++ [NL])
                 (split_char NL content))
  ++ [NL].

(** The files that the binary-skipping synthesizer lets through. *)
Definition emitted (U : unicode_db) (entry : pystr * pystr) : bool :=
  negb (Legacy.looks_binary U (snd entry)).

(** One printable line of 10,001 characters. *)
Definition long_line : pystr := repeat_char (chr "a") (N.to_nat 10001).

(** Eleven files of one long line each. *)
Definition many_long_files : pydict pystr :=
  map (fun n => (str "f" ++ str_of_nat n, long_line)) (seq 0 11).

(** Whitespace only. *)
Definition blank (U : unicode_db) (ws : pystr) : Prop :=
  forallb (isspace U) ws = true.

(** The texts that are exactly the JSON object [body]: bare, inside a
    [```json] fence, or after an opening fence alone, with whitespace
    allowed around the object and around the fence. *)
Inductive wraps (U : unicode_db) (body : pystr) : pystr -> Prop :=
| wraps_bare (ws1 ws2 : pystr) :
    blank U ws1 -> blank U ws2 ->
    wraps U body (ws1 ++ body ++ ws2)
| wraps_fenced (ws1 ws2 ws3 ws4 : pystr) :
    blank U ws1 -> blank U ws2 -> blank U ws3 -> blank U ws4 ->
    wraps U body
      (ws1 ++ Normalizer.fence_open ++ ws2 ++ body ++ ws3
       ++ Normalizer.fence_close ++ ws4)
| wraps_opened (ws1 ws2 ws3 : pystr) :
    blank U ws1 -> blank U ws2 -> blank U ws3 ->
    wraps U body (ws1 ++ Normalizer.fence_open ++ ws2 ++ body ++ ws3).

(** The text of a JSON object: an opening brace, a closing brace, and
    [inner] between them. *)
Definition braces (inner : pystr) : pystr :=
  chr "{" :: inner ++ [chr "}"].

(** The result that the JSON tiers give for the object [d]. *)
Definition json_result (float_of_str : pystr -> option float)
           (d : pydict json) (message : pystr) : Normalizer.analysis :=
  {| Normalizer.quality_issues := coerce_list (dict_get (str "quality_issues") d);
     Normalizer.good_practices := coerce_list (dict_get (str "good_practices") d);
     Normalizer.patterns := coerce_list (dict_get (str "patterns") d);
     Normalizer.anti_patterns := coerce_list (dict_get (str "anti_patterns") d);
     Normalizer.overall_score :=
       coerce_score float_of_str (dict_get (str "overall_score") d);
     Normalizer.raw_response := message;
     Normalizer.error := None |}.

(** The sections that the pairing loop of [src/analyzer.py] builds when it
    runs to its end: each section with the marker, joined to the one after
    it. *)
Fixpoint paired (sections : list pystr) : list pystr :=
  match sections with
  | s :: (next :: _) as rest =>
      if contains (str "FILE: ") s then (s ++ next) :: paired rest
      else paired rest
  | _ => []
  end.

(** The character before the cursor once the text [t] has been read. *)
Definition prev_after (prev : option char) (t : pystr) : option char :=
  match rev t with
  | [] => prev
  | c :: _ => Some c
  end.

(** [needs c r]: every match of [r] reads the character [c]. *)
Inductive needs (c : char) : regex -> Prop :=
| needs_chr (p : char -> bool) :
    (forall x, p x = true -> x = c) -> needs c (Chr p)
| needs_seq_l (r1 r2 : regex) : needs c r1 -> needs c (Seq r1 r2)
| needs_seq_r (r1 r2 : regex) : needs c r2 -> needs c (Seq r1 r2)
| needs_alt (r1 r2 : regex) : needs c r1 -> needs c r2 -> needs c (Alt r1 r2)
| needs_group (r : regex) : needs c r -> needs c (Group r).

(** The sections that [src/repository_parser.py] cuts a serialized dump
    into: the newline before and after a bar stays with the text next to
    it. *)
Fixpoint pieces_from (first : bool) (dump : pydict pystr) : list pystr :=
  match dump with
  | [] => []
  | entry :: dump' =>
      ((if first then [] else [NL]) ++ serialize_section entry
       ++ (if Normalizer.is_nil dump' then [] else [NL]))
      :: pieces_from false dump'
  end.

(** The dictionary after the entries have been stored one by one. *)
Definition store_all (dump files : pydict pystr) : pydict pystr :=
  fold_left (fun files entry => dict_set (fst entry) (snd entry) files)
            dump files.

(** [t] occurs in [s] as a run of consecutive characters. *)
Definition substring (t s : pystr) : Prop :=
  exists before after, s = before ++ t ++ after.

(** The text holds no JSON object that [json.loads] reads: on every run of
    its characters from an opening brace to a closing brace, [json.loads]
    raises [JSONDecodeError]. *)
Definition no_json_object (json_loads : pystr -> result json)
           (message : pystr) : Prop :=
  forall t, substring t message ->
            startswith (str "{") t = true -> endswith (str "}") t = true ->
            json_loads t = Raise JSONDecodeError.

(** Patterns without a group. *)
Fixpoint groupless (r : regex) : bool :=
  match r with
  | Eps | Chr _ | Rep _ _ _ | Bol | Eos => true
  | Seq r1 r2 | Alt r1 r2 => groupless r1 && groupless r2
  | Look r1 => groupless r1
  | Group _ => false
  end.

(** The result for a reply in which nothing was found. *)
Definition empty_result (message : pystr) : Normalizer.analysis :=
  {| Normalizer.quality_issues := [];
     Normalizer.good_practices := [];
     Normalizer.patterns := [];
     Normalizer.anti_patterns := [];
     Normalizer.overall_score := None;
     Normalizer.raw_response := message;
     Normalizer.error := None |}.

(** The result of the regex tier. *)
Definition fallback_result (U : unicode_db)
           (float_of_str : pystr -> option float) (message : pystr)
  : Normalizer.analysis :=
  {| Normalizer.quality_issues :=
       Normalizer.section_of U (Normalizer.quality_re U) message;
     Normalizer.good_practices :=
       Normalizer.section_of U (Normalizer.practices_re U) message;
     Normalizer.patterns := [];
     Normalizer.anti_patterns := [];
     Normalizer.overall_score :=
       Normalizer.fallback_score U float_of_str message;
     Normalizer.raw_response := message;
     Normalizer.error := None |}.

(** The two section patterns of the regex tier have one shape: the number
    and title of the section, and the number of the section after it. *)
Definition section_re (U : unicode_db) (num title next : pystr) : regex :=
  seq_of [ lits_i U (num ++ [chr "."]); ws_star U;
           lits_i U title; opt (lit_i U (chr ":"));
           ws_star U; lit_i U NL;
           Group (Rep false 0 any_char);
           Look (Alt (seq_of [lit_i U NL; ws_star U;
                              lits_i U (next ++ [chr "."])])
                     Eos) ].

(** ** The line layout of a prose reply

    The layout that the regex tier looks for: the three numbered headers,
    and under each of the first two a list of items, one to a line, each
    after its mark and one space. *)

(** The mark of an item line: a bullet character, or a number, which is
    followed by a dot. *)
Inductive mark :=
| Bullet (b : char)
| Number (digits : pystr).

Definition mark_text (k : mark) : pystr :=
  match k with
  | Bullet b => [b]
  | Number digits => digits ++ [chr "."]
  end.

Definition is_bullet_mark (k : mark) : bool :=
  match k with Bullet _ => true | Number _ => false end.

(** The three bullets: the hyphen, the asterisk and U+2022. *)
Definition bullet_char (b : char) : bool :=
  ((b =? chr "-") || (b =? chr "*") || (b =? 8226))%N.

Definition item_line (line : mark * pystr) : pystr :=
  mark_text (fst line) ++ chr " " :: snd line.

Definition item_lines (lines : list (mark * pystr)) : pystr :=
  join [NL] (map item_line lines).

(** The colon after the title of a header, which can be left out. *)
Definition colon_text (colon : bool) : pystr :=
  if colon then [chr ":"] else [].

(** The reply, from the lines of its two lists and the text of its
    score; the titles are followed by a colon or not. *)
Definition render_sections (colon : bool)
           (issues practices : list (mark * pystr)) (score : pystr)
  : pystr :=
  str "1. Code quality issues" ++ colon_text colon ++ [NL]
  ++ item_lines issues ++ [NL]
  ++ str "2. Good practices" ++ colon_text colon ++ [NL]
  ++ item_lines practices ++ [NL]
  ++ str "3. Overall quality score" ++ colon_text colon ++ str " "
  ++ score ++ str "/10".

(** The lines of a list that belong to its section: those before the
    first line whose number is the digit [next], the number of the section
    that follows. *)
Fixpoint section_lines (next : char) (lines : list (mark * pystr))
  : list (mark * pystr) :=
  match lines with
  | [] => []
  | (Number digits, item) :: lines' =>
      if str_eqb digits [next] then []
      else (Number digits, item) :: section_lines next lines'
  | line :: lines' => line :: section_lines next lines'
  end.

(** The items that are read of the lines of a section: those after a
    bullet when the section has a bulleted line, and all of them, which
    are then after numbers, when it has none. *)
Definition read_items (lines : list (mark * pystr)) : list pystr :=
  let bulleted := filter (fun line => is_bullet_mark (fst line)) lines in
  map snd (if Normalizer.is_nil bulleted then lines else bulleted).

(** [calm U d t0 item]: wherever the item has the digit [d] and a dot,
    the next character is still in the item, is not white space and does
    not match the letter [t0] of a pattern compiled with
    [re.IGNORECASE].  With [d] the number of a section and [t0] the first
    letter of its title, the header of that section cannot be read at
    such a place; [2.5] and [3.11] are calm. *)
Fixpoint calm (U : unicode_db) (d t0 : char) (item : pystr) : bool :=
  match item with
  | x :: ((y :: z) as item') =>
      (if ((x =? d) && (y =? chr "."))%N
       then match z with
            | c :: _ => negb (isspace U c) && negb (caseless U t0 c)
            | [] => false
            end
       else true)
      && calm U d t0 item'
  | _ => true
  end.

(** An item that the regex tier can read back as it is: not empty, on
    one line, without white space around it, and calm for the headers of
    the second and of the third section. *)
Definition readable_item (U : unicode_db) (item : pystr) : bool :=
  negb (Normalizer.is_nil item) && trimmed U item
  && negb (has_char NL item)
  && calm U (chr "2") (chr "G") item && calm U (chr "3") (chr "O") item.

(** The first character of the item matches neither [G] nor [O], the
    first letters of the titles of the later sections. *)
Definition untitled (U : unicode_db) (item : pystr) : bool :=
  match item with
  | c :: _ => negb (caseless U (chr "G") c) && negb (caseless U (chr "O") c)
  | [] => true
  end.

(** A line of the layout: the mark is one of the three bullets, which is
    not white space, or a number written with the digits 0 to 9; the item
    is readable; and after a number it is untitled. *)
Definition readable_line (U : unicode_db) (line : mark * pystr) : bool :=
  match fst line with
  | Bullet b => bullet_char b && negb (isspace U b)
  | Number digits =>
      negb (Normalizer.is_nil digits) && forallb ascii_isdigit digits
      && untitled U (snd line)
  end
  && readable_item U (snd line).

(** A reply with numbered items: two issues and three practices. *)
Definition numbered_items_prose : pystr :=
  render_sections true
    [ (Number (str "1"), str "bad naming in utils.py");
      (Number (str "2"), str "long function") ]
    [ (Number (str "1"), str "uses a factory");
      (Number (str "2"), str "has tests");
      (Number (str "3"), str "small commits") ]
    (str "7.5").

(** A reply with an asterisk, a U+2022 and a hyphen for bullets, an item
    that holds a decimal number, and no colon after the titles. *)
Definition bulleted_prose : pystr :=
  render_sections false
    [ (Bullet (chr "*"), str "bad naming in utils.py");
      (Bullet 8226%N, str "2.5 times slower") ]
    [ (Bullet (chr "-"), str "uses a factory") ]
    (str "7.5").

(** The text of a score: ASCII digits, and a fraction when [frac] is not
    empty. *)
Definition decimal_text (whole frac : pystr) : pystr :=
  whole ++ (if Normalizer.is_nil frac then [] else chr "." :: frac).

(** The result for the numbered layout. *)
Definition prose_result (float_of_str : pystr -> option float)
           (issues practices : list pystr) (score message : pystr)
  : Normalizer.analysis :=
  {| Normalizer.quality_issues := map JStr issues;
     Normalizer.good_practices := map JStr practices;
     Normalizer.patterns := [];
     Normalizer.anti_patterns := [];
     Normalizer.overall_score := float_of_str score;
     Normalizer.raw_response := message;
     Normalizer.error := None |}.

(** The text [t] opens with a character that is not white space, and not
    with the text [w]. *)
Definition opens_clear (U : unicode_db) (w t : pystr) : Prop :=
  exists c rest, t = c :: rest /\ isspace U c = false
                 /\ startswith w t = false.

(** Every line of [body] opens clear of [w]. *)
Definition lines_clear (U : unicode_db) (w body : pystr) : Prop :=
  opens_clear U w body
  /\ forall a b, body = a ++ NL :: b -> opens_clear U w b.

(** No match of the pattern [r] begins in [line], whatever comes before
    the line, when the line is the last of the text or a newline follows
    it. *)
Definition silent (r : regex) (line : pystr) : Prop :=
  forall a b prev tail,
    line = a ++ b -> b <> [] ->
    match tail with [] => True | x :: _ => x = NL end ->
    match_here r prev (b ++ tail) = None.

(** The two marks that open an item: a bullet, which is a hyphen, an
    asterisk or U+2022, or a number and a dot. *)
Definition item_mark (U : unicode_db) (mark : pystr) : Prop :=
  (exists b, mark = [b] /\ (b = chr "-" \/ b = chr "*" \/ b = 8226%N))
  \/ (exists number, mark = number ++ [chr "."] /\ number <> []
                     /\ forallb (isdecimal U) number = true).

(** [marked_item U text item]: in [text], at the start of a line and after
    white space if any, there is a mark, then white space, then [item],
    which stays within one line. *)
Definition marked_item (U : unicode_db) (text item : pystr) : Prop :=
  exists before indent mark gap after,
    text = before ++ indent ++ mark ++ gap ++ item ++ after
    /\ at_line_start (prev_after None before) = true
    /\ forallb (isspace U) indent = true
    /\ item_mark U mark
    /\ forallb (isspace U) gap = true /\ gap <> []
    /\ has_char NL item = false.

(** [item_of_section U re message v]: the pattern [re] finds a section in
    [message], and [v] is the trimmed text of a marked item of that
    section, which is not empty. *)
Definition item_of_section (U : unicode_db) (re : regex)
           (message : pystr) (v : json) : Prop :=
  exists m item,
    re_search re message = Some m
    /\ v = JStr (strip U item) /\ strip U item <> []
    /\ marked_item U (strip U (group1 m)) item.


(** * The callers of the normalizer and of the parsers

    [MergeRequestAnalyzer] of [src/app/modules/analyzer.py] and of
    [src/analyzer.py], and [format_analysis_result] of
    [src/app/gradio_ui.py].  The model behind the SDK is a parameter: what
    [model.run] yields or raises for a prompt. *)

(** ** Text with characters beyond ASCII

    A literal of the source, decoded from the UTF-8 bytes it is written
    in. *)

Fixpoint utf8 (bytes : list N) : pystr :=
  match bytes with
  | [] => []
  | b0 :: rest =>
      if (b0 <? 192)%N then b0 :: utf8 rest
      else
        match rest with
        | [] => [b0]
        | b1 :: rest1 =>
            if (b0 <? 224)%N then
              ((b0 - 192) * 64 + (b1 - 128))%N :: utf8 rest1
            else
              match rest1 with
              | [] => [b0; b1]
              | b2 :: rest2 =>
                  if (b0 <? 240)%N then
                    ((b0 - 224) * 4096 + (b1 - 128) * 64 + (b2 - 128))%N
                    :: utf8 rest2
                  else
                    match rest2 with
                    | [] => [b0; b1; b2]
                    | b3 :: rest3 =>
                        ((b0 - 240) * 262144 + (b1 - 128) * 4096
                         + (b2 - 128) * 64 + (b3 - 128))%N
                        :: utf8 rest3
                    end
              end
        end
  end.

Definition text (s : string) : pystr := utf8 (str s).
Arguments text s%_string.

(** ** Python values in conditions and in f-strings *)

(** [bool(v)] *)
Definition truthy (v : json) : bool :=
  match v with
  | JNull => false
  | JBool b => b
  | JInt z => negb (z =? 0)%Z
  | JFloat f => negb (f =? 0)%float
  | JStr s => negb (Normalizer.is_nil s)
  | JList l => negb (Normalizer.is_nil l)
  | JDict d => negb (Normalizer.is_nil d)
  end.

(** [str(z)] for an [int]. *)
Definition str_of_int (z : Z) : pystr :=
  if (z <? 0)%Z then str "-" ++ str_of_nat (Z.abs_nat z)
  else str_of_nat (Z.abs_nat z).

(** [d.get(key)] *)
Definition get_or_none (key : pystr) (d : pydict json) : json :=
  match dict_get key d with
  | Some v => v
  | None => JNull
  end.

(** [d.get(key, default)] *)
Definition get_or (key : pystr) (default : json) (d : pydict json) : json :=
  match dict_get key d with
  | Some v => v
  | None => default
  end.

(** [s.replace(old, new)] for a non-empty [old]. *)
Definition replace (old new s : pystr) : pystr := join new (split old s).

Section Format.
(** [repr] of a [float], and of a [list] or a [dict]. *)
Variable repr_float : float -> pystr.
Variable repr_container : json -> pystr.

(** [str(v)], which an f-string puts in the place of [{v}]. *)
Definition py_str (v : json) : pystr :=
  match v with
  | JNull => str "None"
  | JBool true => str "True"
  | JBool false => str "False"
  | JInt z => str_of_int z
  | JFloat f => repr_float f
  | JStr s => s
  | JList _ | JDict _ => repr_container v
  end.
End Format.

(** The dictionaries that the analyzer returns, key by key in the order of
    insertion. *)
Definition score_value (score : option float) : json :=
  match score with
  | Some f => JFloat f
  | None => JNull
  end.

Definition analysis_dict (a : Normalizer.analysis) : pydict json :=
  [ (str "quality_issues", JList (Normalizer.quality_issues a));
    (str "good_practices", JList (Normalizer.good_practices a));
    (str "patterns", JList (Normalizer.patterns a));
    (str "anti_patterns", JList (Normalizer.anti_patterns a));
    (str "overall_score", score_value (Normalizer.overall_score a));
    (str "raw_response", JStr (Normalizer.raw_response a)) ]
  ++ match Normalizer.error a with
     | Some e => [ (str "error", JStr e) ]
     | None => []
     end.

(** [{"error": e}] *)
Definition error_dict (e : pystr) : pydict json := [ (str "error", JStr e) ].

(** The result without findings that carries [message] as its error and
    as its raw response. *)
Definition empty_analysis (message : pystr) : pydict json :=
  analysis_dict
    {| Normalizer.quality_issues := []; Normalizer.good_practices := [];
       Normalizer.patterns := []; Normalizer.anti_patterns := [];
       Normalizer.overall_score := None;
       Normalizer.raw_response := message;
       Normalizer.error := Some message |}.

(** What the SDK does with a prompt: the alternatives that iterating the
    result of [model.run] yields, or the exception raised on the way, by
    the [except] clause that catches it, with its [str(e)]. *)
Inductive run_outcome (A : Type) :=
| Alternatives (alternatives : list A)
| ConnectionError (e : pystr)
| TimeoutError (e : pystr)
| OtherException (e : pystr).
Arguments Alternatives {A} alternatives.
Arguments ConnectionError {A} e.
Arguments TimeoutError {A} e.
Arguments OtherException {A} e.

(** [API_KEY], [FOLDER_ID] and [MODEL_NAME], as [os.getenv] returns
    them. *)
Record credentials := {
  api_key : option pystr;
  folder_id : option pystr;
  model_name : option pystr
}.

(** [not v] for the value of an environment variable. *)
Definition unset (v : option pystr) : bool :=
  match v with
  | None | Some [] => true
  | Some (_ :: _) => false
  end.

Definition error_response (e : pystr) : Normalizer.response :=
  {| Normalizer.resp_error := Some e; Normalizer.resp_alternatives := [] |}.

(** The truncation of the prompt, the same in both analyzers
    ([src/app/modules/analyzer.py], lines 59-62; [src/analyzer.py], lines
    192-194). *)
Definition max_prompt_length : nat := N.to_nat 32000.

Definition truncate_prompt (prompt : pystr) : pystr :=
  if max_prompt_length <? List.length prompt
  then firstn max_prompt_length prompt
  else prompt.

(** ** [src/app/modules/analyzer.py] *)

Module Analyzer.

(** The lines of the f-string of [_build_analysis_prompt], lines 96-168,
    before the diff. *)
Definition prompt_lines : list pystr :=
  [ text "You are a senior Python code reviewer. Analyze this code diff and respond with a single JSON object.";
    [];
    text "1. Code quality issues:";
    text "   • List each issue, explain why it’s problematic, and reference file:line ranges.";
    text "   • Classify severity:";
    text "     – Critical defect (crash, security, data loss): –2.0…–3.0";
    text "     – Serious anti-pattern (God Class, Spaghetti Code, Shotgun Surgery): –1.0";
    text "     – Medium anti-pattern (Duplicated Code, Primitive Obsession, Magic Numbers, Long Parameter List): –0.5";
    text "     – Minor code smell (PEP8 violations, long lines, poor naming): –0.1";
    [];
    text "2. Good practices & design patterns:";
    text "   • Identify patterns (Factory, Strategy, Observer, Singleton, Context Manager, etc.).";
    text "   • Explain how and where each is applied.";
    [];
    text "3. Overall quality score (0–10) with justification:";
    text "   • Start from 10.0  ";
    text "   • Apply penalties Σ penalty_j and bonuses Σ bonus_i:";
    text "       – Penalties per severity above.";
    text "       + Bonuses:";
    text "         + Design patterns used: +0.3 each (max +1.0)";
    text "         + Refactored inherited anti-pattern: +1.0";
    text "         + Added or improved tests: +0.5";
    text "         + Docstrings & type hints: +0.2";
    text "   • Clamp raw_score = min(10.0, max(0.0, 10.0 + Σ bonus_i – Σ penalty_j))";
    text "   • Apply complexity multiplier K:";
    text "       – Low (≤50 lines & ≤2 files, trivial): K = 0.8";
    text "       – Medium (50–200 lines or mixed complexity): K = 1.0";
    text "       – High (≥200 lines & ≥10 files or deep logic/security): K = 1.2";
    text "   • Compute overall_score = round(raw_score_clamped × K, 1)";
    [];
    text "4. Anti-patterns:";
    text "   • List each anti-pattern name.";
    text "   • Explain why it’s bad.";
    text "   • Indicate status: “new” (introduced), “existing” (inherited), or “fixed” (removed).";
    [];
    text "5. Review comments:";
    text "   • Summarize reviewer feedback and note which comments were addressed or remain unresolved.";
    [];
    text "6. Few-shot example:";
    [];
    text "Findings                      | Category                    | Weight | MR Complexity | Δ";
    text "------------------------------|-----------------------------|--------|---------------|-----";
    text "Introduced God Class          | Serious anti-pattern        | –1.0   | Medium (1.0)  | –1.0";
    text "Added Factory for parser      | Design pattern              | +0.3   |               | +0.3";
    text "Duplicated code               | Medium anti-pattern         | –0.5   |               | –0.5";
    text "Added tests                   | Testing                     | +0.5   |               | +0.5";
    text "Subtotal before complexity**  |                             |        |               | **–0.7";
    text "Complexity multiplier (K=1.0) |                             |        |               | ×1.0";
    text "Final MR score                |                             |        |               | 9.3";
    [];
    text "Example output:";
    text "```json";
    text "{";
    text "  " ++ quoted (text "quality_issues") ++ text ": [";
    text "    " ++ quoted (text "God Class in models/user.py:1–200 — class handles too many responsibilities") ++ text ",";
    text "    " ++ quoted (text "Duplicated data formatting logic in utils.py:50–60 and report.py:120–130");
    text "  ],";
    text "  " ++ quoted (text "good_practices") ++ text ": [";
    text "    " ++ quoted (text "Factory pattern used to instantiate parser based on file type") ++ text ",";
    text "    " ++ quoted (text "Added unit tests for edge cases");
    text "  ],";
    text "  " ++ quoted (text "patterns") ++ text ": [";
    text "    " ++ quoted (text "Factory");
    text "  ],";
    text "  " ++ quoted (text "anti_patterns") ++ text ": [";
    text "    " ++ quoted (text "God Class") ++ text ",";
    text "    " ++ quoted (text "Duplicated Code");
    text "  ],";
    text "  " ++ quoted (text "overall_score") ++ text ": 9.3";
    text "}";
    text "```";
    [];
    text "Code diff:" ].

(** [_build_analysis_prompt], lines 94-170. *)
Definition build_analysis_prompt (diff_content : pystr) : pystr :=
  join [NL] prompt_lines ++ [NL] ++ diff_content ++ [NL].

Section Analyze.
Variable U : unicode_db.
Variable json_loads : pystr -> result json.
Variable float_of_str : pystr -> option float.
Variable repr_float : float -> pystr.
Variable repr_container : json -> pystr.
(** [str(e)] for an exception that [_parse_analysis_response] lets
    through. *)
Variable str_of_exn : exn -> pystr.
Variable self : credentials.
Variable run_model : pystr -> run_outcome Normalizer.alternative.

(** [call_yandex_cloud_api], lines 40-92, with the default
    temperature. *)
Definition call_yandex_cloud_api (prompt : pystr) : Normalizer.response :=
  if unset (api_key self) || unset (folder_id self)
     || unset (model_name self)
  then error_response (str "Missing required API credentials")
  else
    match run_model (truncate_prompt prompt) with
    | Alternatives alternatives =>
        if Normalizer.is_nil alternatives
        then error_response (str "No alternatives returned from the model")
        else {| Normalizer.resp_error := None;
                Normalizer.resp_alternatives := alternatives |}
    | ConnectionError ce => error_response (str "Connection error: " ++ ce)
    | TimeoutError te =>
        error_response (str "API request timed out: " ++ te)
    | OtherException e => error_response (str "API request failed: " ++ e)
    end.

(** Lines 197-201 and 269-272: the prompt, the call and the parse of the
    reply. *)
Definition ask (diff_content : pystr) : result Normalizer.analysis :=
  let prompt := build_analysis_prompt diff_content in
  let response := call_yandex_cloud_api prompt in
  Normalizer.parse_analysis_response U json_loads float_of_str response.

(** [analyze_code_changes], lines 172-205. *)
Definition analyze_code_changes (diff_content : pystr) : pydict json :=
  if Normalizer.is_nil diff_content
  then empty_analysis (str "Input diff content was empty.")
  else
    match ask diff_content with
    | Ok analysis => analysis_dict analysis
    | Raise e =>
        error_dict (str "Error during code changes analysis: "
                    ++ str_of_exn e)
    end.

(** [patch.strip('\n')]: only a [str] has the method. *)
Definition strip_newlines (patch : json) : result pystr :=
  match patch with
  | JStr s => Ok (strip_by (N.eqb NL) s)
  | _ => Raise (OtherError (str "AttributeError"))
  end.

(** The body of the loop of lines 247-265. *)
Definition add_file_info (diff_parts : list pystr) (file_info : json)
  : result (list pystr) :=
  match file_info with
  | JDict file_info =>
      let filename := get_or_none (str "filename") file_info in
      let patch := get_or_none (str "patch") file_info in
      if truthy filename && truthy patch then
        let diff_parts :=
          diff_parts
          ++ [ str "--- a/" ++ py_str repr_float repr_container filename;
               str "+++ b/" ++ py_str repr_float repr_container filename;
               str "```diff" ] in
        stripped <- strip_newlines patch ;;
        Ok (diff_parts ++ [ stripped; str "```" ++ [NL] ])
      else if truthy filename then
        Ok (diff_parts
            ++ [ str "--- a/" ++ py_str repr_float repr_container filename;
                 str "+++ b/" ++ py_str repr_float repr_container filename;
                 str "(No patch content provided)" ++ [NL] ])
      else Ok diff_parts
  | _ => Ok diff_parts
  end.

Fixpoint add_file_infos (diff_parts : list pystr) (files : list json)
  : result (list pystr) :=
  match files with
  | [] => Ok diff_parts
  | file_info :: files' =>
      diff_parts <- add_file_info diff_parts file_info ;;
      add_file_infos diff_parts files'
  end.

(** Lines 242-245: the parts before the files. *)
Definition pull_request_header (title description : json) : list pystr :=
  [ str "# Pull Request: " ++ py_str repr_float repr_container title;
    [NL] ++ str "## Description" ++ [NL]
    ++ py_str repr_float repr_container description ++ [NL];
    str "## Changes" ++ [NL] ].

(** [analyze_pull_request], lines 207-276. *)
Definition analyze_pull_request (pr_data : json) : pydict json :=
  match pr_data with
  | JDict pr_data =>
      let title := get_or (str "title") (JStr (str "N/A")) pr_data in
      let description :=
        get_or (str "description") (JStr (str "No description provided."))
               pr_data in
      let files := get_or (str "files") (JList []) pr_data in
      match files with
      | JList files =>
          if Normalizer.is_nil files
          then empty_analysis (str "No files found in PR data.")
          else
            match
              diff_parts <-
                add_file_infos (pull_request_header title description)
                               files ;;
              ask (join [NL] diff_parts)
            with
            | Ok analysis => analysis_dict analysis
            | Raise e =>
                error_dict (str "Error analyzing pull request: "
                            ++ str_of_exn e)
            end
      | _ => error_dict (str "'files' must be a list")
      end
  | _ => error_dict (str "PR data must be a dictionary")
  end.

End Analyze.
End Analyzer.

(** ** [src/analyzer.py] *)

Module LegacyAnalyzer.

(** The shapes of an alternative that the older code tells apart. *)
Inductive alternative :=
| ObjText (text : pystr)     (* an object with a [text] attribute *)
| DictText (text : pystr)    (* a dict with the key [text] *)
| Other (repr : pystr).      (* anything else; [repr] is its str() *)

(** The reply of [call_yandex_cloud_api]: the value under [error] when
    that key is present, and the list under [result], [alternatives]. *)
Record response := {
  resp_error : option pystr;
  resp_alternatives : list alternative
}.

Definition error_response (e : pystr) : response :=
  {| resp_error := Some e; resp_alternatives := [] |}.

(** The lines of the f-string of [analyze_code_changes], lines 239-244,
    before the diff. *)
Definition prompt_lines : list pystr :=
  [ text "You are a senior Python code reviewer. Analyze this code diff. Identify:";
    text "1. Code quality issues and anti-patterns (explain).";
    text "2. Good practices or design patterns used.";
    text "3. Overall quality score (0–10) with short justification.";
    [];
    text "Code diff:" ].

(** Lines 239-246. *)
Definition build_prompt (diff_content : pystr) : pystr :=
  join [NL] prompt_lines ++ [NL] ++ diff_content ++ [NL].

Section Analyze.
Variable U : unicode_db.
Variable float_of_str : pystr -> option float.
(** [str(response)] *)
Variable repr_response : response -> pystr.
Variable self : credentials.
Variable run_model : pystr -> run_outcome alternative.

(** [call_yandex_cloud_api], lines 173-224, with the default
    temperature. *)
Definition call_yandex_cloud_api (prompt : pystr) : response :=
  if unset (api_key self) || unset (folder_id self)
     || unset (model_name self)
  then error_response (str "Missing required API credentials")
  else
    match run_model (truncate_prompt prompt) with
    | Alternatives alternatives =>
        if Normalizer.is_nil alternatives
        then error_response (str "No alternatives returned from the model")
        else {| resp_error := None; resp_alternatives := alternatives |}
    | ConnectionError ce => error_response (str "Connection error: " ++ ce)
    | TimeoutError te =>
        error_response (str "API request timed out: " ++ te)
    | OtherException e => error_response e
    end.

(** The pattern of line 314, [re.DOTALL | re.IGNORECASE]; token by
    token: [1\.  \s+  Code quality issues  .*?  (?= 2\. )].  The code
    takes [group(0)], the whole match: the group is put around the part
    that reads text. *)
Definition quality_re : regex :=
  seq_of [ Group (seq_of [ lits_i U (str "1."); ws_plus U;
                           lits_i U (str "Code quality issues");
                           Rep false 0 any_char ]);
           Look (lits_i U (str "2.")) ].

(** The pattern of line 323, [re.DOTALL | re.IGNORECASE]; token by
    token: [2\.  \s+  Good practices  .*?  (?= 3\. )]. *)
Definition practices_re : regex :=
  seq_of [ Group (seq_of [ lits_i U (str "2."); ws_plus U;
                           lits_i U (str "Good practices");
                           Rep false 0 any_char ]);
           Look (lits_i U (str "3.")) ].

(** The pattern of lines 318 and 327, [re.DOTALL]; token by token:
    [<bullet>  \s+  ( .*? )  (?= <bullet> | \Z )]. *)
Definition bullet_re : regex :=
  seq_of [ Chr Normalizer.is_bullet; ws_plus U;
           Group (Rep false 0 any_char);
           Look (Alt (Chr Normalizer.is_bullet) Eos) ].

(** The pattern of lines 320 and 329, [re.DOTALL]; token by token:
    [\d+  \.  \s+  ( .*? )  (?= \d+ \. | \Z )]. *)
Definition numbered_re : regex :=
  seq_of [ digits U; lit (chr "."); ws_plus U;
           Group (Rep false 0 any_char);
           Look (Alt (Seq (digits U) (lit (chr "."))) Eos) ].

(** The pattern of line 332, [re.DOTALL | re.IGNORECASE]; token by
    token: [3\.  \s+  Overall quality score  .*?
    ( \d+ (?: \. \d+ )? )  /10]. *)
Definition score_re : regex :=
  seq_of [ lits_i U (str "3."); ws_plus U;
           lits_i U (str "Overall quality score"); Rep false 0 any_char;
           Group (Seq (digits U) (opt (Seq (lit_i U (chr ".")) (digits U))));
           lits_i U (str "/10") ].

(** Lines 316-321 and 325-330: the items of a section. *)
Definition section_items (section_text : pystr) : list json :=
  let text := strip U section_text in
  let items := re_findall bullet_re text in
  let items := if Normalizer.is_nil items then re_findall numbered_re text
               else items in
  map (fun item => JStr (strip U item))
      (filter (fun item => negb (Normalizer.is_nil (strip U item))) items).

Definition section_of (re : regex) (message : pystr) : list json :=
  match re_search re message with
  | Some m => section_items (group1 m)
  | None => []
  end.

(** Lines 332-337. *)
Definition score_of (message : pystr) : option float :=
  match re_search score_re message with
  | Some score_match => float_of_str (group1 score_match)
  | None => None
  end.

(** Lines 297-303. *)
Definition alt_message (first_alt : alternative) : pystr :=
  match first_alt with
  | ObjText text => text
  | DictText text => text
  | Other repr => repr
  end.

(** [_parse_analysis_response], lines 285-349. *)
Definition parse_analysis_response (response : response) : pydict json :=
  match resp_error response with
  | Some e => [ (str "error", JStr e) ]
  | None =>
      match resp_alternatives response with
      | first_alt :: _ =>
          let message := alt_message first_alt in
          [ (str "quality_issues", JList (section_of quality_re message));
            (str "good_practices", JList (section_of practices_re message));
            (str "overall_score", score_value (score_of message));
            (str "raw_response", JStr message) ]
      | [] =>
          [ (str "error", JStr (str "Unexpected API response format"));
            (str "raw_response",
             JStr (firstn 500 (repr_response response))) ]
      end
  end.

(** [analyze_code_changes], lines 226-253. *)
Definition analyze_code_changes (diff_content : pystr) : pydict json :=
  let prompt := build_prompt diff_content in
  let response := call_yandex_cloud_api prompt in
  parse_analysis_response response.

(** [analyze_repository_file], lines 255-283. *)
Definition analyze_repository_file (fs : filesystem)
           (repository_file_path : pystr) : result (pydict json) :=
  repository_files <-
    Legacy.parse_repository_file U fs repository_file_path ;;
  if Normalizer.is_nil repository_files
  then Ok [ (str "error", JStr (str "No files found in the repository file")) ]
  else
    let diff_content := Legacy.generate_diff_content U repository_files in
    Ok (analyze_code_changes diff_content).

End Analyze.
End LegacyAnalyzer.

(** ** [src/app/modules/gh_fetcher.py] *)

Module GithubFetcher.

(** A file of a pull request as the GitHub client gives it: its name,
    and its patch, which a binary file does not have. *)
Record pull_file := {
  filename : pystr;
  patch : option pystr
}.

(** What [_prep_issue] reads of a pull request: [pull.title],
    [pull.body], [pull.get_files()], the messages of
    [pull.get_commits()], the texts of [pull.get_comments()] and
    [pull.url]. *)
Record pull := {
  title : pystr;
  body : option pystr;
  files : list pull_file;
  commits_messages : list pystr;
  comments : list pystr;
  url : pystr
}.

(** A text that may be [None]. *)
Definition optional (v : option pystr) : json :=
  match v with
  | Some s => JStr s
  | None => JNull
  end.

(** Line 38: the entry of a file. *)
Definition file_entry (f : pull_file) : json :=
  JDict [ (str "filename", JStr (filename f));
          (str "patch", optional (patch f)) ].

(** The dictionary that [_prep_issue] returns, lines 35-42. *)
Definition prep_issue (pull : pull) : json :=
  JDict
    [ (str "title", JStr (title pull));
      (str "description", optional (body pull));
      (str "files", JList (map file_entry (files pull)));
      (str "commits_messages", JList (map JStr (commits_messages pull)));
      (str "comments", JList (map JStr (comments pull)));
      (str "url", JStr (url pull)) ].

End GithubFetcher.

(** ** [src/main.py]: running an analysis on an input file *)

Module Runner.

(** The three input options of the command line, [None] when an option
    is not given. *)
Record args := {
  input_json : option pystr;
  input_diff : option pystr;
  input_repo : option pystr
}.

(** [if args.input_json:] and the like: the option is given and not
    empty. *)
Definition given (value : option pystr) : option pystr :=
  match value with
  | Some (c :: path) => Some (c :: path)
  | _ => None
  end.

(** Lines 246-250 and 256-260. *)
Definition failed_input (e : pystr) : pydict json :=
  [ (str "error", JStr e);
    (str "quality_issues", JList []); (str "good_practices", JList []);
    (str "patterns", JList []); (str "anti_patterns", JList []);
    (str "overall_score", JNull); (str "raw_response", JStr []) ].

Section Run.
Variable U : unicode_db.
Variable json_loads : pystr -> result json.
Variable float_of_str : pystr -> option float.
Variable repr_float : float -> pystr.
Variable repr_container : json -> pystr.
Variable str_of_exn : exn -> pystr.
Variable self : credentials.
Variable run_model : pystr -> run_outcome Normalizer.alternative.
(** [open(path, 'r', encoding='utf-8')] and [f.read()]: the text of the
    file, or the exception raised. *)
Variable read_text : pystr -> result pystr.
(** The file system as [parse_repository_file] reads it. *)
Variable fs : filesystem.

Let analyze_code_changes :=
  Analyzer.analyze_code_changes U json_loads float_of_str str_of_exn self
                                run_model.
Let analyze_pull_request :=
  Analyzer.analyze_pull_request U json_loads float_of_str repr_float
                                repr_container str_of_exn self run_model.

(** The handlers of lines 210-219. *)
Definition json_input_error (path : pystr) (e : exn) : pydict json :=
  match e with
  | FileNotFoundError => error_dict (str "File not found: " ++ path)
  | JSONDecodeError => error_dict (str "Invalid JSON in file: " ++ path)
  | _ =>
      error_dict (str "Error processing JSON file '" ++ path ++ str "': "
                  ++ str_of_exn e)
  end.

(** The handlers of lines 230-235. *)
Definition diff_input_error (path : pystr) (e : exn) : pydict json :=
  match e with
  | FileNotFoundError => error_dict (str "File not found: " ++ path)
  | _ =>
      error_dict (str "Error processing diff file '" ++ path ++ str "': "
                  ++ str_of_exn e)
  end.

(** The handlers of lines 266-272. *)
Definition repo_input_error (path : pystr) (e : exn) : pydict json :=
  match e with
  | FileNotFoundError => error_dict (str "File not found: " ++ path)
  | _ =>
      error_dict (str "Error processing repository file '" ++ path
                  ++ str "': " ++ str_of_exn e)
  end.

(** Lines 196-219. *)
Definition run_on_json (path : pystr) : list (pydict json) :=
  match text <- read_text path ;; json_loads text with
  | Ok (JList pr_data_list) => map analyze_pull_request pr_data_list
  | Ok _ => []
  | Raise e => [ json_input_error path e ]
  end.

(** Lines 222-235. *)
Definition run_on_diff (path : pystr) : list (pydict json) :=
  match read_text path with
  | Ok diff_content => [ analyze_code_changes diff_content ]
  | Raise e => [ diff_input_error path e ]
  end.

(** Lines 238-272. *)
Definition run_on_repo (path : pystr) : list (pydict json) :=
  match Main.parse_repository_file U fs path with
  | Ok repository_files =>
      if Normalizer.is_nil repository_files then
        [ failed_input (str "No files parsed from repository file: "
                        ++ path) ]
      else
        let diff_content := Main.generate_diff_content repository_files in
        if Normalizer.is_nil diff_content then
          [ failed_input (str "Generated empty diff from repository file: "
                          ++ path) ]
        else [ analyze_code_changes diff_content ]
  | Raise e => [ repo_input_error path e ]
  end.

(** [run_analysis_from_file], lines 193-274. *)
Definition run_analysis_from_file (args : args) : list (pydict json) :=
  match given (input_json args) with
  | Some path => run_on_json path
  | None =>
      match given (input_diff args) with
      | Some path => run_on_diff path
      | None =>
          match given (input_repo args) with
          | Some path => run_on_repo path
          | None => []
          end
      end
  end.

(** [run_analysis_from_github], lines 276-291; [analyze_pull_request]
    hands every exception back as a result, so the handler of the loop
    has nothing to catch. *)
Definition run_analysis_from_github (pr_data_list : list json)
  : list (pydict json) :=
  map analyze_pull_request pr_data_list.

End Run.
End Runner.

(** ** [src/app/gradio_ui.py] *)

Module GradioUI.
Section Format.
Variable repr_float : float -> pystr.
Variable repr_container : json -> pystr.

(** Line 28: from the address of a pull request in the API to its
    address on the site. *)
Definition site_url (pr_url : pystr) : pystr :=
  replace (str "pulls") (str "pull")
    (replace (str "/repos") []
       (replace (str "api.") [] pr_url)).

(** What [for item in v] goes through; a number, a truth value and
    [None] are not iterable. *)
Definition iterate (v : json) : result (list json) :=
  match v with
  | JList l => Ok l
  | JStr s => Ok (map (fun c => JStr [c]) s)
  | JDict d => Ok (map (fun entry => JStr (fst entry)) d)
  | _ => Raise TypeError
  end.

(** Lines 36-40, and the same for the three lists after it: the heading,
    an item on each line, and an empty line. *)
Definition add_list (heading key : pystr) (analysis : pydict json)
           (markdown : list pystr) : result (list pystr) :=
  if truthy (get_or_none key analysis) then
    items <- iterate (get_or_none key analysis) ;;
    Ok (markdown ++ [heading]
        ++ map (fun item => str "- " ++ py_str repr_float repr_container item)
               items
        ++ [[]])
  else Ok markdown.

(** Lines 26-29. *)
Definition add_link (analysis : pydict json) (markdown : list pystr)
  : result (list pystr) :=
  let pr_url := get_or_none (str "pr_url") analysis in
  if truthy pr_url then
    match pr_url with
    | JStr pr_url =>
        Ok (markdown
            ++ [ text "[🔗 View Pull Request](" ++ site_url pr_url
                 ++ str ")" ++ [NL] ])
    | _ => Raise (OtherError (str "AttributeError"))
    end
  else Ok markdown.

(** [format_analysis_result], lines 18-63. *)
Definition format_analysis_result (analysis : pydict json)
  : result pystr :=
  match dict_get (str "error") analysis with
  | Some e =>
      Ok (str "## Error" ++ [NL] ++ py_str repr_float repr_container e)
  | None =>
      markdown <- add_link analysis [] ;;
      let score := get_or (str "overall_score") (JStr (str "N/A")) analysis in
      let markdown :=
        markdown
        ++ [ str "## Overall Score: "
             ++ py_str repr_float repr_container score ++ str "/10" ++ [NL] ]
      in
      markdown <-
        add_list (str "### Quality Issues") (str "quality_issues")
                 analysis markdown ;;
      markdown <-
        add_list (str "### Good Practices") (str "good_practices")
                 analysis markdown ;;
      markdown <-
        add_list (str "### Design Patterns Used") (str "patterns")
                 analysis markdown ;;
      markdown <-
        add_list (str "### Anti-patterns") (str "anti_patterns")
                 analysis markdown ;;
      Ok (join [NL] markdown)
  end.

End Format.
End GradioUI.

(** * Properties of the code beyond the specification: their vocabulary *)

(** What a section adds to the mapping in [src/main.py]: a path that is
    not empty, on one line and without whitespace around it, and a content
    without whitespace around it. *)
Definition main_entry (U : unicode_db) (path content : pystr) : Prop :=
  Normalizer.is_nil path = false /\ has_char NL path = false
  /\ strip U path = path /\ strip U content = content.

(** The same for the parsers that find the path with a pattern; the one
    of [src/repository_parser.py] does not pass over an empty path. *)
Definition matched_entry (U : unicode_db) (path content : pystr) : Prop :=
  has_char NL path = false /\ strip U path = path
  /\ strip U content = content.

(** The layout that the pairing loop of [src/analyzer.py] reads: the line
    [FILE: <path>] between two bars, then the content and an empty
    line. *)
Definition framed_header (entry : pystr * pystr) : pystr :=
  [NL] ++ str "FILE: " ++ fst entry ++ [NL].

Definition framed_body (entry : pystr * pystr) : pystr :=
  [NL] ++ snd entry ++ [NL; NL].

Definition framed_section (entry : pystr * pystr) : pystr :=
  delimiter_bar ++ framed_header entry ++ delimiter_bar ++ framed_body entry.

Definition framed (dump : pydict pystr) : pystr :=
  List.concat (map framed_section dump).

(** A content that the pairing loop does not take for a header. *)
Definition markerless (entry : pystr * pystr) : bool :=
  negb (contains (str "FILE: ") (snd entry)).

(** A reply with a JSON object in a [```json] fence in the middle of
    other text. *)
Definition embedded (pre ws1 inner ws2 post : pystr) : pystr :=
  pre ++ Normalizer.fence_open ++ ws1 ++ braces inner ++ ws2
  ++ Normalizer.fence_close ++ post.

(** The text begins, after whitespace if any, with a character other
    than an opening brace, and has no backquote in it. *)
Definition opens_with_prose (U : unicode_db) (pre : pystr) : bool :=
  match lstrip_by (isspace U) pre with
  | c :: _ => negb (c =? chr "{")%N
  | [] => false
  end
  && negb (has_char (chr "`") pre).

(** ** Inputs to run the callers on *)

(** Credentials that are set. *)
Definition sample_credentials : credentials :=
  {| api_key := Some (str "key"); folder_id := Some (str "folder");
     model_name := Some (str "model") |}.

(** A model that answers every prompt with the fenced reply. *)
Definition sample_model (prompt : pystr)
  : run_outcome Normalizer.alternative :=
  Alternatives [Normalizer.AltObjText fenced_reply_text].

(** A model that cannot be reached. *)
Definition unreachable_model (prompt : pystr)
  : run_outcome Normalizer.alternative :=
  ConnectionError (str "refused").

(** [str(e)] for the exception that [float] raises on an [int] that is
    too large; the others do not occur in the examples. *)
Definition sample_exn_text (e : exn) : pystr :=
  match e with
  | OverflowError => str "int too large to convert to float"
  | _ => []
  end.

(** A dump of one file of two lines. *)
Definition two_line_file : pydict pystr :=
  [ (str "a.py", str "x = 1" ++ [NL] ++ str "y = 2") ].

(** A reply that introduces its JSON object with a sentence. *)
Definition introduced_object : pystr :=
  embedded (str "Here is my review:" ++ [NL]) [NL]
           (quoted (str "overall_score") ++ str ": 7.5") [NL]
           ([NL] ++ str "Thanks.").

(** ** Results *)

(** A result without findings: every list it holds is empty and it holds
    no score. *)
Definition no_findings (result : pydict json) : Prop :=
  (forall key l, dict_get key result = Some (JList l) -> l = [])
  /\ (forall f, dict_get (str "overall_score") result <> Some (JFloat f)).

(** The errors that [analyze_code_changes] reports. *)
Definition code_changes_error (text : pystr) : Prop :=
  text = str "Input diff content was empty."
  \/ startswith (str "API Error: ") text = true
  \/ startswith (str "Error during code changes analysis: ") text = true.

(** The errors that [analyze_pull_request] reports. *)
Definition pull_request_error (text : pystr) : Prop :=
  text = str "PR data must be a dictionary"
  \/ text = str "'files' must be a list"
  \/ text = str "No files found in PR data."
  \/ startswith (str "API Error: ") text = true
  \/ startswith (str "Error analyzing pull request: ") text = true.

(** The lines that a file of a fetched pull request has in the prompt:
    none without a name, the patch without the newlines around it in a
    fence, or a note when there is no patch. *)
Definition fetched_file_lines (f : GithubFetcher.pull_file) : list pystr :=
  match GithubFetcher.filename f with
  | [] => []
  | _ :: _ =>
      match GithubFetcher.patch f with
      | Some (c :: patch) =>
          [ str "--- a/" ++ GithubFetcher.filename f;
            str "+++ b/" ++ GithubFetcher.filename f;
            str "```diff";
            strip_by (N.eqb NL) (c :: patch);
            str "```" ++ [NL] ]
      | _ =>
          [ str "--- a/" ++ GithubFetcher.filename f;
            str "+++ b/" ++ GithubFetcher.filename f;
            str "(No patch content provided)" ++ [NL] ]
      end
  end.

(** The text of [{description}] for a fetched pull request. *)
Definition fetched_description (pull : GithubFetcher.pull) : pystr :=
  match GithubFetcher.body pull with
  | Some body => body
  | None => str "None"
  end.

(** The diff text that stands for a fetched pull request. *)
Definition fetched_diff (pull : GithubFetcher.pull) : pystr :=
  join [NL]
    ([ str "# Pull Request: " ++ GithubFetcher.title pull;
       [NL] ++ str "## Description" ++ [NL] ++ fetched_description pull
       ++ [NL];
       str "## Changes" ++ [NL] ]
     ++ flat_map fetched_file_lines (GithubFetcher.files pull)).

(** A list of the markdown: nothing when it is empty, else its heading,
    an item on each line and an empty line. *)
Definition listing (repr_float : float -> pystr)
           (repr_container : json -> pystr)
           (heading : pystr) (items : list json) : list pystr :=
  match items with
  | [] => []
  | _ :: _ =>
      [heading]
      ++ map (fun item => str "- " ++ py_str repr_float repr_container item)
             items
      ++ [[]]
  end.

(** The markdown of a result that has no [error] and no [pr_url]. *)
Definition markdown_of (repr_float : float -> pystr)
           (repr_container : json -> pystr) (a : Normalizer.analysis)
  : pystr :=
  join [NL]
    ([ str "## Overall Score: "
       ++ py_str repr_float repr_container
            (score_value (Normalizer.overall_score a))
       ++ str "/10" ++ [NL] ]
     ++ listing repr_float repr_container (str "### Quality Issues")
                (Normalizer.quality_issues a)
     ++ listing repr_float repr_container (str "### Good Practices")
                (Normalizer.good_practices a)
     ++ listing repr_float repr_container (str "### Design Patterns Used")
                (Normalizer.patterns a)
     ++ listing repr_float repr_container (str "### Anti-patterns")
                (Normalizer.anti_patterns a)).

(** A pull request as fetched, with one text file and one binary
    file. *)
Definition sample_pull : GithubFetcher.pull :=
  {| GithubFetcher.title := str "Add parser";
     GithubFetcher.body := None;
     GithubFetcher.files :=
       [ {| GithubFetcher.filename := str "a.py";
            GithubFetcher.patch := Some ([NL] ++ str "+x = 1" ++ [NL]) |};
         {| GithubFetcher.filename := str "logo.png";
            GithubFetcher.patch := None |} ];
     GithubFetcher.commits_messages := [str "wip"];
     GithubFetcher.comments := [str "please rename"];
     GithubFetcher.url := str "https://api.github.com/repos/o/r/pulls/5" |}.

(** ** Items of the older regex tier *)

(** No hyphen, bullet or asterisk in the text. *)
Definition bullet_free (item : pystr) : Prop :=
  forallb (fun c => negb (Normalizer.is_bullet c)) item = true.

(** No digit followed by a dot in the text. *)
Definition digit_dot_free (U : unicode_db) (item : pystr) : Prop :=
  forall a d b, item = a ++ d :: chr "." :: b -> isdecimal U d = false.

(** A reply in the numbered layout with a hyphen inside an item. *)
Definition hyphenated_prose : pystr :=
  render_prose [str "bad naming"] [str "uses well-known names"] (str "7").

(** ** The layouts across the parsers *)

(** A content whose first line is not taken for a header by
    [src/main.py]. *)
Definition unmarked (entry : pystr * pystr) : bool :=
  negb (startswith (str "FILE:") (snd entry)).

(** An entry with its content lost. *)
Definition without_content (entry : pystr * pystr) : pystr * pystr :=
  (fst entry, []).

(** A directory listing before the sections of a dump. *)
Definition with_listing (listing rest : pystr) : pystr :=
  str "Directory structure:" ++ listing ++ [NL; NL] ++ rest.

(** A listing with no blank line before the one that closes it. *)
Definition single_spaced (listing : pystr) : bool :=
  negb (contains [NL; NL] (listing ++ [NL])).

(** A listing without 48 [=] in a row. *)
Definition unbarred (listing : pystr) : bool :=
  negb (contains delimiter_bar listing).

(** A listing of two files. *)
Definition sample_listing : pystr :=
  [NL] ++ str "a.py" ++ [NL] ++ str "b.py".

(** ** What [json.loads] is called on *)

(** The texts that the two JSON tiers hand to [json.loads]: the cleaned
    message, and the block that the pattern of line 344 finds. *)
Definition loaded_text (U : unicode_db) (message t : pystr) : Prop :=
  t = Normalizer.clean_message U message
  \/ exists m, re_search (Normalizer.json_block_re U) message = Some m
               /\ t = group1 m.

(** * Facts about the string functions *)

Unset Implicit Arguments.

Lemma str_eqb_refl (s : pystr) : str_eqb s s = true.
Proof.
  induction s as [|c s IH]; simpl; [reflexivity|].
  rewrite N.eqb_refl. exact IH.
Qed.

Lemma str_eqb_eq (a b : pystr) : str_eqb a b = true <-> a = b.
Proof.
  split.
  - revert b. induction a as [|x a IH]; intros [|y b] H; simpl in H;
      try discriminate; [reflexivity|].
    apply andb_true_iff in H. destruct H as [H1 H2].
    apply N.eqb_eq in H1. apply IH in H2. congruence.
  - intros ->. apply str_eqb_refl.
Qed.

Lemma str_eqb_neq (a b : pystr) : str_eqb a b = false <-> a <> b.
Proof.
  split.
  - intros H E. apply str_eqb_eq in E. congruence.
  - intros H. destruct (str_eqb a b) eqn:E; [|reflexivity].
    apply str_eqb_eq in E. contradiction.
Qed.

Lemma startswith_app (p s : pystr) : startswith p (p ++ s) = true.
Proof.
  induction p as [|c p IH]; simpl; [reflexivity|].
  rewrite N.eqb_refl. exact IH.
Qed.

Lemma startswith_prefix (p s : pystr) :
  startswith p s = true <-> exists t, s = p ++ t.
Proof.
  split.
  - revert s. induction p as [|c p IH]; intros s H.
    + exists s. reflexivity.
    + destruct s as [|x s]; simpl in H; [discriminate|].
      apply andb_true_iff in H. destruct H as [H1 H2].
      apply N.eqb_eq in H1. destruct (IH _ H2) as [t Ht].
      exists t. simpl. congruence.
  - intros [t ->]. apply startswith_app.
Qed.

Lemma endswith_app (p s : pystr) : endswith p (s ++ p) = true.
Proof.
  unfold endswith. rewrite rev_app_distr. apply startswith_app.
Qed.

Lemma startswith_head (c x : char) (p s : pystr) :
  x <> c -> startswith (c :: p) (x :: s) = false.
Proof.
  intros H. simpl. destruct (N.eqb_spec c x); [congruence | reflexivity].
Qed.

Lemma endswith_last (c x : char) (s : pystr) :
  x <> c -> endswith [c] (s ++ [x]) = false.
Proof.
  intros H. unfold endswith. rewrite rev_app_distr. simpl.
  destruct (N.eqb_spec c x); [congruence | reflexivity].
Qed.

Lemma has_char_app (c : char) (a b : pystr) :
  has_char c (a ++ b) = has_char c a || has_char c b.
Proof. unfold has_char. apply existsb_app. Qed.

Lemma has_char_false (c : char) (s : pystr) :
  has_char c s = false <-> ~ In c s.
Proof.
  unfold has_char. split.
  - intros H Hin.
    assert (existsb (N.eqb c) s = true) as E.
    { apply existsb_exists. exists c. split; [exact Hin | apply N.eqb_refl]. }
    congruence.
  - intros H. destruct (existsb (N.eqb c) s) eqn:E; [|reflexivity].
    apply existsb_exists in E. destruct E as [x [Hx Hc]].
    apply N.eqb_eq in Hc. subst x. contradiction.
Qed.

(** ** [dropwhile] and the [strip] family *)

Section Strip.
Variable f : char -> bool.

Lemma dropwhile_all (ws s : pystr) :
  forallb f ws = true -> dropwhile f (ws ++ s) = dropwhile f s.
Proof.
  induction ws as [|c ws IH]; simpl; intros H; [reflexivity|].
  apply andb_true_iff in H. destruct H as [Hc Hws].
  rewrite Hc. auto.
Qed.

Lemma dropwhile_stop (c : char) (s : pystr) :
  f c = false -> dropwhile f (c :: s) = c :: s.
Proof. intros H. simpl. rewrite H. reflexivity. Qed.

Lemma dropwhile_length (s : pystr) :
  List.length (dropwhile f s) <= List.length s.
Proof.
  induction s as [|c s IH]; simpl; [lia|].
  destruct (f c); simpl; lia.
Qed.

Lemma dropwhile_fixed (s : pystr) :
  dropwhile f s = s ->
  match s with [] => True | c :: _ => f c = false end.
Proof.
  destruct s as [|c s]; simpl; [trivial|].
  destruct (f c); [|reflexivity].
  intros H. pose proof (dropwhile_length s) as L.
  rewrite H in L. simpl in L. lia.
Qed.

Lemma lstrip_all (ws s : pystr) :
  forallb f ws = true -> lstrip_by f (ws ++ s) = lstrip_by f s.
Proof. apply dropwhile_all. Qed.

Lemma rstrip_all (s ws : pystr) :
  forallb f ws = true -> rstrip_by f (s ++ ws) = rstrip_by f s.
Proof.
  intros H. unfold rstrip_by. rewrite rev_app_distr.
  rewrite dropwhile_all; [reflexivity|].
  rewrite forallb_forall in *. intros x Hx. apply H.
  apply in_rev. exact Hx.
Qed.

Lemma rstrip_stop (s : pystr) (c : char) :
  f c = false -> rstrip_by f (s ++ [c]) = s ++ [c].
Proof.
  intros H. unfold rstrip_by. rewrite rev_app_distr. simpl.
  rewrite H. simpl. rewrite rev_involutive. reflexivity.
Qed.

Lemma rstrip_length (s : pystr) :
  List.length (rstrip_by f s) <= List.length s.
Proof.
  unfold rstrip_by. rewrite length_rev.
  pose proof (dropwhile_length (rev s)) as L.
  rewrite length_rev in L. exact L.
Qed.

(** A text between two characters that are kept is not touched. *)
Lemma strip_by_tight (c : char) (mid : pystr) (d : char) :
  f c = false -> f d = false ->
  strip_by f (c :: mid ++ [d]) = c :: mid ++ [d].
Proof.
  intros Hc Hd. unfold strip_by, lstrip_by.
  rewrite dropwhile_stop by exact Hc.
  change (c :: mid ++ [d]) with ((c :: mid) ++ [d]).
  apply rstrip_stop. exact Hd.
Qed.

Lemma strip_by_single (c : char) :
  f c = false -> strip_by f [c] = [c].
Proof.
  intros Hc. unfold strip_by, lstrip_by, rstrip_by. simpl.
  rewrite Hc. simpl. rewrite Hc. reflexivity.
Qed.

(** Whitespace on either side goes. *)
Lemma strip_by_around (ws1 s ws2 : pystr) :
  forallb f ws1 = true -> forallb f ws2 = true ->
  strip_by f (ws1 ++ s ++ ws2) = strip_by f s.
Proof.
  intros H1 H2. unfold strip_by.
  rewrite lstrip_all by exact H1.
  unfold lstrip_by.
  destruct (dropwhile f s) as [|c t] eqn:E.
  - (* [s] is all whitespace *)
    assert (forallb f s = true) as Hs.
    { clear - E. induction s as [|x s IH]; simpl in *; [reflexivity|].
      destruct (f x); [auto | discriminate]. }
    rewrite dropwhile_all by exact Hs.
    assert (dropwhile f ws2 = []) as E2.
    { clear - H2. induction ws2 as [|x w IH]; simpl in *; [reflexivity|].
      apply andb_true_iff in H2. destruct H2 as [Hx Hw]. rewrite Hx. auto. }
    rewrite E2. reflexivity.
  - assert (dropwhile f (s ++ ws2) = (c :: t) ++ ws2) as E2.
    { clear - E. induction s as [|x s IH]; simpl in *; [discriminate|].
      destruct (f x); [auto|]. inversion E; subst. reflexivity. }
    rewrite E2. apply rstrip_all. exact H2.
Qed.

(** A text that [strip] leaves alone has a kept character at each end. *)
Lemma strip_by_fixed (s : pystr) :
  strip_by f s = s -> lstrip_by f s = s /\ rstrip_by f s = s.
Proof.
  intros H. unfold strip_by in H.
  assert (lstrip_by f s = s) as L.
  { unfold lstrip_by in *.
    pose proof (rstrip_length (dropwhile f s)) as L1.
    rewrite H in L1. clear H.
    destruct s as [|c s]; simpl in *; [reflexivity|].
    destruct (f c); [|reflexivity].
    pose proof (dropwhile_length s) as L2. lia. }
  split; [exact L | rewrite L in H; exact H].
Qed.

Lemma strip_by_fixed_ends (s : pystr) :
  strip_by f s = s -> s <> [] ->
  exists c mid, s = c :: mid /\ f c = false
                /\ exists body d, s = body ++ [d] /\ f d = false.
Proof.
  intros H N. destruct (strip_by_fixed s H) as [L R].
  destruct s as [|c mid]; [contradiction|].
  exists c, mid. split; [reflexivity|]. split.
  - apply (dropwhile_fixed (c :: mid)). exact L.
  - destruct (exists_last N) as [body [d E]].
    exists body, d. split; [exact E|].
    unfold rstrip_by in R.
    assert (dropwhile f (rev (c :: mid)) = rev (c :: mid)) as R'.
    { rewrite <- R at 2. rewrite rev_involutive. reflexivity. }
    apply dropwhile_fixed in R'. rewrite E in R'.
    rewrite rev_app_distr in R'. simpl in R'. exact R'.
Qed.

End Strip.

(** ** [split] *)

Section Split.
Variable sep : pystr.

Lemma split_go_skip (t rest acc : pystr) :
  split_go sep (List.length t) acc (t ++ rest) = split_go sep 0 acc rest.
Proof.
  induction t as [|c t IH]; [reflexivity|]. simpl. exact IH.
Qed.

(** No separator begins in [x]: the field runs on through it. *)
Lemma split_go_clear (tail : pystr) :
  forall (x acc : pystr),
    (forall a b, x = a ++ b -> b <> [] -> startswith sep (b ++ tail) = false) ->
    split_go sep 0 acc (x ++ tail) = split_go sep 0 (rev x ++ acc) tail.
Proof.
  induction x as [|c x IH]; intros acc Clear; [reflexivity|].
  cbn [app split_go].
  assert (startswith sep (c :: x ++ tail) = false) as C0
      by (apply (Clear [] (c :: x) eq_refl); discriminate).
  rewrite C0. rewrite IH.
  - simpl. rewrite <- app_assoc. reflexivity.
  - intros a b E N. apply (Clear (c :: a) b); [|exact N].
    rewrite E. reflexivity.
Qed.

Lemma split_go_at_sep (acc rest : pystr) :
  sep <> [] ->
  split_go sep 0 acc (sep ++ rest) = rev acc :: split_go sep 0 [] rest.
Proof.
  intros N. destruct sep as [|c sep'] eqn:E; [contradiction|].
  rewrite <- E. rewrite E at 2. cbn [app split_go].
  replace (startswith sep (c :: sep' ++ rest)) with true
    by (symmetry; rewrite E; apply (startswith_app (c :: sep') rest)).
  f_equal. rewrite E at 2. cbn [List.length].
  rewrite Nat.sub_0_r || replace (S (List.length sep') - 1) with (List.length sep') by lia.
  apply split_go_skip.
Qed.

Lemma split_go_nil (acc : pystr) : split_go sep 0 acc [] = [rev acc].
Proof. reflexivity. Qed.

End Split.

Lemma contains_false_suffix (p x a b : pystr) :
  contains p x = false -> x = a ++ b -> startswith p b = false.
Proof.
  revert x. induction a as [|c a IH]; intros x H E; subst x.
  - destruct b; simpl in H; apply orb_false_iff in H; apply H.
  - simpl in H. apply orb_false_iff in H. destruct H as [_ H].
    apply (IH (a ++ b)); [exact H | reflexivity].
Qed.

(** A separator-free text is one field. *)
Lemma split_go_end (sep acc x : pystr) :
  contains sep x = false -> split_go sep 0 acc x = [rev acc ++ x].
Proof.
  intros H.
  replace x with (x ++ []) at 1 by apply app_nil_r.
  rewrite split_go_clear.
  - simpl. rewrite rev_app_distr, rev_involutive. reflexivity.
  - intros a b E N. rewrite app_nil_r.
    apply (contains_false_suffix sep x a b H E).
Qed.

(** A prefix without [z] ends before the first [z]. *)
Lemma startswith_before (z : char) (p : pystr) :
  has_char z p = false ->
  forall a t, startswith p (a ++ z :: t) = startswith p a.
Proof.
  induction p as [|y p IH]; intros H a t; [reflexivity|].
  simpl in H. apply orb_false_iff in H. destruct H as [Hy Hp].
  destruct a as [|c a]; simpl.
  - rewrite N.eqb_sym in Hy. rewrite Hy. reflexivity.
  - rewrite (IH Hp). reflexivity.
Qed.

Lemma startswith_app_true (p q s : pystr) :
  startswith (p ++ q) s = true -> startswith p s = true.
Proof.
  revert s. induction p as [|c p IH]; intros s H; [reflexivity|].
  destruct s as [|x s]; simpl in *; [discriminate|].
  apply andb_true_iff in H. destruct H as [H1 H2].
  rewrite H1. simpl. apply IH. exact H2.
Qed.

Lemma contains_app_char (z : char) (p a b : pystr) :
  has_char z p = false ->
  contains p a = false -> contains p b = false ->
  contains p (a ++ z :: b) = false.
Proof.
  intros Z A B. induction a as [|c a IH].
  - cbn [app contains]. rewrite B.
    pose proof (startswith_before z p Z [] b) as S0. cbn [app] in S0.
    rewrite S0. simpl in A. apply orb_false_iff in A. destruct A as [A _].
    rewrite A. reflexivity.
  - cbn [app contains].
    change (c :: a ++ z :: b) with ((c :: a) ++ z :: b).
    rewrite (startswith_before z p Z).
    simpl in A. apply orb_false_iff in A. destruct A as [A1 A2].
    rewrite A1. simpl. apply IH. exact A2.
Qed.

Lemma contains_app_marker (p a b : pystr) : contains p (a ++ p ++ b) = true.
Proof.
  induction a as [|c a IH].
  - destruct (p ++ b) eqn:E; simpl.
    + destruct p; [reflexivity | discriminate E].
    + rewrite <- E. rewrite startswith_app. reflexivity.
  - cbn [app contains]. rewrite IH. apply orb_true_r.
Qed.

Lemma app_snoc_split {A : Type} (y : list A) (z : A) (a b : list A) :
  y ++ [z] = a ++ b -> b <> [] -> exists b0, b = b0 ++ [z] /\ y = a ++ b0.
Proof.
  intros E N. destruct (exists_last N) as [b0 [z' Eb]]. subst b.
  rewrite app_assoc in E. apply app_inj_tail in E. destruct E as [E1 E2].
  subst. exists b0. auto.
Qed.

Lemma startswith_cons (c x : char) (p s : pystr) :
  startswith (c :: p) (x :: s) = (c =? x)%N && startswith p s.
Proof. reflexivity. Qed.

(** ** A bar between two copies of a character that it does not hold *)

Section Framed.
Variable bar : pystr.
Variable z : char.
Hypothesis bar_free : has_char z bar = false.

Lemma framed_has_bar (x : pystr) :
  contains (z :: bar ++ [z]) x = true -> contains bar x = true.
Proof.
  induction x as [|y x IH]; intros H.
  - discriminate H.
  - cbn [contains] in H. apply orb_true_iff in H. destruct H as [H|H].
    + rewrite startswith_cons in H. apply andb_true_iff in H.
      destruct H as [_ H]. apply startswith_app_true in H.
      cbn [contains]. apply orb_true_iff. right.
      destruct x; cbn [contains]; rewrite H; reflexivity.
    + cbn [contains]. apply orb_true_iff. right. apply IH. exact H.
Qed.

(** Inside a text without the bar no framed bar begins, whatever
    follows the text. *)
Lemma framed_not_inside (x a b rest : pystr) :
  contains bar x = false -> x = a ++ b -> b <> [] ->
  startswith (z :: bar ++ [z]) (b ++ (z :: bar ++ [z]) ++ rest) = false.
Proof.
  intros B E N. destruct b as [|y b]; [contradiction|].
  cbn [app]. rewrite startswith_cons.
  destruct (startswith (bar ++ [z]) (b ++ z :: (bar ++ [z]) ++ rest)) eqn:S;
    [|apply andb_false_r].
  apply startswith_app_true in S.
  rewrite (startswith_before z bar bar_free) in S.
  assert (startswith bar b = false) as F.
  { apply (contains_false_suffix bar x (a ++ [y]) b B).
    rewrite E. rewrite <- app_assoc. reflexivity. }
  rewrite F in S. discriminate S.
Qed.

(** Nor does a bare bar begin inside such a text followed by [z]. *)
Lemma bar_not_inside (x a b rest : pystr) :
  contains bar x = false -> x ++ [z] = a ++ b -> b <> [] ->
  startswith bar (b ++ bar ++ rest) = false.
Proof.
  intros B E N.
  destruct (app_snoc_split x z a b E N) as [b0 [Eb Ex]]. subst b.
  rewrite <- app_assoc. cbn [app].
  rewrite (startswith_before z bar bar_free).
  apply (contains_false_suffix bar x a b0 B Ex).
Qed.

End Framed.

(** A text with a kept character at each end is not touched. *)
Lemma strip_by_ends (f : char -> bool) (s : pystr) :
  (exists c t, s = c :: t /\ f c = false) ->
  (exists b d, s = b ++ [d] /\ f d = false) ->
  strip_by f s = s.
Proof.
  intros [c [t [E1 F1]]] [b [d [E2 F2]]].
  unfold strip_by, lstrip_by. rewrite E1 at 1.
  rewrite dropwhile_stop by exact F1. rewrite <- E1. rewrite E2.
  apply rstrip_stop. exact F2.
Qed.


(** * Facts about the matcher *)

Lemma prev_after_app (prev : option char) (a b : pystr) :
  prev_after (prev_after prev a) b = prev_after prev (a ++ b).
Proof.
  unfold prev_after. rewrite rev_app_distr.
  destruct (rev b) as [|x rb]; [reflexivity|]. reflexivity.
Qed.

Lemma prev_after_snoc (prev : option char) (a : pystr) (c : char) :
  prev_after prev (a ++ [c]) = Some c.
Proof. unfold prev_after. rewrite rev_app_distr. reflexivity. Qed.

Lemma prev_after_cons (prev : option char) (c : char) (t : pystr) :
  prev_after prev (c :: t) = prev_after (Some c) t.
Proof.
  change (c :: t) with ([c] ++ t). rewrite <- prev_after_app. reflexivity.
Qed.

(** ** Soundness: a match hands a suffix of the text to what follows *)

Lemma rep_sound (greedy : bool) (p : char -> bool)
      (k : option char -> pystr -> option mstate) (s : pystr) :
  forall (min : nat) (prev : option char) (m : mstate),
    rep greedy p k min prev s = Some m ->
    exists t s', s = t ++ s' /\ forallb p t = true /\ min <= List.length t
                 /\ k (prev_after prev t) s' = Some m.
Proof.
  induction s as [|c s IH]; intros min prev m H.
  - destruct min; simpl in H; [|discriminate].
    exists [], []. repeat split; auto.
  - destruct min as [|min]; simpl in H.
    + destruct (p c) eqn:P.
      * assert (rep greedy p k 0 (Some c) s = Some m
                \/ k prev (c :: s) = Some m) as [R|K].
        { destruct greedy; unfold orelse in H.
          - destruct (rep true p k 0 (Some c) s); [left | right]; exact H.
          - destruct (k prev (c :: s)); [right | left]; exact H. }
        -- destruct (IH _ _ _ R) as [t [s' [E [F [L K]]]]].
           exists (c :: t), s'. subst s. simpl. rewrite P, F.
           rewrite prev_after_cons. repeat split; auto; simpl; lia.
        -- exists [], (c :: s). repeat split; auto.
      * exists [], (c :: s). repeat split; auto.
    + destruct (p c) eqn:P; [|discriminate].
      destruct (IH _ _ _ H) as [t [s' [E [F [L K]]]]].
      exists (c :: t), s'. subst s. simpl. rewrite P, F.
      rewrite prev_after_cons. repeat split; auto; simpl; lia.
Qed.

Lemma rmatch_sound (r : regex) :
  forall (prev : option char) (s : pystr) (g : option pystr)
         (k : option char -> pystr -> option pystr -> option mstate)
         (m : mstate),
    rmatch r prev s g k = Some m ->
    exists t s' g', s = t ++ s' /\ k (prev_after prev t) s' g' = Some m.
Proof.
  induction r as [|p|r1 IH1 r2 IH2|r1 IH1 r2 IH2|greedy min p|r IH|r IH| |];
    intros prev s g k m H; simpl in H.
  - exists [], s, g. auto.
  - destruct s as [|c s]; [discriminate|].
    destruct (p c); [|discriminate].
    exists [c], s, g. auto.
  - destruct (IH1 _ _ _ _ _ H) as [t1 [s1 [g1 [E1 K1]]]].
    destruct (IH2 _ _ _ _ _ K1) as [t2 [s2 [g2 [E2 K2]]]].
    exists (t1 ++ t2), s2, g2. subst. rewrite <- app_assoc.
    rewrite <- prev_after_app. auto.
  - unfold orelse in H.
    destruct (rmatch r1 prev s g k) eqn:R1.
    + rewrite <- H. apply IH1 in R1. exact R1.
    + apply IH2 in H. exact H.
  - destruct (rep_sound _ _ _ _ _ _ _ H) as [t [s' [E [_ [_ K]]]]].
    exists t, s', g. auto.
  - destruct (IH _ _ _ _ _ H) as [t [s' [g' [E K]]]].
    exists t, s', (Some (firstn (List.length s - List.length s') s)). auto.
  - destruct (rmatch r prev s g _) as [m'|]; [|discriminate].
    exists [], s, (m_group m'). auto.
  - destruct (at_line_start prev); [|discriminate].
    exists [], s, g. auto.
  - destruct s; [|discriminate]. exists [], [], g. auto.
Qed.

(** A pattern that needs a character reads it. *)
Lemma rmatch_needs (c : char) (r : regex) :
  needs c r ->
  forall (prev : option char) (s : pystr) (g : option pystr)
         (k : option char -> pystr -> option pystr -> option mstate)
         (m : mstate),
    rmatch r prev s g k = Some m ->
    exists t s' g', s = t ++ s' /\ In c t
                    /\ k (prev_after prev t) s' g' = Some m.
Proof.
  induction 1 as [p P|r1 r2 _ IH|r1 r2 _ IH|r1 r2 _ IH1 _ IH2|r _ IH];
    intros prev s g k m H; simpl in H.
  - destruct s as [|x s]; [discriminate|].
    destruct (p x) eqn:E; [|discriminate].
    apply P in E. subst x. exists [c], s, g. simpl. auto.
  - destruct (IH _ _ _ _ _ H) as [t1 [s1 [g1 [E1 [I K1]]]]].
    destruct (rmatch_sound _ _ _ _ _ _ K1) as [t2 [s2 [g2 [E2 K2]]]].
    exists (t1 ++ t2), s2, g2. subst. rewrite <- app_assoc.
    rewrite <- prev_after_app. split; [reflexivity|].
    split; [apply in_or_app; left; exact I | exact K2].
  - destruct (rmatch_sound _ _ _ _ _ _ H) as [t1 [s1 [g1 [E1 K1]]]].
    destruct (IH _ _ _ _ _ K1) as [t2 [s2 [g2 [E2 [I K2]]]]].
    exists (t1 ++ t2), s2, g2. subst. rewrite <- app_assoc.
    rewrite <- prev_after_app. split; [reflexivity|].
    split; [apply in_or_app; right; exact I | exact K2].
  - unfold orelse in H. destruct (rmatch r1 prev s g k) eqn:R1.
    + rewrite <- H. apply IH1 in R1. exact R1.
    + apply IH2 in H. exact H.
  - destruct (IH _ _ _ _ _ H) as [t [s' [g' [E [I K]]]]].
    exists t, s', (Some (firstn (List.length s - List.length s') s)). auto.
Qed.

Lemma match_here_needs (c : char) (r : regex) (prev : option char)
      (s : pystr) :
  needs c r -> has_char c s = false -> match_here r prev s = None.
Proof.
  intros N H. destruct (match_here r prev s) as [m|] eqn:E; [|reflexivity].
  unfold match_here in E.
  destruct (rmatch_needs c r N _ _ _ _ _ E) as [t [s' [g' [Es [I _]]]]].
  apply has_char_false in H. exfalso. apply H. subst s.
  apply in_or_app. left. exact I.
Qed.

(** A text without a character that the pattern needs has no match. *)
Lemma search_needs (c : char) (r : regex) (s : pystr) :
  needs c r -> has_char c s = false ->
  forall prev, search_go r prev s = None.
Proof.
  intros N. induction s as [|x s IH]; intros H prev; simpl.
  - rewrite (match_here_needs c r prev [] N H). reflexivity.
  - rewrite (match_here_needs c r prev (x :: s) N H).
    apply IH. simpl in H. apply orb_false_iff in H. apply H.
Qed.

(** ** Completeness for the repetitions *)

(** A lazy repetition stops at the first place where what follows
    matches. *)
Lemma rep_lazy_skip (p : char -> bool)
      (k : option char -> pystr -> option mstate) (s : pystr) (m : mstate) :
  forall (t : pystr) (prev : option char),
    forallb p t = true ->
    (forall a b, t = a ++ b -> b <> [] ->
                 k (prev_after prev a) (b ++ s) = None) ->
    k (prev_after prev t) s = Some m ->
    rep false p k 0 prev (t ++ s) = Some m.
Proof.
  induction t as [|c t IH]; intros prev F Skip K.
  - simpl. unfold prev_after in K. simpl in K.
    destruct s as [|x s]; simpl; [exact K|].
    destruct (p x); [|exact K]. unfold orelse. rewrite K. reflexivity.
  - simpl in F. apply andb_true_iff in F. destruct F as [Pc F].
    cbn [app rep]. rewrite Pc.
    assert (k prev (c :: t ++ s) = None) as K0
        by (apply (Skip [] (c :: t) eq_refl); discriminate).
    rewrite K0. unfold orelse. apply IH.
    + exact F.
    + intros a b E N. rewrite <- (prev_after_cons prev).
      apply Skip; [|exact N]. rewrite E. reflexivity.
    + rewrite <- (prev_after_cons prev). exact K.
Qed.

(** The first character of a repetition that must read one. *)
Lemma rep_first (greedy : bool) (p : char -> bool)
      (k : option char -> pystr -> option mstate) (n : nat)
      (prev : option char) (c : char) (s : pystr) :
  p c = true ->
  rep greedy p k (S n) prev (c :: s) = rep greedy p k n (Some c) s.
Proof. intros H. simpl. rewrite H. reflexivity. Qed.

(** A greedy repetition reads on to the first character outside its
    class, when what follows matches there. *)
Lemma rep_greedy_all (p : char -> bool)
      (k : option char -> pystr -> option mstate) (s : pystr) (m : mstate) :
  forall (t : pystr) (prev : option char),
    forallb p t = true ->
    k (prev_after prev t) s = Some m ->
    match s with [] => True | x :: _ => p x = false end ->
    rep true p k 0 prev (t ++ s) = Some m.
Proof.
  induction t as [|c t IH]; intros prev F K Stop.
  - simpl. unfold prev_after in K. simpl in K.
    destruct s as [|x s]; simpl; [exact K|]. rewrite Stop. exact K.
  - simpl in F. apply andb_true_iff in F. destruct F as [Pc F].
    cbn [app rep]. rewrite Pc.
    rewrite (IH (Some c) F); [reflexivity | | exact Stop].
    rewrite <- (prev_after_cons prev). exact K.
Qed.

(** The text of the group, from the lengths. *)
Lemma firstn_consumed (t s : pystr) :
  firstn (List.length (t ++ s) - List.length s) (t ++ s) = t.
Proof.
  rewrite length_app.
  replace (List.length t + List.length s - List.length s)
    with (List.length t + 0) by lia.
  rewrite firstn_app_2. simpl. apply app_nil_r.
Qed.


(** ** Literal text *)

Lemma rmatch_lits_app (w : pystr) :
  forall (prev : option char) (s : pystr) (g : option pystr)
         (k : option char -> pystr -> option pystr -> option mstate),
    rmatch (lits w) prev (w ++ s) g k = k (prev_after prev w) s g.
Proof.
  induction w as [|c w IH]; intros prev s g k; [reflexivity|].
  destruct w as [|c' w'].
  - cbn. rewrite N.eqb_refl. reflexivity.
  - change (lits (c :: c' :: w')) with (Seq (lit c) (lits (c' :: w'))).
    change ((c :: c' :: w') ++ s) with (c :: (c' :: w') ++ s).
    cbn [rmatch lit]. rewrite N.eqb_refl.
    rewrite IH. rewrite (prev_after_cons prev). reflexivity.
Qed.

(** ** The [FILE:] pattern *)

(** At a marker, the pattern reads the rest of the line as the name. *)
Lemma file_re_at_marker (prev : option char) (name rest : pystr) :
  name <> [] -> has_char NL name = false ->
  match_here file_re prev (str "FILE: " ++ name ++ NL :: rest)
  = Some {| m_prev := Some NL; m_rest := rest; m_group := Some name |}.
Proof.
  intros N H. destruct name as [|c name]; [contradiction|].
  assert (forallb not_newline (c :: name) = true) as F.
  { apply forallb_forall. intros x I. unfold not_newline.
    apply negb_true_iff. apply N.eqb_neq. intros ->.
    apply has_char_false in H. contradiction. }
  unfold match_here, file_re. cbn [seq_of rmatch].
  rewrite rmatch_lits_app.
  pose proof F as F0. simpl in F0. apply andb_true_iff in F0.
  destruct F0 as [Pc Pn].
  change ((c :: name) ++ NL :: rest) with (c :: name ++ NL :: rest) at 3.
  rewrite rep_first by exact Pc.
  apply rep_lazy_skip.
  - exact Pn.
  - intros a b E Nb. destruct b as [|x b]; [contradiction|].
    assert (not_newline x = true) as Px.
    { rewrite forallb_forall in Pn. apply Pn. rewrite E.
      apply in_or_app. right. left. reflexivity. }
    unfold not_newline in Px. apply negb_true_iff in Px.
    cbn [app rmatch lit]. rewrite N.eqb_sym. rewrite Px. reflexivity.
  - cbn [rmatch lit]. rewrite N.eqb_refl.
    rewrite firstn_consumed. reflexivity.
Qed.

Lemma search_go_here (r : regex) (prev : option char) (s : pystr)
      (m : mstate) :
  match_here r prev s = Some m -> search_go r prev s = Some m.
Proof. intros H. destruct s; simpl; rewrite H; reflexivity. Qed.

Lemma search_go_skip (r : regex) (prev : option char) (c : char)
      (s : pystr) :
  match_here r prev (c :: s) = None ->
  search_go r prev (c :: s) = search_go r (Some c) s.
Proof. intros H. simpl. rewrite H. reflexivity. Qed.

Lemma file_re_search_at_marker (name rest : pystr) :
  name <> [] -> has_char NL name = false ->
  re_search file_re (str "FILE: " ++ name ++ NL :: rest)
  = Some {| m_prev := Some NL; m_rest := rest; m_group := Some name |}.
Proof.
  intros N H. apply search_go_here. apply file_re_at_marker; assumption.
Qed.

Lemma file_re_search_after_newline (name rest : pystr) :
  name <> [] -> has_char NL name = false ->
  re_search file_re (NL :: str "FILE: " ++ name ++ NL :: rest)
  = Some {| m_prev := Some NL; m_rest := rest; m_group := Some name |}.
Proof.
  intros N H. unfold re_search.
  rewrite search_go_skip by reflexivity.
  apply search_go_here. apply file_re_at_marker; assumption.
Qed.

(** * The normalizer: error replies, JSON fields and the score *)

Section NormalizerFacts.
Variable U : unicode_db.
Variable json_loads : pystr -> result json.
Variable float_of_str : pystr -> option float.

Let normalize := Normalizer.parse_analysis_response U json_loads float_of_str.

Lemma list_field_coerce (key : pystr) (d : pydict json) :
  Normalizer.list_field key d = coerce_list (dict_get key d).
Proof.
  unfold Normalizer.list_field, coerce_list.
  destruct (dict_get key d) as [v|]; [destruct v|]; reflexivity.
Qed.

(** What [score_of] does with each outcome of [float]. *)
Lemma score_of_cases (d : pydict json) :
  match dict_get (str "overall_score") d with
  | None | Some JNull => Normalizer.score_of float_of_str d = Ok None
  | Some v =>
      match Normalizer.py_float float_of_str v with
      | Ok f => Normalizer.score_of float_of_str d = Ok (Some f)
      | Raise OverflowError =>
          Normalizer.score_of float_of_str d = Raise OverflowError
      | Raise _ => Normalizer.score_of float_of_str d = Ok None
      end
  end.
Proof.
  unfold Normalizer.score_of.
  destruct (dict_get (str "overall_score") d) as [v|]; [|reflexivity].
  destruct v; try reflexivity; simpl.
  - destruct (float_of_int z) as [f|e] eqn:E; [reflexivity|].
    unfold float_of_int in E.
    destruct (binary_normalize prec emax z 0 false); inversion E; reflexivity.
  - destruct (float_of_str s); reflexivity.
Qed.

(** [float] raises nothing but [ValueError], [TypeError] and
    [OverflowError], the last on an [int] only. *)
Lemma py_float_raises (v : json) (e : exn) :
  Normalizer.py_float float_of_str v = Raise e ->
  e = ValueError \/ e = TypeError \/ (e = OverflowError /\ exists z, v = JInt z).
Proof.
  destruct v; simpl; intros H; try (inversion H; auto; fail).
  - unfold float_of_int in H.
    destruct (binary_normalize prec emax z 0 false); inversion H.
    right; right; split; [reflexivity | exists z; reflexivity].
  - destruct (float_of_str s); inversion H; auto.
Qed.

(** An error reply is answered at once. *)
Lemma error_reply (e : pystr) (alternatives : list Normalizer.alternative) :
  normalize {| Normalizer.resp_error := Some e;
               Normalizer.resp_alternatives := alternatives |}
  = Ok {| Normalizer.quality_issues := [];
          Normalizer.good_practices := [];
          Normalizer.patterns := [];
          Normalizer.anti_patterns := [];
          Normalizer.overall_score := None;
          Normalizer.raw_response := Normalizer.api_error_prefix ++ e;
          Normalizer.error := Some (Normalizer.api_error_prefix ++ e) |}.
Proof. reflexivity. Qed.

(** The reply of a first alternative, once the JSON tiers have run. *)
Lemma normalize_after_tiers (first_alt : Normalizer.alternative)
      (others : list Normalizer.alternative) (parsed_json : json) :
  Normalizer.json_tiers U json_loads (Normalizer.alt_message first_alt)
  = Ok parsed_json ->
  normalize {| Normalizer.resp_error := None;
               Normalizer.resp_alternatives := first_alt :: others |}
  = match parsed_json with
    | JDict d =>
        score <- Normalizer.score_of float_of_str d ;;
        Ok {| Normalizer.quality_issues :=
                Normalizer.list_field (str "quality_issues") d;
              Normalizer.good_practices :=
                Normalizer.list_field (str "good_practices") d;
              Normalizer.patterns := Normalizer.list_field (str "patterns") d;
              Normalizer.anti_patterns :=
                Normalizer.list_field (str "anti_patterns") d;
              Normalizer.overall_score := score;
              Normalizer.raw_response := Normalizer.alt_message first_alt;
              Normalizer.error := None |}
    | _ =>
        Ok {| Normalizer.quality_issues :=
                Normalizer.section_of U (Normalizer.quality_re U)
                  (Normalizer.alt_message first_alt);
              Normalizer.good_practices :=
                Normalizer.section_of U (Normalizer.practices_re U)
                  (Normalizer.alt_message first_alt);
              Normalizer.patterns := [];
              Normalizer.anti_patterns := [];
              Normalizer.overall_score :=
                Normalizer.fallback_score U float_of_str
                  (Normalizer.alt_message first_alt);
              Normalizer.raw_response := Normalizer.alt_message first_alt;
              Normalizer.error := None |}
    end.
Proof.
  intros H. unfold normalize, Normalizer.parse_analysis_response. simpl.
  rewrite H. simpl. destruct parsed_json; reflexivity.
Qed.

(** ** Tier 1 on a reply that is exactly a JSON object *)

Lemma isspace_ascii (c : char) :
  is_ascii c = true -> isspace U c = ascii_isspace c.
Proof. intros H. unfold isspace. rewrite H. reflexivity. Qed.

Lemma strip_braces (inner : pystr) :
  strip U (braces inner) = braces inner.
Proof. apply strip_by_tight; reflexivity. Qed.

Lemma strip_around_braces (ws1 ws2 inner : pystr) :
  blank U ws1 -> blank U ws2 ->
  strip U (ws1 ++ braces inner ++ ws2) = braces inner.
Proof.
  intros H1 H2. unfold strip. rewrite strip_by_around by assumption.
  apply strip_braces.
Qed.

Lemma firstn_drop_suffix (a b : pystr) :
  firstn (List.length (a ++ b) - List.length b) (a ++ b) = a.
Proof.
  rewrite length_app.
  replace (List.length a + List.length b - List.length b)
    with (List.length a + 0) by lia.
  rewrite firstn_app_2. simpl. apply app_nil_r.
Qed.

Lemma clean_message_wraps (inner message : pystr) :
  wraps U (braces inner) message ->
  Normalizer.clean_message U message = braces inner.
Proof.
  intros W. unfold Normalizer.clean_message.
  destruct W as [ws1 ws2 H1 H2 | ws1 ws2 ws3 ws4 H1 H2 H3 H4 | ws1 ws2 ws3 H1 H2 H3].
  - rewrite strip_around_braces by assumption. reflexivity.
  - set (core := ws2 ++ braces inner ++ ws3).
    assert (strip U (ws1 ++ Normalizer.fence_open ++ ws2 ++ braces inner
                     ++ ws3 ++ Normalizer.fence_close ++ ws4)
            = Normalizer.fence_open ++ core ++ Normalizer.fence_close) as E.
    { replace (ws1 ++ Normalizer.fence_open ++ ws2 ++ braces inner ++ ws3
               ++ Normalizer.fence_close ++ ws4)
        with (ws1 ++ (Normalizer.fence_open ++ core
                      ++ Normalizer.fence_close) ++ ws4)
        by (unfold core; rewrite <- !app_assoc; reflexivity).
      unfold strip. rewrite strip_by_around by assumption.
      replace (Normalizer.fence_open ++ core ++ Normalizer.fence_close)
        with (chr "`" :: (skipn 1 Normalizer.fence_open ++ core
                          ++ [chr "`"; chr "`"]) ++ [chr "`"]).
      - apply strip_by_tight; reflexivity.
      - unfold Normalizer.fence_open, Normalizer.fence_close. simpl.
        rewrite <- !app_assoc. reflexivity. }
    rewrite E. rewrite startswith_app.
    change (skipn 7 (Normalizer.fence_open ++ core ++ Normalizer.fence_close))
      with (core ++ Normalizer.fence_close).
    rewrite endswith_app.
    change 3 with (List.length Normalizer.fence_close).
    rewrite firstn_drop_suffix.
    unfold core. apply strip_around_braces; assumption.
  - assert (strip U (ws1 ++ Normalizer.fence_open ++ ws2 ++ braces inner
                     ++ ws3)
            = Normalizer.fence_open ++ ws2 ++ braces inner) as E.
    { replace (ws1 ++ Normalizer.fence_open ++ ws2 ++ braces inner ++ ws3)
        with (ws1 ++ (Normalizer.fence_open ++ ws2 ++ braces inner) ++ ws3)
        by (rewrite <- !app_assoc; reflexivity).
      unfold strip. rewrite strip_by_around by assumption.
      replace (Normalizer.fence_open ++ ws2 ++ braces inner)
        with (chr "`" :: (skipn 1 Normalizer.fence_open ++ ws2
                          ++ chr "{" :: inner) ++ [chr "}"]).
      - apply strip_by_tight; reflexivity.
      - unfold Normalizer.fence_open, braces. simpl.
        rewrite <- !app_assoc. reflexivity. }
    rewrite E. rewrite startswith_app.
    change (skipn 7 (Normalizer.fence_open ++ ws2 ++ braces inner))
      with (ws2 ++ braces inner).
    assert (endswith Normalizer.fence_close (ws2 ++ braces inner) = false)
      as E2.
    { unfold braces.
      replace (ws2 ++ chr "{" :: inner ++ [chr "}"])
        with ((ws2 ++ chr "{" :: inner) ++ [chr "}"])
        by (rewrite <- app_assoc; reflexivity).
      unfold endswith. rewrite rev_app_distr. reflexivity. }
    rewrite E2.
    replace (ws2 ++ braces inner) with (ws2 ++ braces inner ++ [])
      by (rewrite app_nil_r; reflexivity).
    apply strip_around_braces; [assumption | reflexivity].
Qed.

Lemma braces_delimited (inner : pystr) :
  startswith (str "{") (braces inner) && endswith (str "}") (braces inner)
  = true.
Proof.
  unfold braces. apply andb_true_iff. split.
  - reflexivity.
  - change (chr "{" :: inner ++ [chr "}"])
      with ((chr "{" :: inner) ++ str "}").
    apply endswith_app.
Qed.

(** Tier 1 reads the object, and tier 2 is not tried. *)
Lemma json_tiers_wraps (inner message : pystr) (d : pydict json) :
  wraps U (braces inner) message ->
  json_loads (braces inner) = Ok (JDict d) ->
  Normalizer.json_tiers U json_loads message = Ok (JDict d).
Proof.
  intros W L. unfold Normalizer.json_tiers, Normalizer.direct_json.
  rewrite (clean_message_wraps inner message W).
  rewrite braces_delimited. unfold Normalizer.loads_or_none.
  rewrite L. reflexivity.
Qed.

(** The fields of a reply that is exactly a JSON object, when [float]
    does not overflow on its score. *)
Lemma json_object_reply (first_alt : Normalizer.alternative)
      (others : list Normalizer.alternative) (inner : pystr)
      (d : pydict json) :
  wraps U (braces inner) (Normalizer.alt_message first_alt) ->
  json_loads (braces inner) = Ok (JDict d) ->
  (forall z, dict_get (str "overall_score") d = Some (JInt z) ->
             exists f, float_of_int z = Ok f) ->
  normalize {| Normalizer.resp_error := None;
               Normalizer.resp_alternatives := first_alt :: others |}
  = Ok (json_result float_of_str d (Normalizer.alt_message first_alt)).
Proof.
  intros W L NoOverflow.
  rewrite (normalize_after_tiers first_alt others (JDict d))
    by (eapply json_tiers_wraps; eassumption).
  unfold json_result. rewrite !list_field_coerce.
  pose proof (score_of_cases d) as S.
  unfold coerce_score.
  destruct (dict_get (str "overall_score") d) as [v|].
  - destruct v; simpl in S |- *; try (rewrite S; reflexivity).
    + destruct (NoOverflow z eq_refl) as [f Hf].
      rewrite Hf in S |- *. rewrite S. reflexivity.
    + destruct (float_of_str s); rewrite S; reflexivity.
  - rewrite S. reflexivity.
Qed.

End NormalizerFacts.

(** * The JSON tiers and the section patterns on prose *)

(** ** Runs of consecutive characters *)

Lemma substring_refl (s : pystr) : substring s s.
Proof. exists [], []. rewrite app_nil_r. reflexivity. Qed.

Lemma substring_trans (a b c : pystr) :
  substring a b -> substring b c -> substring a c.
Proof.
  intros [x [y E1]] [x' [y' E2]]. subst.
  exists (x' ++ x), (y ++ y'). rewrite <- !app_assoc. reflexivity.
Qed.

Lemma substring_skipn (n : nat) (s : pystr) : substring (skipn n s) s.
Proof.
  exists (firstn n s), []. rewrite app_nil_r. symmetry.
  apply firstn_skipn.
Qed.

Lemma substring_firstn (n : nat) (s : pystr) : substring (firstn n s) s.
Proof.
  exists [], (skipn n s). symmetry. apply firstn_skipn.
Qed.

Lemma dropwhile_suffix (f : char -> bool) (s : pystr) :
  exists a, s = a ++ dropwhile f s.
Proof.
  induction s as [|c s [a IH]]; [exists []; reflexivity|].
  simpl. destruct (f c).
  - exists (c :: a). simpl. rewrite <- IH. reflexivity.
  - exists []. reflexivity.
Qed.

Lemma substring_strip_by (f : char -> bool) (s : pystr) :
  substring (strip_by f s) s.
Proof.
  unfold strip_by, lstrip_by, rstrip_by.
  destruct (dropwhile_suffix f s) as [a Ea].
  destruct (dropwhile_suffix f (rev (dropwhile f s))) as [b Eb].
  exists a, (rev b).
  rewrite Ea at 1. f_equal.
  rewrite <- (rev_involutive (dropwhile f s)) at 1.
  rewrite Eb at 1. rewrite rev_app_distr. reflexivity.
Qed.

Lemma substring_suffix (pre s t : pystr) :
  substring t s -> substring t (pre ++ s).
Proof.
  intros [a [b E]]. subst. exists (pre ++ a), b.
  rewrite <- app_assoc. reflexivity.
Qed.

(** ** Matches of patterns without a group leave the group alone *)

Lemma rmatch_sound_groupless (r : regex) :
  groupless r = true ->
  forall (prev : option char) (s : pystr) (g : option pystr)
         (k : option char -> pystr -> option pystr -> option mstate)
         (m : mstate),
    rmatch r prev s g k = Some m ->
    exists t s', s = t ++ s' /\ k (prev_after prev t) s' g = Some m.
Proof.
  induction r as [|p|r1 IH1 r2 IH2|r1 IH1 r2 IH2|greedy min p|r IH|r IH| |];
    intros G prev s g k m H; simpl in G, H.
  - exists [], s. auto.
  - destruct s as [|c s]; [discriminate|].
    destruct (p c); [|discriminate]. exists [c], s. auto.
  - apply andb_true_iff in G. destruct G as [G1 G2].
    destruct (IH1 G1 _ _ _ _ _ H) as [t1 [s1 [E1 K1]]].
    destruct (IH2 G2 _ _ _ _ _ K1) as [t2 [s2 [E2 K2]]].
    exists (t1 ++ t2), s2. subst. rewrite <- app_assoc.
    rewrite <- prev_after_app. auto.
  - apply andb_true_iff in G. destruct G as [G1 G2].
    unfold orelse in H. destruct (rmatch r1 prev s g k) eqn:R1.
    + rewrite <- H. apply (IH1 G1) in R1. exact R1.
    + apply (IH2 G2) in H. exact H.
  - destruct (rep_sound _ _ _ _ _ _ _ H) as [t [s' [E [_ [_ K]]]]].
    exists t, s'. auto.
  - discriminate G.
  - destruct (rmatch r prev s g _) as [m'|] eqn:R; [|discriminate].
    destruct (IH G _ _ _ _ _ R) as [t [s' [E K]]].
    inversion K; subst m'. exists [], s. auto.
  - destruct (at_line_start prev); [|discriminate]. exists [], s. auto.
  - destruct s; [|discriminate]. exists [], []. auto.
Qed.

(** A match found by [re.search] begins somewhere in the text. *)
Lemma search_go_sound (r : regex) (s : pystr) :
  forall (prev : option char) (m : mstate),
    search_go r prev s = Some m ->
    exists pre s0 prev0, s = pre ++ s0 /\ match_here r prev0 s0 = Some m.
Proof.
  induction s as [|c s IH]; intros prev m H; simpl in H.
  - destruct (match_here r prev []) eqn:E; [|discriminate].
    inversion H; subst. exists [], [], prev. auto.
  - destruct (match_here r prev (c :: s)) eqn:E.
    + inversion H; subst. exists [], (c :: s), prev. auto.
    + destruct (IH _ _ H) as [pre [s0 [prev0 [Es M]]]].
      exists (c :: pre), s0, prev0. subst. auto.
Qed.

(** ** The JSON tiers on a text without a JSON object *)

Section Tiers.
Variable U : unicode_db.
Variable json_loads : pystr -> result json.

Lemma substring_clean_message (message : pystr) :
  substring (Normalizer.clean_message U message) message.
Proof.
  unfold Normalizer.clean_message, strip.
  pose proof (substring_strip_by (isspace U) message) as S0.
  destruct (startswith Normalizer.fence_open (strip_by (isspace U) message));
    [|exact S0].
  eapply substring_trans; [apply substring_strip_by|].
  eapply substring_trans; [|exact S0].
  destruct (endswith Normalizer.fence_close
              (skipn 7 (strip_by (isspace U) message))).
  - eapply substring_trans; [apply substring_firstn | apply substring_skipn].
  - apply substring_skipn.
Qed.

(** The block that tier 2 finds runs from a brace to a brace. *)
Lemma json_block_group (message : pystr) (m : mstate) :
  re_search (Normalizer.json_block_re U) message = Some m ->
  exists inner, group1 m = braces inner /\ substring (braces inner) message.
Proof.
  intros H. unfold re_search in H.
  destruct (search_go_sound _ _ _ _ H) as [pre [s0 [prev0 [Es M]]]].
  clear H. unfold match_here, Normalizer.json_block_re in M.
  cbn [seq_of rmatch] in M.
  destruct (rmatch_sound_groupless (lits Normalizer.fence_open) eq_refl
              _ _ _ _ _ M) as [t1 [s1 [E1 M1]]]. clear M.
  destruct (rmatch_sound_groupless (ws_star U) eq_refl _ _ _ _ _ M1)
    as [t2 [s2 [E2 M2]]]. clear M1.
  unfold lit at 1 in M2. cbn [rmatch] in M2.
  destruct s2 as [|c s2]; [discriminate M2|].
  destruct (N.eqb_spec (chr "{") c) as [<-|]; [|discriminate M2].
  destruct (rep_sound _ _ _ _ _ _ _ M2) as [inner [s3 [E3 [_ [_ M3]]]]].
  clear M2. unfold lit at 1 in M3. cbn [rmatch] in M3.
  destruct s3 as [|c' s3]; [discriminate M3|].
  destruct (N.eqb_spec (chr "}") c') as [<-|]; [|discriminate M3].
  destruct (rmatch_sound_groupless (ws_star U) eq_refl _ _ _ _ _ M3)
    as [t4 [s4 [E4 M4]]]. clear M3.
  destruct (rmatch_sound_groupless (lits Normalizer.fence_close) eq_refl
              _ _ _ _ _ M4) as [t5 [s5 [E5 M5]]]. clear M4.
  inversion M5; subst m. clear M5.
  exists inner. unfold group1. cbn [m_group].
  assert (chr "{" :: s2 = braces inner ++ s3) as Eb.
  { rewrite E3. unfold braces. cbn [app]. rewrite <- app_assoc.
    reflexivity. }
  split.
  - change (firstn (List.length (chr "{" :: s2) - List.length s3)
                   (chr "{" :: s2) = braces inner).
    rewrite Eb.
    replace (List.length (braces inner ++ s3) - List.length s3)
      with (List.length (braces inner) + 0)
      by (rewrite length_app; lia).
    rewrite firstn_app_2. simpl firstn. rewrite app_nil_r. reflexivity.
  - exists (pre ++ t1 ++ t2), s3. rewrite Es, E1, E2, Eb.
    rewrite <- !app_assoc. reflexivity.
Qed.

(** Without a JSON object in the text both JSON tiers come back empty. *)
Lemma json_tiers_without_json (message : pystr) :
  no_json_object json_loads message ->
  Normalizer.json_tiers U json_loads message = Ok JNull.
Proof.
  intros NJ. unfold Normalizer.json_tiers.
  assert (Normalizer.direct_json U json_loads message = Ok JNull) as D.
  { unfold Normalizer.direct_json.
    destruct (startswith (str "{") (Normalizer.clean_message U message)
              && endswith (str "}") (Normalizer.clean_message U message))
      eqn:B; [|reflexivity].
    apply andb_true_iff in B. destruct B as [B1 B2].
    unfold Normalizer.loads_or_none.
    rewrite (NJ _ (substring_clean_message message) B1 B2). reflexivity. }
  rewrite D. cbn [bind]. unfold Normalizer.embedded_json. cbn [is_none].
  destruct (re_search (Normalizer.json_block_re U) message) as [m|] eqn:S;
    [|reflexivity].
  destruct (json_block_group message m S) as [inner [G Sub]].
  unfold Normalizer.loads_or_none. rewrite G.
  rewrite (NJ _ Sub); [reflexivity | reflexivity |].
  unfold braces.
  change (chr "{" :: inner ++ [chr "}"]) with ((chr "{" :: inner) ++ str "}").
  apply endswith_app.
Qed.

(** A text without a brace holds no JSON object. *)
Lemma braceless_no_json (message : pystr) :
  has_char (chr "{") message = false ->
  no_json_object json_loads message.
Proof.
  intros H t [a [b E]] S _. exfalso.
  apply has_char_false in H. apply H. subst message.
  apply in_or_app. right. apply in_or_app. left.
  destruct t as [|c t]; [discriminate S|].
  change (str "{") with [chr "{"] in S. rewrite startswith_cons in S.
  apply andb_true_iff in S. destruct S as [S _]. apply N.eqb_eq in S.
  left. symmetry. exact S.
Qed.

End Tiers.

(** ** Where the section patterns can begin *)

Section Sections.
Variable U : unicode_db.

Lemma caseless_refl (c : char) : caseless U c c = true.
Proof.
  unfold caseless. destruct (ascii_isalpha c) eqn:A.
  - assert (is_ascii c = true) as I.
    { unfold ascii_isalpha, between in A. unfold is_ascii.
      apply N.ltb_lt.
      apply orb_true_iff in A.
      destruct A as [A|A]; apply andb_true_iff in A; destruct A as [_ A];
        apply N.leb_le in A; lia. }
    rewrite I. apply N.eqb_refl.
  - apply N.eqb_refl.
Qed.

Lemma caseless_exact (p c : char) :
  ascii_isalpha p = false -> caseless U p c = true -> c = p.
Proof.
  intros A H. unfold caseless in H. rewrite A in H.
  apply N.eqb_eq in H. exact H.
Qed.

(** A literal under [re.IGNORECASE] reads its own text. *)
Lemma rmatch_lits_i_app (w : pystr) :
  forall (prev : option char) (s : pystr) (g : option pystr)
         (k : option char -> pystr -> option pystr -> option mstate),
    rmatch (lits_i U w) prev (w ++ s) g k = k (prev_after prev w) s g.
Proof.
  induction w as [|c w IH]; intros prev s g k; [reflexivity|].
  destruct w as [|c' w'].
  - cbn [lits_i map seq_of app]. unfold lit_i. cbn [rmatch].
    rewrite caseless_refl. reflexivity.
  - change (lits_i U (c :: c' :: w'))
      with (Seq (lit_i U c) (lits_i U (c' :: w'))).
    change ((c :: c' :: w') ++ s) with (c :: (c' :: w') ++ s).
    unfold lit_i at 1. cbn [rmatch]. rewrite caseless_refl.
    rewrite IH. rewrite (prev_after_cons prev). reflexivity.
Qed.

(** A pattern that begins with a digit and a full stop matches only where
    the text has them. *)
Lemma numbered_start (d : char) (rest : regex) (prev : option char)
      (s : pystr) (g : option pystr)
      (k : option char -> pystr -> option pystr -> option mstate)
      (m : mstate) :
  ascii_isalpha d = false ->
  rmatch (Seq (lits_i U [d; chr "."]) rest) prev s g k = Some m ->
  startswith [d; chr "."] s = true.
Proof.
  intros A H.
  change (lits_i U [d; chr "."]) with (Seq (lit_i U d) (lit_i U (chr ".")))
    in H.
  unfold lit_i in H. cbn [rmatch] in H.
  destruct s as [|a s]; [discriminate H|].
  destruct (caseless U d a) eqn:Ca; [|discriminate H].
  destruct s as [|b s]; [discriminate H|].
  destruct (caseless U (chr ".") b) eqn:Cb; [|discriminate H].
  apply (caseless_exact d a A) in Ca.
  apply (caseless_exact (chr ".") b eq_refl) in Cb. subst.
  cbn [startswith]. rewrite !N.eqb_refl. reflexivity.
Qed.

(** A match found by [re.search] begins at a place where the text could
    begin a match. *)
Lemma search_go_start (r : regex) (w : pystr) :
  (forall prev s m, match_here r prev s = Some m -> startswith w s = true) ->
  forall s prev, contains w s = false -> search_go r prev s = None.
Proof.
  intros Start. induction s as [|c s IH]; intros prev C.
  - simpl. destruct (match_here r prev []) eqn:E; [|reflexivity].
    apply Start in E. simpl in C. rewrite E in C. discriminate C.
  - cbn [contains] in C. apply orb_false_iff in C. destruct C as [C1 C2].
    cbn [search_go]. destruct (match_here r prev (c :: s)) eqn:E.
    + apply Start in E. rewrite E in C1. discriminate C1.
    + apply IH. exact C2.
Qed.

Lemma quality_re_start (prev : option char) (s : pystr) (m : mstate) :
  match_here (Normalizer.quality_re U) prev s = Some m ->
  startswith (str "1.") s = true.
Proof.
  unfold match_here, Normalizer.quality_re. cbn [seq_of].
  apply numbered_start. reflexivity.
Qed.

Lemma practices_re_start (prev : option char) (s : pystr) (m : mstate) :
  match_here (Normalizer.practices_re U) prev s = Some m ->
  startswith (str "2.") s = true.
Proof.
  unfold match_here, Normalizer.practices_re. cbn [seq_of].
  apply numbered_start. reflexivity.
Qed.

Lemma score_re_start (prev : option char) (s : pystr) (m : mstate) :
  match_here (Normalizer.score_re U) prev s = Some m ->
  startswith (str "3.") s = true.
Proof.
  unfold match_here, Normalizer.score_re. cbn [seq_of].
  apply numbered_start. reflexivity.
Qed.

End Sections.

(** * The regex tier on the line layout *)

(** A text without a newline that does not open a line does not open the
    line and what follows it either. *)
Lemma startswith_app_newline (w : pystr) :
  has_char NL w = false ->
  forall b l, startswith w b = false -> startswith w (b ++ NL :: l) = false.
Proof.
  induction w as [|y w IH]; intros H b l S; [discriminate S|].
  unfold has_char in H. cbn [existsb] in H.
  apply orb_false_iff in H. destruct H as [Hy Hw].
  destruct b as [|x b]; cbn [app startswith].
  - rewrite N.eqb_sym, Hy. reflexivity.
  - cbn [startswith] in S. destruct (N.eqb y x); [|reflexivity].
    cbn [andb] in *. apply (IH Hw). exact S.
Qed.


Section Steps.
Variable U : unicode_db.

Lemma quality_re_shape :
  Normalizer.quality_re U
  = section_re U (str "1") (str "Code quality issues") (str "2").
Proof. reflexivity. Qed.

Lemma practices_re_shape :
  Normalizer.practices_re U
  = section_re U (str "2") (str "Good practices") (str "3").
Proof. reflexivity. Qed.

(** ** One step of the matcher *)

Lemma ws_star_none (prev : option char) (c : char) (s : pystr)
      (g : option pystr)
      (k : option char -> pystr -> option pystr -> option mstate) :
  isspace U c = false ->
  rmatch (ws_star U) prev (c :: s) g k = k prev (c :: s) g.
Proof. intros H. unfold ws_star. cbn [rmatch rep]. rewrite H. reflexivity. Qed.

Lemma ws_star_one (prev : option char) (w c : char) (s : pystr)
      (g : option pystr)
      (k : option char -> pystr -> option pystr -> option mstate) :
  isspace U w = true -> isspace U c = false ->
  rmatch (ws_star U) prev (w :: c :: s) g k
  = orelse (k (Some w) (c :: s) g) (k prev (w :: c :: s) g).
Proof.
  intros Hw Hc. unfold ws_star. cbn [rmatch rep]. rewrite Hw, Hc.
  reflexivity.
Qed.

Lemma lit_i_take (prev : option char) (c : char) (s : pystr)
      (g : option pystr)
      (k : option char -> pystr -> option pystr -> option mstate) :
  rmatch (lit_i U c) prev (c :: s) g k = k (Some c) s g.
Proof. unfold lit_i. cbn [rmatch]. rewrite caseless_refl. reflexivity. Qed.

Lemma lit_i_fail (prev : option char) (c x : char) (s : pystr)
      (g : option pystr)
      (k : option char -> pystr -> option pystr -> option mstate) :
  caseless U c x = false -> rmatch (lit_i U c) prev (x :: s) g k = None.
Proof. intros H. unfold lit_i. cbn [rmatch]. rewrite H. reflexivity. Qed.

Lemma opt_lit_i_take (prev : option char) (c : char) (s : pystr)
      (g : option pystr)
      (k : option char -> pystr -> option pystr -> option mstate) :
  rmatch (opt (lit_i U c)) prev (c :: s) g k
  = orelse (k (Some c) s g) (k prev (c :: s) g).
Proof. unfold opt. cbn [rmatch]. rewrite lit_i_take. reflexivity. Qed.

Lemma opt_lit_i_skip (prev : option char) (c x : char) (s : pystr)
      (g : option pystr)
      (k : option char -> pystr -> option pystr -> option mstate) :
  caseless U c x = false ->
  rmatch (opt (lit_i U c)) prev (x :: s) g k = k prev (x :: s) g.
Proof.
  intros H. unfold opt. cbn [rmatch]. rewrite lit_i_fail by exact H.
  reflexivity.
Qed.

(** The colon of a header, when it is there and when it is not. *)
Lemma opt_colon (colon : bool) (prev : option char) (s : pystr)
      (g : option pystr)
      (k : option char -> pystr -> option pystr -> option mstate)
      (m : mstate) :
  (forall p, k p s g = Some m) ->
  match s with
  | x :: _ => caseless U (chr ":") x = false
  | [] => True
  end ->
  rmatch (opt (lit_i U (chr ":"))) prev (colon_text colon ++ s) g k
  = Some m.
Proof.
  intros K H. destruct colon; cbn [colon_text app].
  - rewrite opt_lit_i_take. rewrite K. reflexivity.
  - unfold opt. cbn [rmatch]. destruct s as [|x s'].
    + cbn [rmatch lit_i]. apply K.
    + rewrite lit_i_fail by exact H. apply K.
Qed.

Lemma orelse_some {A : Type} (a b : option A) (x : A) :
  a = Some x -> orelse a b = Some x.
Proof. intros ->. reflexivity. Qed.

Lemma lits_i_fail_head (w : pystr) (c x : char) (prev : option char)
      (s : pystr) (g : option pystr)
      (k : option char -> pystr -> option pystr -> option mstate) :
  caseless U c x = false ->
  rmatch (lits_i U (c :: w)) prev (x :: s) g k = None.
Proof.
  intros H. destruct w as [|c' w].
  - cbn [lits_i map seq_of]. apply lit_i_fail. exact H.
  - change (lits_i U (c :: c' :: w))
      with (Seq (lit_i U c) (lits_i U (c' :: w))).
    cbn [rmatch]. apply lit_i_fail. exact H.
Qed.

Lemma lits_i_nil (w : pystr) (c : char) (prev : option char)
      (g : option pystr)
      (k : option char -> pystr -> option pystr -> option mstate) :
  rmatch (lits_i U (c :: w)) prev [] g k = None.
Proof.
  destruct w as [|c' w]; [reflexivity|].
  change (lits_i U (c :: c' :: w))
    with (Seq (lit_i U c) (lits_i U (c' :: w))).
  reflexivity.
Qed.

(** A literal without letters reads its own text only. *)
Lemma lits_i_exact_fail (w : pystr) :
  w <> [] -> forallb (fun c => negb (ascii_isalpha c)) w = true ->
  forall (s : pystr) (prev : option char) (g : option pystr)
         (k : option char -> pystr -> option pystr -> option mstate),
    startswith w s = false -> rmatch (lits_i U w) prev s g k = None.
Proof.
  induction w as [|c w IH]; intros N A s prev g k S; [contradiction|].
  cbn [forallb] in A. apply andb_true_iff in A. destruct A as [Ac A].
  apply negb_true_iff in Ac.
  destruct s as [|x s]; [apply lits_i_nil|].
  destruct (caseless U c x) eqn:C; [|apply lits_i_fail_head; exact C].
  apply (caseless_exact U c x Ac) in C. subst x.
  cbn [startswith] in S. rewrite N.eqb_refl in S. cbn [andb] in S.
  destruct w as [|c' w'].
  - discriminate S.
  - change (lits_i U (c :: c' :: w'))
      with (Seq (lit_i U c) (lits_i U (c' :: w'))).
    cbn [rmatch]. rewrite lit_i_take.
    apply IH; [discriminate | exact A | exact S].
Qed.

Lemma forallb_any_char (s : pystr) : forallb any_char s = true.
Proof. induction s; [reflexivity | exact IHs]. Qed.

Lemma newline_is_space : isspace U NL = true.
Proof. reflexivity. Qed.

Lemma not_space_not_newline (c : char) : isspace U c = false -> c <> NL.
Proof. intros H ->. rewrite newline_is_space in H. discriminate H. Qed.

Lemma caseless_newline (c : char) : c <> NL -> caseless U NL c = false.
Proof.
  intros Nb. unfold caseless.
  cbn [ascii_isalpha between NL N.leb N.compare
       Pos.compare Pos.compare_cont andb orb].
  apply N.eqb_neq. exact Nb.
Qed.

(** ** A section pattern at the head of its section *)

Lemma section_re_at (num title next body tail : pystr) (prev : option char)
      (colon : bool) (t0 n0 : char) (title' next' : pystr) :
  title = t0 :: title' -> isspace U t0 = false ->
  next ++ [chr "."] = n0 :: next' -> isspace U n0 = false ->
  forallb (fun c => negb (ascii_isalpha c)) (next ++ [chr "."]) = true ->
  has_char NL (next ++ [chr "."]) = false ->
  lines_clear U (next ++ [chr "."]) body ->
  match_here (section_re U num title next) prev
    ((num ++ [chr "."]) ++ chr " " :: title ++ colon_text colon
     ++ NL :: body ++ NL :: (next ++ [chr "."]) ++ tail)
  = Some {| m_prev := prev_after (Some NL) body;
            m_rest := NL :: (next ++ [chr "."]) ++ tail;
            m_group := Some body |}.
Proof.
  intros Et St En Sn An Hn [[b0 [body' [Eb [Sb Cb]]]] Lines].
  pose proof (caseless_newline b0 (not_space_not_newline b0 Sb)) as Cnl.
  unfold match_here, section_re. cbn [seq_of rmatch].
  rewrite rmatch_lits_i_app.
  rewrite Et at 1. rewrite <- app_comm_cons.
  rewrite ws_star_one by (reflexivity || exact St).
  apply orelse_some.
  rewrite app_comm_cons. rewrite <- Et.
  rewrite rmatch_lits_i_app.
  apply opt_colon; [intros p0 | reflexivity].
  rewrite Eb at 1. rewrite <- app_comm_cons.
  rewrite ws_star_one by (reflexivity || exact Sb).
  rewrite lit_i_fail by exact Cnl. cbn [orelse].
  rewrite lit_i_take.
  rewrite app_comm_cons. rewrite <- Eb.
  apply rep_lazy_skip.
  - apply forallb_any_char.
  - intros a b E N. destruct b as [|x b]; [contradiction|].
    cbn [app rmatch].
    destruct (N.eq_dec x NL) as [->|Nx].
    + destruct (Lines a b E) as [c [rest [Er [Sc Cc]]]].
      rewrite lit_i_take. rewrite Er at 1. cbn [app].
      rewrite ws_star_none by exact Sc.
      replace (c :: rest ++ NL :: (next ++ [chr "."]) ++ tail)
        with (b ++ NL :: (next ++ [chr "."]) ++ tail)
        by (rewrite Er; reflexivity).
      rewrite lits_i_exact_fail.
      * reflexivity.
      * rewrite En. discriminate.
      * exact An.
      * apply startswith_app_newline; [exact Hn | exact Cc].
    + rewrite lit_i_fail; [reflexivity|].
      apply caseless_newline. exact Nx.
  - cbn [rmatch]. rewrite lit_i_take.
    rewrite En at 1. rewrite <- app_comm_cons.
    rewrite ws_star_none by exact Sn.
    rewrite app_comm_cons. rewrite <- En.
    rewrite rmatch_lits_i_app. cbn [orelse m_group].
    rewrite firstn_consumed. reflexivity.
Qed.

End Steps.

(** ** Searching past a prefix *)

Lemma search_go_skip_prefix (r : regex) (s : pystr) :
  forall (pre : pystr) (prev : option char),
    (forall a b, pre = a ++ b -> b <> [] ->
                 forall prev', match_here r prev' (b ++ s) = None) ->
    search_go r prev (pre ++ s) = search_go r (prev_after prev pre) s.
Proof.
  induction pre as [|c pre IH]; intros prev Skip; [reflexivity|].
  cbn [app]. rewrite search_go_skip.
  - rewrite IH.
    + rewrite (prev_after_cons prev). reflexivity.
    + intros a b E N. apply (Skip (c :: a) b); [|exact N].
      rewrite E. reflexivity.
  - apply (Skip [] (c :: pre) eq_refl). discriminate.
Qed.

(** ** The score pattern at the head of the score line *)

Section Score.
Variable U : unicode_db.

Lemma ascii_digit_classes (c : char) :
  ascii_isdigit c = true -> isspace U c = false /\ isdecimal U c = true.
Proof.
  intros D. unfold ascii_isdigit, between in D.
  apply andb_true_iff in D. destruct D as [D1 D2].
  apply N.leb_le in D1. apply N.leb_le in D2.
  assert (is_ascii c = true) as A by (apply N.ltb_lt; lia).
  unfold isspace, isdecimal. rewrite A. split.
  - unfold ascii_isspace, between.
    replace (9 <=? c)%N with true by (symmetry; apply N.leb_le; lia).
    replace (c <=? 13)%N with false by (symmetry; apply N.leb_gt; lia).
    replace (c <=? 31)%N with false by (symmetry; apply N.leb_gt; lia).
    replace (c =? 32)%N with false by (symmetry; apply N.eqb_neq; lia).
    replace (28 <=? c)%N with true by (symmetry; apply N.leb_le; lia).
    rewrite andb_false_r. reflexivity || (cbn [andb orb]; reflexivity).
  - unfold ascii_isdigit, between. apply andb_true_iff.
    split; apply N.leb_le; assumption.
Qed.

Lemma ws_star_all (ws s : pystr) (prev : option char) (g : option pystr)
      (k : option char -> pystr -> option pystr -> option mstate)
      (m : mstate) :
  forallb (isspace U) ws = true ->
  match s with [] => True | x :: _ => isspace U x = false end ->
  k (prev_after prev ws) s g = Some m ->
  rmatch (ws_star U) prev (ws ++ s) g k = Some m.
Proof.
  intros F Stop K. unfold ws_star. cbn [rmatch].
  apply rep_greedy_all; assumption.
Qed.

(** [\d+] reads a run of digits to its end. *)
Lemma digits_all (ds s : pystr) (prev : option char) (g : option pystr)
      (k : option char -> pystr -> option pystr -> option mstate)
      (m : mstate) :
  ds <> [] -> forallb ascii_isdigit ds = true ->
  match s with [] => True | x :: _ => isdecimal U x = false end ->
  k (prev_after prev ds) s g = Some m ->
  rmatch (digits U) prev (ds ++ s) g k = Some m.
Proof.
  intros N F Stop K. destruct ds as [|d ds]; [contradiction|].
  cbn [forallb] in F. apply andb_true_iff in F. destruct F as [Fd F].
  unfold digits. cbn [rmatch app].
  rewrite rep_first by (apply ascii_digit_classes; exact Fd).
  apply rep_greedy_all.
  - apply forallb_forall. intros x I. apply ascii_digit_classes.
    rewrite forallb_forall in F. apply F. exact I.
  - rewrite <- (prev_after_cons prev). exact K.
  - exact Stop.
Qed.

Lemma score_re_at (prev : option char) (colon : bool)
      (whole frac : pystr) :
  whole <> [] -> forallb ascii_isdigit whole = true ->
  forallb ascii_isdigit frac = true ->
  match_here (Normalizer.score_re U) prev
    (str "3." ++ chr " " :: str "Overall quality score"
     ++ colon_text colon ++ chr " " :: decimal_text whole frac
     ++ [chr "/"; chr "1"; chr "0"])
  = Some {| m_prev := Some (chr "0"); m_rest := [];
            m_group := Some (decimal_text whole frac) |}.
Proof.
  intros N Fw Ff.
  assert (exists w0 whole', whole = w0 :: whole'
                            /\ isspace U w0 = false) as [w0 [whole' [Ew Sw]]].
  { destruct whole as [|w0 whole']; [contradiction|].
    exists w0, whole'. split; [reflexivity|].
    cbn [forallb] in Fw. apply andb_true_iff in Fw.
    apply ascii_digit_classes. apply Fw. }
  set (T := [chr "/"; chr "1"; chr "0"]).
  set (score := decimal_text whole frac).
  unfold match_here, Normalizer.score_re. cbn [seq_of rmatch].
  rewrite rmatch_lits_i_app.
  apply (ws_star_all [chr " "]); [reflexivity | reflexivity |].
  rewrite rmatch_lits_i_app.
  apply opt_colon; [intros p0 | reflexivity].
  apply (ws_star_all [chr " "]); [reflexivity | |].
  { unfold score, decimal_text. rewrite Ew. cbn [app]. exact Sw. }
  (* the lazy run before the number is empty *)
  apply (rep_lazy_skip any_char _ (score ++ T) _ []); [reflexivity | |].
  { intros a b E Nb. destruct a; destruct b; try discriminate E.
    contradiction. }
  cbv beta. cbn [rmatch].
  (* the number: its digits, then the fraction when there is one *)
  assert (forall (k : option char -> pystr -> option pystr -> option mstate)
                 (p : option char) m,
            (forall p', k p' T None = Some m) ->
            rmatch (digits U) p (score ++ T) None
              (fun prev' s' g' =>
                 rmatch (opt (Seq (lit_i U (chr ".")) (digits U))) prev' s' g' k)
            = Some m) as Number.
  { intros k p m K. unfold score, decimal_text. rewrite <- app_assoc.
    apply digits_all; [exact N | exact Fw | destruct frac; reflexivity |].
    unfold opt. cbn [rmatch].
    destruct frac as [|f0 frac'] eqn:Efrac.
    - cbn [Normalizer.is_nil app]. unfold T at 1.
      rewrite lit_i_fail by reflexivity. cbn [orelse]. fold T. apply K.
    - rewrite <- Efrac in *.
      assert (Normalizer.is_nil frac = false) as Z
          by (rewrite Efrac; reflexivity).
      rewrite Z. cbn [app]. rewrite lit_i_take. apply orelse_some.
      apply digits_all;
        [rewrite Efrac; discriminate | exact Ff | reflexivity | apply K]. }
  apply Number. intros p'.
  unfold T at 1. rewrite ws_star_none by reflexivity.
  rewrite lit_i_take. cbn [orelse].
  rewrite ws_star_none by reflexivity.
  change [chr "1"; chr "0"] with (str "10" ++ []).
  rewrite rmatch_lits_i_app.
  rewrite firstn_consumed. reflexivity.
Qed.

End Score.


(** ** Lines *)

Lemma no_newline_inside (x a b : pystr) :
  has_char NL x = false -> x <> a ++ NL :: b.
Proof.
  intros H E. apply has_char_false in H. apply H. rewrite E.
  apply in_or_app. right. left. reflexivity.
Qed.

(** Where the first newline of a text can be. *)
Lemma first_newline (x y a b : pystr) :
  has_char NL x = false ->
  x ++ NL :: y = a ++ NL :: b ->
  (a = x /\ b = y) \/ exists a', a = x ++ NL :: a' /\ y = a' ++ NL :: b.
Proof.
  revert a. induction x as [|c x IH]; intros a H E.
  - destruct a as [|c' a].
    + left. inversion E. auto.
    + right. inversion E. subst. exists a. auto.
  - unfold has_char in H. cbn [existsb] in H. apply orb_false_iff in H.
    destruct H as [H1 H2]. apply N.eqb_neq in H1.
    destruct a as [|c' a].
    + inversion E. congruence.
    + inversion E. subst c'.
      destruct (IH a H2 H3) as [[Ea Eb]|[a' [Ea Ey]]].
      * left. subst. auto.
      * right. exists a'. subst. auto.
Qed.

Lemma join_cons (x y : pystr) (rest : list pystr) :
  join [NL] (x :: y :: rest) = x ++ NL :: join [NL] (y :: rest).
Proof. reflexivity. Qed.

Lemma item_lines_cons (line line' : mark * pystr)
      (lines : list (mark * pystr)) :
  item_lines (line :: line' :: lines)
  = item_line line ++ NL :: item_lines (line' :: lines).
Proof. reflexivity. Qed.

Lemma item_lines_one (line : mark * pystr) :
  item_lines [line] = item_line line.
Proof. reflexivity. Qed.

(** The lines of a text that opens clear of [w] line by line. *)
Lemma lines_clear_join (U : unicode_db) (w : pystr) (lines : list pystr) :
  has_char NL w = false -> lines <> [] ->
  Forall (fun line => has_char NL line = false /\ opens_clear U w line)
         lines ->
  lines_clear U w (join [NL] lines).
Proof.
  intros Hw.
  assert (forall line rest, opens_clear U w line ->
                            opens_clear U w (line ++ NL :: rest)) as Ext.
  { intros line rest [c [t [E [S C]]]].
    exists c, (t ++ NL :: rest). split; [rewrite E; reflexivity|].
    split; [exact S|]. apply startswith_app_newline; assumption. }
  induction lines as [|line lines IH]; intros N F; [contradiction|].
  inversion F as [|? ? [Hl Ol] Fl]; subst.
  destruct lines as [|line' lines'].
  - cbn [join]. split; [exact Ol|].
    intros a b E. exfalso. exact (no_newline_inside _ a b Hl E).
  - rewrite join_cons.
    destruct (IH ltac:(discriminate) Fl) as [O' Lines].
    split; [apply Ext; exact Ol|].
    intros a b E.
    destruct (first_newline _ _ a b Hl E) as [[_ Eb]|[a' [_ Ey]]].
    + rewrite Eb. exact O'.
    + apply (Lines a' b Ey).
Qed.

Section Lines.
Variable U : unicode_db.

(** What [readable_item] says. *)
Lemma readable_item_inv (item : pystr) :
  readable_item U item = true ->
  item <> [] /\ strip U item = item /\ has_char NL item = false
  /\ calm U (chr "2") (chr "G") item = true
  /\ calm U (chr "3") (chr "O") item = true.
Proof.
  unfold readable_item, trimmed. intros H.
  repeat (apply andb_true_iff in H; destruct H as [H ?]).
  repeat match goal with
         | X : negb _ = true |- _ => apply negb_true_iff in X
         | X : str_eqb _ _ = true |- _ => apply str_eqb_eq in X
         end.
  repeat split; try assumption.
  intros ->. discriminate.
Qed.

Lemma readable_item_ends (item : pystr) :
  readable_item U item = true ->
  (exists c t, item = c :: t /\ isspace U c = false)
  /\ (exists b d, item = b ++ [d] /\ isspace U d = false /\ d <> NL).
Proof.
  intros P. destruct (readable_item_inv item P) as [N [T [L _]]].
  destruct (strip_by_fixed_ends (isspace U) item T N)
    as [c [t [E1 [F1 [b [d [E2 F2]]]]]]].
  split; [exists c, t; auto|].
  exists b, d. repeat split; auto.
  intros ->. apply has_char_false in L. apply L. rewrite E2.
  apply in_or_app. right. left. reflexivity.
Qed.

Lemma readable_line_inv (line : mark * pystr) :
  readable_line U line = true ->
  readable_item U (snd line) = true
  /\ match fst line with
     | Bullet b => bullet_char b = true /\ isspace U b = false
     | Number digits =>
         digits <> [] /\ forallb ascii_isdigit digits = true
         /\ untitled U (snd line) = true
     end.
Proof.
  unfold readable_line. intros H.
  apply andb_true_iff in H. destruct H as [H R]. split; [exact R|].
  destruct (fst line) as [b|digits].
  - apply andb_true_iff in H. destruct H as [H1 H2].
    apply negb_true_iff in H2. auto.
  - apply andb_true_iff in H. destruct H as [H H3].
    apply andb_true_iff in H. destruct H as [H1 H2].
    repeat split; auto.
    intros ->. discriminate H1.
Qed.

Lemma digit_not_newline (c : char) : ascii_isdigit c = true -> c <> NL.
Proof. intros D ->. discriminate D. Qed.

Lemma digits_no_char (z : char) (digits : pystr) :
  ascii_isdigit z = false -> forallb ascii_isdigit digits = true ->
  has_char z digits = false.
Proof.
  intros Z F. induction digits as [|c ds IH]; [reflexivity|].
  cbn [forallb] in F. apply andb_true_iff in F. destruct F as [Fc F].
  unfold has_char. cbn [existsb]. fold (has_char z ds). rewrite (IH F).
  destruct (N.eqb_spec z c) as [<-|]; [|reflexivity].
  rewrite Fc in Z. discriminate Z.
Qed.

(** A bullet is not a digit. *)
Lemma bullet_not_digit (b d : char) :
  bullet_char b = true -> ascii_isdigit d = true -> (d =? b)%N = false.
Proof.
  intros B D. apply N.eqb_neq. intros <-.
  unfold bullet_char in B.
  repeat (apply orb_true_iff in B; destruct B as [B|B]);
    apply N.eqb_eq in B; subst d; discriminate D.
Qed.

(** The mark of a readable line opens with a character that is not white
    space. *)
Lemma mark_head (line : mark * pystr) :
  readable_line U line = true ->
  exists c t, mark_text (fst line) = c :: t /\ isspace U c = false.
Proof.
  intros R. destruct (readable_line_inv line R) as [_ M].
  destruct (fst line) as [b|digits].
  - exists b, []. split; [reflexivity | apply M].
  - destruct M as [N [F _]]. destruct digits as [|c ds]; [contradiction|].
    exists c, (ds ++ [chr "."]). split; [reflexivity|].
    cbn [forallb] in F. apply andb_true_iff in F.
    apply (ascii_digit_classes U). apply F.
Qed.

Lemma item_line_no_newline (line : mark * pystr) :
  readable_line U line = true -> has_char NL (item_line line) = false.
Proof.
  intros R. destruct (readable_line_inv line R) as [Ri M].
  destruct (readable_item_inv _ Ri) as [_ [_ [L _]]].
  unfold item_line. rewrite has_char_app.
  change (chr " " :: snd line) with ([chr " "] ++ snd line).
  rewrite has_char_app, L.
  destruct (fst line) as [b|digits]; cbn [mark_text].
  - destruct M as [_ S].
    unfold has_char. cbn [existsb].
    destruct (N.eqb_spec NL b) as [<-|]; [|reflexivity].
    rewrite newline_is_space in S. discriminate S.
  - destruct M as [_ [F _]]. rewrite has_char_app.
    rewrite (digits_no_char NL digits eq_refl F). reflexivity.
Qed.

(** A readable line that is not numbered [d] does not open with [d] and a
    dot. *)
Lemma item_line_clear (d : char) (line : mark * pystr) :
  ascii_isdigit d = true ->
  readable_line U line = true ->
  fst line <> Number [d] ->
  opens_clear U [d; chr "."] (item_line line).
Proof.
  intros D R Nd.
  destruct (mark_head line R) as [c [t [E S]]].
  exists c, (t ++ chr " " :: snd line).
  split; [unfold item_line; rewrite E; reflexivity|].
  split; [exact S|].
  destruct (readable_line_inv line R) as [_ M].
  unfold item_line.
  destruct (fst line) as [b|digits]; cbn [mark_text app startswith].
  - rewrite (bullet_not_digit b d); [reflexivity | apply M | exact D].
  - destruct M as [N [F _]].
    destruct digits as [|c0 ds]; [contradiction|].
    cbn [app startswith].
    destruct (N.eqb_spec d c0) as [<-|]; [|reflexivity].
    cbn [andb]. destruct ds as [|c1 ds'].
    + contradiction.
    + cbn [app]. cbn [forallb] in F.
      apply andb_true_iff in F. destruct F as [_ F].
      apply andb_true_iff in F. destruct F as [F1 _].
      destruct (N.eqb_spec (chr ".") c1) as [<-|]; [discriminate F1|].
      reflexivity.
Qed.

(** ** The lines of a section *)

Lemma section_lines_cons (d : char) (line : mark * pystr)
      (lines : list (mark * pystr)) :
  fst line <> Number [d] ->
  section_lines d (line :: lines) = line :: section_lines d lines.
Proof.
  intros N. destruct line as [[b|digits] item]; [reflexivity|].
  cbn [section_lines].
  destruct (str_eqb digits [d]) eqn:E; [|reflexivity].
  apply str_eqb_eq in E. subst digits. contradiction.
Qed.

Lemma section_lines_head (d : char) (line : mark * pystr)
      (lines : list (mark * pystr)) :
  section_lines d (line :: lines) <> [] -> fst line <> Number [d].
Proof.
  intros N E. apply N. destruct line as [k item]. cbn [fst] in E.
  subst k. cbn [section_lines]. rewrite str_eqb_refl. reflexivity.
Qed.

Lemma section_lines_clear (d : char) (lines : list (mark * pystr)) :
  ascii_isdigit d = true ->
  forallb (readable_line U) lines = true ->
  Forall (fun line => has_char NL line = false
                      /\ opens_clear U [d; chr "."] line)
         (map item_line (section_lines d lines)).
Proof.
  intros D. induction lines as [|line lines IH]; intros R; [constructor|].
  cbn [forallb] in R. apply andb_true_iff in R. destruct R as [Rl R].
  destruct (section_lines d (line :: lines)) as [|x xs] eqn:E;
    [constructor|].
  assert (fst line <> Number [d]) as Nd
      by (apply (section_lines_head d line lines); rewrite E; discriminate).
  rewrite <- E. rewrite (section_lines_cons d line lines Nd).
  cbn [map]. constructor; [|apply IH; exact R].
  split; [apply item_line_no_newline; exact Rl|].
  apply item_line_clear; assumption.
Qed.

Lemma section_lines_readable (d : char) (lines : list (mark * pystr)) :
  forallb (readable_line U) lines = true ->
  forallb (readable_line U) (section_lines d lines) = true.
Proof.
  induction lines as [|[[b|digits] item] lines IH]; intros R;
    [reflexivity| |];
    cbn [forallb] in R; apply andb_true_iff in R; destruct R as [Rl R].
  - cbn [section_lines forallb]. rewrite Rl, (IH R). reflexivity.
  - cbn [section_lines]. destruct (str_eqb digits [d]); [reflexivity|].
    cbn [forallb]. rewrite Rl, (IH R). reflexivity.
Qed.

(** The text of a list and of the header that follows it, cut where the
    section ends: after the lines of the section comes a newline, the
    digit [d] and a dot. *)
Lemma section_split (d : char) (lines : list (mark * pystr))
      (tail : pystr) :
  section_lines d lines <> [] ->
  exists tail',
    item_lines lines ++ NL :: [d; chr "."] ++ tail
    = item_lines (section_lines d lines) ++ NL :: [d; chr "."] ++ tail'.
Proof.
  induction lines as [|line lines IH]; intros N; [contradiction|].
  pose proof (section_lines_head d line lines N) as Nd.
  rewrite (section_lines_cons d line lines Nd).
  destruct lines as [|line' lines'].
  - exists tail. reflexivity.
  - destruct (section_lines d (line' :: lines')) as [|x xs] eqn:E.
    + (* the next line is numbered [d] *)
      destruct line' as [[b|digits] item]; [discriminate E|].
      cbn [section_lines] in E.
      destruct (str_eqb digits [d]) eqn:Ed; [|discriminate E].
      apply str_eqb_eq in Ed. subst digits.
      rewrite item_lines_cons, item_lines_one.
      exists (chr " " :: item
              ++ match lines' with
                 | [] => []
                 | _ :: _ => NL :: item_lines lines'
                 end
              ++ NL :: [d; chr "."] ++ tail).
      rewrite <- app_assoc. f_equal. cbn [app]. f_equal.
      destruct lines' as [|line'' lines''].
      * unfold item_lines, item_line. cbn [map join fst snd mark_text app].
        rewrite <- ?app_assoc. reflexivity.
      * rewrite item_lines_cons. unfold item_line at 1.
        cbn [fst snd mark_text app]. rewrite <- ?app_assoc. reflexivity.
    + destruct (IH ltac:(discriminate)) as [tail' Et].
      exists tail'. rewrite !item_lines_cons.
      rewrite <- !app_assoc. f_equal. cbn [app]. f_equal.
      exact Et.
Qed.

End Lines.


(** ** [findall] on the lines of a section *)

Lemma findall_go_skip (r : regex) (fuel : nat) (prev : option char)
      (c : char) (s : pystr) :
  match_here r prev (c :: s) = None ->
  findall_go fuel r prev (c :: s) = findall_go fuel r (Some c) s.
Proof.
  intros H. destruct fuel as [|n]; [reflexivity|].
  cbn [findall_go]. rewrite search_go_skip by exact H. reflexivity.
Qed.

(** [findall] goes past a text in which no match begins. *)
Lemma findall_go_skip_prefix (r : regex) (fuel : nat) (s : pystr) :
  forall (pre : pystr) (prev : option char),
    (forall a b, pre = a ++ b -> b <> [] ->
                 match_here r (prev_after prev a) (b ++ s) = None) ->
    findall_go fuel r prev (pre ++ s)
    = findall_go fuel r (prev_after prev pre) s.
Proof.
  induction pre as [|c pre IH]; intros prev Skip; [reflexivity|].
  cbn [app]. rewrite findall_go_skip.
  - rewrite IH.
    + rewrite (prev_after_cons prev). reflexivity.
    + intros a b E N. rewrite <- (prev_after_cons prev).
      apply Skip; [|exact N]. rewrite E. reflexivity.
  - apply (Skip [] (c :: pre) eq_refl). discriminate.
Qed.

Lemma findall_go_end (r : regex) (fuel : nat) (prev : option char) :
  match_here r prev [] = None -> findall_go fuel r prev [] = [].
Proof.
  intros H. destruct fuel as [|n]; [reflexivity|].
  cbn [findall_go search_go]. rewrite H. reflexivity.
Qed.

(** The character before the cursor, within a line. *)
Lemma prev_within_line (prev : option char) (a : pystr) :
  a <> [] -> has_char NL a = false ->
  at_line_start (prev_after prev a) = false.
Proof.
  intros N H. destruct (exists_last N) as [b [d E]]. subst a.
  rewrite prev_after_snoc. cbn [at_line_start].
  apply N.eqb_neq. intros ->.
  apply has_char_false in H. apply H.
  apply in_or_app. right. left. reflexivity.
Qed.

Lemma has_char_prefix (c : char) (a b : pystr) :
  has_char c (a ++ b) = false -> has_char c a = false.
Proof.
  rewrite has_char_app. intros H. apply orb_false_iff in H. apply H.
Qed.

Section Items.
Variable U : unicode_db.

Lemma not_newline_all (item : pystr) :
  has_char NL item = false -> forallb not_newline item = true.
Proof.
  intros H. apply forallb_forall. intros x I. unfold not_newline.
  apply negb_true_iff. apply N.eqb_neq. intros ->.
  apply has_char_false in H. contradiction.
Qed.

Lemma ws_plus_one (prev : option char) (w : char) (s : pystr)
      (g : option pystr)
      (k : option char -> pystr -> option pystr -> option mstate) :
  isspace U w = true ->
  match s with [] => True | x :: _ => isspace U x = false end ->
  rmatch (ws_plus U) prev (w :: s) g k = k (Some w) s g.
Proof.
  intros Hw Hs. unfold ws_plus. cbn [rmatch].
  rewrite rep_first by exact Hw.
  destruct s as [|x s]; [reflexivity|]. cbn [rep]. rewrite Hs. reflexivity.
Qed.

(** The class of the bullet pattern holds the three bullets, and no
    digit. *)
Lemma is_bullet_chars (b : char) :
  bullet_char b = true -> Normalizer.is_bullet b = true.
Proof.
  unfold bullet_char, Normalizer.is_bullet. intros H.
  destruct (b =? chr "-")%N; [reflexivity|].
  destruct (b =? chr "*")%N; [apply orb_true_r|].
  destruct (b =? 8226)%N; [reflexivity | discriminate H].
Qed.

Lemma is_bullet_digit (c : char) :
  ascii_isdigit c = true -> Normalizer.is_bullet c = false.
Proof.
  intros D. unfold Normalizer.is_bullet.
  destruct (N.eqb_spec c (chr "-")) as [->|]; [discriminate D|].
  destruct (N.eqb_spec c 8226) as [->|]; [discriminate D|].
  destruct (N.eqb_spec c (chr "*")) as [->|]; [discriminate D|].
  reflexivity.
Qed.

(** The item after the mark, to the end of the line. *)
Lemma item_tail_at (prev : option char) (item rest : pystr) :
  readable_item U item = true ->
  match rest with [] => True | x :: _ => x = NL end ->
  rmatch (Seq (ws_plus U) (Group (Rep true 0 not_newline))) prev
         (chr " " :: item ++ rest) None
         (fun p' s' g' => Some (Build_mstate p' s' g'))
  = Some {| m_prev := prev_after (Some (chr " ")) item; m_rest := rest;
            m_group := Some item |}.
Proof.
  intros P R.
  destruct (readable_item_inv U item P) as [N [_ [L _]]].
  destruct (readable_item_ends U item P) as [[c [t [E S]]] _].
  cbn [rmatch].
  rewrite ws_plus_one; [|reflexivity|rewrite E; exact S].
  cbn [rmatch].
  apply rep_greedy_all.
  - apply not_newline_all. exact L.
  - rewrite firstn_consumed. reflexivity.
  - destruct rest as [|x rest]; [exact I|]. subst x. reflexivity.
Qed.

(** At the start of a line, the bullet pattern reads the item. *)
Lemma bullet_re_at_line (prev : option char) (b : char)
      (item rest : pystr) :
  at_line_start prev = true ->
  bullet_char b = true -> isspace U b = false ->
  readable_item U item = true ->
  match rest with [] => True | x :: _ => x = NL end ->
  match_here (Normalizer.bullet_re U) prev (b :: chr " " :: item ++ rest)
  = Some {| m_prev := prev_after (Some (chr " ")) item; m_rest := rest;
            m_group := Some item |}.
Proof.
  intros B Cb Sb P R.
  unfold match_here, Normalizer.bullet_re. cbn [seq_of rmatch].
  rewrite B.
  rewrite ws_star_none by exact Sb.
  rewrite (is_bullet_chars b Cb).
  apply (item_tail_at (Some b) item rest P R).
Qed.

Lemma bullet_re_mid_line (prev : option char) (s : pystr) :
  at_line_start prev = false ->
  match_here (Normalizer.bullet_re U) prev s = None.
Proof.
  intros B. unfold match_here, Normalizer.bullet_re. cbn [seq_of rmatch].
  rewrite B. reflexivity.
Qed.

Lemma bullet_re_at_digit (prev : option char) (c : char) (s : pystr) :
  ascii_isdigit c = true ->
  match_here (Normalizer.bullet_re U) prev (c :: s) = None.
Proof.
  intros D. unfold match_here, Normalizer.bullet_re. cbn [seq_of rmatch].
  destruct (at_line_start prev); [|reflexivity].
  rewrite ws_star_none by (apply (ascii_digit_classes U); exact D).
  rewrite (is_bullet_digit c D). reflexivity.
Qed.

(** At the start of a line, the number pattern reads the item. *)
Lemma numbered_re_at_line (prev : option char) (digits item rest : pystr) :
  at_line_start prev = true ->
  digits <> [] -> forallb ascii_isdigit digits = true ->
  readable_item U item = true ->
  match rest with [] => True | x :: _ => x = NL end ->
  match_here (Normalizer.numbered_re U) prev
    ((digits ++ [chr "."]) ++ chr " " :: item ++ rest)
  = Some {| m_prev := prev_after (Some (chr " ")) item; m_rest := rest;
            m_group := Some item |}.
Proof.
  intros B N F P R.
  unfold match_here, Normalizer.numbered_re. cbn [seq_of rmatch].
  rewrite B.
  destruct digits as [|c ds] eqn:Ed; [contradiction|].
  assert (isspace U c = false) as Sc.
  { cbn [forallb] in F. apply andb_true_iff in F.
    apply (ascii_digit_classes U). apply F. }
  rewrite <- app_assoc. rewrite <- app_comm_cons.
  rewrite ws_star_none by exact Sc.
  rewrite app_comm_cons.
  apply digits_all; [discriminate | exact F | reflexivity |].
  unfold lit. cbn [app rmatch]. rewrite N.eqb_refl.
  apply (item_tail_at (Some (chr ".")) item rest P R).
Qed.

Lemma numbered_re_mid_line (prev : option char) (s : pystr) :
  at_line_start prev = false ->
  match_here (Normalizer.numbered_re U) prev s = None.
Proof.
  intros B. unfold match_here, Normalizer.numbered_re. cbn [seq_of rmatch].
  rewrite B. reflexivity.
Qed.

Lemma prev_after_item (p : option char) (item : pystr) :
  readable_item U item = true -> at_line_start (prev_after p item) = false.
Proof.
  intros P. destruct (readable_item_inv U item P) as [N [_ [L _]]].
  apply prev_within_line; assumption.
Qed.

(** The text after a line of a list. *)
Lemma item_lines_rest (line : mark * pystr) (lines : list (mark * pystr)) :
  exists rest,
    item_lines (line :: lines) = item_line line ++ rest
    /\ match lines with
       | [] => rest = []
       | _ :: _ => rest = NL :: item_lines lines
       end.
Proof.
  destruct lines as [|line' lines'].
  - exists []. rewrite item_lines_one, app_nil_r. auto.
  - exists (NL :: item_lines (line' :: lines')).
    rewrite item_lines_cons. auto.
Qed.

(** What [findall] does after a line, with a pattern that begins at the
    start of a line. *)
Lemma findall_after_line (r : regex) (fuel : nat) (prev : option char)
      (lines : list (mark * pystr)) (rest : pystr) :
  (forall p s, at_line_start p = false -> match_here r p s = None) ->
  at_line_start prev = false ->
  match lines with
  | [] => rest = []
  | _ :: _ => rest = NL :: item_lines lines
  end ->
  findall_go fuel r prev rest
  = match lines with
    | [] => []
    | _ :: _ => findall_go fuel r (Some NL) (item_lines lines)
    end.
Proof.
  intros Mid B E. destruct lines as [|line' lines']; subst rest.
  - apply findall_go_end. apply Mid. exact B.
  - apply findall_go_skip. apply Mid. exact B.
Qed.

(** The bullet pattern finds the items of the bulleted lines. *)
Lemma findall_bullets (lines : list (mark * pystr)) :
  forallb (readable_line U) lines = true ->
  forall (fuel : nat) (prev : option char),
    List.length lines <= fuel -> at_line_start prev = true ->
    findall_go fuel (Normalizer.bullet_re U) prev (item_lines lines)
    = map snd (filter (fun line => is_bullet_mark (fst line)) lines).
Proof.
  induction lines as [|line lines IH]; intros R fuel prev Lf B.
  - apply findall_go_end.
    unfold match_here, Normalizer.bullet_re. cbn [seq_of rmatch].
    rewrite B. reflexivity.
  - cbn [forallb] in R. apply andb_true_iff in R. destruct R as [Rl Rs].
    cbn [List.length] in Lf.
    destruct (item_lines_rest line lines) as [rest [E Er]]. rewrite E.
    assert (match rest with [] => True | x :: _ => x = NL end) as Rn
        by (destruct lines; subst rest; [exact I | reflexivity]).
    destruct (readable_line_inv U line Rl) as [Ri M].
    pose proof (item_line_no_newline U line Rl) as Ln.
    cbn [filter].
    destruct line as [[b|digits] item]; cbn [fst snd] in *;
      cbn [is_bullet_mark].
    + (* a bulleted line *)
      destruct fuel as [|n]; [lia|].
      unfold item_line. cbn [fst snd mark_text app findall_go map].
      rewrite (search_go_here _ _ _ _
                 (bullet_re_at_line prev b item rest B (proj1 M) (proj2 M)
                    Ri Rn)).
      unfold group1. cbn [m_group m_prev m_rest]. f_equal.
      rewrite (findall_after_line (Normalizer.bullet_re U) n _ lines rest
                 bullet_re_mid_line (prev_after_item _ item Ri) Er).
      destruct lines as [|line' lines']; [reflexivity|].
      apply IH; [exact Rs | cbn [List.length] in *; lia | reflexivity].
    + (* a numbered line is passed over *)
      destruct M as [Nd [Fd _]].
      rewrite findall_go_skip_prefix.
      * rewrite (findall_after_line (Normalizer.bullet_re U) fuel _ lines
                   rest bullet_re_mid_line).
        -- destruct lines as [|line' lines']; [reflexivity|].
           apply IH; [exact Rs | cbn [List.length] in *; lia | reflexivity].
        -- apply prev_within_line; [|exact Ln].
           unfold item_line. cbn [fst mark_text].
           destruct digits; [contradiction | discriminate].
        -- exact Er.
      * intros a b0 Eab Nb.
        destruct a as [|x a].
        -- cbn [app] in Eab. subst b0.
           unfold item_line. cbn [fst snd mark_text].
           destruct digits as [|c ds]; [contradiction|].
           cbn [app]. apply bullet_re_at_digit.
           cbn [forallb] in Fd. apply andb_true_iff in Fd. apply Fd.
        -- apply bullet_re_mid_line. apply prev_within_line;
             [discriminate|].
           rewrite Eab in Ln. apply (has_char_prefix NL _ _ Ln).
Qed.

(** The number pattern finds the items of numbered lines. *)
Lemma findall_numbers (lines : list (mark * pystr)) :
  forallb (readable_line U) lines = true ->
  forallb (fun line => negb (is_bullet_mark (fst line))) lines = true ->
  forall (fuel : nat) (prev : option char),
    List.length lines <= fuel -> at_line_start prev = true ->
    findall_go fuel (Normalizer.numbered_re U) prev (item_lines lines)
    = map snd lines.
Proof.
  induction lines as [|line lines IH]; intros R A fuel prev Lf B.
  - apply findall_go_end.
    unfold match_here, Normalizer.numbered_re. cbn [seq_of rmatch].
    rewrite B. reflexivity.
  - cbn [forallb] in R, A. apply andb_true_iff in R, A.
    destruct R as [Rl Rs]. destruct A as [Al As].
    cbn [List.length] in Lf.
    destruct (item_lines_rest line lines) as [rest [E Er]]. rewrite E.
    assert (match rest with [] => True | x :: _ => x = NL end) as Rn
        by (destruct lines; subst rest; [exact I | reflexivity]).
    destruct (readable_line_inv U line Rl) as [Ri M].
    destruct line as [[b|digits] item]; cbn [fst snd] in *;
      [discriminate Al|].
    destruct M as [Nd [Fd _]].
    destruct fuel as [|n]; [lia|].
    unfold item_line. cbn [fst snd mark_text findall_go map].
    replace ((digits ++ [chr "."]) ++ chr " " :: item)
      with ((digits ++ [chr "."]) ++ [chr " "] ++ item) by reflexivity.
    rewrite <- !app_assoc.
    replace (digits ++ [chr "."] ++ [chr " "] ++ item ++ rest)
      with ((digits ++ [chr "."]) ++ chr " " :: item ++ rest)
      by (rewrite <- app_assoc; reflexivity).
    rewrite (search_go_here _ _ _ _
               (numbered_re_at_line prev digits item rest B Nd Fd Ri Rn)).
    unfold group1. cbn [m_group m_prev m_rest]. f_equal.
    rewrite (findall_after_line (Normalizer.numbered_re U) n _ lines rest
               numbered_re_mid_line (prev_after_item _ item Ri) Er).
    destruct lines as [|line' lines']; [reflexivity|].
    apply IH; [exact Rs | exact As | cbn [List.length] in *; lia
               | reflexivity].
Qed.

(** The lines have no white space around them. *)
Lemma strip_item_lines (lines : list (mark * pystr)) :
  lines <> [] -> forallb (readable_line U) lines = true ->
  strip U (item_lines lines) = item_lines lines.
Proof.
  intros N R. apply strip_by_ends.
  - destruct lines as [|line lines]; [contradiction|].
    cbn [forallb] in R. apply andb_true_iff in R. destruct R as [Rl _].
    destruct (mark_head U line Rl) as [c [t [E S]]].
    destruct (item_lines_rest line lines) as [rest [El _]].
    exists c, (t ++ chr " " :: snd line ++ rest). split; [|exact S].
    rewrite El. unfold item_line. rewrite E.
    rewrite <- !app_assoc. reflexivity.
  - induction lines as [|line lines IH]; [contradiction|].
    cbn [forallb] in R. apply andb_true_iff in R. destruct R as [Rl Rs].
    destruct lines as [|line' lines'].
    + destruct (readable_line_inv U line Rl) as [Ri _].
      destruct (readable_item_ends U _ Ri) as [_ [b [d [E [S _]]]]].
      rewrite item_lines_one. unfold item_line. rewrite E.
      exists (mark_text (fst line) ++ chr " " :: b), d.
      split; [|exact S]. rewrite <- app_assoc. reflexivity.
    + destruct (IH ltac:(discriminate) Rs) as [b [d [E S]]].
      rewrite item_lines_cons. rewrite E.
      exists (item_line line ++ NL :: b), d. split; [|exact S].
      rewrite <- !app_assoc. reflexivity.
Qed.

Lemma item_lines_length (lines : list (mark * pystr)) :
  List.length lines <= List.length (item_lines lines).
Proof.
  induction lines as [|line lines IH]; [simpl; lia|].
  destruct lines as [|line' lines'].
  - rewrite item_lines_one. unfold item_line. rewrite length_app.
    cbn [List.length]. lia.
  - rewrite item_lines_cons. rewrite length_app.
    cbn [List.length] in *. lia.
Qed.

(** Readable items are kept as they are. *)
Lemma keep_items (lines : list (mark * pystr)) :
  forallb (readable_line U) lines = true ->
  map (fun i => JStr (strip U i))
      (filter (fun i => negb (Normalizer.is_nil (strip U i)))
              (map snd lines))
  = map JStr (map snd lines).
Proof.
  induction lines as [|line lines IH]; intros R; [reflexivity|].
  cbn [forallb] in R. apply andb_true_iff in R. destruct R as [Rl Rs].
  destruct (readable_line_inv U line Rl) as [Ri _].
  destruct (readable_item_inv U _ Ri) as [Nx [Tx _]].
  cbn [map filter]. rewrite Tx.
  destruct (snd line) as [|x0 x'] eqn:Ex; [contradiction|].
  cbn [Normalizer.is_nil negb map]. rewrite Tx. rewrite (IH Rs).
  reflexivity.
Qed.

Lemma filter_readable (f : mark * pystr -> bool)
      (lines : list (mark * pystr)) :
  forallb (readable_line U) lines = true ->
  forallb (readable_line U) (filter f lines) = true.
Proof.
  induction lines as [|line lines IH]; intros R; [reflexivity|].
  cbn [forallb] in R. apply andb_true_iff in R. destruct R as [Rl Rs].
  cbn [filter]. destruct (f line); [|apply IH; exact Rs].
  cbn [forallb]. rewrite Rl, (IH Rs). reflexivity.
Qed.

Lemma filter_none (f : mark * pystr -> bool)
      (lines : list (mark * pystr)) :
  filter f lines = [] -> forallb (fun line => negb (f line)) lines = true.
Proof.
  induction lines as [|line lines IH]; intros E; [reflexivity|].
  cbn [filter] in E. destruct (f line) eqn:F; [discriminate E|].
  cbn [forallb]. rewrite F, (IH E). reflexivity.
Qed.

(** The items of a section of lines. *)
Lemma section_items_lines (lines : list (mark * pystr)) :
  lines <> [] -> forallb (readable_line U) lines = true ->
  Normalizer.section_items U (item_lines lines)
  = map JStr (read_items lines).
Proof.
  intros N R. unfold Normalizer.section_items, read_items.
  rewrite (strip_item_lines lines N R).
  unfold re_findall.
  pose proof (item_lines_length lines) as L.
  rewrite (findall_bullets lines R); [|lia|reflexivity].
  destruct (filter (fun line => is_bullet_mark (fst line)) lines)
    as [|x xs] eqn:F.
  - cbn [map Normalizer.is_nil].
    rewrite (findall_numbers lines R (filter_none _ lines F));
      [|lia|reflexivity].
    apply keep_items. exact R.
  - cbn [Normalizer.is_nil]. rewrite <- F.
    change (map snd (x :: xs)) with (map snd (x :: xs)).
    assert (Normalizer.is_nil
              (map snd (filter (fun line => is_bullet_mark (fst line)) lines))
            = false) as Z by (rewrite F; reflexivity).
    rewrite Z. apply keep_items. apply filter_readable. exact R.
Qed.

End Items.


(** ** Lines in which a header pattern finds nothing *)

Lemma suffix_cases (x y a b : pystr) :
  x ++ y = a ++ b ->
  (exists x1 x2, x = x1 ++ x2 /\ x2 <> [] /\ a = x1 /\ b = x2 ++ y)
  \/ (exists y1, a = x ++ y1 /\ y = y1 ++ b).
Proof.
  revert a. induction x as [|c x IH]; intros a E.
  - right. exists a. auto.
  - destruct a as [|c' a].
    + left. exists [], (c :: x). cbn [app] in *.
      repeat split; auto. discriminate.
    + cbn [app] in E. injection E as Ec E. subst c'.
      destruct (IH a E) as [[x1 [x2 [Ex [N [Ea Eb]]]]]|[y1 [Ea Ey]]].
      * left. exists (c :: x1), x2. subst. auto.
      * right. exists y1. subst. auto.
Qed.

Section Silent.
Variable U : unicode_db.
Variable r : regex.
Variables d t0 : char.
Hypothesis d_digit : ascii_isdigit d = true.
Hypothesis r_start :
  forall prev s m,
    match_here r prev s = Some m -> startswith [d; chr "."] s = true.
Hypothesis r_title :
  forall prev c s,
    isspace U c = false -> caseless U t0 c = false ->
    match_here r prev (d :: chr "." :: c :: s) = None.
Hypothesis r_title_space :
  forall prev c s,
    isspace U c = false -> caseless U t0 c = false ->
    match_here r prev (d :: chr "." :: chr " " :: c :: s) = None.

Lemma no_match_unless (prev : option char) (s : pystr) :
  startswith [d; chr "."] s = false -> match_here r prev s = None.
Proof.
  intros S. destruct (match_here r prev s) as [m|] eqn:M; [|reflexivity].
  rewrite (r_start _ _ _ M) in S. discriminate S.
Qed.

Lemma silent_at_newline (prev : option char) (s : pystr) :
  match_here r prev (NL :: s) = None.
Proof.
  apply no_match_unless. cbn [startswith].
  destruct (N.eqb_spec d NL) as [E|]; [|reflexivity].
  rewrite E in d_digit. discriminate d_digit.
Qed.

Lemma silent_at_end (prev : option char) : match_here r prev [] = None.
Proof. apply no_match_unless. reflexivity. Qed.

(** A calm item. *)
Lemma silent_item (item : pystr) :
  calm U d t0 item = true -> silent r item.
Proof.
  induction item as [|x item IH]; intros C a b prev tail E Nb T.
  - destruct a; destruct b; try discriminate E. contradiction.
  - destruct a as [|x' a].
    + cbn [app] in E. subst b.
      destruct item as [|y z].
      * cbn [app]. apply no_match_unless. cbn [startswith].
        destruct (N.eqb d x); [|reflexivity]. cbn [andb].
        destruct tail as [|t tail']; [reflexivity|]. subst t.
        reflexivity.
      * cbn [calm] in C. apply andb_true_iff in C. destruct C as [C _].
        destruct ((x =? d) && (y =? chr "."))%N eqn:XY.
        -- apply andb_true_iff in XY. destruct XY as [X Y].
           apply N.eqb_eq in X. apply N.eqb_eq in Y. subst x y.
           destruct z as [|c z']; [discriminate C|].
           apply andb_true_iff in C. destruct C as [C1 C2].
           apply negb_true_iff in C1. apply negb_true_iff in C2.
           cbn [app]. apply r_title; assumption.
        -- apply no_match_unless. cbn [app startswith].
           rewrite (N.eqb_sym d x), (N.eqb_sym (chr ".") y).
           destruct (x =? d)%N; [|reflexivity].
           destruct (y =? chr ".")%N; [discriminate XY | reflexivity].
    + cbn [app] in E. injection E as _ E.
      destruct item as [|y z].
      * destruct a; destruct b; try discriminate E. contradiction.
      * apply (IH ltac:(cbn [calm] in C; apply andb_true_iff in C;
                        apply C) a b prev tail E Nb T).
Qed.

(** A line without the digit and the dot. *)
Lemma silent_free (line : pystr) :
  contains [d; chr "."] line = false -> silent r line.
Proof.
  intros C a b prev tail E Nb T. apply no_match_unless.
  destruct b as [|x b']; [contradiction|].
  pose proof (contains_false_suffix [d; chr "."] line a (x :: b') C E) as S.
  cbn [app startswith] in *.
  destruct (N.eqb d x); [|reflexivity]. cbn [andb] in *.
  destruct b' as [|y b'']; [|exact S].
  cbn [app]. destruct tail as [|t tail']; [reflexivity|]. subst t.
  reflexivity.
Qed.

(** A line of a list. *)
Lemma silent_line (line : mark * pystr) :
  readable_line U line = true ->
  calm U d t0 (snd line) = true ->
  (forall c t, snd line = c :: t -> is_bullet_mark (fst line) = false ->
               caseless U t0 c = false) ->
  silent r (item_line line).
Proof.
  intros R C Un a b prev tail E Nb T.
  destruct (readable_line_inv U line R) as [Ri M].
  destruct (readable_item_ends U _ Ri) as [[c [t [Ei Sc]]] _].
  unfold item_line in E.
  destruct (suffix_cases _ _ _ _ E)
    as [[x1 [x2 [Ex [N2 [Ea Eb]]]]]|[y1 [Ea Ey]]].
  - (* the match would begin in the mark *)
    subst b. rewrite <- app_assoc.
    destruct (fst line) as [bc|digits] eqn:Ek; cbn [mark_text] in Ex.
    + destruct x1 as [|? x1'].
      * cbn [app] in Ex. subst x2. apply no_match_unless.
        cbn [app startswith].
        rewrite (bullet_not_digit bc d (proj1 M) d_digit). reflexivity.
      * destruct x1'; destruct x2; try discriminate Ex. contradiction.
    + destruct M as [Nd [Fd _]].
      destruct (app_snoc_split digits (chr ".") x1 x2 Ex N2)
        as [ds2 [E2 Ed]].
      subst x2. rewrite <- app_assoc. cbn [app].
      assert (forallb ascii_isdigit ds2 = true) as F2.
      { rewrite Ed in Fd. rewrite forallb_app in Fd.
        apply andb_true_iff in Fd. apply Fd. }
      destruct ds2 as [|c0 ds2'].
      * apply no_match_unless. cbn [app startswith].
        destruct (N.eqb_spec d (chr ".")) as [Ed'|]; [|reflexivity].
        rewrite Ed' in d_digit. discriminate d_digit.
      * destruct ds2' as [|c1 ds2''].
        -- cbn [app]. destruct (N.eqb_spec d c0) as [<-|Nc].
           ++ rewrite Ei. cbn [app]. apply r_title_space; [exact Sc|].
              apply (Un c t Ei). reflexivity.
           ++ apply no_match_unless. cbn [startswith].
              destruct (N.eqb_spec d c0); [contradiction | reflexivity].
        -- apply no_match_unless. cbn [app startswith].
           destruct (N.eqb d c0); [|reflexivity]. cbn [andb].
           cbn [forallb] in F2. apply andb_true_iff in F2.
           destruct F2 as [_ F2]. apply andb_true_iff in F2.
           destruct F2 as [F1 _].
           destruct (N.eqb_spec (chr ".") c1) as [<-|]; [discriminate F1|].
           reflexivity.
  - (* the match would begin at the space, or in the item *)
    destruct y1 as [|s y1'].
    + cbn [app] in Ey. subst b. apply no_match_unless.
      cbn [app startswith].
      destruct (N.eqb_spec d (chr " ")) as [Ed'|]; [|reflexivity].
      rewrite Ed' in d_digit. discriminate d_digit.
    + cbn [app] in Ey. injection Ey as _ Ey.
      apply (silent_item (snd line) C y1' b prev tail Ey Nb T).
Qed.

(** [re.search] goes past silent lines. *)
Lemma search_past_lines (lines : list pystr) (s : pystr) :
  Forall (silent r) lines ->
  forall prev,
    exists prev',
      search_go r prev (join [NL] lines ++ NL :: s) = search_go r prev' s.
Proof.
  assert (forall line prev rest,
            silent r line ->
            search_go r prev (line ++ NL :: rest)
            = search_go r (Some NL) rest) as One.
  { intros line prev rest Sl.
    rewrite search_go_skip_prefix.
    - apply search_go_skip. apply silent_at_newline.
    - intros a b E Nb prev'. apply (Sl a b prev' (NL :: rest) E Nb).
      reflexivity. }
  induction lines as [|line lines IH]; intros F prev.
  - exists (Some NL). cbn [join app].
    apply search_go_skip. apply silent_at_newline.
  - inversion F as [|? ? Sl Fl]; subst.
    destruct lines as [|line' lines'].
    + exists (Some NL). cbn [join]. apply One. exact Sl.
    + destruct (IH Fl (Some NL)) as [prev' E].
      exists prev'. rewrite join_cons. rewrite <- app_assoc. cbn [app].
      rewrite One by exact Sl. exact E.
Qed.

End Silent.


(** ** The headers of the second and of the third section *)

Section Headers.
Variable U : unicode_db.

(** A pattern that begins with a number and a dot, white space and a
    title does not match where the title does not follow. *)
Lemma header_title (d t0 : char) (title' : pystr) (rest : regex)
      (prev : option char) (c : char) (s : pystr) (g : option pystr)
      (k : option char -> pystr -> option pystr -> option mstate) :
  isspace U c = false -> caseless U t0 c = false ->
  rmatch (Seq (lits_i U [d; chr "."])
              (Seq (ws_star U) (Seq (lits_i U (t0 :: title')) rest)))
         prev (d :: chr "." :: c :: s) g k = None.
Proof.
  intros Sc Cc. cbn [rmatch].
  change (d :: chr "." :: c :: s) with ([d; chr "."] ++ c :: s).
  rewrite rmatch_lits_i_app.
  rewrite ws_star_none by exact Sc.
  apply lits_i_fail_head. exact Cc.
Qed.

Lemma header_title_space (d t0 : char) (title' : pystr) (rest : regex)
      (prev : option char) (c : char) (s : pystr) (g : option pystr)
      (k : option char -> pystr -> option pystr -> option mstate) :
  caseless U t0 (chr " ") = false ->
  isspace U c = false -> caseless U t0 c = false ->
  rmatch (Seq (lits_i U [d; chr "."])
              (Seq (ws_star U) (Seq (lits_i U (t0 :: title')) rest)))
         prev (d :: chr "." :: chr " " :: c :: s) g k = None.
Proof.
  intros Cs Sc Cc. cbn [rmatch].
  change (d :: chr "." :: chr " " :: c :: s)
    with ([d; chr "."] ++ chr " " :: c :: s).
  rewrite rmatch_lits_i_app.
  rewrite ws_star_one by (reflexivity || exact Sc).
  rewrite !lits_i_fail_head by assumption.
  reflexivity.
Qed.

Lemma practices_re_title (prev : option char) (c : char) (s : pystr) :
  isspace U c = false -> caseless U (chr "G") c = false ->
  match_here (Normalizer.practices_re U) prev
             (chr "2" :: chr "." :: c :: s) = None.
Proof.
  intros Sc Cc. unfold match_here, Normalizer.practices_re.
  cbn [seq_of].
  apply (header_title (chr "2") (chr "G") (str "ood practices"));
    assumption.
Qed.

Lemma practices_re_title_space (prev : option char) (c : char)
      (s : pystr) :
  isspace U c = false -> caseless U (chr "G") c = false ->
  match_here (Normalizer.practices_re U) prev
             (chr "2" :: chr "." :: chr " " :: c :: s) = None.
Proof.
  intros Sc Cc. unfold match_here, Normalizer.practices_re.
  cbn [seq_of].
  apply (header_title_space (chr "2") (chr "G") (str "ood practices"));
    [reflexivity | assumption | assumption].
Qed.

Lemma score_re_title (prev : option char) (c : char) (s : pystr) :
  isspace U c = false -> caseless U (chr "O") c = false ->
  match_here (Normalizer.score_re U) prev
             (chr "3" :: chr "." :: c :: s) = None.
Proof.
  intros Sc Cc. unfold match_here, Normalizer.score_re.
  cbn [seq_of].
  apply (header_title (chr "3") (chr "O") (str "verall quality score"));
    assumption.
Qed.

Lemma score_re_title_space (prev : option char) (c : char) (s : pystr) :
  isspace U c = false -> caseless U (chr "O") c = false ->
  match_here (Normalizer.score_re U) prev
             (chr "3" :: chr "." :: chr " " :: c :: s) = None.
Proof.
  intros Sc Cc. unfold match_here, Normalizer.score_re.
  cbn [seq_of].
  apply (header_title_space (chr "3") (chr "O")
           (str "verall quality score"));
    [reflexivity | assumption | assumption].
Qed.

(** The lines of a list are silent for both patterns. *)
Lemma untitled_inv (line : mark * pystr) :
  readable_line U line = true ->
  forall c t, snd line = c :: t -> is_bullet_mark (fst line) = false ->
              caseless U (chr "G") c = false
              /\ caseless U (chr "O") c = false.
Proof.
  intros R c t E B. destruct (readable_line_inv U line R) as [_ M].
  destruct (fst line) as [b|digits]; [discriminate B|].
  destruct M as [_ [_ Un]]. rewrite E in Un. cbn [untitled] in Un.
  apply andb_true_iff in Un. destruct Un as [U1 U2].
  apply negb_true_iff in U1. apply negb_true_iff in U2. auto.
Qed.

Lemma lines_silent_practices (lines : list (mark * pystr)) :
  forallb (readable_line U) lines = true ->
  Forall (silent (Normalizer.practices_re U)) (map item_line lines).
Proof.
  induction lines as [|line lines IH]; intros R; [constructor|].
  cbn [forallb] in R. apply andb_true_iff in R. destruct R as [Rl Rs].
  cbn [map]. constructor; [|apply IH; exact Rs].
  destruct (readable_line_inv U line Rl) as [Ri _].
  destruct (readable_item_inv U _ Ri) as [_ [_ [_ [C2 _]]]].
  apply (silent_line U (Normalizer.practices_re U) (chr "2") (chr "G")
           eq_refl (practices_re_start U) practices_re_title
           practices_re_title_space line Rl C2).
  intros c t E B. apply (untitled_inv line Rl c t E B).
Qed.

Lemma lines_silent_score (lines : list (mark * pystr)) :
  forallb (readable_line U) lines = true ->
  Forall (silent (Normalizer.score_re U)) (map item_line lines).
Proof.
  induction lines as [|line lines IH]; intros R; [constructor|].
  cbn [forallb] in R. apply andb_true_iff in R. destruct R as [Rl Rs].
  cbn [map]. constructor; [|apply IH; exact Rs].
  destruct (readable_line_inv U line Rl) as [Ri _].
  destruct (readable_item_inv U _ Ri) as [_ [_ [_ [_ C3]]]].
  apply (silent_line U (Normalizer.score_re U) (chr "3") (chr "O")
           eq_refl (score_re_start U) score_re_title
           score_re_title_space line Rl C3).
  intros c t E B. apply (untitled_inv line Rl c t E B).
Qed.

End Headers.

Lemma join_app (l1 l2 : list pystr) :
  l1 <> [] -> l2 <> [] ->
  join [NL] (l1 ++ l2) = join [NL] l1 ++ NL :: join [NL] l2.
Proof.
  intros N1 N2. induction l1 as [|x l1 IH]; [contradiction|].
  destruct l1 as [|y l1'].
  - destruct l2 as [|z l2']; [contradiction|]. reflexivity.
  - change ((x :: y :: l1') ++ l2) with (x :: (y :: l1') ++ l2).
    change ((y :: l1') ++ l2) with (y :: l1' ++ l2) at 1.
    rewrite join_cons. change (y :: l1' ++ l2) with ((y :: l1') ++ l2).
    rewrite IH by discriminate. rewrite join_cons.
    rewrite <- app_assoc. reflexivity.
Qed.

Lemma join_header (h : pystr) (lines : list pystr) :
  lines <> [] -> join [NL] (h :: lines) = h ++ NL :: join [NL] lines.
Proof. destruct lines; [contradiction | reflexivity]. Qed.

Lemma map_not_nil {A B : Type} (f : A -> B) (l : list A) :
  l <> [] -> map f l <> [].
Proof. destruct l; [contradiction | discriminate]. Qed.

(** ** The three patterns on the line layout *)

Section Layout.
Variable U : unicode_db.
Variable colon : bool.
Variables issues practices : list (mark * pystr).
Variables whole frac : pystr.
Hypothesis issues_readable : forallb (readable_line U) issues = true.
Hypothesis practices_readable : forallb (readable_line U) practices = true.
Hypothesis issues_some : section_lines (chr "2") issues <> [].
Hypothesis practices_some : section_lines (chr "3") practices <> [].
Hypothesis whole_some : whole <> [].
Hypothesis whole_digits : forallb ascii_isdigit whole = true.
Hypothesis frac_digits : forallb ascii_isdigit frac = true.

Let score := decimal_text whole frac.
Let message := render_sections colon issues practices score.

Let header1 : pystr := str "1. Code quality issues" ++ colon_text colon.
Let header2 : pystr := str "2. Good practices" ++ colon_text colon.

(** The text from the third section on, and from the second on. *)
Let text3 : pystr :=
  str "3." ++ chr " " :: str "Overall quality score"
  ++ colon_text colon ++ chr " " :: score ++ [chr "/"; chr "1"; chr "0"].
Let text2 : pystr :=
  header2 ++ NL :: item_lines practices ++ NL :: text3.

Lemma lists_not_empty : issues <> [] /\ practices <> [].
Proof.
  split; intros E; [apply issues_some | apply practices_some];
    rewrite E; reflexivity.
Qed.

Lemma message_from_2 :
  message = join [NL] (header1 :: map item_line issues) ++ NL :: text2.
Proof.
  destruct lists_not_empty as [Ni _].
  rewrite join_header by (apply map_not_nil; exact Ni).
  unfold message, render_sections, text2, text3, header1, header2,
    item_lines.
  rewrite <- !app_assoc. reflexivity.
Qed.

Lemma message_from_3 :
  message
  = join [NL] ((header1 :: map item_line issues)
               ++ header2 :: map item_line practices)
    ++ NL :: text3.
Proof.
  destruct lists_not_empty as [_ Np].
  rewrite join_app by discriminate.
  rewrite message_from_2. unfold text2.
  rewrite (join_header header2) by (apply map_not_nil; exact Np).
  unfold item_lines.
  rewrite <- !app_assoc, <- app_comm_cons, <- !app_assoc. reflexivity.
Qed.

Lemma prose_quality :
  exists m,
    re_search (Normalizer.quality_re U) message = Some m
    /\ group1 m = item_lines (section_lines (chr "2") issues).
Proof.
  destruct (section_split (chr "2") issues
              (chr " " :: str "Good practices"
               ++ colon_text colon ++ NL :: item_lines practices
               ++ NL :: text3)
              issues_some) as [tail' E].
  eexists. split.
  - unfold re_search. apply search_go_here.
    rewrite quality_re_shape.
    replace message
      with ((str "1" ++ [chr "."]) ++ chr " " :: str "Code quality issues"
            ++ colon_text colon
            ++ NL :: item_lines (section_lines (chr "2") issues)
            ++ NL :: (str "2" ++ [chr "."]) ++ tail').
    + apply (section_re_at U (str "1") (str "Code quality issues")
               (str "2") (item_lines (section_lines (chr "2") issues))
               tail' None colon (chr "C") (chr "2")
               (str "ode quality issues") [chr "."]);
        try reflexivity.
      apply lines_clear_join; [reflexivity | |].
      * intros Em. apply map_eq_nil in Em. contradiction.
      * apply section_lines_clear; [reflexivity | exact issues_readable].
    + change ((str "2" ++ [chr "."]) ++ tail')
        with ([chr "2"; chr "."] ++ tail').
      rewrite <- E.
      unfold message, render_sections, text3.
      rewrite <- !app_assoc. reflexivity.
  - reflexivity.
Qed.

Lemma prose_practices :
  exists m,
    re_search (Normalizer.practices_re U) message = Some m
    /\ group1 m = item_lines (section_lines (chr "3") practices).
Proof.
  destruct (section_split (chr "3") practices
              (chr " " :: str "Overall quality score"
               ++ colon_text colon ++ chr " " :: score
               ++ [chr "/"; chr "1"; chr "0"])
              practices_some) as [tail' E].
  assert (Forall (silent (Normalizer.practices_re U))
                 (header1 :: map item_line issues)) as Fs.
  { constructor; [|apply lines_silent_practices; exact issues_readable].
    apply (silent_free (Normalizer.practices_re U) (chr "2"));
      [apply practices_re_start | unfold header1; destruct colon;
                                  reflexivity]. }
  destruct (search_past_lines (Normalizer.practices_re U) (chr "2")
              eq_refl (practices_re_start U)
              (header1 :: map item_line issues) text2 Fs None)
    as [prev' Es].
  eexists. split.
  - unfold re_search. rewrite message_from_2, Es.
    apply search_go_here. rewrite practices_re_shape.
    replace text2
      with ((str "2" ++ [chr "."]) ++ chr " " :: str "Good practices"
            ++ colon_text colon
            ++ NL :: item_lines (section_lines (chr "3") practices)
            ++ NL :: (str "3" ++ [chr "."]) ++ tail').
    + apply (section_re_at U (str "2") (str "Good practices")
               (str "3") (item_lines (section_lines (chr "3") practices))
               tail' prev' colon (chr "G") (chr "3")
               (str "ood practices") [chr "."]);
        try reflexivity.
      apply lines_clear_join; [reflexivity | |].
      * intros Em. apply map_eq_nil in Em. contradiction.
      * apply section_lines_clear;
          [reflexivity | exact practices_readable].
    + change ((str "3" ++ [chr "."]) ++ tail')
        with ([chr "3"; chr "."] ++ tail').
      rewrite <- E. unfold text2, text3, header2.
      rewrite <- !app_assoc. reflexivity.
  - reflexivity.
Qed.

Lemma prose_score :
  exists m,
    re_search (Normalizer.score_re U) message = Some m
    /\ group1 m = score.
Proof.
  assert (Forall (silent (Normalizer.score_re U))
                 ((header1 :: map item_line issues)
                  ++ header2 :: map item_line practices)) as Fs.
  { apply Forall_app. split; constructor;
      try (apply lines_silent_score; assumption);
      apply (silent_free (Normalizer.score_re U) (chr "3"));
      try apply score_re_start;
      unfold header1, header2; destruct colon; reflexivity. }
  destruct (search_past_lines (Normalizer.score_re U) (chr "3")
              eq_refl (score_re_start U) _ text3 Fs None)
    as [prev' Es].
  eexists. split.
  - unfold re_search. rewrite message_from_3, Es.
    apply search_go_here.
    apply (score_re_at U prev' colon whole frac); assumption.
  - reflexivity.
Qed.

(** The regex tier on the line layout. *)
Lemma line_layout (float_of_str : pystr -> option float) :
  fallback_result U float_of_str message
  = prose_result float_of_str
      (read_items (section_lines (chr "2") issues))
      (read_items (section_lines (chr "3") practices)) score message.
Proof.
  unfold fallback_result, prose_result, Normalizer.section_of,
    Normalizer.fallback_score.
  destruct prose_quality as [mq [Eq Gq]].
  destruct prose_practices as [mp [Ep Gp]].
  destruct prose_score as [ms [Es Gs]].
  rewrite Eq, Ep, Es, Gq, Gp, Gs.
  rewrite (section_items_lines U _ issues_some
             (section_lines_readable U (chr "2") issues issues_readable)).
  rewrite (section_items_lines U _ practices_some
             (section_lines_readable U (chr "3") practices
                practices_readable)).
  reflexivity.
Qed.

End Layout.


(** * What the regex tier takes for an item *)

Lemma match_here_sound (r : regex) (prev : option char) (s : pystr)
      (m : mstate) :
  match_here r prev s = Some m ->
  exists t, s = t ++ m_rest m /\ m_prev m = prev_after prev t.
Proof.
  intros H. unfold match_here in H.
  destruct (rmatch_sound r _ _ _ _ _ H) as [t [s' [g' [E K]]]].
  inversion K; subst. exists t. auto.
Qed.

Lemma search_go_at (r : regex) (s : pystr) :
  forall (prev : option char) (m : mstate),
    search_go r prev s = Some m ->
    exists pre s0, s = pre ++ s0
                   /\ match_here r (prev_after prev pre) s0 = Some m.
Proof.
  induction s as [|c s IH]; intros prev m H; simpl in H.
  - destruct (match_here r prev []) eqn:E; [|discriminate].
    inversion H; subst. exists [], []. auto.
  - destruct (match_here r prev (c :: s)) eqn:E.
    + inversion H; subst. exists [], (c :: s). auto.
    + destruct (IH _ _ H) as [pre [s0 [Es M]]].
      exists (c :: pre), s0. subst. rewrite (prev_after_cons prev). auto.
Qed.

Lemma findall_go_sound (r : regex) :
  forall (fuel : nat) (prev : option char) (s item : pystr),
    In item (findall_go fuel r prev s) ->
    exists pre s0 m, s = pre ++ s0
                     /\ match_here r (prev_after prev pre) s0 = Some m
                     /\ group1 m = item.
Proof.
  induction fuel as [|fuel IH]; intros prev s item H; simpl in H; [easy|].
  destruct (search_go r prev s) as [m|] eqn:E; [|easy].
  destruct (search_go_at r s prev m E) as [pre [s0 [Es M]]].
  destruct H as [H|H].
  - exists pre, s0, m. auto.
  - destruct (match_here_sound r _ _ m M) as [t [Et Ep]].
    destruct (IH _ _ _ H) as [pre' [s0' [m' [Es' [M' G']]]]].
    exists (pre ++ t ++ pre'), s0', m'. split; [|split; [|exact G']].
    + rewrite Es, Et, Es'. repeat rewrite <- app_assoc. reflexivity.
    + rewrite Ep in M'. repeat rewrite prev_after_app in M'.
      rewrite <- ?app_assoc in M'. exact M'.
Qed.

Section Items.
Variable U : unicode_db.

Lemma not_newline_free (t : pystr) :
  forallb not_newline t = true -> has_char NL t = false.
Proof.
  induction t as [|c t IH]; intros H; [reflexivity|].
  simpl in H. apply andb_true_iff in H. destruct H as [C H].
  unfold has_char in *. cbn [existsb]. rewrite (IH H).
  unfold not_newline in C. apply negb_true_iff in C.
  rewrite N.eqb_sym. rewrite C. reflexivity.
Qed.

(** The rest of a match once its mark has been read: white space, then
    the group to the end of the line. *)
Lemma item_tail_sound (prev : option char) (s : pystr) (m : mstate) :
  rmatch (Seq (ws_plus U) (Group (Rep true 0 not_newline))) prev s None
         (fun p' s' g' => Some (Build_mstate p' s' g')) = Some m ->
  exists gap, s = gap ++ group1 m ++ m_rest m
              /\ forallb (isspace U) gap = true /\ gap <> []
              /\ has_char NL (group1 m) = false.
Proof.
  intros H. cbn [rmatch ws_plus] in H.
  destruct (rep_sound _ _ _ _ _ _ _ H) as [gap [s1 [E1 [F1 [L1 H1]]]]].
  destruct (rep_sound _ _ _ _ _ _ _ H1) as [item [s2 [E2 [F2 [_ H2]]]]].
  inversion H2; subst. unfold group1. cbn [m_group m_rest].
  rewrite firstn_consumed.
  exists gap. repeat split; auto.
  - intros ->. simpl in L1. lia.
  - apply not_newline_free. exact F2.
Qed.

(** The class of the bullet pattern holds the hyphen, the asterisk and
    U+2022, and nothing else. *)
Lemma is_bullet_inv (b : char) :
  Normalizer.is_bullet b = true ->
  b = chr "-" \/ b = chr "*" \/ b = 8226%N.
Proof.
  unfold Normalizer.is_bullet. intros H.
  apply orb_true_iff in H. destruct H as [H|H];
    [apply orb_true_iff in H; destruct H as [H|H]|];
    apply N.eqb_eq in H; auto.
Qed.

Lemma bullet_re_sound (prev : option char) (s : pystr) (m : mstate) :
  match_here (Normalizer.bullet_re U) prev s = Some m ->
  at_line_start prev = true
  /\ exists indent mark gap,
       s = indent ++ mark ++ gap ++ group1 m ++ m_rest m
       /\ forallb (isspace U) indent = true
       /\ item_mark U mark
       /\ forallb (isspace U) gap = true /\ gap <> []
       /\ has_char NL (group1 m) = false.
Proof.
  unfold match_here, Normalizer.bullet_re. cbn [seq_of].
  intros H. cbn [rmatch] in H.
  destruct (at_line_start prev) eqn:B; [|discriminate].
  split; [reflexivity|].
  unfold ws_star in H. cbn [rmatch] in H.
  destruct (rep_sound _ _ _ _ _ _ _ H) as [indent [s1 [E1 [F1 [_ H1]]]]].
  destruct s1 as [|b s1]; [discriminate|].
  destruct (Normalizer.is_bullet b) eqn:Bb; [|discriminate].
  destruct (item_tail_sound _ _ _ H1) as [gap [E2 [F2 [N2 I2]]]].
  exists indent, [b], gap. subst s. rewrite E2.
  repeat split; auto. left. exists b. split; [reflexivity|].
  apply is_bullet_inv. exact Bb.
Qed.

Lemma numbered_re_sound (prev : option char) (s : pystr) (m : mstate) :
  match_here (Normalizer.numbered_re U) prev s = Some m ->
  at_line_start prev = true
  /\ exists indent mark gap,
       s = indent ++ mark ++ gap ++ group1 m ++ m_rest m
       /\ forallb (isspace U) indent = true
       /\ item_mark U mark
       /\ forallb (isspace U) gap = true /\ gap <> []
       /\ has_char NL (group1 m) = false.
Proof.
  unfold match_here, Normalizer.numbered_re. cbn [seq_of].
  intros H. cbn [rmatch] in H.
  destruct (at_line_start prev) eqn:B; [|discriminate].
  split; [reflexivity|].
  unfold ws_star, digits in H. cbn [rmatch] in H.
  destruct (rep_sound _ _ _ _ _ _ _ H) as [indent [s1 [E1 [F1 [_ H1]]]]].
  destruct (rep_sound _ _ _ _ _ _ _ H1) as [number [s2 [E2 [F2 [L2 H2]]]]].
  unfold lit in H2. cbv beta in H2.
  destruct s2 as [|d s2]; [discriminate|].
  cbn [rmatch] in H2.
  destruct (chr "." =? d)%N eqn:D; [|discriminate].
  apply N.eqb_eq in D. subst d.
  destruct (item_tail_sound _ _ _ H2) as [gap [E3 [F3 [N3 I3]]]].
  exists indent, (number ++ [chr "."]), gap. subst s s1. rewrite E3.
  repeat split; auto.
  - repeat rewrite <- app_assoc. reflexivity.
  - right. exists number. repeat split; auto.
    intros ->. simpl in L2. lia.
Qed.

Lemma findall_marked (r : regex) (text item : pystr) :
  (forall prev s m,
     match_here r prev s = Some m ->
     at_line_start prev = true
     /\ exists indent mark gap,
          s = indent ++ mark ++ gap ++ group1 m ++ m_rest m
          /\ forallb (isspace U) indent = true
          /\ item_mark U mark
          /\ forallb (isspace U) gap = true /\ gap <> []
          /\ has_char NL (group1 m) = false) ->
  In item (re_findall r text) -> marked_item U text item.
Proof.
  intros Sound H. unfold re_findall in H.
  destruct (findall_go_sound r _ _ _ _ H) as [pre [s0 [m [E [M G]]]]].
  destruct (Sound _ _ _ M) as [B [indent [mark [gap [E0 [Fi [Mk [Fg [Ng I]]]]]]]]].
  exists pre, indent, mark, gap, (m_rest m). subst item.
  rewrite E, E0. repeat split; auto.
Qed.

(** Every item of a section is the trimmed text after a mark. *)
Lemma section_items_sound (section_text : pystr) (v : json) :
  In v (Normalizer.section_items U section_text) ->
  exists item, v = JStr (strip U item) /\ strip U item <> []
               /\ marked_item U (strip U section_text) item.
Proof.
  unfold Normalizer.section_items. intros H.
  apply in_map_iff in H. destruct H as [item [Ev H]].
  apply filter_In in H. destruct H as [H Ne].
  exists item. split; [auto|]. split.
  - intros E. rewrite E in Ne. discriminate.
  - destruct (Normalizer.is_nil
                (re_findall (Normalizer.bullet_re U) (strip U section_text))).
    + apply (findall_marked (Normalizer.numbered_re U)); [|exact H].
      apply numbered_re_sound.
    + apply (findall_marked (Normalizer.bullet_re U)); [|exact H].
      apply bullet_re_sound.
Qed.

Lemma section_of_sound (re : regex) (message : pystr) (v : json) :
  In v (Normalizer.section_of U re message) ->
  item_of_section U re message v.
Proof.
  unfold Normalizer.section_of. intros H.
  destruct (re_search re message) as [m|] eqn:R; [|easy].
  destruct (section_items_sound _ _ H) as [item [E [N M]]].
  exists m, item. auto.
Qed.

End Items.

(** * The normalizer: the properties of the specification *)

(** C5.  A reply that is an error marker is answered with a result that
    carries the error (after the prefix [API Error: ], and as the raw
    response too), four empty lists and no score.  No tier runs: the
    result is the same whatever [json.loads] and [float] would do. *)
Theorem error_reply_short_circuits
        (U : unicode_db) (json_loads : pystr -> result json)
        (float_of_str : pystr -> option float)
        (e : pystr) (alternatives : list Normalizer.alternative) :
  Normalizer.parse_analysis_response U json_loads float_of_str
    {| Normalizer.resp_error := Some e;
       Normalizer.resp_alternatives := alternatives |}
  = Ok {| Normalizer.quality_issues := [];
          Normalizer.good_practices := [];
          Normalizer.patterns := [];
          Normalizer.anti_patterns := [];
          Normalizer.overall_score := None;
          Normalizer.raw_response := str "API Error: " ++ e;
          Normalizer.error := Some (str "API Error: " ++ e) |}.
Proof.
  unfold Normalizer.parse_analysis_response.
  cbn [Normalizer.resp_error]. reflexivity.
Qed.

(** C1, at the failing input.  The reply is exactly the JSON object with
    [overall_score] set to the integer 10^400: [json.loads] reads it, the
    specification asks for a result with a null score, and the code raises
    [OverflowError], which [except (ValueError, TypeError)] lets through. *)
Theorem huge_score_escapes :
  Sample.json_loads (score_object huge_int)
  = Ok (JDict [(str "overall_score", JInt (10 ^ 400))])
  /\ coerce_score (Sample.float_of_str sample_db)
       (Some (JInt (10 ^ 400))) = None
  /\ Sample.normalize (reply_of_text (score_object huge_int))
     = Raise OverflowError.
Proof.
  split; [| split].
  - vm_compute. reflexivity.
  - vm_compute. reflexivity.
  - vm_compute. reflexivity.
Qed.

(** C2, as stated, fails: the JSON object with [overall_score] 11 is
    answered with the score 11.0. *)
Lemma score_eleven_passes_through :
  exists r s,
    Sample.normalize (reply_of_text (score_object (str "11"))) = Ok r
    /\ Normalizer.overall_score r = Some s
    /\ s = 11%float
    /\ score_in_range s = false.
Proof.
  eexists. eexists. split; [vm_compute; reflexivity|].
  split; [reflexivity|]. split; reflexivity.
Qed.

(** C2, amended.  A score that is present is the model's own value, as
    [float] converts it, and nothing else is done to it: after the JSON
    tiers it is [float] of the object's [overall_score], after the regex
    tier it is [float] of the number that the score pattern captured. *)
Theorem score_is_model_value
        (U : unicode_db) (json_loads : pystr -> result json)
        (float_of_str : pystr -> option float)
        (response : Normalizer.response) (r : Normalizer.analysis)
        (s : float) :
  Normalizer.parse_analysis_response U json_loads float_of_str response
  = Ok r ->
  Normalizer.overall_score r = Some s ->
  exists first_alt others parsed_json,
    Normalizer.resp_alternatives response = first_alt :: others
    /\ Normalizer.json_tiers U json_loads (Normalizer.alt_message first_alt)
       = Ok parsed_json
    /\ match parsed_json with
       | JDict d =>
           exists v, dict_get (str "overall_score") d = Some v
                     /\ Normalizer.py_float float_of_str v = Ok s
       | _ =>
           exists m,
             re_search (Normalizer.score_re U)
                       (Normalizer.alt_message first_alt) = Some m
             /\ float_of_str (group1 m) = Some s
       end.
Proof.
  intros H Hs.
  unfold Normalizer.parse_analysis_response in H.
  destruct (Normalizer.resp_error response) as [e|].
  { inversion H; subst r. discriminate Hs. }
  destruct (Normalizer.resp_alternatives response) as [|first_alt others].
  { inversion H; subst r. discriminate Hs. }
  exists first_alt, others.
  destruct (Normalizer.json_tiers U json_loads
              (Normalizer.alt_message first_alt)) as [parsed_json|e] eqn:T;
    [|discriminate H].
  exists parsed_json. split; [reflexivity|]. split; [reflexivity|].
  assert (forall m : pystr,
             Ok {| Normalizer.quality_issues :=
                     Normalizer.section_of U (Normalizer.quality_re U) m;
                   Normalizer.good_practices :=
                     Normalizer.section_of U (Normalizer.practices_re U) m;
                   Normalizer.patterns := [];
                   Normalizer.anti_patterns := [];
                   Normalizer.overall_score :=
                     Normalizer.fallback_score U float_of_str m;
                   Normalizer.raw_response := m;
                   Normalizer.error := None |} = Ok r ->
             m = Normalizer.alt_message first_alt ->
             exists ms, re_search (Normalizer.score_re U) m = Some ms
                        /\ float_of_str (group1 ms) = Some s) as Fallback.
  { intros m E _. inversion E; subst r. simpl in Hs.
    unfold Normalizer.fallback_score in Hs.
    destruct (re_search (Normalizer.score_re U) m) as [ms|];
      [|discriminate Hs].
    exists ms. split; [reflexivity | exact Hs]. }
  simpl in H.
  destruct parsed_json;
    try (apply (Fallback _ H eq_refl)).
  (* the JSON tiers *)
  clear Fallback. simpl in H.
  pose proof (score_of_cases float_of_str d) as S.
  destruct (dict_get (str "overall_score") d) as [v|].
  - exists v. split; [reflexivity|].
    destruct v as [|b|z|f|s0|l|d0]; simpl in S |- *;
      try (rewrite S in H; simpl in H; inversion H; subst r;
           simpl in Hs; congruence).
    + destruct (float_of_int z) as [f|e] eqn:F.
      * rewrite S in H. simpl in H. inversion H; subst r.
        simpl in Hs. congruence.
      * destruct e; rewrite S in H; simpl in H;
          try discriminate H; inversion H; subst r; discriminate Hs.
    + destruct (float_of_str s0) as [f|]; rewrite S in H; simpl in H;
        inversion H; subst r; simpl in Hs; congruence.
  - rewrite S in H. simpl in H. inversion H; subst r. discriminate Hs.
Qed.

(** The scenario-2 reply of the specification, where the score 7.5 is the
    object's own. *)
Lemma score_is_model_value_witness :
  exists first_alt others parsed_json,
    Normalizer.resp_alternatives (reply_of_text fenced_reply_text)
    = first_alt :: others
    /\ Normalizer.json_tiers sample_db Sample.json_loads
         (Normalizer.alt_message first_alt) = Ok parsed_json
    /\ match parsed_json with
       | JDict d =>
           exists v, dict_get (str "overall_score") d = Some v
                     /\ Normalizer.py_float (Sample.float_of_str sample_db) v
                        = Ok 7.5%float
       | _ =>
           exists m,
             re_search (Normalizer.score_re sample_db)
                       (Normalizer.alt_message first_alt) = Some m
             /\ Sample.float_of_str sample_db (group1 m) = Some 7.5%float
       end.
Proof.
  eapply (score_is_model_value sample_db Sample.json_loads
            (Sample.float_of_str sample_db) (reply_of_text fenced_reply_text)).
  - vm_compute. reflexivity.
  - reflexivity.
Defined.

(** The text of an alternative that carries [text]. *)
Lemma carries_message (text : pystr) (first_alt : Normalizer.alternative) :
  carries text first_alt -> Normalizer.alt_message first_alt = text.
Proof.
  unfold carries. cbn [In].
  intros [<-|[<-|[<-|[<-|[<-|[]]]]]]; reflexivity.
Qed.






(** * The dump parsers: what can go wrong *)

Section ParserFailures.
Variable U : unicode_db.

(** The parser of [src/main.py] fails on a missing file and on nothing
    else. *)
Lemma main_parser_total (fs : filesystem) (file_path : pystr) :
  match fs file_path with
  | None => Main.parse_repository_file U fs file_path = Raise FileNotFoundError
  | Some content =>
      Main.parse_repository_file U fs file_path
      = Ok (Main.parse_repository_text U content)
  end.
Proof.
  unfold Main.parse_repository_file. destruct (fs file_path); reflexivity.
Qed.

(** A section that does not begin with the marker adds nothing. *)
Lemma main_section_without_marker (files : pydict pystr) (section : pystr) :
  startswith (str "FILE:") (strip U section) = false ->
  Main.parse_section U files section = files.
Proof.
  intros H. unfold Main.parse_section.
  destruct (Normalizer.is_nil (strip U section)); [reflexivity|].
  destruct (split1 NL (strip U section)) as [|line0 rest] eqn:E;
    [reflexivity|].
  assert (startswith (str "FILE:") line0 = false) as H0.
  { (* a prefix of the section is a prefix of its first line, which has no
       newline in it *)
    destruct (startswith (str "FILE:") line0) eqn:S; [|reflexivity].
    exfalso. apply startswith_prefix in S. destruct S as [t Ht].
    assert (exists u, strip U section = line0 ++ u) as [u Hu].
    { clear - E. unfold split1 in E.
      assert (forall acc s l r, split1_go NL acc s = l :: r ->
                                exists u, rev acc ++ s = l ++ u) as G.
      { intros acc s. revert acc.
        induction s as [|x s IH]; intros acc l r G; simpl in G.
        - inversion G; subst. exists []. reflexivity.
        - destruct (N.eqb x NL).
          + inversion G; subst. exists (x :: s). reflexivity.
          + apply IH in G. destruct G as [u Gu]. exists u.
            rewrite <- Gu. simpl. rewrite <- app_assoc. reflexivity. }
      apply (G [] _ _ _ E). }
    rewrite Hu, Ht in H. rewrite <- app_assoc in H.
    rewrite startswith_app in H. discriminate H. }
  rewrite H0. reflexivity.
Qed.

(** An empty file name adds nothing. *)
Lemma main_section_empty_name (files : pydict pystr) (rest : pystr) :
  blank U rest -> ~ In NL rest ->
  Main.parse_section U files (str "FILE:" ++ rest ++ [NL] ++ str "text")
  = files.
Proof.
  intros B N. unfold Main.parse_section.
  assert (strip U (str "FILE:" ++ rest ++ [NL] ++ str "text")
          = str "FILE:" ++ rest ++ [NL] ++ str "text") as E.
  { replace (str "FILE:" ++ rest ++ [NL] ++ str "text")
      with (chr "F" :: (str "ILE:" ++ rest ++ [NL] ++ str "tex") ++ [chr "t"])
      by (simpl; rewrite <- !app_assoc; reflexivity).
    apply strip_by_tight; reflexivity. }
  rewrite E. clear E.
  assert (split1 NL (str "FILE:" ++ rest ++ [NL] ++ str "text")
          = [str "FILE:" ++ rest; str "text"]) as E.
  { unfold split1. simpl.
    assert (forall acc, split1_go NL acc (rest ++ NL :: str "text")
                        = [rev acc ++ rest; str "text"]) as G.
    { clear B. induction rest as [|x r IH]; intros acc; simpl.
      - rewrite app_nil_r. reflexivity.
      - destruct (N.eqb_spec x NL) as [->|_].
        + exfalso. apply N. left. reflexivity.
        + rewrite IH by (intros I; apply N; right; exact I).
          simpl. rewrite <- app_assoc. reflexivity. }
    rewrite G. reflexivity. }
  rewrite E. clear E.
  rewrite startswith_app.
  change (skipn 5 (str "FILE:" ++ rest)) with rest.
  assert (strip U rest = []) as E.
  { unfold strip, strip_by, lstrip_by.
    replace rest with (rest ++ []) by apply app_nil_r.
    rewrite dropwhile_all by exact B. reflexivity. }
  rewrite E. reflexivity.
Qed.

(** An empty dump, and a dump without a delimiter and without the marker
    at its start, both parse to the empty mapping. *)
Lemma main_text_without_marker (content : pystr) :
  contains Main.file_delimiter content = false ->
  startswith (str "FILE:") (strip U content) = false ->
  Main.parse_repository_text U content = [].
Proof.
  intros D S. unfold Main.parse_repository_text.
  destruct (Normalizer.is_nil content); [reflexivity|].
  assert (split Main.file_delimiter content = [content]) as E.
  { unfold split.
    assert (forall acc, split_go Main.file_delimiter 0 acc content
                        = [rev acc ++ content]) as G.
    { clear S. induction content as [|c s IH]; intros acc.
      - simpl. rewrite app_nil_r. reflexivity.
      - cbn [split_go]. cbn [contains] in D.
        apply orb_false_iff in D. destruct D as [D1 D2].
        rewrite D1. rewrite (IH D2). simpl.
        rewrite <- app_assoc. reflexivity. }
    apply (G []). }
  rewrite E. simpl. apply main_section_without_marker. exact S.
Qed.

(** ** The pairing loop of [src/analyzer.py] *)

(** The loop has reached index [length done]; [todo] are the sections
    from there on.  It fails at the last section, when that one has the
    marker. *)
Lemma pair_sections_from (done todo acc : list pystr) :
  Legacy.pair_sections (done ++ todo)
    (seq (List.length done) (List.length todo)) acc
  = if contains (str "FILE: ") (last todo [])
    then Raise IndexError
    else Ok (acc ++ paired todo).
Proof.
  revert done acc.
  induction todo as [|s todo IH]; intros done acc.
  - simpl. rewrite app_nil_r. reflexivity.
  - cbn [List.length seq Legacy.pair_sections].
    rewrite nth_error_app2 by lia. rewrite Nat.sub_diag. cbn [nth_error].
    assert (done ++ s :: todo = (done ++ [s]) ++ todo) as A
        by (rewrite <- app_assoc; reflexivity).
    assert (S (List.length done) = List.length (done ++ [s])) as L
        by (rewrite length_app; simpl; lia).
    destruct todo as [|s' todo'].
    + cbn [last paired].
      destruct (contains (str "FILE: ") s) eqn:C.
      * replace (nth_error (done ++ [s]) (List.length done + 1)) with (@None pystr);
          [reflexivity|].
        symmetry. apply nth_error_None. rewrite length_app. simpl. lia.
      * simpl. rewrite app_nil_r. reflexivity.
    + replace (last (s :: s' :: todo') []) with (last (s' :: todo') [])
        by reflexivity.
      cbn [paired].
      destruct (contains (str "FILE: ") s) eqn:C.
      * replace (nth_error (done ++ s :: s' :: todo') (List.length done + 1))
          with (Some s').
        -- rewrite A, L. rewrite IH. rewrite <- app_assoc. reflexivity.
        -- symmetry. rewrite nth_error_app2 by lia.
           replace (List.length done + 1 - List.length done) with 1 by lia.
           reflexivity.
      * rewrite A, L. apply IH.
Qed.

(** [src/analyzer.py] raises [IndexError] exactly when the text after the
    last delimiter has the marker in it. *)
Lemma legacy_parser_index_error (content : pystr) :
  content <> [] ->
  Legacy.parse_repository_text U content = Raise IndexError
  <-> contains (str "FILE: ")
        (last (split Legacy.file_delimiter
                     (Legacy.skip_directory_structure content)) []) = true.
Proof.
  intros N. unfold Legacy.parse_repository_text.
  destruct content as [|c content]; [contradiction|].
  cbn [Normalizer.is_nil].
  set (sections := split Legacy.file_delimiter
                         (Legacy.skip_directory_structure (c :: content))).
  pose proof (pair_sections_from [] sections []) as P.
  cbn [List.length app] in P. rewrite P.
  destruct (contains (str "FILE: ") (last sections [])).
  - simpl. split; reflexivity.
  - simpl. split; [|discriminate].
    destruct (Normalizer.is_nil (paired sections)); discriminate.
Qed.

End ParserFailures.

(** * The diff synthesizers *)

Lemma fold_left_append {A B : Type} (g : B -> list A) (l : list B)
      (init : list A) :
  fold_left (fun acc x => acc ++ g x) l init = init ++ flat_map g l.
Proof.
  revert init. induction l as [|x l IH]; intros init; simpl.
  - rewrite app_nil_r. reflexivity.
  - rewrite IH. rewrite <- app_assoc. reflexivity.
Qed.

Lemma split_char_go_length (c : char) (s acc : pystr) :
  List.length (split_char_go c acc s) = S (count_occ N.eq_dec s c).
Proof.
  revert acc. induction s as [|x s IH]; intros acc; simpl; [reflexivity|].
  destruct (N.eqb_spec x c) as [E|E]; destruct (N.eq_dec x c) as [E'|E'];
    try contradiction; simpl; rewrite IH; reflexivity.
Qed.

(** A text has one line more than it has newlines. *)
Lemma line_count (content : pystr) :
  List.length (split_char NL content) = S (newline_count content).
Proof. apply split_char_go_length. Qed.

Lemma split_char_go_no_sep (c : char) (s acc : pystr) :
  has_char c s = false -> split_char_go c acc s = [rev acc ++ s].
Proof.
  revert acc. induction s as [|x s IH]; intros acc H; simpl.
  - rewrite app_nil_r. reflexivity.
  - simpl in H. apply orb_false_iff in H. destruct H as [H1 H2].
    rewrite N.eqb_sym in H1. rewrite H1. rewrite IH by exact H2.
    simpl. rewrite <- app_assoc. reflexivity.
Qed.

(** ** [src/main.py] *)

Lemma main_add_lines (diff_parts file_lines : list pystr) :
  Main.add_lines diff_parts file_lines
  = diff_parts
    ++ map (fun line => str "+" ++ rstrip_by Main.is_crlf line) file_lines.
Proof.
  unfold Main.add_lines.
  rewrite (fold_left_append
             (fun line => [str "+" ++ rstrip_by Main.is_crlf line])).
  apply (f_equal (app diff_parts)).
  induction file_lines as [|l ls IH]; [reflexivity|].
  cbn [flat_map map app]. rewrite IH. reflexivity.
Qed.

Lemma main_add_file (diff_parts : list pystr) (entry : pystr * pystr) :
  Main.add_file diff_parts entry = diff_parts ++ file_block entry.
Proof.
  destruct entry as [path content].
  unfold Main.add_file, file_block, hunk_header.
  rewrite main_add_lines, line_count.
  rewrite <- !app_assoc. reflexivity.
Qed.

Lemma main_fold_add_file (dump : pydict pystr) (diff_parts : list pystr) :
  fold_left Main.add_file dump diff_parts
  = diff_parts ++ flat_map file_block dump.
Proof.
  revert diff_parts. induction dump as [|e dump IH]; intros parts; simpl.
  - rewrite app_nil_r. reflexivity.
  - rewrite IH, main_add_file. rewrite <- app_assoc. reflexivity.
Qed.

(** ** [src/analyzer.py] *)

Section LegacyDiff.
Variable U : unicode_db.

Lemma legacy_add_lines (diff_content : pystr) (file_lines : list pystr) :
  Legacy.add_lines diff_content file_lines
  = diff_content
    ++ List.concat (map (fun line => str "+" ++ line ++ [NL]) file_lines).
Proof.
  unfold Legacy.add_lines. revert diff_content.
  induction file_lines as [|l ls IH]; intros acc.
  - simpl. rewrite app_nil_r. reflexivity.
  - cbn [fold_left map List.concat]. rewrite IH.
    rewrite <- !app_assoc. reflexivity.
Qed.

Lemma legacy_add_file (diff_content path content : pystr) :
  Legacy.add_file U diff_content (path, content)
  = if Legacy.looks_binary U content then diff_content
    else diff_content ++ legacy_block path (Legacy.limit_content content).
Proof.
  unfold Legacy.add_file.
  destruct (Legacy.looks_binary U content); [reflexivity|].
  rewrite legacy_add_lines. unfold legacy_block, hunk_header.
  rewrite <- !app_assoc. reflexivity.
Qed.

Lemma legacy_fold_add_file (dump : pydict pystr) (diff_content : pystr) :
  fold_left (Legacy.add_file U) dump diff_content
  = diff_content
    ++ List.concat
         (map (fun e => legacy_block (fst e) (Legacy.limit_content (snd e)))
              (filter (emitted U) dump)).
Proof.
  revert diff_content. induction dump as [|[p c] dump IH]; intros acc.
  - simpl. rewrite app_nil_r. reflexivity.
  - cbn [fold_left filter]. rewrite IH, legacy_add_file.
    unfold emitted at 2. cbn [snd].
    destruct (Legacy.looks_binary U c); cbn [negb]; [reflexivity|].
    cbn [map List.concat fst snd]. rewrite <- app_assoc. reflexivity.
Qed.

(** A character that is not printable makes the file look binary. *)
Lemma unprintable_looks_binary (c : char) (content : pystr) :
  isprintable_char U c = false -> has_char c content = true ->
  Legacy.looks_binary U content = true.
Proof.
  intros P H. unfold Legacy.looks_binary.
  apply orb_true_iff. right. apply negb_true_iff.
  unfold isprintable.
  destruct (forallb (isprintable_char U) content) eqn:F; [|reflexivity].
  rewrite forallb_forall in F.
  unfold has_char in H. apply existsb_exists in H.
  destruct H as [x [Hx E]]. apply N.eqb_eq in E. subst x.
  rewrite (F c Hx) in P. discriminate P.
Qed.

(** A file that is let through is one line. *)
Lemma emitted_single_line (content : pystr) :
  Legacy.looks_binary U content = false ->
  split_char NL content = [content].
Proof.
  intros H. unfold split_char.
  rewrite split_char_go_no_sep; [reflexivity|].
  destruct (has_char NL content) eqn:E; [|reflexivity].
  rewrite (unprintable_looks_binary NL content) in H;
    [discriminate H | reflexivity | exact E].
Qed.

End LegacyDiff.

(** C8.  For a mapping that is not empty, the synthesizer of
    [src/main.py] gives each file, in the order of the mapping, the lines
    [--- a/<path>], [+++ b/<path>], the hunk header [@@ -0,0 +1,N @@] with
    N one more than the number of newlines of the content, each line of the
    content after a [+] and without the carriage returns and line feeds at
    its end, and an empty line; the blob is these lines joined by
    newlines. *)
Theorem diff_blocks_in_mapping_order (dump : pydict pystr) :
  Normalizer.is_nil dump = false ->
  Main.generate_diff_content dump = join [NL] (flat_map file_block dump)
  /\ (forall path content,
        In (path, content) dump ->
        List.length (split_char NL content) = S (newline_count content)
        /\ exists before after,
             flat_map file_block dump
             = before
               ++ [ str "--- a/" ++ path; str "+++ b/" ++ path;
                    str "@@ -0,0 +1,"
                    ++ str_of_nat (List.length (split_char NL content))
                    ++ str " @@" ]
               ++ map (fun line => str "+" ++ without_line_end line)
                      (split_char NL content)
               ++ [[]] ++ after).
Proof.
  intros N. split.
  - unfold Main.generate_diff_content. rewrite N.
    rewrite main_fold_add_file. reflexivity.
  - intros path content I. split; [apply line_count|].
    apply in_split in I. destruct I as [l1 [l2 E]]. subst dump.
    exists (flat_map file_block l1), (flat_map file_block l2).
    rewrite flat_map_app. f_equal. cbn [flat_map].
    unfold file_block at 1. unfold hunk_header. rewrite line_count.
    rewrite <- !app_assoc. reflexivity.
Qed.

(** A dump with two files, the first with lines that end with a carriage
    return: the blob has none. *)
Lemma diff_blocks_witness :
  Main.generate_diff_content crlf_files
  = str "--- a/a.py" ++ [NL] ++ str "+++ b/a.py" ++ [NL]
    ++ str "@@ -0,0 +1,2 @@" ++ [NL]
    ++ str "+x = 1" ++ [NL] ++ str "+y = 2" ++ [NL] ++ [NL]
    ++ str "--- a/b.py" ++ [NL] ++ str "+++ b/b.py" ++ [NL]
    ++ str "@@ -0,0 +1,1 @@" ++ [NL]
    ++ str "+print(2)" ++ [NL].
Proof.
  rewrite (proj1 (diff_blocks_in_mapping_order crlf_files eq_refl)).
  reflexivity.
Defined.

(** C9.  In [src/analyzer.py], the content of a file that is longer than
    10,000 characters is cut to its first 10,000 characters followed by
    the marker before it is formatted, and a blob that is longer than
    100,000 characters is cut to its first 100,000 characters followed by
    the same marker, once, at its end. *)
Theorem truncation_limits (U : unicode_db) :
  (N.of_nat Legacy.max_file_chars = 10000%N
   /\ N.of_nat Legacy.max_diff_chars = 100000%N
   /\ Legacy.truncation_marker
      = [NL] ++ str "[... TRUNCATED DUE TO SIZE ...]")
  /\ (forall diff_content path content,
        Legacy.looks_binary U content = false ->
        Legacy.max_file_chars < List.length content ->
        Legacy.add_file U diff_content (path, content)
        = diff_content
          ++ legacy_block path
               (firstn Legacy.max_file_chars content
                ++ Legacy.truncation_marker)
        /\ List.length (firstn Legacy.max_file_chars content)
           = Legacy.max_file_chars)
  /\ (forall dump,
        Legacy.max_diff_chars
        < List.length (fold_left (Legacy.add_file U) dump []) ->
        Legacy.generate_diff_content U dump
        = firstn Legacy.max_diff_chars
            (fold_left (Legacy.add_file U) dump [])
          ++ Legacy.truncation_marker)
  /\ (forall dump,
        List.length (fold_left (Legacy.add_file U) dump [])
        <= Legacy.max_diff_chars ->
        Legacy.generate_diff_content U dump
        = fold_left (Legacy.add_file U) dump []).
Proof.
  split; [|split; [|split]].
  - split; [vm_compute; reflexivity|]. split; [vm_compute|]; reflexivity.
  - intros diff_content path content B L.
    rewrite legacy_add_file, B. unfold Legacy.limit_content.
    apply Nat.ltb_lt in L. rewrite L. split; [reflexivity|].
    apply Nat.ltb_lt in L. apply firstn_length_le. lia.
  - intros dump L. unfold Legacy.generate_diff_content.
    destruct dump as [|e dump]; [simpl in L; lia|].
    cbn [Normalizer.is_nil]. unfold Legacy.limit_diff.
    apply Nat.ltb_lt in L. rewrite L. reflexivity.
  - intros dump L. unfold Legacy.generate_diff_content.
    destruct dump as [|e dump]; [reflexivity|].
    cbn [Normalizer.is_nil]. unfold Legacy.limit_diff.
    apply Nat.ltb_ge in L. rewrite L. reflexivity.
Qed.

(** The long line is one printable line of 10,001 characters, and a blob
    is at least as long as the contents it holds. *)
Lemma repeated_char_is_let_through (n : nat) :
  Legacy.looks_binary sample_db (repeat_char (chr "a") n) = false.
Proof.
  unfold Legacy.looks_binary, isprintable, repeat_char.
  induction n as [|n IH]; [reflexivity|].
  cbn [repeat has_char existsb forallb].
  apply orb_false_iff in IH. destruct IH as [H1 H2].
  apply negb_false_iff in H2.
  unfold has_char in H1. rewrite H1, H2. reflexivity.
Qed.

Lemma long_line_is_let_through :
  Legacy.looks_binary sample_db long_line = false.
Proof. unfold long_line. apply repeated_char_is_let_through. Qed.

Lemma long_line_length : List.length long_line = N.to_nat 10001.
Proof. unfold long_line, repeat_char. apply repeat_length. Qed.

Lemma limit_content_long_line :
  Legacy.max_file_chars <= List.length (Legacy.limit_content long_line).
Proof.
  unfold Legacy.limit_content.
  destruct (Legacy.max_file_chars <? List.length long_line).
  - rewrite length_app, length_firstn, long_line_length.
    unfold Legacy.max_file_chars. lia.
  - rewrite long_line_length. unfold Legacy.max_file_chars. lia.
Qed.

Lemma concat_lines_length (c : char) (s acc : pystr) :
  List.length acc + List.length s
  <= List.length
       (List.concat (map (fun line => str "+" ++ line ++ [NL])
                         (split_char_go c acc s))).
Proof.
  revert acc. induction s as [|x s IH]; intros acc.
  - cbn [split_char_go map List.concat]. rewrite app_nil_r.
    rewrite !length_app, length_rev. cbn [List.length]. lia.
  - cbn [split_char_go]. destruct (N.eqb x c).
    + cbn [map List.concat]. rewrite !length_app, length_rev.
      specialize (IH []). cbn [List.length] in *. lia.
    + specialize (IH (x :: acc)). cbn [List.length] in *. lia.
Qed.

Lemma legacy_block_length (path content : pystr) :
  List.length content <= List.length (legacy_block path content).
Proof.
  unfold legacy_block. rewrite !length_app.
  pose proof (concat_lines_length NL content []) as H.
  cbn [List.length] in H. unfold split_char. lia.
Qed.

Lemma fold_long_files_length (names : list pystr) (diff_content : pystr) :
  List.length diff_content + List.length names * Legacy.max_file_chars
  <= List.length
       (fold_left (Legacy.add_file sample_db)
                  (map (fun name => (name, long_line)) names) diff_content).
Proof.
  revert diff_content. induction names as [|name names IH]; intros acc.
  - cbn [map fold_left List.length]. lia.
  - cbn [map fold_left]. rewrite legacy_add_file.
    rewrite long_line_is_let_through.
    specialize (IH (acc ++ legacy_block name
                                 (Legacy.limit_content long_line))).
    rewrite length_app in IH.
    pose proof (legacy_block_length name (Legacy.limit_content long_line)).
    pose proof limit_content_long_line.
    cbn [List.length]. lia.
Qed.

Lemma many_long_files_length :
  Legacy.max_diff_chars
  < List.length (fold_left (Legacy.add_file sample_db) many_long_files []).
Proof.
  unfold many_long_files.
  rewrite <- (map_map (fun n => str "f" ++ str_of_nat n)
                      (fun name => (name, long_line))).
  pose proof (fold_long_files_length
                (map (fun n => str "f" ++ str_of_nat n) (seq 0 11)) []) as H.
  rewrite length_map, length_seq in H. cbn [List.length] in H.
  unfold Legacy.max_file_chars in H. unfold Legacy.max_diff_chars.
  apply (Nat.lt_le_trans _ (0 + 11 * N.to_nat 10000)); [lia | exact H].
Qed.

(** One file of 10,001 characters, and eleven of them. *)
Lemma truncation_limits_witness :
  (Legacy.add_file sample_db [] (str "big.txt", long_line)
   = [] ++ legacy_block (str "big.txt")
             (firstn Legacy.max_file_chars long_line
              ++ Legacy.truncation_marker)
   /\ List.length (firstn Legacy.max_file_chars long_line)
      = Legacy.max_file_chars)
  /\ Legacy.generate_diff_content sample_db many_long_files
     = firstn Legacy.max_diff_chars
         (fold_left (Legacy.add_file sample_db) many_long_files [])
       ++ Legacy.truncation_marker.
Proof.
  split.
  - apply (proj1 (proj2 (truncation_limits sample_db))).
    + exact long_line_is_let_through.
    + rewrite long_line_length. unfold Legacy.max_file_chars. lia.
  - apply (proj1 (proj2 (proj2 (truncation_limits sample_db)))).
    exact many_long_files_length.
Defined.

(** C10.  In [src/analyzer.py], a file is passed over when its content
    has a NUL in it or is not printable; a newline and a tab are not
    printable, so a content of more than one line is passed over.  What
    the blob holds comes from the files of one printable line alone. *)
Theorem multi_line_files_are_skipped (U : unicode_db) :
  (forall content,
     has_char NUL content = true \/ isprintable U content = false ->
     Legacy.looks_binary U content = true)
  /\ (forall content,
        has_char NL content = true \/ has_char TAB content = true ->
        isprintable U content = false)
  /\ (forall diff_content path content,
        Legacy.looks_binary U content = true ->
        Legacy.add_file U diff_content (path, content) = diff_content)
  /\ (forall content,
        Legacy.looks_binary U content = false ->
        split_char NL content = [content]
        /\ isprintable U content = true)
  /\ (forall dump,
        Legacy.generate_diff_content U dump
        = if Normalizer.is_nil dump then []
          else Legacy.limit_diff
                 (List.concat
                    (map (fun e => legacy_block (fst e)
                                     (Legacy.limit_content (snd e)))
                         (filter (emitted U) dump)))).
Proof.
  split; [|split; [|split; [|split]]].
  - intros content [H|H]; unfold Legacy.looks_binary; rewrite H;
      [reflexivity | apply orb_true_r].
  - intros content H.
    assert (forall c, isprintable_char U c = false ->
                      has_char c content = true ->
                      isprintable U content = false) as G.
    { intros c P I. pose proof (unprintable_looks_binary U c content P I) as B.
      unfold Legacy.looks_binary in B.
      destruct (isprintable U content) eqn:E; [|reflexivity].
      unfold isprintable in E. rewrite forallb_forall in E.
      unfold has_char in I. apply existsb_exists in I.
      destruct I as [x [Hx Ex]]. apply N.eqb_eq in Ex. subst x.
      rewrite (E c Hx) in P. discriminate P. }
    destruct H as [H|H]; [apply (G NL) | apply (G TAB)];
      solve [reflexivity | exact H].
  - intros diff_content path content B.
    rewrite legacy_add_file, B. reflexivity.
  - intros content B. split; [apply (emitted_single_line U); exact B|].
    unfold Legacy.looks_binary in B. apply orb_false_iff in B.
    destruct B as [_ B]. apply negb_false_iff in B. exact B.
  - intros dump. unfold Legacy.generate_diff_content.
    rewrite legacy_fold_add_file. reflexivity.
Qed.

(** * The round trip through the canonical dump format *)

Lemma bar_has_no_newline : has_char NL delimiter_bar = false.
Proof. reflexivity. Qed.

Section RoundTrip.
Variable U : unicode_db.

Lemma plain_entry_inv (path content : pystr) :
  plain_entry U (path, content) = true ->
  path <> [] /\ strip U path = path /\ has_char NL path = false
  /\ contains delimiter_bar path = false
  /\ strip U content = content /\ contains delimiter_bar content = false.
Proof.
  unfold plain_entry, trimmed. intros H.
  repeat (apply andb_true_iff in H; destruct H as [H ?]).
  repeat match goal with
         | X : negb _ = true |- _ => apply negb_true_iff in X
         | X : str_eqb _ _ = true |- _ => apply str_eqb_eq in X
         end.
  repeat split; try assumption.
  intros ->. discriminate.
Qed.

Lemma section_has_no_bar (entry : pystr * pystr) :
  plain_entry U entry = true ->
  contains delimiter_bar (serialize_section entry) = false.
Proof.
  destruct entry as [path content]. intros P.
  destruct (plain_entry_inv _ _ P) as [_ [_ [_ [Bp [_ Bc]]]]].
  unfold serialize_section. cbn [fst snd].
  change (str "FILE: " ++ path ++ [NL] ++ content)
    with (str "FILE:" ++ chr " " :: (path ++ NL :: content)).
  apply contains_app_char; [reflexivity | reflexivity |].
  apply contains_app_char; [reflexivity | assumption | assumption].
Qed.

Lemma serialize_cons (e e' : pystr * pystr) (dump : pydict pystr) :
  serialize (e :: e' :: dump)
  = serialize_section e ++ section_separator ++ serialize (e' :: dump).
Proof. reflexivity. Qed.

(** ** [src/main.py] *)

Lemma main_split_serialize (dump : pydict pystr) :
  forallb (plain_entry U) dump = true -> dump <> [] ->
  forall acc,
    split_go Main.file_delimiter 0 acc (serialize dump)
    = match map serialize_section dump with
      | [] => []
      | s :: ss => (rev acc ++ s) :: ss
      end.
Proof.
  induction dump as [|e dump IH]; intros P N acc; [contradiction|].
  cbn [forallb] in P. apply andb_true_iff in P. destruct P as [Pe Pd].
  pose proof (section_has_no_bar e Pe) as B.
  destruct dump as [|e' dump'].
  - unfold serialize. cbn [map join].
    apply split_go_end.
    destruct (contains Main.file_delimiter (serialize_section e)) eqn:C;
      [|reflexivity].
    apply (framed_has_bar delimiter_bar NL) in C.
    rewrite C in B. discriminate B.
  - rewrite serialize_cons. cbn [map].
    change section_separator with Main.file_delimiter.
    rewrite split_go_clear.
    + rewrite split_go_at_sep by discriminate.
      rewrite rev_app_distr, rev_involutive.
      rewrite (IH Pd) by discriminate. reflexivity.
    + intros a b E Nb.
      apply (framed_not_inside delimiter_bar NL bar_has_no_newline
               (serialize_section e) a b); assumption.
Qed.

Lemma split1_go_cut (t acc rest : pystr) :
  has_char NL t = false ->
  split1_go NL acc (t ++ NL :: rest) = [rev acc ++ t; rest].
Proof.
  revert acc. induction t as [|x t IH]; intros acc L.
  - simpl. rewrite app_nil_r. reflexivity.
  - unfold has_char in L. cbn [existsb] in L.
    apply orb_false_iff in L. destruct L as [L1 L2].
    cbn [app split1_go]. rewrite N.eqb_sym in L1. rewrite L1.
    rewrite (IH _ L2). simpl. rewrite <- app_assoc. reflexivity.
Qed.

Lemma split1_go_whole (t acc : pystr) :
  has_char NL t = false -> split1_go NL acc t = [rev acc ++ t].
Proof.
  revert acc. induction t as [|x t IH]; intros acc L.
  - simpl. rewrite app_nil_r. reflexivity.
  - unfold has_char in L. cbn [existsb] in L.
    apply orb_false_iff in L. destruct L as [L1 L2].
    cbn [split1_go]. rewrite N.eqb_sym in L1. rewrite L1.
    rewrite (IH _ L2). simpl. rewrite <- app_assoc. reflexivity.
Qed.

Lemma strip_after_space (path : pystr) :
  strip U path = path -> strip U (chr " " :: path) = path.
Proof.
  intros T.
  replace (chr " " :: path) with ([chr " "] ++ path ++ [])
    by (rewrite app_nil_r; reflexivity).
  unfold strip. rewrite strip_by_around by reflexivity. exact T.
Qed.

Lemma marker_line_has_no_newline (path : pystr) :
  has_char NL path = false -> has_char NL (str "FILE: " ++ path) = false.
Proof. intros L. rewrite has_char_app, L. reflexivity. Qed.

Lemma main_parse_section (files : pydict pystr) (entry : pystr * pystr) :
  plain_entry U entry = true ->
  Main.parse_section U files (serialize_section entry)
  = dict_set (fst entry) (snd entry) files.
Proof.
  destruct entry as [path content]. intros P.
  destruct (plain_entry_inv _ _ P) as [Np [Tp [Lp [_ [Tc _]]]]].
  cbn [fst snd]. unfold Main.parse_section, serialize_section. cbn [fst snd].
  destruct (strip_by_fixed_ends (isspace U) path Tp Np)
    as [_ [_ [_ [_ [pbody [pd [Ep Fpd]]]]]]].
  assert (forall tail, exists t, str "FILE: " ++ tail = chr "F" :: t
                                 /\ isspace U (chr "F") = false) as Head.
  { intros tail. exists (str "ILE: " ++ tail). split; reflexivity. }
  destruct content as [|c0 cmid] eqn:Ec.
  - (* no content: the newline after the name goes *)
    assert (strip U (str "FILE: " ++ path ++ [NL] ++ []) = str "FILE: " ++ path)
      as S.
    { rewrite app_nil_r.
      replace (str "FILE: " ++ path ++ [NL])
        with ([] ++ (str "FILE: " ++ path) ++ [NL])
        by (rewrite <- app_assoc; reflexivity).
      unfold strip. rewrite strip_by_around by reflexivity.
      apply strip_by_ends.
      - exists (chr "F"). apply Head.
      - exists (str "FILE: " ++ pbody), pd. split; [|exact Fpd].
        rewrite Ep. rewrite <- app_assoc. reflexivity. }
    rewrite S. clear S.
    replace (Normalizer.is_nil (str "FILE: " ++ path)) with false
      by reflexivity.
    unfold split1.
    rewrite split1_go_whole by (apply marker_line_has_no_newline; exact Lp).
    cbn [rev app].
    change (str "FILE: " ++ path) with (str "FILE:" ++ chr " " :: path).
    rewrite startswith_app.
    change (skipn 5 (str "FILE:" ++ chr " " :: path)) with (chr " " :: path).
    rewrite (strip_after_space path Tp).
    destruct path; [contradiction | reflexivity].
  - rewrite <- Ec in *.
    assert (content <> []) as Nc by (rewrite Ec; discriminate).
    destruct (strip_by_fixed_ends (isspace U) content Tc Nc)
      as [_ [_ [_ [_ [cbody [cd [Ec' Fcd]]]]]]].
    assert (strip U (str "FILE: " ++ path ++ [NL] ++ content)
            = str "FILE: " ++ path ++ [NL] ++ content) as S.
    { apply strip_by_ends.
      - exists (chr "F"). apply Head.
      - exists (str "FILE: " ++ path ++ [NL] ++ cbody), cd.
        split; [|exact Fcd]. rewrite Ec' at 1.
        rewrite <- !app_assoc. reflexivity. }
    rewrite S. clear S.
    replace (Normalizer.is_nil (str "FILE: " ++ path ++ [NL] ++ content))
      with false by reflexivity.
    unfold split1.
    replace (str "FILE: " ++ path ++ [NL] ++ content)
      with ((str "FILE: " ++ path) ++ NL :: content)
      by (rewrite <- app_assoc; reflexivity).
    rewrite split1_go_cut by (apply marker_line_has_no_newline; exact Lp).
    cbn [rev app].
    change (str "FILE: " ++ path) with (str "FILE:" ++ chr " " :: path).
    rewrite startswith_app.
    change (skipn 5 (str "FILE:" ++ chr " " :: path)) with (chr " " :: path).
    rewrite (strip_after_space path Tp). rewrite Tc.
    destruct path; [contradiction | reflexivity].
Qed.

(** Storing entries with different paths one by one lists them in
    order. *)
Lemma dict_set_new (V : Type) (k : pystr) (v : V) (d : pydict V) :
  existsb (str_eqb k) (keys d) = false -> dict_set k v d = d ++ [(k, v)].
Proof.
  induction d as [|[k' v'] d IH]; intros H; [reflexivity|].
  cbn [keys map fst existsb] in H. apply orb_false_iff in H.
  destruct H as [H1 H2]. cbn [dict_set]. rewrite H1.
  cbn [app]. f_equal. apply IH. exact H2.
Qed.

Lemma store_all_unique (dump : pydict pystr) :
  unique_paths dump = true ->
  forall files,
    (forall k, In k (keys dump) -> existsb (str_eqb k) (keys files) = false) ->
    store_all dump files = files ++ dump.
Proof.
  unfold store_all.
  induction dump as [|[p c] dump IH]; intros Un files Fresh.
  - simpl. rewrite app_nil_r. reflexivity.
  - cbn [unique_paths] in Un. apply andb_true_iff in Un.
    destruct Un as [Up Ud]. apply negb_true_iff in Up.
    cbn [fold_left fst snd].
    rewrite dict_set_new by (apply Fresh; left; reflexivity).
    rewrite IH; [rewrite <- app_assoc; reflexivity | exact Ud |].
    intros k I. unfold keys in *. rewrite map_app, existsb_app.
    rewrite (Fresh k) by (right; exact I). cbn [map fst existsb].
    rewrite orb_false_r.
    destruct (str_eqb k p) eqn:E; [|reflexivity].
    apply str_eqb_eq in E. subst k.
    assert (existsb (str_eqb p) (map fst dump) = true) as X.
    { apply existsb_exists. exists p. split; [exact I | apply str_eqb_refl]. }
    rewrite X in Up. discriminate Up.
Qed.

Lemma main_round_trip (dump : pydict pystr) :
  forallb (plain_entry U) dump = true -> unique_paths dump = true ->
  Main.parse_repository_text U (serialize dump) = dump.
Proof.
  intros P Un. unfold Main.parse_repository_text.
  destruct dump as [|e dump]; [reflexivity|].
  assert (Normalizer.is_nil (serialize (e :: dump)) = false) as Z.
  { destruct dump; unfold serialize, serialize_section; reflexivity. }
  rewrite Z. unfold split.
  rewrite (main_split_serialize (e :: dump) P) by discriminate.
  cbn [map rev app].
  change (serialize_section e :: map serialize_section dump)
    with (map serialize_section (e :: dump)).
  assert (forall d files, forallb (plain_entry U) d = true ->
            fold_left (Main.parse_section U) (map serialize_section d) files
            = store_all d files) as G.
  { induction d as [|x d IHd]; intros files Pd; [reflexivity|].
    cbn [forallb] in Pd. apply andb_true_iff in Pd. destruct Pd as [Px Pd].
    cbn [map fold_left]. rewrite main_parse_section by exact Px.
    rewrite IHd by exact Pd. reflexivity. }
  rewrite G by exact P.
  rewrite store_all_unique; [reflexivity | exact Un | reflexivity].
Qed.

(** ** [src/repository_parser.py] *)

Lemma rp_split_serialize (dump : pydict pystr) :
  forallb (plain_entry U) dump = true -> dump <> [] ->
  forall first : bool,
    split_go RepositoryParser.file_delimiter 0
             (if first then @nil char else [NL]) (serialize dump)
    = pieces_from first dump.
Proof.
  unfold RepositoryParser.file_delimiter.
  induction dump as [|e dump IH]; intros P N first; [contradiction|].
  cbn [forallb] in P. apply andb_true_iff in P. destruct P as [Pe Pd].
  pose proof (section_has_no_bar e Pe) as B.
  destruct dump as [|e' dump'].
  - unfold serialize. cbn [map join pieces_from Normalizer.is_nil].
    rewrite split_go_end by exact B.
    rewrite app_nil_r. destruct first; reflexivity.
  - rewrite serialize_cons. unfold section_separator.
    replace (serialize_section e ++ ([NL] ++ delimiter_bar ++ [NL])
             ++ serialize (e' :: dump'))
      with ((serialize_section e ++ [NL])
            ++ delimiter_bar ++ NL :: serialize (e' :: dump'))
      by (rewrite <- !app_assoc; reflexivity).
    rewrite split_go_clear.
    + rewrite split_go_at_sep by discriminate.
      cbn [pieces_from Normalizer.is_nil]. f_equal.
      * rewrite rev_app_distr, rev_involutive.
        rewrite <- ?app_assoc. destruct first; reflexivity.
      * assert (startswith delimiter_bar (NL :: serialize (e' :: dump'))
                = false) as S by reflexivity.
        cbn [split_go]. rewrite S.
        apply (IH Pd) with (first := false). discriminate.
    + intros a b E Nb.
      apply (bar_not_inside delimiter_bar NL bar_has_no_newline
               (serialize_section e) a b); assumption.
Qed.

Lemma rp_parse_piece (files : pydict pystr) (entry : pystr * pystr)
      (first last : bool) :
  plain_entry U entry = true ->
  RepositoryParser.parse_section U files
    ((if first then [] else [NL]) ++ serialize_section entry
     ++ (if last then [] else [NL]))
  = dict_set (fst entry) (snd entry) files.
Proof.
  destruct entry as [path content]. intros P.
  destruct (plain_entry_inv _ _ P) as [Np [Tp [Lp [_ [Tc _]]]]].
  unfold RepositoryParser.parse_section, serialize_section. cbn [fst snd].
  set (post := if last then [] else [NL]).
  assert (blank U post) as Bp by (destruct last; reflexivity).
  assert (re_search file_re
            ((if first then [] else [NL])
             ++ (str "FILE: " ++ path ++ [NL] ++ content) ++ post)
          = Some {| m_prev := Some NL; m_rest := content ++ post;
                    m_group := Some path |}) as S.
  { replace ((str "FILE: " ++ path ++ [NL] ++ content) ++ post)
      with (str "FILE: " ++ path ++ NL :: (content ++ post))
      by (rewrite <- !app_assoc; reflexivity).
    destruct first; cbn [app].
    - apply file_re_search_at_marker; assumption.
    - apply (file_re_search_after_newline path (content ++ post));
        assumption. }
  rewrite S. unfold group1. cbn [m_group m_rest]. rewrite Tp.
  replace (strip U (content ++ post)) with content; [reflexivity|].
  change (content ++ post) with ([] ++ content ++ post).
  unfold strip. rewrite strip_by_around by (reflexivity || exact Bp).
  symmetry. exact Tc.
Qed.

Lemma rp_pieces_have_marker (dump : pydict pystr) (first : bool) :
  filter (contains (str "FILE: ")) (pieces_from first dump)
  = pieces_from first dump.
Proof.
  revert first. induction dump as [|e dump IH]; intros first; [reflexivity|].
  cbn [pieces_from filter]. unfold serialize_section at 1.
  rewrite <- !app_assoc. rewrite contains_app_marker.
  rewrite IH. unfold serialize_section. rewrite <- ?app_assoc. reflexivity.
Qed.

Lemma rp_fold_pieces (dump : pydict pystr) :
  forallb (plain_entry U) dump = true ->
  forall first files,
    fold_left (RepositoryParser.parse_section U) (pieces_from first dump)
              files
    = store_all dump files.
Proof.
  induction dump as [|e dump IH]; intros P first files; [reflexivity|].
  cbn [forallb] in P. apply andb_true_iff in P. destruct P as [Pe Pd].
  cbn [pieces_from fold_left].
  rewrite (rp_parse_piece files e first (Normalizer.is_nil dump) Pe).
  rewrite (IH Pd). reflexivity.
Qed.

Lemma rp_round_trip (dump : pydict pystr) :
  forallb (plain_entry U) dump = true -> unique_paths dump = true ->
  RepositoryParser.parse_repository_text U (serialize dump) = dump.
Proof.
  intros P Un. unfold RepositoryParser.parse_repository_text.
  destruct dump as [|e dump]; [reflexivity|].
  unfold split.
  rewrite (rp_split_serialize (e :: dump) P) with (first := true)
    by discriminate.
  rewrite rp_pieces_have_marker. rewrite (rp_fold_pieces _ P).
  rewrite store_all_unique; [reflexivity | exact Un | reflexivity].
Qed.

End RoundTrip.

(** C6, at the failing input.  The dump text has one [FILE:] section and
    no delimiter after it.  [src/analyzer.py] pairs each section that has
    the marker with the next one, there is no next one, and the parser
    raises [IndexError]; the parser of [src/main.py] reads the same text. *)
Theorem unterminated_dump_raises :
  Legacy.parse_repository_file sample_db
    (one_file dump_path unterminated_dump) dump_path
  = Raise IndexError
  /\ Main.parse_repository_file sample_db
       (one_file dump_path unterminated_dump) dump_path
     = Ok [(str "a.py", str "print(1)")].
Proof.
  split.
  - unfold Legacy.parse_repository_file.
    replace (one_file dump_path unterminated_dump dump_path)
      with (Some unterminated_dump) by reflexivity.
    apply legacy_parser_index_error; [discriminate|].
    vm_compute. reflexivity.
  - vm_compute. reflexivity.
Qed.

(** C7, as stated, fails: a file whose text ends with a newline comes back
    without it, from both parsers. *)
Lemma trailing_newline_is_lost :
  unique_paths newline_terminated = true
  /\ newline_terminated = [(str "a.py", str "x" ++ [NL])]
  /\ RepositoryParser.parse_repository_text sample_db
       (serialize newline_terminated) = [(str "a.py", str "x")]
  /\ Main.parse_repository_text sample_db (serialize newline_terminated)
     = [(str "a.py", str "x")]
  /\ str_eqb (str "x") (str "x" ++ [NL]) = false.
Proof.
  repeat split; vm_compute; reflexivity.
Qed.

(** C7, amended.  A dump whose paths are different from each other, not
    empty and on one line, and whose paths and contents have no whitespace
    around them and no 48 [=] characters in a row, comes back from its
    canonical text as it was, entry by entry and in order, from the parser
    of [src/repository_parser.py] and from the parser of [src/main.py]. *)
Theorem plain_dump_round_trip (U : unicode_db) (dump : pydict pystr) :
  forallb (plain_entry U) dump = true ->
  unique_paths dump = true ->
  RepositoryParser.parse_repository_text U (serialize dump) = dump
  /\ Main.parse_repository_text U (serialize dump) = dump.
Proof.
  intros P Un. split.
  - apply rp_round_trip; assumption.
  - apply main_round_trip; assumption.
Qed.

(** The dump of scenario 1. *)
Lemma plain_dump_round_trip_witness :
  RepositoryParser.parse_repository_text sample_db (serialize two_files)
  = two_files
  /\ Main.parse_repository_text sample_db (serialize two_files) = two_files.
Proof.
  apply (plain_dump_round_trip sample_db two_files); reflexivity.
Defined.

(** * More on the dump parsers *)

(** ** Stripping twice *)

Section StripTwice.
Variable f : char -> bool.

Lemma dropwhile_head (s : pystr) (c : char) (t : pystr) :
  dropwhile f s = c :: t -> f c = false.
Proof.
  induction s as [|x s IH]; simpl; [discriminate|].
  destruct (f x) eqn:E; [exact IH|].
  intros H. inversion H; subst. exact E.
Qed.

Lemma dropwhile_idem (s : pystr) :
  dropwhile f (dropwhile f s) = dropwhile f s.
Proof.
  destruct (dropwhile f s) as [|c t] eqn:E; [reflexivity|].
  apply dropwhile_stop. apply (dropwhile_head s c t E).
Qed.

Lemma dropwhile_snoc_stop (l : pystr) (c : char) :
  f c = false -> dropwhile f (l ++ [c]) = dropwhile f l ++ [c].
Proof.
  intros H. induction l as [|x l IH]; simpl.
  - rewrite H. reflexivity.
  - destruct (f x); [exact IH | reflexivity].
Qed.

Lemma rstrip_cons_stop (c : char) (t : pystr) :
  f c = false -> rstrip_by f (c :: t) = c :: rstrip_by f t.
Proof.
  intros H. unfold rstrip_by. cbn [rev].
  rewrite dropwhile_snoc_stop by exact H.
  rewrite rev_app_distr. reflexivity.
Qed.

Lemma rstrip_idem (s : pystr) :
  rstrip_by f (rstrip_by f s) = rstrip_by f s.
Proof.
  unfold rstrip_by. rewrite rev_involutive, dropwhile_idem. reflexivity.
Qed.

Lemma strip_by_idem (s : pystr) :
  strip_by f (strip_by f s) = strip_by f s.
Proof.
  unfold strip_by, lstrip_by.
  destruct (dropwhile f s) as [|c t] eqn:E; [reflexivity|].
  pose proof (dropwhile_head s c t E) as H.
  rewrite rstrip_cons_stop by exact H.
  rewrite dropwhile_stop by exact H.
  rewrite rstrip_cons_stop by exact H.
  rewrite rstrip_idem. reflexivity.
Qed.

End StripTwice.

Lemma substring_In (t s : pystr) (c : char) :
  substring t s -> In c t -> In c s.
Proof.
  intros [a [b E]] I. subst s. apply in_or_app. right.
  apply in_or_app. left. exact I.
Qed.

Lemma substring_no_char (t s : pystr) (c : char) :
  substring t s -> has_char c s = false -> has_char c t = false.
Proof.
  intros S H. apply has_char_false. intros I.
  apply has_char_false in H. apply H. apply (substring_In t s c S I).
Qed.

Lemma substring_contains (p t s : pystr) :
  substring t s -> contains p s = false -> contains p t = false.
Proof.
  intros [a [b E]] H. subst s.
  destruct (contains p t) eqn:C; [|reflexivity].
  exfalso.
  assert (forall x, contains p x = true -> exists u v, x = u ++ p ++ v) as G.
  { induction x as [|c x IH]; cbn [contains]; intros K.
    - rewrite orb_false_r in K. apply startswith_prefix in K.
      destruct K as [v Ev]. exists [], v. exact Ev.
    - apply orb_true_iff in K. destruct K as [K|K].
      + apply startswith_prefix in K. destruct K as [v Ev].
        exists [], v. exact Ev.
      + destruct (IH K) as [u [v Ev]]. exists (c :: u), v.
        rewrite Ev. reflexivity. }
  destruct (G t C) as [u [v Ev]]. subst t.
  replace (a ++ (u ++ p ++ v) ++ b) with ((a ++ u) ++ p ++ (v ++ b)) in H
    by (rewrite <- !app_assoc; reflexivity).
  rewrite contains_app_marker in H. discriminate H.
Qed.

(** Every piece that [split] cuts is a run of characters of the text. *)
Lemma split_go_substring (sep : pystr) (s : pystr) :
  forall (skip : nat) (acc x : pystr),
    skip = 0 \/ acc = [] ->
    In x (split_go sep skip acc s) -> substring x (rev acc ++ s).
Proof.
  induction s as [|c s IH]; intros skip acc x Inv H.
  - cbn [split_go] in H. destruct H as [H|[]]. subst x.
    rewrite app_nil_r. apply substring_refl.
  - cbn [split_go] in H. destruct skip as [|n].
    + destruct (startswith sep (c :: s)).
      * destruct H as [H|H].
        -- subst x. exists [], (c :: s). reflexivity.
        -- apply (IH _ [] x) in H; [|right; reflexivity].
           cbn [rev app] in H. destruct H as [a [b E]].
           exists (rev acc ++ c :: a), b. rewrite E.
           rewrite <- !app_assoc. reflexivity.
      * apply (IH 0 (c :: acc) x) in H; [|left; reflexivity].
        cbn [rev] in H. rewrite <- app_assoc in H. exact H.
    + destruct Inv as [Inv|Inv]; [discriminate|]. subst acc.
      apply (IH n [] x) in H; [|right; reflexivity].
      cbn [rev app] in *. destruct H as [a [b E]].
      exists (c :: a), b. rewrite E. reflexivity.
Qed.

Lemma split_substring (sep s x : pystr) :
  In x (split sep s) -> substring x s.
Proof.
  intros H. apply (split_go_substring sep s 0 [] x); [left; reflexivity|].
  exact H.
Qed.

(** ** Storing in a dictionary *)

Lemma dict_set_In (V : Type) (k : pystr) (v : V) (d : pydict V)
      (k' : pystr) (v' : V) :
  In (k', v') (dict_set k v d) -> In (k', v') d \/ (k' = k /\ v' = v).
Proof.
  induction d as [|[k0 v0] d IH]; cbn [dict_set].
  - intros [H|[]]. inversion H. right. auto.
  - destruct (str_eqb k k0) eqn:E.
    + apply str_eqb_eq in E. subst k0.
      intros [H|H].
      * inversion H. right. auto.
      * left. right. exact H.
    + intros [H|H].
      * left. left. exact H.
      * destruct (IH H) as [I|I]; [left; right; exact I | right; exact I].
Qed.

Lemma dict_get_set (V : Type) (k : pystr) (v : V) (d : pydict V)
      (p : pystr) :
  dict_get p (dict_set k v d)
  = if str_eqb p k then Some v else dict_get p d.
Proof.
  induction d as [|[k0 v0] d IH]; cbn [dict_set dict_get].
  - reflexivity.
  - destruct (str_eqb k k0) eqn:E.
    + apply str_eqb_eq in E. subst k0. cbn [dict_get].
      destruct (str_eqb p k); reflexivity.
    + cbn [dict_get]. rewrite IH.
      destruct (str_eqb p k0) eqn:E0; [|reflexivity].
      apply str_eqb_eq in E0. subst k0.
      destruct (str_eqb p k) eqn:E1; [|reflexivity].
      apply str_eqb_eq in E1. subst k. rewrite str_eqb_refl in E.
      discriminate E.
Qed.

Lemma dict_get_app (V : Type) (a b : pydict V) (p : pystr) :
  dict_get p (a ++ b)
  = match dict_get p a with
    | Some v => Some v
    | None => dict_get p b
    end.
Proof.
  induction a as [|[k v] a IH]; cbn [app dict_get]; [reflexivity|].
  destruct (str_eqb p k); [reflexivity | exact IH].
Qed.

Lemma keys_dict_set (V : Type) (k : pystr) (v : V) (d : pydict V) :
  keys (dict_set k v d)
  = if existsb (str_eqb k) (keys d) then keys d else keys d ++ [k].
Proof.
  unfold keys. induction d as [|[k0 v0] d IH]; cbn [dict_set map fst existsb].
  - reflexivity.
  - destruct (str_eqb k k0) eqn:E; cbn [orb map fst].
    + reflexivity.
    + rewrite IH. destruct (existsb (str_eqb k) (map fst d)); reflexivity.
Qed.

Lemma dict_set_NoDup (V : Type) (k : pystr) (v : V) (d : pydict V) :
  NoDup (keys d) -> NoDup (keys (dict_set k v d)).
Proof.
  intros H. rewrite keys_dict_set.
  destruct (existsb (str_eqb k) (keys d)) eqn:E; [exact H|].
  apply NoDup_app; [exact H | constructor; [intros [] | constructor] |].
  intros x Ix [Ik|[]]. subst x.
  assert (existsb (str_eqb k) (keys d) = true) as X.
  { apply existsb_exists. exists k. split; [exact Ix | apply str_eqb_refl]. }
  rewrite X in E. discriminate E.
Qed.

Lemma store_all_NoDup (dump files : pydict pystr) :
  NoDup (keys files) -> NoDup (keys (store_all dump files)).
Proof.
  unfold store_all. revert files.
  induction dump as [|[p c] dump IH]; intros files H; [exact H|].
  cbn [fold_left fst snd]. apply IH. apply dict_set_NoDup. exact H.
Qed.

Lemma dict_get_store_all (dump files : pydict pystr) (p : pystr) :
  dict_get p (store_all dump files)
  = match dict_get p (rev dump) with
    | Some v => Some v
    | None => dict_get p files
    end.
Proof.
  unfold store_all. revert files.
  induction dump as [|[k v] dump IH]; intros files; [reflexivity|].
  cbn [fold_left fst snd rev]. rewrite IH, dict_get_app, dict_get_set.
  cbn [dict_get]. destruct (dict_get p (rev dump)); [reflexivity|].
  destruct (str_eqb p k); reflexivity.
Qed.

(** A loop that stores an entry or passes keeps what holds of every
    entry. *)
Lemma fold_stores_keep (P : pystr -> pystr -> Prop)
      (step : pydict pystr -> pystr -> pydict pystr) :
  (forall d s, step d s = d
               \/ exists k v, step d s = dict_set k v d /\ P k v) ->
  forall sections d,
    (forall k v, In (k, v) d -> P k v) ->
    forall k v, In (k, v) (fold_left step sections d) -> P k v.
Proof.
  intros Step. induction sections as [|s sections IH]; intros d Hd k v H.
  - apply Hd. exact H.
  - cbn [fold_left] in H. apply (IH (step d s)); [|exact H].
    intros k' v' I. destruct (Step d s) as [E|[k0 [v0 [E Pk]]]].
    + rewrite E in I. apply Hd. exact I.
    + rewrite E in I. apply dict_set_In in I. destruct I as [I|[-> ->]].
      * apply Hd. exact I.
      * exact Pk.
Qed.

Section Entries.
Variable U : unicode_db.

Lemma strip_idem (s : pystr) : strip U (strip U s) = strip U s.
Proof. apply strip_by_idem. Qed.

Lemma strip_no_char (c : char) (s : pystr) :
  has_char c s = false -> has_char c (strip U s) = false.
Proof. apply substring_no_char. apply substring_strip_by. Qed.

Lemma split1_go_first (s : pystr) :
  forall acc line0 rest,
    split1_go NL acc s = line0 :: rest ->
    has_char NL (rev acc) = false -> has_char NL line0 = false.
Proof.
  induction s as [|x s IH]; intros acc line0 rest H A; cbn [split1_go] in H.
  - inversion H; subst. exact A.
  - destruct (N.eqb x NL) eqn:E.
    + inversion H; subst. exact A.
    + apply (IH (x :: acc) line0 rest H). cbn [rev].
      rewrite has_char_app, A. unfold has_char. cbn [existsb].
      rewrite N.eqb_sym, E. reflexivity.
Qed.

Lemma main_parse_section_stores (d : pydict pystr) (section : pystr) :
  Main.parse_section U d section = d
  \/ exists k v, Main.parse_section U d section = dict_set k v d
                 /\ main_entry U k v.
Proof.
  unfold Main.parse_section.
  destruct (Normalizer.is_nil (strip U section)); [left; reflexivity|].
  destruct (split1 NL (strip U section)) as [|line0 rest] eqn:E;
    [left; reflexivity|].
  destruct (startswith (str "FILE:") line0); [|left; reflexivity].
  destruct (Normalizer.is_nil (strip U (skipn 5 line0))) eqn:Z;
    [left; reflexivity|].
  right. eexists. eexists. split; [reflexivity|].
  unfold main_entry. split; [exact Z|]. split; [|split].
  - apply strip_no_char.
    apply (substring_no_char _ line0); [apply substring_skipn|].
    apply (split1_go_first _ [] line0 rest E). reflexivity.
  - apply strip_idem.
  - destruct rest as [|line1 rest]; [reflexivity | apply strip_idem].
Qed.


Lemma file_re_sound (prev : option char) (s : pystr) (m : mstate) :
  match_here file_re prev s = Some m ->
  has_char NL (group1 m) = false.
Proof.
  unfold match_here, file_re. cbn [seq_of]. intros H.
  cbn [rmatch] in H.
  apply rmatch_sound_groupless in H; [|reflexivity].
  destruct H as [t [s1 [_ H]]]. cbv beta in H.
  destruct (rep_sound _ _ _ _ _ _ _ H) as [name [s2 [E [F [_ K]]]]].
  cbv beta in K. unfold lit in K. cbn [rmatch] in K.
  destruct s2 as [|x s2]; [discriminate|].
  destruct (NL =? x)%N; [|discriminate].
  inversion K; subst. unfold group1. cbn [m_group].
  rewrite firstn_consumed.
  apply has_char_false. intros I.
  rewrite forallb_forall in F. specialize (F NL I).
  discriminate F.
Qed.

Lemma file_re_search_sound (s : pystr) (m : mstate) :
  re_search file_re s = Some m -> has_char NL (group1 m) = false.
Proof.
  intros H. unfold re_search in H.
  destruct (search_go_sound _ _ _ _ H) as [pre [s0 [prev0 [_ M]]]].
  apply (file_re_sound prev0 s0 m M).
Qed.

Lemma rp_parse_section_stores (d : pydict pystr) (section : pystr) :
  RepositoryParser.parse_section U d section = d
  \/ exists k v, RepositoryParser.parse_section U d section = dict_set k v d
                 /\ matched_entry U k v.
Proof.
  unfold RepositoryParser.parse_section.
  destruct (re_search file_re section) as [m|] eqn:E; [|left; reflexivity].
  right. eexists. eexists. split; [reflexivity|].
  split; [|split; apply strip_idem].
  apply strip_no_char. apply (file_re_search_sound section m E).
Qed.

Lemma legacy_parse_section_stores (d : pydict pystr) (section : pystr) :
  Legacy.parse_section U d section = d
  \/ exists k v, Legacy.parse_section U d section = dict_set k v d
                 /\ main_entry U k v.
Proof.
  unfold Legacy.parse_section.
  destruct (re_search file_re section) as [m|] eqn:E; [|left; reflexivity].
  destruct (Normalizer.is_nil (strip U (group1 m))) eqn:Z;
    [left; reflexivity|].
  right. eexists. eexists. split; [reflexivity|].
  split; [exact Z|]. split; [|split; apply strip_idem].
  apply strip_no_char. apply (file_re_search_sound section m E).
Qed.

(** ** A text without the marker *)

Lemma main_fold_without_marker (sections : list pystr) :
  (forall s, In s sections -> startswith (str "FILE:") (strip U s) = false) ->
  forall d, fold_left (Main.parse_section U) sections d = d.
Proof.
  induction sections as [|s sections IH]; intros H d; [reflexivity|].
  cbn [fold_left]. rewrite main_section_without_marker.
  - apply IH. intros s' I. apply H. right. exact I.
  - apply H. left. reflexivity.
Qed.

Lemma marker_with_space (s : pystr) :
  contains (str "FILE:") s = false -> contains (str "FILE: ") s = false.
Proof.
  induction s as [|c s IH]; cbn [contains]; intros H.
  - reflexivity.
  - apply orb_false_iff in H. destruct H as [H1 H2].
    rewrite (IH H2), orb_false_r.
    destruct (startswith (str "FILE: ") (c :: s)) eqn:E; [|reflexivity].
    change (str "FILE: ") with (str "FILE:" ++ str " ") in E.
    apply startswith_app_true in E. rewrite E in H1. discriminate H1.
Qed.

Lemma paired_without_marker (sections : list pystr) :
  (forall s, In s sections -> contains (str "FILE: ") s = false) ->
  paired sections = [].
Proof.
  induction sections as [|s sections IH]; intros H; [reflexivity|].
  destruct sections as [|next rest]; [reflexivity|].
  cbn [paired]. rewrite (H s) by (left; reflexivity).
  apply IH. intros s' I. apply H. right. exact I.
Qed.

Lemma last_In {A : Type} (l : list A) (d : A) :
  l <> [] -> In (last l d) l.
Proof.
  induction l as [|x l IH]; intros N; [contradiction|].
  destruct l as [|y l]; [left; reflexivity|].
  right. apply IH. discriminate.
Qed.

Lemma split_go_not_nil (sep s : pystr) :
  forall skip acc, split_go sep skip acc s <> [].
Proof.
  induction s as [|c s IH]; intros skip acc; cbn [split_go];
    [discriminate|].
  destruct skip; [|apply IH].
  destruct (startswith sep (c :: s)); [discriminate | apply IH].
Qed.

Lemma skip_directory_structure_substring (content : pystr) :
  substring (Legacy.skip_directory_structure content) content.
Proof.
  unfold Legacy.skip_directory_structure.
  destruct (startswith (str "Directory structure:") content);
    [|apply substring_refl].
  destruct (find [NL; NL] content); [apply substring_skipn|].
  apply substring_refl.
Qed.

End Entries.

(** * The dump parsers: what the mapping holds *)

(** X1.  In [src/main.py] every path of the mapping is not empty, stays
    on one line and has no whitespace around it, and every content has no
    whitespace around it, whatever the text of the dump. *)
Theorem main_entries_are_trimmed
        (U : unicode_db) (content path text : pystr) :
  In (path, text) (Main.parse_repository_text U content) ->
  main_entry U path text.
Proof.
  unfold Main.parse_repository_text.
  destruct (Normalizer.is_nil content); [intros []|].
  apply (fold_stores_keep (main_entry U) (Main.parse_section U)).
  - apply main_parse_section_stores.
  - intros k v [].
Qed.

Lemma main_entries_are_trimmed_witness :
  In (str "a.py", str "x = 1")
     (Main.parse_repository_text sample_db
        (str "FILE:  a.py " ++ [NL] ++ [TAB] ++ str "x = 1 " ++ [NL]))
  /\ main_entry sample_db (str "a.py") (str "x = 1").
Proof.
  assert (In (str "a.py", str "x = 1")
             (Main.parse_repository_text sample_db
                (str "FILE:  a.py " ++ [NL] ++ [TAB] ++ str "x = 1 "
                 ++ [NL]))) as I
      by (vm_compute; left; reflexivity).
  split; [exact I|].
  exact (main_entries_are_trimmed sample_db _ _ _ I).
Defined.

(** X2.  The two parsers that find the path with the pattern
    [FILE: (.+?)\n] store paths on one line and without whitespace around
    them, and contents without whitespace around them;
    [src/analyzer.py] stores no empty path. *)
Theorem matched_entries_are_trimmed (U : unicode_db) (content : pystr) :
  (forall path text,
     In (path, text) (RepositoryParser.parse_repository_text U content) ->
     matched_entry U path text)
  /\ (forall files path text,
        Legacy.parse_repository_text U content = Ok files ->
        In (path, text) files -> main_entry U path text).
Proof.
  split.
  - intros path text. unfold RepositoryParser.parse_repository_text.
    apply (fold_stores_keep (matched_entry U)
             (RepositoryParser.parse_section U)).
    + apply rp_parse_section_stores.
    + intros k v [].
  - intros files path text. unfold Legacy.parse_repository_text.
    destruct (Normalizer.is_nil content).
    { intros H. inversion H; subst. intros []. }
    destruct (Legacy.pair_sections _ _ _) as [sections|e]; cbn [bind];
      [|discriminate].
    destruct (Normalizer.is_nil sections).
    { intros H. inversion H; subst. intros []. }
    intros H. inversion H; subst.
    apply (fold_stores_keep (main_entry U) (Legacy.parse_section U)).
    + apply legacy_parse_section_stores.
    + intros k v [].
Qed.

(** X3.  A text in which [FILE:] does not occur parses to the empty
    mapping in all three parsers, and none of them fails on it. *)
Theorem text_without_marker_parses_to_nothing
        (U : unicode_db) (content : pystr) :
  contains (str "FILE:") content = false ->
  Main.parse_repository_text U content = []
  /\ RepositoryParser.parse_repository_text U content = []
  /\ Legacy.parse_repository_text U content = Ok [].
Proof.
  intros H. pose proof (marker_with_space content H) as H'.
  split; [|split].
  - unfold Main.parse_repository_text.
    destruct (Normalizer.is_nil content); [reflexivity|].
    apply main_fold_without_marker. intros s I.
    apply split_substring in I.
    destruct (startswith (str "FILE:") (strip U s)) eqn:E; [|reflexivity].
    exfalso. apply startswith_prefix in E. destruct E as [t Et].
    assert (substring (strip U s) content) as S
        by (apply (substring_trans _ s); [apply substring_strip_by | exact I]).
    pose proof (substring_contains (str "FILE:") _ _ S H) as C.
    rewrite Et in C.
    change (str "FILE:" ++ t) with ([] ++ str "FILE:" ++ t) in C.
    rewrite contains_app_marker in C. discriminate C.
  - unfold RepositoryParser.parse_repository_text.
    replace (filter (contains (str "FILE: "))
               (split RepositoryParser.file_delimiter content))
      with (@nil pystr); [reflexivity|].
    symmetry.
    assert (forall l, (forall s, In s l -> contains (str "FILE: ") s = false)
                      -> filter (contains (str "FILE: ")) l = []) as G.
    { induction l as [|s l IH]; intros K; [reflexivity|].
      cbn [filter]. rewrite (K s) by (left; reflexivity).
      apply IH. intros s' I. apply K. right. exact I. }
    apply G. intros s I. apply split_substring in I.
    apply (substring_contains _ _ _ I H').
  - unfold Legacy.parse_repository_text.
    destruct (Normalizer.is_nil content); [reflexivity|].
    set (sections := split Legacy.file_delimiter
                           (Legacy.skip_directory_structure content)).
    assert (forall s, In s sections -> contains (str "FILE: ") s = false)
      as K.
    { intros s I. apply split_substring in I.
      apply (substring_contains _ s content); [|exact H'].
      apply (substring_trans _ _ _ I).
      apply skip_directory_structure_substring. }
    pose proof (pair_sections_from [] sections []) as P.
    cbn [List.length app] in P. rewrite P.
    rewrite K by (apply last_In; apply split_go_not_nil).
    cbn [bind app]. rewrite (paired_without_marker sections K).
    reflexivity.
Qed.

Lemma text_without_marker_witness :
  Main.parse_repository_text sample_db plain_prose = []
  /\ RepositoryParser.parse_repository_text sample_db plain_prose = []
  /\ Legacy.parse_repository_text sample_db plain_prose = Ok [].
Proof.
  apply (text_without_marker_parses_to_nothing sample_db plain_prose).
  reflexivity.
Defined.

(** X4.  [src/analyzer.py] fails on the text of a dump in one way only:
    with [IndexError], and exactly when the text after the last bar of 48
    [=] has [FILE: ] in it. *)
Theorem legacy_fails_on_trailing_marker (U : unicode_db) (content : pystr) :
  (Legacy.parse_repository_text U content = Raise IndexError
   <-> contains (str "FILE: ")
         (last (split Legacy.file_delimiter
                      (Legacy.skip_directory_structure content)) []) = true)
  /\ (forall e, Legacy.parse_repository_text U content = Raise e ->
                e = IndexError).
Proof.
  split.
  - destruct content as [|c content].
    + split; [discriminate|]. cbv. discriminate.
    + apply (legacy_parser_index_error U). discriminate.
  - intros e. unfold Legacy.parse_repository_text.
    destruct (Normalizer.is_nil content); [discriminate|].
    set (sections := split Legacy.file_delimiter
                           (Legacy.skip_directory_structure content)).
    pose proof (pair_sections_from [] sections []) as P.
    cbn [List.length app] in P. rewrite P.
    destruct (contains (str "FILE: ") (last sections [])); cbn [bind].
    + intros H. inversion H. reflexivity.
    + destruct (Normalizer.is_nil (paired sections)); discriminate.
Qed.

(** X6.  When the sections of a dump name a path more than once, the
    mapping holds the path once, with the content of the last section
    that names it: in [src/main.py] and in
    [src/repository_parser.py]. *)
Theorem later_section_replaces_earlier
        (U : unicode_db) (dump : pydict pystr) :
  forallb (plain_entry U) dump = true ->
  Main.parse_repository_text U (serialize dump) = store_all dump []
  /\ RepositoryParser.parse_repository_text U (serialize dump)
     = store_all dump []
  /\ NoDup (keys (store_all dump []))
  /\ forall path,
       dict_get path (store_all dump []) = dict_get path (rev dump).
Proof.
  intros P. split; [|split; [|split]].
  - unfold Main.parse_repository_text.
    destruct dump as [|e dump]; [reflexivity|].
    assert (Normalizer.is_nil (serialize (e :: dump)) = false) as Z.
    { destruct dump; unfold serialize, serialize_section; reflexivity. }
    rewrite Z. unfold split.
    rewrite (main_split_serialize U (e :: dump) P) by discriminate.
    cbn [map rev app].
    change (serialize_section e :: map serialize_section dump)
      with (map serialize_section (e :: dump)).
    generalize (@nil (pystr * pystr)) as files. revert P.
    generalize (e :: dump) as d. clear.
    induction d as [|x d IHd]; intros Pd files; [reflexivity|].
    cbn [forallb] in Pd. apply andb_true_iff in Pd. destruct Pd as [Px Pd].
    cbn [map fold_left]. rewrite main_parse_section by exact Px.
    rewrite IHd by exact Pd. reflexivity.
  - unfold RepositoryParser.parse_repository_text.
    destruct dump as [|e dump]; [reflexivity|].
    unfold split.
    rewrite (rp_split_serialize U (e :: dump) P) with (first := true)
      by discriminate.
    rewrite rp_pieces_have_marker. apply (rp_fold_pieces U _ P).
  - apply store_all_NoDup. constructor.
  - intros path. rewrite dict_get_store_all.
    destruct (dict_get path (rev dump)); reflexivity.
Qed.

Lemma later_section_replaces_earlier_witness :
  Main.parse_repository_text sample_db
    (serialize [ (str "a.py", str "old"); (str "b.py", str "x");
                 (str "a.py", str "new") ])
  = [ (str "a.py", str "new"); (str "b.py", str "x") ].
Proof.
  destruct (later_section_replaces_earlier sample_db
              [ (str "a.py", str "old"); (str "b.py", str "x");
                (str "a.py", str "new") ] eq_refl) as [M _].
  rewrite M. reflexivity.
Defined.

(** * The layout that [src/analyzer.py] reads *)

Section FramedLayout.
Variable U : unicode_db.

Lemma framed_cons (e : pystr * pystr) (dump : pydict pystr) :
  framed (e :: dump)
  = delimiter_bar ++ framed_header e ++ delimiter_bar
    ++ framed_body e ++ framed dump.
Proof.
  unfold framed. cbn [map List.concat]. unfold framed_section.
  rewrite <- !app_assoc. reflexivity.
Qed.

Lemma header_has_no_bar (path content : pystr) :
  contains delimiter_bar path = false ->
  contains delimiter_bar ([NL] ++ str "FILE: " ++ path) = false.
Proof.
  intros H.
  change ([NL] ++ str "FILE: " ++ path)
    with (([NL] ++ str "FILE:") ++ chr " " :: path).
  apply contains_app_char; [reflexivity | reflexivity | exact H].
Qed.

Lemma body_has_no_bar (content : pystr) :
  contains delimiter_bar content = false ->
  contains delimiter_bar ([NL] ++ content ++ [NL]) = false.
Proof.
  intros H. change ([NL] ++ content ++ [NL]) with ([] ++ NL :: content ++ [NL]).
  apply contains_app_char; [reflexivity | reflexivity |].
  replace (content ++ [NL]) with (content ++ NL :: []) by reflexivity.
  apply contains_app_char; [reflexivity | exact H | reflexivity].
Qed.

Lemma framed_starts_with_bar (e : pystr * pystr) (dump : pydict pystr) :
  exists rest, framed (e :: dump) = delimiter_bar ++ rest.
Proof. rewrite framed_cons. eexists. reflexivity. Qed.

(** The sections that [split] cuts a framed dump into. *)
Lemma split_framed (dump : pydict pystr) :
  forallb (plain_entry U) dump = true ->
  forall acc,
    split_go Legacy.file_delimiter 0 acc (framed dump)
    = rev acc
      :: flat_map (fun e => [framed_header e; framed_body e]) dump.
Proof.
  unfold Legacy.file_delimiter.
  induction dump as [|[path content] dump IH]; intros P acc.
  - reflexivity.
  - cbn [forallb] in P. apply andb_true_iff in P. destruct P as [Pe Pd].
    destruct (plain_entry_inv U _ _ Pe) as [Np [Tp [Lp [Bp [Tc Bc]]]]].
    rewrite framed_cons.
    rewrite split_go_at_sep by discriminate.
    cbn [flat_map app]. f_equal.
    (* the header *)
    unfold framed_header at 1. cbn [fst].
    replace (([NL] ++ str "FILE: " ++ path ++ [NL]) ++ delimiter_bar
             ++ framed_body (path, content) ++ framed dump)
      with ((([NL] ++ str "FILE: " ++ path) ++ [NL]) ++ delimiter_bar
            ++ framed_body (path, content) ++ framed dump)
      by (rewrite <- !app_assoc; reflexivity).
    rewrite split_go_clear.
    2:{ intros a b E Nb.
        apply (bar_not_inside delimiter_bar NL bar_has_no_newline
                 ([NL] ++ str "FILE: " ++ path) a b);
          [apply (header_has_no_bar path content Bp) | exact E | exact Nb]. }
    rewrite split_go_at_sep by discriminate.
    rewrite app_nil_r, rev_involutive.
    f_equal.
    (* the body *)
    rewrite split_go_clear.
    2:{ intros a b E Nb. unfold framed_body in E. cbn [snd] in E.
        destruct dump as [|e' dump'].
        - change (framed []) with (@nil char). rewrite app_nil_r.
          apply (contains_false_suffix delimiter_bar
                   ([NL] ++ content ++ [NL; NL]) a b); [|exact E].
          replace ([NL] ++ content ++ [NL; NL])
            with (([NL] ++ content ++ [NL]) ++ NL :: [])
            by (rewrite <- !app_assoc; reflexivity).
          apply contains_app_char;
            [reflexivity | apply body_has_no_bar; exact Bc | reflexivity].
        - destruct (framed_starts_with_bar e' dump') as [rest ->].
          apply (bar_not_inside delimiter_bar NL bar_has_no_newline
                   ([NL] ++ content ++ [NL]) a b);
            [apply body_has_no_bar; exact Bc | | exact Nb].
          rewrite <- E. rewrite <- !app_assoc. reflexivity. }
    rewrite app_nil_r. rewrite (IH Pd). rewrite rev_involutive.
    reflexivity.
Qed.

Lemma paired_framed (dump : pydict pystr) :
  forallb markerless dump = true ->
  paired (flat_map (fun e => [framed_header e; framed_body e]) dump)
  = map (fun e => framed_header e ++ framed_body e) dump.
Proof.
  induction dump as [|e dump IH]; intros M; [reflexivity|].
  cbn [forallb] in M. apply andb_true_iff in M. destruct M as [Me Md].
  cbn [flat_map app map].
  assert (contains (str "FILE: ") (framed_header e) = true) as H.
  { unfold framed_header. apply contains_app_marker. }
  assert (contains (str "FILE: ") (framed_body e) = false) as B.
  { unfold markerless in Me. apply negb_true_iff in Me.
    unfold framed_body.
    change ([NL] ++ snd e ++ [NL; NL]) with ([] ++ NL :: snd e ++ [NL; NL]).
    apply contains_app_char; [reflexivity | reflexivity |].
    replace (snd e ++ [NL; NL]) with (snd e ++ NL :: [NL]) by reflexivity.
    apply contains_app_char; [reflexivity | exact Me | reflexivity]. }
  cbn [paired]. rewrite H. f_equal.
  rewrite <- (IH Md).
  destruct (flat_map (fun e0 => [framed_header e0; framed_body e0]) dump)
    as [|next rest]; [reflexivity|].
  cbn [paired]. rewrite B. reflexivity.
Qed.

Lemma last_framed (dump : pydict pystr) (first : pystr) :
  forallb markerless dump = true ->
  contains (str "FILE: ") first = false ->
  contains (str "FILE: ")
    (last (first
           :: flat_map (fun e => [framed_header e; framed_body e]) dump) [])
  = false.
Proof.
  revert first. induction dump as [|e dump IH]; intros first M F.
  - exact F.
  - cbn [forallb] in M. apply andb_true_iff in M. destruct M as [Me Md].
    cbn [flat_map app].
    change (last (first :: framed_header e :: framed_body e
                  :: flat_map (fun e0 => [framed_header e0; framed_body e0])
                       dump) [])
      with (last (framed_body e
                  :: flat_map (fun e0 => [framed_header e0; framed_body e0])
                       dump) []).
    apply (IH _ Md).
    unfold markerless in Me. apply negb_true_iff in Me.
    unfold framed_body.
    change ([NL] ++ snd e ++ [NL; NL]) with ([] ++ NL :: snd e ++ [NL; NL]).
    apply contains_app_char; [reflexivity | reflexivity |].
    replace (snd e ++ [NL; NL]) with (snd e ++ NL :: [NL]) by reflexivity.
    apply contains_app_char; [reflexivity | exact Me | reflexivity].
Qed.

Lemma legacy_parse_framed (files : pydict pystr) (entry : pystr * pystr) :
  plain_entry U entry = true ->
  Legacy.parse_section U files (framed_header entry ++ framed_body entry)
  = dict_set (fst entry) (snd entry) files.
Proof.
  destruct entry as [path content]. intros P.
  destruct (plain_entry_inv U _ _ P) as [Np [Tp [Lp [_ [Tc _]]]]].
  unfold Legacy.parse_section, framed_header, framed_body. cbn [fst snd].
  replace (([NL] ++ str "FILE: " ++ path ++ [NL]) ++ [NL] ++ content
           ++ [NL; NL])
    with (NL :: str "FILE: " ++ path ++ NL :: ([NL] ++ content ++ [NL; NL]))
    by (cbn [app]; rewrite <- !app_assoc; reflexivity).
  rewrite file_re_search_after_newline by assumption.
  unfold group1. cbn [m_group m_rest]. rewrite Tp.
  destruct path as [|c path]; [contradiction|]. cbn [Normalizer.is_nil].
  unfold strip. rewrite strip_by_around by reflexivity.
  fold (strip U content). rewrite Tc. reflexivity.
Qed.

Lemma legacy_fold_framed (dump : pydict pystr) :
  forallb (plain_entry U) dump = true ->
  forall files,
    fold_left (Legacy.parse_section U)
              (map (fun e => framed_header e ++ framed_body e) dump) files
    = store_all dump files.
Proof.
  induction dump as [|e dump IH]; intros P files; [reflexivity|].
  cbn [forallb] in P. apply andb_true_iff in P. destruct P as [Pe Pd].
  cbn [map fold_left]. rewrite legacy_parse_framed by exact Pe.
  rewrite (IH Pd). reflexivity.
Qed.

Lemma legacy_reads_framed (dump : pydict pystr) :
  forallb (plain_entry U) dump = true ->
  forallb markerless dump = true ->
  Legacy.parse_repository_text U (framed dump) = Ok (store_all dump []).
Proof.
  intros P M. unfold Legacy.parse_repository_text.
  destruct dump as [|e dump]; [reflexivity|].
  destruct (framed_starts_with_bar e dump) as [rest E].
  assert (Normalizer.is_nil (framed (e :: dump)) = false) as Z
      by (rewrite E; reflexivity).
  rewrite Z.
  assert (Legacy.skip_directory_structure (framed (e :: dump))
          = framed (e :: dump)) as Sk.
  { unfold Legacy.skip_directory_structure. rewrite E. reflexivity. }
  rewrite Sk. unfold split. rewrite (split_framed _ P).
  set (sections := rev [] :: flat_map (fun e0 => [framed_header e0;
                                                  framed_body e0])
                                      (e :: dump)).
  pose proof (pair_sections_from [] sections []) as Q.
  cbn [List.length app] in Q. rewrite Q.
  unfold sections. rewrite (last_framed _ _ M) by reflexivity.
  cbn [bind app rev].
  assert (paired ([] :: flat_map (fun e0 => [framed_header e0;
                                             framed_body e0]) (e :: dump))
          = map (fun e0 => framed_header e0 ++ framed_body e0) (e :: dump))
    as Pr.
  { rewrite <- (paired_framed _ M). reflexivity. }
  rewrite Pr. cbn [map Normalizer.is_nil].
  change ((framed_header e ++ framed_body e)
          :: map (fun e0 => framed_header e0 ++ framed_body e0) dump)
    with (map (fun e0 => framed_header e0 ++ framed_body e0) (e :: dump)).
  rewrite (legacy_fold_framed _ P). reflexivity.
Qed.

End FramedLayout.

(** X5.  [src/analyzer.py] reads back a dump laid out with the line
    [FILE: <path>] between two bars and the content after the second:
    for distinct paths that are not empty, on one line and without
    whitespace around them, and contents without whitespace around them,
    with neither 48 [=] in a row nor [FILE: ] in them, the mapping is the
    dump, in order. *)
Theorem legacy_reads_framed_layout (U : unicode_db) (dump : pydict pystr) :
  forallb (plain_entry U) dump = true ->
  forallb markerless dump = true ->
  unique_paths dump = true ->
  Legacy.parse_repository_text U (framed dump) = Ok dump.
Proof.
  intros P M Un. rewrite (legacy_reads_framed U dump P M).
  rewrite store_all_unique; [reflexivity | exact Un | reflexivity].
Qed.

Lemma legacy_reads_framed_layout_witness :
  Legacy.parse_repository_text sample_db (framed two_files) = Ok two_files.
Proof.
  apply (legacy_reads_framed_layout sample_db two_files); reflexivity.
Defined.

(** * More on the diff synthesizers *)

Lemma join_two (sep x y : pystr) (rest : list pystr) :
  join sep (x :: y :: rest) = x ++ sep ++ join sep (y :: rest).
Proof. reflexivity. Qed.

Lemma main_diff_of_files (dump : pydict pystr) :
  Normalizer.is_nil dump = false ->
  Main.generate_diff_content dump = join [NL] (flat_map file_block dump).
Proof.
  intros N. unfold Main.generate_diff_content. rewrite N.
  rewrite main_fold_add_file. reflexivity.
Qed.

Lemma main_diff_starts (path content : pystr) (dump : pydict pystr) :
  exists rest,
    Main.generate_diff_content ((path, content) :: dump)
    = str "--- a/" ++ path ++ [NL] ++ rest.
Proof.
  rewrite main_diff_of_files by reflexivity.
  cbn [flat_map]. unfold file_block at 1. cbn [app].
  rewrite join_two. rewrite <- app_assoc. eexists. reflexivity.
Qed.

(** ** Carriage returns *)

Lemma split_char_go_app (c : char) (a b : pystr) :
  forall acc,
    split_char_go c acc (a ++ c :: b)
    = split_char_go c acc a ++ split_char c b.
Proof.
  induction a as [|x a IH]; intros acc; cbn [app split_char_go].
  - rewrite N.eqb_refl. reflexivity.
  - destruct (N.eqb x c); [|apply IH].
    cbn [app]. f_equal. apply IH.
Qed.

Lemma plus_lines_before_cr (a : pystr) :
  forall acc,
    map (fun line => str "+" ++ rstrip_by Main.is_crlf line)
        (split_char_go NL acc (a ++ [CR]))
    = map (fun line => str "+" ++ rstrip_by Main.is_crlf line)
          (split_char_go NL acc a).
Proof.
  induction a as [|x a IH]; intros acc; cbn [app split_char_go].
  - change (N.eqb CR NL) with false. cbn [split_char_go map rev].
    rewrite rstrip_all by reflexivity. reflexivity.
  - destruct (N.eqb x NL); [|apply IH].
    cbn [map]. f_equal. apply IH.
Qed.

Lemma newline_count_app (a b : pystr) :
  newline_count (a ++ b) = newline_count a + newline_count b.
Proof. unfold newline_count. apply count_occ_app. Qed.

Lemma file_block_before_cr (path a : pystr) :
  file_block (path, a ++ [CR]) = file_block (path, a).
Proof.
  unfold file_block. rewrite newline_count_app.
  change (newline_count [CR]) with 0. rewrite Nat.add_0_r.
  unfold split_char. rewrite plus_lines_before_cr. reflexivity.
Qed.

Lemma file_block_crlf (path a b : pystr) :
  file_block (path, a ++ [CR; NL] ++ b) = file_block (path, a ++ [NL] ++ b).
Proof.
  unfold file_block.
  rewrite !newline_count_app.
  change (newline_count [CR; NL]) with 1. change (newline_count [NL]) with 1.
  unfold split_char.
  replace (a ++ [CR; NL] ++ b) with ((a ++ [CR]) ++ NL :: b)
    by (rewrite <- app_assoc; reflexivity).
  change (a ++ [NL] ++ b) with (a ++ NL :: b).
  rewrite !split_char_go_app, !map_app, plus_lines_before_cr.
  reflexivity.
Qed.

Lemma main_diff_congruence (before after : pydict pystr)
      (e1 e2 : pystr * pystr) :
  file_block e1 = file_block e2 ->
  Main.generate_diff_content (before ++ e1 :: after)
  = Main.generate_diff_content (before ++ e2 :: after).
Proof.
  intros H.
  rewrite !main_diff_of_files by (destruct before; reflexivity).
  rewrite !flat_map_app. cbn [flat_map]. rewrite H. reflexivity.
Qed.

(** X8.  The synthesizer of [src/main.py] drops the carriage return at
    the end of a line: a file with CRLF line ends and the same file with
    LF line ends give the same blob, and so does a file with a carriage
    return at its very end. *)
Theorem carriage_returns_are_dropped
        (before after : pydict pystr) (path a b : pystr) :
  Main.generate_diff_content (before ++ (path, a ++ [CR; NL] ++ b) :: after)
  = Main.generate_diff_content (before ++ (path, a ++ [NL] ++ b) :: after)
  /\ Main.generate_diff_content (before ++ (path, a ++ [CR]) :: after)
     = Main.generate_diff_content (before ++ (path, a) :: after).
Proof.
  split; apply main_diff_congruence.
  - apply file_block_crlf.
  - apply file_block_before_cr.
Qed.

(** ** What the model is sent *)

Lemma truncate_prompt_short (prompt : pystr) :
  List.length prompt <= max_prompt_length ->
  truncate_prompt prompt = prompt.
Proof.
  intros H. unfold truncate_prompt.
  destruct (Nat.ltb_spec max_prompt_length (List.length prompt));
    [lia | reflexivity].
Qed.

Lemma truncate_prompt_long (prompt : pystr) :
  max_prompt_length <= List.length prompt ->
  truncate_prompt prompt = firstn max_prompt_length prompt.
Proof.
  intros H. unfold truncate_prompt.
  destruct (Nat.ltb_spec max_prompt_length (List.length prompt));
    [reflexivity|].
  symmetry. apply firstn_all2. lia.
Qed.

Lemma truncate_prompt_length (prompt : pystr) :
  List.length (truncate_prompt prompt) <= max_prompt_length.
Proof.
  unfold truncate_prompt.
  destruct (Nat.ltb_spec max_prompt_length (List.length prompt)).
  - rewrite length_firstn. lia.
  - exact H.
Qed.

(** The cut of a prompt whose diff is long enough to fill it. *)
Lemma truncate_prompt_fills (head diff tail : pystr) :
  List.length head <= max_prompt_length ->
  max_prompt_length - List.length head <= List.length diff ->
  truncate_prompt (head ++ diff ++ tail)
  = head ++ firstn (max_prompt_length - List.length head) diff.
Proof.
  intros Hh Hd.
  rewrite truncate_prompt_long by (rewrite !length_app; lia).
  rewrite firstn_app.
  rewrite firstn_all2 by exact Hh. f_equal.
  rewrite firstn_app.
  replace (max_prompt_length - List.length head - List.length diff)
    with 0 by lia.
  cbn [firstn]. apply app_nil_r.
Qed.

Lemma firstn_app_short {A : Type} (n : nat) (a b : list A) :
  n <= List.length a -> firstn n (a ++ b) = firstn n a.
Proof.
  intros H. rewrite firstn_app.
  replace (n - List.length a) with 0 by lia.
  cbn [firstn]. apply app_nil_r.
Qed.

Lemma limits_in_order : max_prompt_length <= Legacy.max_diff_chars.
Proof. unfold max_prompt_length, Legacy.max_diff_chars. lia. Qed.

Lemma new_prompt_head_length :
  List.length (join [NL] Analyzer.prompt_lines ++ [NL]) = N.to_nat 3083.
Proof. vm_compute. reflexivity. Qed.

Section LegacyPrompt.
Variable U : unicode_db.

Lemma legacy_diff_unlimited (dump : pydict pystr) :
  Legacy.generate_diff_content U dump
  = Legacy.limit_diff (fold_left (Legacy.add_file U) dump []).
Proof.
  unfold Legacy.generate_diff_content.
  destruct dump as [|e dump]; [|reflexivity].
  cbn [Normalizer.is_nil fold_left]. unfold Legacy.limit_diff.
  destruct (Nat.ltb_spec Legacy.max_diff_chars (List.length (@nil char)));
    [|reflexivity].
  cbn [List.length] in H. lia.
Qed.

Lemma legacy_prompt_after_limit (diff_content : pystr) :
  truncate_prompt (LegacyAnalyzer.build_prompt
                     (Legacy.limit_diff diff_content))
  = truncate_prompt (LegacyAnalyzer.build_prompt diff_content).
Proof.
  unfold Legacy.limit_diff.
  destruct (Nat.ltb_spec Legacy.max_diff_chars (List.length diff_content))
    as [L|L]; [|reflexivity].
  unfold LegacyAnalyzer.build_prompt.
  set (head := join [NL] LegacyAnalyzer.prompt_lines).
  pose proof limits_in_order as O.
  destruct (Nat.le_gt_cases (List.length (head ++ [NL])) max_prompt_length)
    as [Hh|Hh].
  - replace (head ++ [NL]
             ++ (firstn Legacy.max_diff_chars diff_content
                 ++ Legacy.truncation_marker) ++ [NL])
      with ((head ++ [NL])
            ++ firstn Legacy.max_diff_chars diff_content
            ++ (Legacy.truncation_marker ++ [NL]))
      by (rewrite <- !app_assoc; reflexivity).
    replace (head ++ [NL] ++ diff_content ++ [NL])
      with ((head ++ [NL]) ++ diff_content ++ [NL])
      by (rewrite <- !app_assoc; reflexivity).
    rewrite !truncate_prompt_fills;
      try exact Hh; try (rewrite ?length_firstn; lia).
    f_equal. rewrite firstn_firstn. rewrite Nat.min_l by lia. reflexivity.
  - assert (forall rest,
              truncate_prompt (head ++ [NL] ++ rest)
              = firstn max_prompt_length (head ++ [NL])) as G.
    { intros rest. rewrite truncate_prompt_long
        by (rewrite app_assoc, length_app; lia).
      rewrite app_assoc. apply firstn_app_short. lia. }
    rewrite !G. reflexivity.
Qed.

End LegacyPrompt.

(** X10.  In [src/analyzer.py] the cut of the blob at 100,000 characters
    changes nothing in what the model is sent: the prompt is cut at
    32,000 characters, so the model is sent the same text as for the
    blob that was not cut, and never the marker of that cut. *)
Theorem blob_limit_never_reaches_the_model
        (U : unicode_db) (dump : pydict pystr) :
  truncate_prompt
    (LegacyAnalyzer.build_prompt (Legacy.generate_diff_content U dump))
  = truncate_prompt
      (LegacyAnalyzer.build_prompt (fold_left (Legacy.add_file U) dump []))
  /\ List.length
       (truncate_prompt
          (LegacyAnalyzer.build_prompt (Legacy.generate_diff_content U dump)))
     <= N.to_nat 32000.
Proof.
  split.
  - rewrite legacy_diff_unlimited. apply legacy_prompt_after_limit.
  - apply truncate_prompt_length.
Qed.

(** X11.  [src/app/modules/analyzer.py] sends the model the instructions
    in full and then at most the first 28,917 characters of the diff: a
    diff of up to 28,916 characters is sent whole, with the newline
    after it, and of a longer one the rest is left out. *)
Theorem model_sees_a_bounded_diff (diff_content : pystr) :
  (List.length diff_content <= N.to_nat 28916 ->
   truncate_prompt (Analyzer.build_analysis_prompt diff_content)
   = Analyzer.build_analysis_prompt diff_content)
  /\ (N.to_nat 28917 <= List.length diff_content ->
      truncate_prompt (Analyzer.build_analysis_prompt diff_content)
      = join [NL] Analyzer.prompt_lines ++ [NL]
        ++ firstn (N.to_nat 28917) diff_content).
Proof.
  pose proof new_prompt_head_length as H.
  unfold Analyzer.build_analysis_prompt.
  set (head := join [NL] Analyzer.prompt_lines) in *.
  split; intros L.
  - apply truncate_prompt_short. rewrite !length_app in *.
    cbn [List.length] in *. unfold max_prompt_length. lia.
  - replace (head ++ [NL] ++ diff_content ++ [NL])
      with ((head ++ [NL]) ++ diff_content ++ [NL])
      by (rewrite <- !app_assoc; reflexivity).
    rewrite truncate_prompt_fills.
    + rewrite H.
      replace (max_prompt_length - N.to_nat 3083) with (N.to_nat 28917)
        by (unfold max_prompt_length; lia).
      rewrite <- app_assoc. reflexivity.
    + rewrite H. unfold max_prompt_length. lia.
    + rewrite H. unfold max_prompt_length. lia.
Qed.

(** * The runs on a dump *)

Lemma main_diff_is_not_empty (dump : pydict pystr) :
  Normalizer.is_nil dump = false ->
  Normalizer.is_nil (Main.generate_diff_content dump) = false.
Proof.
  intros N. unfold Main.generate_diff_content. rewrite N.
  rewrite main_fold_add_file.
  destruct dump as [|[path content] dump]; [discriminate|].
  reflexivity.
Qed.

(** X7.  For a mapping that is not empty the synthesizer of
    [src/main.py] gives a blob that is not empty.  So the run on a
    repository file whose dump has at least one file always hands the
    blob to the analyzer: the result [Generated empty diff] is never
    given. *)
Theorem parsed_dump_is_always_analysed
        (U : unicode_db) (json_loads : pystr -> result json)
        (float_of_str : pystr -> option float)
        (str_of_exn : exn -> pystr) (self : credentials)
        (run_model : pystr -> run_outcome Normalizer.alternative)
        (fs : filesystem) (path : pystr)
        (repository_files : pydict pystr) :
  Main.parse_repository_file U fs path = Ok repository_files ->
  Normalizer.is_nil repository_files = false ->
  Normalizer.is_nil (Main.generate_diff_content repository_files) = false
  /\ Runner.run_on_repo U json_loads float_of_str str_of_exn self run_model
                        fs path
     = [ Analyzer.analyze_code_changes U json_loads float_of_str str_of_exn
           self run_model (Main.generate_diff_content repository_files) ].
Proof.
  intros P N. pose proof (main_diff_is_not_empty repository_files N) as D.
  split; [exact D|].
  unfold Runner.run_on_repo. rewrite P, N, D. reflexivity.
Qed.

Lemma parsed_dump_is_always_analysed_witness :
  Normalizer.is_nil (Main.generate_diff_content two_files) = false
  /\ Runner.run_on_repo sample_db Sample.json_loads
       (Sample.float_of_str sample_db) sample_exn_text sample_credentials
       sample_model (one_file dump_path (serialize two_files)) dump_path
     = [ Analyzer.analyze_code_changes sample_db Sample.json_loads
           (Sample.float_of_str sample_db) sample_exn_text
           sample_credentials sample_model
           (Main.generate_diff_content two_files) ].
Proof.
  apply (parsed_dump_is_always_analysed sample_db Sample.json_loads
           (Sample.float_of_str sample_db) sample_exn_text
           sample_credentials sample_model
           (one_file dump_path (serialize two_files)) dump_path two_files).
  - vm_compute. reflexivity.
  - reflexivity.
Defined.

Section LegacyRun.
Variable U : unicode_db.

Lemma nothing_emitted (dump : pydict pystr) :
  forallb (fun e => has_char NL (snd e)) dump = true ->
  filter (emitted U) dump = [].
Proof.
  induction dump as [|e dump IH]; intros H; [reflexivity|].
  cbn [forallb] in H. apply andb_true_iff in H. destruct H as [He Hd].
  cbn [filter]. unfold emitted at 1.
  rewrite (unprintable_looks_binary U NL (snd e)); [|reflexivity | exact He].
  cbn [negb]. apply IH. exact Hd.
Qed.

Lemma legacy_diff_of_lines (dump : pydict pystr) :
  forallb (fun e => has_char NL (snd e)) dump = true ->
  Legacy.generate_diff_content U dump = [].
Proof.
  intros H. unfold Legacy.generate_diff_content.
  destruct (Normalizer.is_nil dump); [reflexivity|].
  rewrite legacy_fold_add_file, (nothing_emitted dump H).
  cbn [map List.concat app]. unfold Legacy.limit_diff.
  destruct (Nat.ltb_spec Legacy.max_diff_chars (List.length (@nil char)));
    [|reflexivity].
  cbn [List.length] in *. lia.
Qed.

End LegacyRun.

(** X9.  In [src/analyzer.py] a dump whose files all have more than one
    line gives the empty blob, and the analysis of the repository file
    does not stop there: the model is asked about a diff with nothing in
    it. *)
Theorem multi_line_dump_asks_about_nothing
        (U : unicode_db) (float_of_str : pystr -> option float)
        (repr_response : LegacyAnalyzer.response -> pystr)
        (self : credentials)
        (run_model : pystr -> run_outcome LegacyAnalyzer.alternative)
        (fs : filesystem) (path : pystr) (files : pydict pystr) :
  Legacy.parse_repository_file U fs path = Ok files ->
  Normalizer.is_nil files = false ->
  forallb (fun e => has_char NL (snd e)) files = true ->
  Legacy.generate_diff_content U files = []
  /\ LegacyAnalyzer.analyze_repository_file U float_of_str repr_response
       self run_model fs path
     = Ok (LegacyAnalyzer.analyze_code_changes U float_of_str repr_response
             self run_model []).
Proof.
  intros P N L. pose proof (legacy_diff_of_lines U files L) as D.
  split; [exact D|].
  unfold LegacyAnalyzer.analyze_repository_file. rewrite P. cbn [bind].
  rewrite N, D. reflexivity.
Qed.

Lemma multi_line_dump_witness :
  Legacy.generate_diff_content sample_db two_line_file = []
  /\ LegacyAnalyzer.analyze_repository_file sample_db
       (Sample.float_of_str sample_db) (fun _ => []) sample_credentials
       (fun _ => Alternatives [LegacyAnalyzer.ObjText plain_prose])
       (one_file dump_path (framed two_line_file)) dump_path
     = Ok (LegacyAnalyzer.analyze_code_changes sample_db
             (Sample.float_of_str sample_db) (fun _ => [])
             sample_credentials
             (fun _ => Alternatives [LegacyAnalyzer.ObjText plain_prose])
             []).
Proof.
  apply (multi_line_dump_asks_about_nothing sample_db
           (Sample.float_of_str sample_db) (fun _ => []) sample_credentials
           (fun _ => Alternatives [LegacyAnalyzer.ObjText plain_prose])
           (one_file dump_path (framed two_line_file)) dump_path
           two_line_file).
  - vm_compute. reflexivity.
  - reflexivity.
  - reflexivity.
Defined.

(** * Tier 2: a fenced JSON object inside other text *)

Lemma dropwhile_app_stop (f : char -> bool) (s t : pystr) (c : char)
      (rest : pystr) :
  dropwhile f s = c :: rest -> dropwhile f (s ++ t) = c :: rest ++ t.
Proof.
  induction s as [|x s IH]; cbn [dropwhile app]; [discriminate|].
  destruct (f x); [exact IH|].
  intros H. inversion H; subst. reflexivity.
Qed.

Lemma lits_fail_head (w : pystr) (c x : char) (prev : option char)
      (s : pystr) (g : option pystr)
      (k : option char -> pystr -> option pystr -> option mstate) :
  x <> c -> rmatch (lits (c :: w)) prev (x :: s) g k = None.
Proof.
  intros N. unfold lits. cbn [map seq_of].
  assert ((c =? x)%N = false) as E
      by (apply N.eqb_neq; intros ->; apply N; reflexivity).
  destruct (map lit w); unfold lit; cbn [rmatch]; rewrite E; reflexivity.
Qed.

Section Embedded.
Variable U : unicode_db.
Variable json_loads : pystr -> result json.
Variable float_of_str : pystr -> option float.

(** Greedy whitespace fails when what follows fails after each run of
    whitespace. *)
Lemma ws_star_fails (s : pystr) :
  forall (prev : option char) (g : option pystr)
         (k : option char -> pystr -> option pystr -> option mstate),
    (forall ws rest, s = ws ++ rest -> forallb (isspace U) ws = true ->
                     k (prev_after prev ws) rest g = None) ->
    rmatch (ws_star U) prev s g k = None.
Proof.
  unfold ws_star. cbn [rmatch].
  induction s as [|c s IH]; intros prev g k H; cbn [rep].
  - apply (H [] []); reflexivity.
  - destruct (isspace U c) eqn:E.
    + rewrite (IH (Some c) g k).
      * cbn [orelse]. apply (H [] (c :: s)); reflexivity.
      * intros ws rest Es F.
        rewrite <- (prev_after_cons prev).
        apply (H (c :: ws) rest); [rewrite Es; reflexivity|].
        cbn [forallb]. rewrite E, F. reflexivity.
    + apply (H [] (c :: s)); reflexivity.
Qed.

Lemma strip_opens_with (pre rest : pystr) :
  opens_with_prose U pre = true ->
  exists c tail, strip U (pre ++ rest) = c :: tail
                 /\ c <> chr "{" /\ c <> chr "`".
Proof.
  unfold opens_with_prose. intros H. apply andb_true_iff in H.
  destruct H as [H B]. apply negb_true_iff in B.
  unfold lstrip_by in H.
  destruct (dropwhile (isspace U) pre) as [|c t] eqn:E; [discriminate|].
  apply negb_true_iff in H. apply N.eqb_neq in H.
  pose proof (dropwhile_head _ _ _ _ E) as Sc.
  exists c. eexists. split; [|split; [exact H|]].
  - unfold strip, strip_by, lstrip_by.
    rewrite (dropwhile_app_stop _ _ rest _ _ E).
    rewrite rstrip_cons_stop by exact Sc. reflexivity.
  - intros ->. apply has_char_false in B. apply B.
    destruct (dropwhile_suffix (isspace U) pre) as [skipped Es].
    rewrite Es, E. apply in_or_app. right. left. reflexivity.
Qed.

Lemma tier1_passes_prose (pre rest : pystr) :
  opens_with_prose U pre = true ->
  Normalizer.direct_json U json_loads (pre ++ rest) = Ok JNull.
Proof.
  intros H. destruct (strip_opens_with pre rest H) as [c [tail [E [N1 N2]]]].
  unfold Normalizer.direct_json, Normalizer.clean_message. rewrite E.
  unfold Normalizer.fence_open.
  change (str "```json") with (chr "`" :: str "``json").
  rewrite startswith_head by exact N2.
  change (str "{") with [chr "{"].
  rewrite startswith_head by exact N1. reflexivity.
Qed.

Lemma json_block_at (prev : option char) (ws1 inner ws2 post : pystr) :
  forallb (isspace U) ws1 = true -> forallb (isspace U) ws2 = true ->
  has_char (chr "`") inner = false ->
  match_here (Normalizer.json_block_re U) prev
    (Normalizer.fence_open ++ ws1 ++ braces inner ++ ws2
     ++ Normalizer.fence_close ++ post)
  = Some {| m_prev := Some (chr "`"); m_rest := post;
            m_group := Some (braces inner) |}.
Proof.
  intros W1 W2 B.
  unfold match_here, Normalizer.json_block_re. cbn [seq_of rmatch].
  rewrite rmatch_lits_app.
  apply ws_star_all; [exact W1 | reflexivity |].
  cbv beta. unfold braces. cbn [app]. unfold lit at 1. cbn [rmatch].
  rewrite N.eqb_refl.
  set (tail := ws2 ++ Normalizer.fence_close ++ post).
  assert (chr "{" :: (inner ++ [chr "}"]) ++ tail
          = (chr "{" :: inner ++ [chr "}"]) ++ tail) as Ew by reflexivity.
  rewrite Ew. clear Ew.
  set (whole := (chr "{" :: inner ++ [chr "}"]) ++ tail).
  replace ((inner ++ [chr "}"]) ++ tail) with (inner ++ chr "}" :: tail)
    by (apply (app_assoc inner [chr "}"] tail)).
  apply rep_lazy_skip.
  - apply forallb_any_char.
  - (* no earlier brace is followed by the closing fence *)
    intros a b E Nb. cbv beta. unfold lit at 1. cbn [rmatch].
    destruct b as [|x b]; [contradiction|]. cbn [app].
    destruct (N.eqb (chr "}") x); [|reflexivity].
    apply ws_star_fails. intros ws rest Es F. cbv beta.
    assert (exists y rest', rest = y :: rest' /\ y <> chr "`")
      as [y [rest' [Er Ny]]].
    { destruct (app_eq_app _ _ _ _ Es) as [l [[E1 E2]|[E1 E2]]].
      - (* the run of whitespace stays inside the text *)
        destruct l as [|y l].
        + exists (chr "}"). eexists. split; [exact E2 | discriminate].
        + exists y. eexists. split; [exact E2|].
          intros ->. apply has_char_false in B. apply B.
          rewrite E. apply in_or_app. right. right. rewrite E1.
          apply in_or_app. right. left. reflexivity.
      - (* it cannot run over the closing brace *)
        destruct l as [|y l].
        + exists (chr "}"). eexists. split; [symmetry; exact E2|].
          discriminate.
        + exfalso. cbn [app] in E2. inversion E2; subst y.
          rewrite E1, forallb_app in F. apply andb_true_iff in F.
          destruct F as [_ F]. cbn [forallb] in F. discriminate F. }
    rewrite Er. unfold Normalizer.fence_close.
    change (str "```") with (chr "`" :: str "``").
    apply lits_fail_head. exact Ny.
  - cbv beta. unfold lit at 1. cbn [rmatch]. rewrite N.eqb_refl.
    unfold tail at 1.
    apply ws_star_all; [exact W2 | reflexivity |].
    cbv beta. rewrite rmatch_lits_app. f_equal. f_equal.
    f_equal. unfold whole. apply firstn_consumed.
Qed.
End Embedded.

Section EmbeddedReply.
Variable U : unicode_db.
Variable json_loads : pystr -> result json.
Variable float_of_str : pystr -> option float.

Lemma json_block_found (pre ws1 inner ws2 post : pystr) :
  has_char (chr "`") pre = false ->
  forallb (isspace U) ws1 = true -> forallb (isspace U) ws2 = true ->
  has_char (chr "`") inner = false ->
  re_search (Normalizer.json_block_re U) (embedded pre ws1 inner ws2 post)
  = Some {| m_prev := Some (chr "`"); m_rest := post;
            m_group := Some (braces inner) |}.
Proof.
  intros Bp W1 W2 Bi. unfold re_search, embedded.
  rewrite search_go_skip_prefix.
  - apply search_go_here. apply json_block_at; assumption.
  - intros a b E Nb prev'.
    destruct b as [|x b]; [contradiction|].
    unfold match_here, Normalizer.json_block_re. cbn [seq_of rmatch app].
    unfold Normalizer.fence_open.
    change (str "```json") with (chr "`" :: str "``json").
    apply lits_fail_head. intros ->.
    apply has_char_false in Bp. apply Bp. rewrite E.
    apply in_or_app. right. left. reflexivity.
Qed.

Lemma json_tiers_embedded (pre ws1 inner ws2 post : pystr)
      (d : pydict json) :
  opens_with_prose U pre = true ->
  forallb (isspace U) ws1 = true -> forallb (isspace U) ws2 = true ->
  has_char (chr "`") inner = false ->
  json_loads (braces inner) = Ok (JDict d) ->
  Normalizer.json_tiers U json_loads (embedded pre ws1 inner ws2 post)
  = Ok (JDict d).
Proof.
  intros Op W1 W2 Bi L. unfold Normalizer.json_tiers.
  unfold embedded at 1. rewrite (tier1_passes_prose U json_loads _ _ Op).
  cbn [bind]. unfold Normalizer.embedded_json. cbn [is_none].
  rewrite json_block_found; try assumption.
  - unfold group1. cbn [m_group]. unfold Normalizer.loads_or_none.
    rewrite L. reflexivity.
  - unfold opens_with_prose in Op. apply andb_true_iff in Op.
    destruct Op as [_ Op]. apply negb_true_iff in Op. exact Op.
Qed.

(** The fields of the result, once the JSON tiers have read an
    object. *)
Lemma normalize_object (first_alt : Normalizer.alternative)
      (others : list Normalizer.alternative) (d : pydict json) :
  Normalizer.json_tiers U json_loads (Normalizer.alt_message first_alt)
  = Ok (JDict d) ->
  (forall z, dict_get (str "overall_score") d = Some (JInt z) ->
             exists f, float_of_int z = Ok f) ->
  Normalizer.parse_analysis_response U json_loads float_of_str
    {| Normalizer.resp_error := None;
       Normalizer.resp_alternatives := first_alt :: others |}
  = Ok (json_result float_of_str d (Normalizer.alt_message first_alt)).
Proof.
  intros T NoOverflow.
  rewrite (normalize_after_tiers U json_loads float_of_str first_alt others
             (JDict d) T).
  unfold json_result. rewrite !list_field_coerce.
  pose proof (score_of_cases float_of_str d) as S.
  unfold coerce_score.
  destruct (dict_get (str "overall_score") d) as [v|].
  - destruct v; simpl in S |- *; try (rewrite S; reflexivity).
    + destruct (NoOverflow z eq_refl) as [f Hf].
      rewrite Hf in S |- *. rewrite S. reflexivity.
    + destruct (float_of_str s); rewrite S; reflexivity.
  - rewrite S. reflexivity.
Qed.

End EmbeddedReply.

(** X12.  A reply that begins with prose and holds a JSON object in a
    [```json] fence further on is read by the second tier: when the text
    before the fence and the object have no backquote, and [json.loads]
    reads the object, the result has the fields of the object, coerced
    as in the first tier, and the full text as its raw response. *)
Theorem fenced_object_in_prose_is_read
        (U : unicode_db) (json_loads : pystr -> result json)
        (float_of_str : pystr -> option float)
        (first_alt : Normalizer.alternative)
        (others : list Normalizer.alternative)
        (pre ws1 inner ws2 post : pystr) (d : pydict json) :
  Normalizer.alt_message first_alt = embedded pre ws1 inner ws2 post ->
  opens_with_prose U pre = true ->
  forallb (isspace U) ws1 = true -> forallb (isspace U) ws2 = true ->
  has_char (chr "`") inner = false ->
  json_loads (braces inner) = Ok (JDict d) ->
  (forall z, dict_get (str "overall_score") d = Some (JInt z) ->
             exists f, float_of_int z = Ok f) ->
  Normalizer.direct_json U json_loads (embedded pre ws1 inner ws2 post)
  = Ok JNull
  /\ Normalizer.parse_analysis_response U json_loads float_of_str
       {| Normalizer.resp_error := None;
          Normalizer.resp_alternatives := first_alt :: others |}
     = Ok (json_result float_of_str d (embedded pre ws1 inner ws2 post)).
Proof.
  intros E Op W1 W2 Bi L NoOverflow. split.
  - unfold embedded. apply tier1_passes_prose. exact Op.
  - rewrite <- E. apply normalize_object; [|exact NoOverflow].
    rewrite E. apply json_tiers_embedded; assumption.
Qed.

Lemma fenced_object_in_prose_witness :
  Sample.normalize (reply_of_text introduced_object)
  = Ok (json_result (Sample.float_of_str sample_db)
          [(str "overall_score", JFloat 7.5%float)] introduced_object).
Proof.
  assert (Sample.json_loads
            (braces (quoted (str "overall_score") ++ str ": 7.5"))
          = Ok (JDict [(str "overall_score", JFloat 7.5%float)])) as L
      by (vm_compute; reflexivity).
  assert (forall z,
            dict_get (str "overall_score")
                     [(str "overall_score", JFloat 7.5%float)]
            = Some (JInt z) ->
            exists f, float_of_int z = Ok f) as NoOverflow
      by (intros z H; vm_compute in H; discriminate H).
  exact (proj2 (fenced_object_in_prose_is_read sample_db Sample.json_loads
                  (Sample.float_of_str sample_db)
                  (Normalizer.AltObjText introduced_object) []
                  (str "Here is my review:" ++ [NL]) [NL]
                  (quoted (str "overall_score") ++ str ": 7.5") [NL]
                  ([NL] ++ str "Thanks.")
                  [(str "overall_score", JFloat 7.5%float)]
                  eq_refl eq_refl eq_refl eq_refl eq_refl L NoOverflow)).
Defined.

(** * The analyzer around the normalizer *)

(** ** The dictionary of a result *)

Ltac some_eq H :=
  apply (f_equal (fun o => match o with Some v => v | None => JNull end))
    in H;
  cbv beta iota in H; subst.

Lemma analysis_dict_error (a : Normalizer.analysis) :
  dict_get (str "error") (analysis_dict a)
  = option_map JStr (Normalizer.error a).
Proof.
  unfold analysis_dict. destruct (Normalizer.error a); reflexivity.
Qed.

Lemma analysis_dict_score (a : Normalizer.analysis) :
  dict_get (str "overall_score") (analysis_dict a)
  = Some (score_value (Normalizer.overall_score a)).
Proof. reflexivity. Qed.

Lemma analysis_dict_lists (a : Normalizer.analysis) (key : pystr)
      (l : list json) :
  dict_get key (analysis_dict a) = Some (JList l) ->
  l = Normalizer.quality_issues a \/ l = Normalizer.good_practices a
  \/ l = Normalizer.patterns a \/ l = Normalizer.anti_patterns a.
Proof.
  unfold analysis_dict. cbn [app dict_get].
  destruct (str_eqb key (str "quality_issues"));
    [intros H; inversion H; auto|].
  destruct (str_eqb key (str "good_practices"));
    [intros H; inversion H; auto|].
  destruct (str_eqb key (str "patterns")); [intros H; inversion H; auto|].
  destruct (str_eqb key (str "anti_patterns"));
    [intros H; inversion H; auto|].
  destruct (str_eqb key (str "overall_score")).
  { destruct (Normalizer.overall_score a); discriminate. }
  destruct (str_eqb key (str "raw_response")); [discriminate|].
  destruct (Normalizer.error a); cbn [dict_get];
    [destruct (str_eqb key (str "error"))|]; discriminate.
Qed.

Lemma empty_analysis_no_findings (message : pystr) :
  no_findings (empty_analysis message).
Proof.
  split.
  - intros key l H. apply analysis_dict_lists in H.
    cbn in H. intuition.
  - intros f. discriminate.
Qed.

Lemma empty_analysis_error (message : pystr) :
  dict_get (str "error") (empty_analysis message) = Some (JStr message).
Proof. reflexivity. Qed.

Lemma error_dict_no_findings (e : pystr) : no_findings (error_dict e).
Proof.
  split.
  - intros key l. unfold error_dict. cbn [dict_get].
    destruct (str_eqb key (str "error")); discriminate.
  - intros f. discriminate.
Qed.

Lemma error_dict_error (e : pystr) :
  dict_get (str "error") (error_dict e) = Some (JStr e).
Proof. reflexivity. Qed.

Section Around.
Variable U : unicode_db.
Variable json_loads : pystr -> result json.
Variable float_of_str : pystr -> option float.
Variable repr_float : float -> pystr.
Variable repr_container : json -> pystr.
Variable str_of_exn : exn -> pystr.
Variable self : credentials.
Variable run_model : pystr -> run_outcome Normalizer.alternative.

Let normalize := Normalizer.parse_analysis_response U json_loads float_of_str.
Let call := Analyzer.call_yandex_cloud_api self run_model.

(** The client answers with an error or with at least one
    alternative. *)
Lemma call_cases (prompt : pystr) :
  (exists e, call prompt = error_response e)
  \/ (exists first others,
        call prompt = {| Normalizer.resp_error := None;
                         Normalizer.resp_alternatives := first :: others |}).
Proof.
  unfold call, Analyzer.call_yandex_cloud_api.
  destruct (unset (api_key self) || unset (folder_id self)
            || unset (model_name self)); [left; eexists; reflexivity|].
  destruct (run_model (truncate_prompt prompt)) as [alts|e|e|e];
    try (left; eexists; reflexivity).
  destruct alts as [|first others]; [left; eexists; reflexivity|].
  right. exists first, others. reflexivity.
Qed.

(** A result of the normalizer that has an error set comes from the
    error branch or from an empty list of alternatives. *)
Lemma normalize_error_cases (response : Normalizer.response)
      (a : Normalizer.analysis) (text : pystr) :
  normalize response = Ok a -> Normalizer.error a = Some text ->
  a = {| Normalizer.quality_issues := []; Normalizer.good_practices := [];
         Normalizer.patterns := []; Normalizer.anti_patterns := [];
         Normalizer.overall_score := None;
         Normalizer.raw_response := text;
         Normalizer.error := Some text |}
  /\ ((exists e, Normalizer.resp_error response = Some e
                 /\ text = str "API Error: " ++ e)
      \/ (Normalizer.resp_error response = None
          /\ Normalizer.resp_alternatives response = [])).
Proof.
  unfold normalize, Normalizer.parse_analysis_response.
  destruct (Normalizer.resp_error response) as [e|].
  - intros H E. inversion H; subst a. cbn in E. inversion E; subst text.
    split; [reflexivity|]. left. exists e. split; reflexivity.
  - destruct (Normalizer.resp_alternatives response) as [|first others].
    + intros H E. inversion H; subst a. cbn in E. inversion E; subst text.
      split; [reflexivity|]. right. split; reflexivity.
    + cbv zeta.
      destruct (Normalizer.json_tiers U json_loads
                  (Normalizer.alt_message first)) as [parsed|ex];
        cbn [bind]; [|discriminate].
      destruct parsed;
        try (intros H E; inversion H; subst a; discriminate E).
      destruct (Normalizer.score_of float_of_str d) as [score|ex];
        cbn [bind]; [|discriminate].
      intros H E; inversion H; subst a; discriminate E.
Qed.

Lemma asked_error_cases (diff_content : pystr) (a : Normalizer.analysis)
      (text : pystr) :
  Analyzer.ask U json_loads float_of_str self run_model diff_content = Ok a ->
  Normalizer.error a = Some text ->
  startswith (str "API Error: ") text = true
  /\ no_findings (analysis_dict a).
Proof.
  unfold Analyzer.ask. cbv zeta. intros H E.
  destruct (normalize_error_cases _ _ _ H E) as [Ea [[e [Re Et]]|[Re Ra]]].
  - split; [rewrite Et; apply startswith_app|].
    rewrite Ea. apply (empty_analysis_no_findings text).
  - exfalso.
    destruct (call_cases (Analyzer.build_analysis_prompt diff_content))
      as [[e C]|[first [others C]]];
      fold call in Re, Ra; rewrite C in *; discriminate.
Qed.

End Around.

(** X13.  A result of [analyze_code_changes] or of
    [analyze_pull_request] that carries an error has no findings: every
    list in it is empty and it has no score.  The error is one of the
    fixed messages of the function, or begins with [API Error: ] (the
    model client failed), or with the prefix that the function puts
    before an exception; the message of the normalizer about a reply
    without alternatives never appears. *)
Theorem error_results_have_no_findings
        (U : unicode_db) (json_loads : pystr -> result json)
        (float_of_str : pystr -> option float)
        (repr_float : float -> pystr) (repr_container : json -> pystr)
        (str_of_exn : exn -> pystr) (self : credentials)
        (run_model : pystr -> run_outcome Normalizer.alternative) :
  (forall diff_content e,
     dict_get (str "error")
       (Analyzer.analyze_code_changes U json_loads float_of_str str_of_exn
          self run_model diff_content) = Some e ->
     (exists text, e = JStr text /\ code_changes_error text)
     /\ no_findings
          (Analyzer.analyze_code_changes U json_loads float_of_str
             str_of_exn self run_model diff_content))
  /\ (forall pr_data e,
        dict_get (str "error")
          (Analyzer.analyze_pull_request U json_loads float_of_str
             repr_float repr_container str_of_exn self run_model pr_data)
        = Some e ->
        (exists text, e = JStr text /\ pull_request_error text)
        /\ no_findings
             (Analyzer.analyze_pull_request U json_loads float_of_str
                repr_float repr_container str_of_exn self run_model
                pr_data)).
Proof.
  split.
  - intros diff_content e. unfold Analyzer.analyze_code_changes.
    destruct (Normalizer.is_nil diff_content).
    { intros H. split; [|apply empty_analysis_no_findings].
      rewrite empty_analysis_error in H. some_eq H.
      eexists. split; [reflexivity|]. left. reflexivity. }
    destruct (Analyzer.ask U json_loads float_of_str self run_model
                diff_content) as [a|ex] eqn:A.
    + rewrite analysis_dict_error.
      destruct (Normalizer.error a) as [text|] eqn:E; [|discriminate].
      intros H. some_eq H.
      destruct (asked_error_cases _ _ _ _ _ _ _ _ A E) as [P F].
      split; [|exact F].
      exists text. split; [reflexivity|]. right. left. exact P.
    + intros H. split; [|apply error_dict_no_findings].
      rewrite error_dict_error in H. some_eq H.
      eexists. split; [reflexivity|]. right. right. apply startswith_app.
  - intros pr_data e. unfold Analyzer.analyze_pull_request.
    destruct pr_data as [| | | | | |d];
      try (intros H; split; [|apply error_dict_no_findings];
           rewrite error_dict_error in H; some_eq H;
           eexists; split; [reflexivity|]; left; reflexivity).
    cbv zeta.
    destruct (get_or (str "files") (JList []) d) as [| | | | |files|];
      try (intros H; split; [|apply error_dict_no_findings];
           rewrite error_dict_error in H; some_eq H;
           eexists; split; [reflexivity|]; right; left; reflexivity).
    destruct (Normalizer.is_nil files).
    { intros H. split; [|apply empty_analysis_no_findings].
      rewrite empty_analysis_error in H. some_eq H.
      eexists. split; [reflexivity|]. right. right. left. reflexivity. }
    destruct (Analyzer.add_file_infos repr_float repr_container _ files)
      as [diff_parts|ex]; cbn [bind].
    + destruct (Analyzer.ask U json_loads float_of_str self run_model
                  (join [NL] diff_parts)) as [a|ex] eqn:A.
      * rewrite analysis_dict_error.
        destruct (Normalizer.error a) as [text|] eqn:E; [|discriminate].
        intros H. some_eq H.
        destruct (asked_error_cases _ _ _ _ _ _ _ _ A E) as [P F].
        split; [|exact F].
        exists text. split; [reflexivity|]. do 3 right. left. exact P.
      * intros H. split; [|apply error_dict_no_findings].
        rewrite error_dict_error in H. some_eq H.
        eexists. split; [reflexivity|]. do 4 right. apply startswith_app.
    + intros H. split; [|apply error_dict_no_findings].
      rewrite error_dict_error in H. some_eq H.
      eexists. split; [reflexivity|]. do 4 right. apply startswith_app.
Qed.

(** * What the normalizer lets through *)

Section Escapes.
Variable U : unicode_db.
Variable json_loads : pystr -> result json.
Variable float_of_str : pystr -> option float.

Lemma loads_or_none_raises (t : pystr) (e : exn) :
  Normalizer.loads_or_none json_loads t = Raise e ->
  json_loads t = Raise e /\ e <> JSONDecodeError.
Proof.
  unfold Normalizer.loads_or_none.
  destruct (json_loads t) as [v|e0]; [discriminate|].
  destruct e0; cbn [is_JSONDecodeError]; try discriminate;
    intros H; inversion H; subst; split; try reflexivity; discriminate.
Qed.

Lemma json_tiers_raise (message : pystr) (e : exn) :
  Normalizer.json_tiers U json_loads message = Raise e ->
  exists t, loaded_text U message t
            /\ json_loads t = Raise e /\ e <> JSONDecodeError.
Proof.
  unfold Normalizer.json_tiers, Normalizer.direct_json.
  assert (forall v,
            Normalizer.embedded_json U json_loads v message = Raise e ->
            exists t, loaded_text U message t
                      /\ json_loads t = Raise e /\ e <> JSONDecodeError)
    as Tier2.
  { intros v. unfold Normalizer.embedded_json.
    destruct (is_none v); [|discriminate].
    destruct (re_search (Normalizer.json_block_re U) message) as [m|] eqn:S;
      [|discriminate].
    intros H. exists (group1 m). split.
    - right. exists m. split; [exact S | reflexivity].
    - apply loads_or_none_raises. exact H. }
  destruct (startswith (str "{") (Normalizer.clean_message U message)
            && endswith (str "}") (Normalizer.clean_message U message)).
  - destruct (Normalizer.loads_or_none json_loads
                (Normalizer.clean_message U message)) as [v|e0] eqn:L;
      cbn [bind].
    + apply Tier2.
    + intros H. inversion H; subst e0.
      exists (Normalizer.clean_message U message). split.
      * left. reflexivity.
      * apply loads_or_none_raises. exact L.
  - cbn [bind]. apply Tier2.
Qed.

Lemma score_of_raises (d : pydict json) (e : exn) :
  Normalizer.score_of float_of_str d = Raise e ->
  e = OverflowError
  /\ exists z, dict_get (str "overall_score") d = Some (JInt z)
               /\ float_of_int z = Raise OverflowError.
Proof.
  unfold Normalizer.score_of.
  destruct (dict_get (str "overall_score") d) as [v|]; [|discriminate].
  destruct v; cbn [Normalizer.py_float is_ValueError_or_TypeError];
    try discriminate.
  - unfold float_of_int.
    destruct (binary_normalize prec emax z 0 false) eqn:B;
      try discriminate.
    cbn [is_ValueError_or_TypeError]. intros H. inversion H.
    split; [reflexivity|]. exists z. split; [reflexivity|].
    unfold float_of_int. rewrite B. reflexivity.
  - destruct (float_of_str s); discriminate.
Qed.

Lemma normalize_raises (response : Normalizer.response) (e : exn) :
  Normalizer.parse_analysis_response U json_loads float_of_str response
  = Raise e ->
  exists first others,
    Normalizer.resp_error response = None
    /\ Normalizer.resp_alternatives response = first :: others
    /\ ((exists t, loaded_text U (Normalizer.alt_message first) t
                   /\ json_loads t = Raise e /\ e <> JSONDecodeError)
        \/ (e = OverflowError
            /\ exists d z,
                 Normalizer.json_tiers U json_loads
                   (Normalizer.alt_message first) = Ok (JDict d)
                 /\ dict_get (str "overall_score") d = Some (JInt z)
                 /\ float_of_int z = Raise OverflowError)).
Proof.
  unfold Normalizer.parse_analysis_response.
  destruct (Normalizer.resp_error response); [discriminate|].
  destruct (Normalizer.resp_alternatives response) as [|first others];
    [discriminate|].
  cbv zeta. intros H. exists first, others.
  split; [reflexivity|]. split; [reflexivity|].
  destruct (Normalizer.json_tiers U json_loads
              (Normalizer.alt_message first)) as [v|e0] eqn:T;
    cbn [bind] in H.
  - right. destruct v; try discriminate H.
    destruct (Normalizer.score_of float_of_str d) as [score|ex] eqn:S;
      cbn [bind] in H; [discriminate H|].
    inversion H; subst ex.
    destruct (score_of_raises d e S) as [E [z [G F]]].
    split; [exact E|]. exists d, z. auto.
  - left. inversion H; subst e0. apply json_tiers_raise. exact T.
Qed.

End Escapes.

(** X14.  An exception gets out of [_parse_analysis_response] in two
    ways only.  Either [json.loads] raises something other than
    [JSONDecodeError] on one of the two texts it is called on, the cleaned
    message or the block that the pattern of line 344 finds, and that
    exception gets out as it is; or [float] raises [OverflowError] on an
    [overall_score] that is an integer too large for a float, in an object
    that the JSON tiers read.  [analyze_code_changes] catches either: its
    result is then the dictionary with the one key [error], without the
    raw response. *)
Theorem escapes_are_loads_or_overflow
        (U : unicode_db) (json_loads : pystr -> result json)
        (float_of_str : pystr -> option float) :
  (forall response e,
     Normalizer.parse_analysis_response U json_loads float_of_str response
     = Raise e ->
     exists first others,
       Normalizer.resp_error response = None
       /\ Normalizer.resp_alternatives response = first :: others
       /\ ((exists t,
              loaded_text U (Normalizer.alt_message first) t
              /\ json_loads t = Raise e /\ e <> JSONDecodeError)
           \/ (e = OverflowError
               /\ exists d z,
                    Normalizer.json_tiers U json_loads
                      (Normalizer.alt_message first) = Ok (JDict d)
                    /\ dict_get (str "overall_score") d = Some (JInt z)
                    /\ float_of_int z = Raise OverflowError)))
  /\ (forall str_of_exn self run_model diff_content e,
        Analyzer.ask U json_loads float_of_str self run_model diff_content
        = Raise e ->
        Normalizer.is_nil diff_content = false ->
        Analyzer.analyze_code_changes U json_loads float_of_str str_of_exn
          self run_model diff_content
        = error_dict (str "Error during code changes analysis: "
                      ++ str_of_exn e)
        /\ dict_get (str "raw_response")
             (Analyzer.analyze_code_changes U json_loads float_of_str
                str_of_exn self run_model diff_content) = None).
Proof.
  split.
  - intros response e. apply normalize_raises.
  - intros str_of_exn self run_model diff_content e A N.
    unfold Analyzer.analyze_code_changes. rewrite N, A.
    split; reflexivity.
Qed.

(** * A pull request as the fetcher hands it over *)

Section Fetched.
Variable U : unicode_db.
Variable json_loads : pystr -> result json.
Variable float_of_str : pystr -> option float.
Variable repr_float : float -> pystr.
Variable repr_container : json -> pystr.
Variable str_of_exn : exn -> pystr.
Variable self : credentials.
Variable run_model : pystr -> run_outcome Normalizer.alternative.

Lemma add_fetched_file (diff_parts : list pystr)
      (f : GithubFetcher.pull_file) :
  Analyzer.add_file_info repr_float repr_container diff_parts (GithubFetcher.file_entry f)
  = Ok (diff_parts ++ fetched_file_lines f).
Proof.
  unfold Analyzer.add_file_info, GithubFetcher.file_entry, fetched_file_lines.
  change (get_or_none (str "filename")
            [(str "filename", JStr (GithubFetcher.filename f));
             (str "patch", GithubFetcher.optional (GithubFetcher.patch f))])
    with (JStr (GithubFetcher.filename f)).
  change (get_or_none (str "patch")
            [(str "filename", JStr (GithubFetcher.filename f));
             (str "patch", GithubFetcher.optional (GithubFetcher.patch f))])
    with (GithubFetcher.optional (GithubFetcher.patch f)).
  destruct (GithubFetcher.filename f) as [|c name].
  - cbn [truthy Normalizer.is_nil negb andb]. rewrite app_nil_r.
    reflexivity.
  - destruct (GithubFetcher.patch f) as [[|x patch]|];
      cbn [GithubFetcher.optional truthy Normalizer.is_nil negb andb
           Analyzer.strip_newlines bind py_str];
      rewrite <- ?app_assoc; reflexivity.
Qed.

Lemma add_fetched_files (files : list GithubFetcher.pull_file) :
  forall diff_parts,
    Analyzer.add_file_infos repr_float repr_container diff_parts
      (map GithubFetcher.file_entry files)
    = Ok (diff_parts ++ flat_map fetched_file_lines files).
Proof.
  induction files as [|f files IH]; intros diff_parts;
    cbn [map Analyzer.add_file_infos flat_map].
  - rewrite app_nil_r. reflexivity.
  - rewrite add_fetched_file. cbn [bind]. rewrite IH.
    rewrite <- app_assoc. reflexivity.
Qed.

Lemma fetched_pull_request (pull : GithubFetcher.pull) :
  Normalizer.is_nil (GithubFetcher.files pull) = false ->
  Analyzer.analyze_pull_request U json_loads float_of_str repr_float
    repr_container str_of_exn self run_model (GithubFetcher.prep_issue pull)
  = match Analyzer.ask U json_loads float_of_str self run_model
            (fetched_diff pull) with
    | Ok analysis => analysis_dict analysis
    | Raise e => error_dict (str "Error analyzing pull request: "
                             ++ str_of_exn e)
    end.
Proof.
  intros N. unfold Analyzer.analyze_pull_request, GithubFetcher.prep_issue.
  cbv zeta.
  set (d := [ (str "title", JStr (GithubFetcher.title pull));
              (str "description",
               GithubFetcher.optional (GithubFetcher.body pull));
              (str "files",
               JList (map GithubFetcher.file_entry
                          (GithubFetcher.files pull)));
              (str "commits_messages",
               JList (map JStr (GithubFetcher.commits_messages pull)));
              (str "comments",
               JList (map JStr (GithubFetcher.comments pull)));
              (str "url", JStr (GithubFetcher.url pull)) ]).
  change (get_or (str "files") (JList []) d)
    with (JList (map GithubFetcher.file_entry (GithubFetcher.files pull))).
  change (get_or (str "title") (JStr (str "N/A")) d)
    with (JStr (GithubFetcher.title pull)).
  change (get_or (str "description")
                 (JStr (str "No description provided.")) d)
    with (GithubFetcher.optional (GithubFetcher.body pull)).
  assert (Normalizer.is_nil
            (map GithubFetcher.file_entry (GithubFetcher.files pull))
          = false) as N'
      by (destruct (GithubFetcher.files pull); [discriminate | reflexivity]).
  cbv beta iota. rewrite N'. rewrite add_fetched_files. cbn [bind].
  replace (join [NL]
             (Analyzer.pull_request_header repr_float repr_container
                (JStr (GithubFetcher.title pull))
                (GithubFetcher.optional (GithubFetcher.body pull))
              ++ flat_map fetched_file_lines (GithubFetcher.files pull)))
    with (fetched_diff pull); [reflexivity|].
  unfold fetched_diff, fetched_description, Analyzer.pull_request_header.
  destruct (GithubFetcher.body pull); reflexivity.
Qed.

End Fetched.

(** X15.  For the dictionary that [GithubFetcher] builds of a pull
    request with at least one file, [analyze_pull_request] asks the model
    about this text: the title; the description, which reads [None] when
    the pull request has no body; and for every file with a name its
    patch, without the newlines around it, in a [```diff] fence, or the
    note [(No patch content provided)] when the file has no patch.  The
    commit messages, the comments and the address of the pull request
    are not in it. *)
Theorem fetched_pull_request_is_asked
        (U : unicode_db) (json_loads : pystr -> result json)
        (float_of_str : pystr -> option float)
        (repr_float : float -> pystr) (repr_container : json -> pystr)
        (str_of_exn : exn -> pystr) (self : credentials)
        (run_model : pystr -> run_outcome Normalizer.alternative)
        (pull : GithubFetcher.pull) :
  Normalizer.is_nil (GithubFetcher.files pull) = false ->
  Analyzer.analyze_pull_request U json_loads float_of_str repr_float
    repr_container str_of_exn self run_model (GithubFetcher.prep_issue pull)
  = match Analyzer.ask U json_loads float_of_str self run_model
            (fetched_diff pull) with
    | Ok analysis => analysis_dict analysis
    | Raise e => error_dict (str "Error analyzing pull request: "
                             ++ str_of_exn e)
    end.
Proof.
  intros N. apply fetched_pull_request. exact N.
Qed.

Lemma fetched_pull_request_witness :
  fetched_diff sample_pull
  = str "# Pull Request: Add parser" ++ [NL; NL]
    ++ str "## Description" ++ [NL] ++ str "None" ++ [NL; NL]
    ++ str "## Changes" ++ [NL; NL]
    ++ str "--- a/a.py" ++ [NL] ++ str "+++ b/a.py" ++ [NL]
    ++ str "```diff" ++ [NL] ++ str "+x = 1" ++ [NL] ++ str "```" ++ [NL; NL]
    ++ str "--- a/logo.png" ++ [NL] ++ str "+++ b/logo.png" ++ [NL]
    ++ str "(No patch content provided)" ++ [NL]
  /\ Analyzer.analyze_pull_request sample_db Sample.json_loads
       (Sample.float_of_str sample_db) (fun _ => []) (fun _ => [])
       sample_exn_text sample_credentials sample_model
       (GithubFetcher.prep_issue sample_pull)
     = match Analyzer.ask sample_db Sample.json_loads
               (Sample.float_of_str sample_db) sample_credentials
               sample_model (fetched_diff sample_pull) with
       | Ok analysis => analysis_dict analysis
       | Raise e => error_dict (str "Error analyzing pull request: "
                                ++ sample_exn_text e)
       end.
Proof.
  split; [vm_compute; reflexivity|].
  apply (fetched_pull_request_is_asked sample_db Sample.json_loads
           (Sample.float_of_str sample_db) (fun _ => []) (fun _ => [])
           sample_exn_text sample_credentials sample_model sample_pull).
  reflexivity.
Defined.

(** * The markdown of a result *)

Section Markdown.
Variable repr_float : float -> pystr.
Variable repr_container : json -> pystr.

Lemma add_list_of_list (heading key : pystr) (analysis : pydict json)
      (markdown : list pystr) (items : list json) :
  get_or_none key analysis = JList items ->
  GradioUI.add_list repr_float repr_container heading key analysis markdown
  = Ok (markdown ++ listing repr_float repr_container heading items).
Proof.
  intros G. unfold GradioUI.add_list. rewrite G.
  destruct items as [|item items].
  - cbn [truthy Normalizer.is_nil negb listing]. rewrite app_nil_r.
    reflexivity.
  - cbn [truthy Normalizer.is_nil negb GradioUI.iterate bind listing].
    reflexivity.
Qed.

Lemma format_result (a : Normalizer.analysis) :
  GradioUI.format_analysis_result repr_float repr_container
    (analysis_dict a)
  = Ok (match Normalizer.error a with
        | Some e => str "## Error" ++ [NL] ++ e
        | None => markdown_of repr_float repr_container a
        end).
Proof.
  unfold GradioUI.format_analysis_result.
  destruct a as [qi gp pa ap score raw err].
  destruct err as [e|]; [reflexivity|].
  change (dict_get (str "error") (analysis_dict _)) with (@None json).
  cbv iota.
  unfold GradioUI.add_link.
  change (get_or_none (str "pr_url") (analysis_dict _)) with JNull.
  cbn [truthy bind app].
  rewrite (add_list_of_list _ _ _ _ qi) by reflexivity. cbn [bind].
  rewrite (add_list_of_list _ _ _ _ gp) by reflexivity. cbn [bind].
  rewrite (add_list_of_list _ _ _ _ pa) by reflexivity. cbn [bind].
  rewrite (add_list_of_list _ _ _ _ ap) by reflexivity. cbn [bind].
  unfold markdown_of. cbn [Normalizer.overall_score Normalizer.error
    Normalizer.quality_issues Normalizer.good_practices Normalizer.patterns
    Normalizer.anti_patterns].
  rewrite <- !app_assoc. reflexivity.
Qed.

End Markdown.

(** X16.  [format_analysis_result] succeeds on every result of the
    normalizer.  A result with an error is shown as the heading
    [## Error] and the error alone.  Any other result is shown as its
    score, which reads [None/10] when there is none, and then each list
    that is not empty under its heading; the line with the link to the
    pull request is never there, since no result has the key
    [pr_url]. *)
Theorem normalizer_results_are_formatted
        (repr_float : float -> pystr) (repr_container : json -> pystr)
        (a : Normalizer.analysis) :
  GradioUI.format_analysis_result repr_float repr_container
    (analysis_dict a)
  = Ok (match Normalizer.error a with
        | Some e => str "## Error" ++ [NL] ++ e
        | None => markdown_of repr_float repr_container a
        end)
  /\ (Normalizer.error a = None -> Normalizer.overall_score a = None ->
      startswith (str "## Overall Score: None/10")
                 (markdown_of repr_float repr_container a) = true).
Proof.
  split; [apply format_result|].
  intros _ S. unfold markdown_of. rewrite S.
  cbn [score_value py_str].
  destruct (listing repr_float repr_container (str "### Quality Issues")
              (Normalizer.quality_issues a)
            ++ listing repr_float repr_container (str "### Good Practices")
                 (Normalizer.good_practices a)
            ++ listing repr_float repr_container
                 (str "### Design Patterns Used") (Normalizer.patterns a)
            ++ listing repr_float repr_container (str "### Anti-patterns")
                 (Normalizer.anti_patterns a)) as [|x rest];
    reflexivity.
Qed.

(** * The regex tier of [src/analyzer.py] *)

(** A lazy repetition stops at the first place where what follows
    succeeds. *)
Lemma rep_lazy_minimal (p : char -> bool)
      (k : option char -> pystr -> option mstate) (s : pystr) :
  forall (prev : option char) (m : mstate),
    rep false p k 0 prev s = Some m ->
    exists t s',
      s = t ++ s' /\ k (prev_after prev t) s' = Some m
      /\ forall a b, t = a ++ b -> b <> [] ->
                     k (prev_after prev a) (b ++ s') = None.
Proof.
  induction s as [|c s IH]; intros prev m H; cbn [rep] in H.
  - exists [], []. split; [reflexivity|]. split; [exact H|].
    intros a b E Nb. destruct a; destruct b; try discriminate.
    contradiction.
  - assert (k prev (c :: s) = Some m
            \/ (k prev (c :: s) = None
                /\ rep false p k 0 (Some c) s = Some m)) as [K|[K R]].
    { destruct (p c).
      - unfold orelse in H. destruct (k prev (c :: s)); auto.
      - left. exact H. }
    + exists [], (c :: s). split; [reflexivity|]. split; [exact K|].
      intros a b E Nb. destruct a; destruct b; try discriminate.
      contradiction.
    + destruct (IH _ _ R) as [t [s' [E [K' Min]]]].
      exists (c :: t), s'. split; [rewrite E; reflexivity|].
      split; [rewrite (prev_after_cons prev); exact K'|].
      intros a b Eab Nb. destruct a as [|x a].
      * cbn [app] in Eab. subst b. cbn [app]. rewrite <- E. exact K.
      * cbn [app] in Eab. inversion Eab; subst x.
        rewrite (prev_after_cons prev). apply Min; assumption.
Qed.

Lemma bullet_free_substring (t s : pystr) :
  substring t s -> bullet_free s -> bullet_free t.
Proof.
  intros [a [b E]] H. unfold bullet_free in *. subst s.
  rewrite !forallb_app in H. apply andb_true_iff in H.
  destruct H as [_ H]. apply andb_true_iff in H. destruct H as [H _].
  exact H.
Qed.

Lemma digit_dot_free_substring (U : unicode_db) (t s : pystr) :
  substring t s -> digit_dot_free U s -> digit_dot_free U t.
Proof.
  intros [a [b E]] H a' d b' Et. apply (H (a ++ a') d (b' ++ b)).
  rewrite E, Et. rewrite <- !app_assoc. reflexivity.
Qed.

Lemma not_bullet_free (a b : pystr) (x : char) :
  Normalizer.is_bullet x = true -> ~ bullet_free (a ++ x :: b).
Proof.
  intros B H. unfold bullet_free in H. rewrite forallb_app in H.
  apply andb_true_iff in H. destruct H as [_ H]. cbn [forallb] in H.
  rewrite B in H. discriminate H.
Qed.

Lemma bullet_free_dec (item : pystr) :
  bullet_free item
  \/ exists a x b, item = a ++ x :: b /\ Normalizer.is_bullet x = true.
Proof.
  induction item as [|c item IH].
  - left. reflexivity.
  - destruct (Normalizer.is_bullet c) eqn:B.
    + right. exists [], c, item. auto.
    + destruct IH as [F|[a [x [b [E Bx]]]]].
      * left. unfold bullet_free. cbn [forallb]. rewrite B. exact F.
      * right. exists (c :: a), x, b. rewrite E. auto.
Qed.

Section LegacyItems.
Variable U : unicode_db.

Lemma legacy_bullet_group (prev : option char) (s : pystr) (m : mstate) :
  match_here (LegacyAnalyzer.bullet_re U) prev s = Some m ->
  bullet_free (group1 m).
Proof.
  unfold match_here, LegacyAnalyzer.bullet_re. cbn [seq_of rmatch].
  destruct s as [|c s]; [discriminate|].
  destruct (Normalizer.is_bullet c); [|discriminate].
  unfold ws_plus. cbn [rmatch]. intros H.
  destruct (rep_sound _ _ _ _ _ _ _ H) as [gap [s1 [E1 [_ [_ K]]]]].
  cbv beta in K. cbn [rmatch] in K.
  destruct (rep_lazy_minimal _ _ _ _ _ K) as [t [s2 [E2 [K2 Min]]]].
  cbv beta in K2.
  assert (group1 m = t) as G.
  { cbn [rmatch] in K2. rewrite E2 in K2. rewrite firstn_consumed in K2.
    destruct s2 as [|x s2].
    - cbn [orelse] in K2. inversion K2. reflexivity.
    - destruct (Normalizer.is_bullet x); cbn [orelse] in K2;
        [|discriminate].
      inversion K2. reflexivity. }
  rewrite G.
  destruct (bullet_free_dec t) as [F|[a [x [b [Et Bx]]]]]; [exact F|].
  exfalso.
  assert (x :: b <> []) as Nb by discriminate.
  specialize (Min a (x :: b) Et Nb). cbv beta in Min.
  cbn [rmatch app] in Min. rewrite Bx in Min. cbn [orelse] in Min.
  discriminate Min.
Qed.

Lemma legacy_numbered_group (prev : option char) (s : pystr) (m : mstate) :
  match_here (LegacyAnalyzer.numbered_re U) prev s = Some m ->
  digit_dot_free U (group1 m).
Proof.
  unfold match_here, LegacyAnalyzer.numbered_re. cbn [seq_of rmatch].
  unfold digits at 1. cbn [rmatch]. intros H.
  destruct (rep_sound _ _ _ _ _ _ _ H) as [number [s0 [E0 [_ [_ K0]]]]].
  cbv beta in K0. unfold lit at 1 in K0. cbn [rmatch] in K0.
  destruct s0 as [|c s0]; [discriminate|].
  destruct (chr "." =? c)%N; [|discriminate].
  unfold ws_plus in K0. cbn [rmatch] in K0.
  destruct (rep_sound _ _ _ _ _ _ _ K0) as [gap [s1 [E1 [_ [_ K]]]]].
  cbv beta in K. cbn [rmatch] in K.
  destruct (rep_lazy_minimal _ _ _ _ _ K) as [t [s2 [E2 [K2 Min]]]].
  cbv beta in K2.
  assert (group1 m = t) as G.
  { cbn [rmatch] in K2. rewrite E2 in K2. rewrite firstn_consumed in K2.
    destruct (orelse _ _) as [m'|] eqn:O in K2; [|discriminate].
    assert (m_group m' = Some t) as Gm.
    { unfold orelse in O.
      destruct (rmatch (digits U) _ _ _ _) as [m1|] eqn:R in O.
      - inversion O; subst m'. unfold digits in R. cbn [rmatch] in R.
        destruct (rep_sound _ _ _ _ _ _ _ R) as [ds [s3 [_ [_ [_ K3]]]]].
        cbv beta in K3. unfold lit in K3. cbn [rmatch] in K3.
        destruct s3 as [|y s3]; [discriminate|].
        destruct (chr "." =? y)%N; [|discriminate].
        inversion K3. reflexivity.
      - destruct s2; [|discriminate]. inversion O. reflexivity. }
    inversion K2. unfold group1. cbn [m_group]. rewrite Gm. reflexivity. }
  rewrite G. intros a d b Et.
  destruct (isdecimal U d) eqn:D; [|reflexivity]. exfalso.
  assert (d :: chr "." :: b <> []) as Nb by discriminate.
  specialize (Min a (d :: chr "." :: b) Et Nb). cbv beta in Min.
  cbn [rmatch app] in Min. unfold digits in Min. cbn [rmatch rep] in Min.
  rewrite D in Min.
  change (isdecimal U (chr ".")) with false in Min.
  unfold lit in Min. cbn [rmatch] in Min.
  rewrite N.eqb_refl in Min. cbn [orelse] in Min. discriminate Min.
Qed.

Lemma legacy_findall_groups (r : regex) (P : pystr -> Prop)
      (text item : pystr) :
  (forall prev s m, match_here r prev s = Some m -> P (group1 m)) ->
  In item (re_findall r text) -> P item.
Proof.
  intros Sound H. unfold re_findall in H.
  destruct (findall_go_sound r _ _ _ _ H) as [pre [s0 [m [_ [M G]]]]].
  rewrite <- G. apply (Sound _ _ _ M).
Qed.

Lemma legacy_section_items (section_text : pystr) (v : json) :
  In v (LegacyAnalyzer.section_items U section_text) ->
  exists item,
    v = JStr item /\ Normalizer.is_nil item = false
    /\ if Normalizer.is_nil
            (re_findall (LegacyAnalyzer.bullet_re U) (strip U section_text))
       then digit_dot_free U item
       else bullet_free item.
Proof.
  unfold LegacyAnalyzer.section_items. intros H.
  apply in_map_iff in H. destruct H as [item [Ev H]].
  apply filter_In in H. destruct H as [H Ne].
  exists (strip U item). split; [auto|].
  split; [apply negb_true_iff in Ne; exact Ne|].
  destruct (Normalizer.is_nil
              (re_findall (LegacyAnalyzer.bullet_re U)
                          (strip U section_text))).
  - apply (digit_dot_free_substring U _ item);
      [apply substring_strip_by|].
    apply (legacy_findall_groups (LegacyAnalyzer.numbered_re U)
             (digit_dot_free U) (strip U section_text) item); [|exact H].
    apply legacy_numbered_group.
  - apply (bullet_free_substring _ item); [apply substring_strip_by|].
    apply (legacy_findall_groups (LegacyAnalyzer.bullet_re U)
             bullet_free (strip U section_text) item); [|exact H].
    apply legacy_bullet_group.
Qed.

End LegacyItems.

(** X17.  In the regex tier of [src/analyzer.py] an item ends where the
    next mark could begin.  When the section has an item after a hyphen,
    a bullet or an asterisk, no item of it holds any of these three
    characters: a hyphen inside an item cuts it short.  When it has none,
    the numbered items are taken, and no item holds a digit followed by
    a dot.  No item is empty. *)
Theorem legacy_items_stop_at_marks
        (U : unicode_db) (re : regex) (message : pystr) (v : json) :
  In v (LegacyAnalyzer.section_of U re message) ->
  exists m item,
    re_search re message = Some m
    /\ v = JStr item /\ Normalizer.is_nil item = false
    /\ if Normalizer.is_nil
            (re_findall (LegacyAnalyzer.bullet_re U) (strip U (group1 m)))
       then digit_dot_free U item
       else bullet_free item.
Proof.
  unfold LegacyAnalyzer.section_of. intros H.
  destruct (re_search re message) as [m|] eqn:R; [|contradiction].
  destruct (legacy_section_items U _ _ H) as [item [E [N F]]].
  exists m, item. auto.
Qed.

Lemma legacy_items_witness :
  LegacyAnalyzer.section_of sample_db (LegacyAnalyzer.practices_re sample_db)
    hyphenated_prose = [JStr (str "uses well")]
  /\ exists m item,
       re_search (LegacyAnalyzer.practices_re sample_db) hyphenated_prose
       = Some m
       /\ JStr (str "uses well") = JStr item
       /\ Normalizer.is_nil item = false
       /\ if Normalizer.is_nil
               (re_findall (LegacyAnalyzer.bullet_re sample_db)
                           (strip sample_db (group1 m)))
          then digit_dot_free sample_db item
          else bullet_free item.
Proof.
  assert (LegacyAnalyzer.section_of sample_db
            (LegacyAnalyzer.practices_re sample_db) hyphenated_prose
          = [JStr (str "uses well")]) as E by (vm_compute; reflexivity).
  split; [exact E|].
  apply (legacy_items_stop_at_marks sample_db
           (LegacyAnalyzer.practices_re sample_db) hyphenated_prose).
  rewrite E. left. reflexivity.
Defined.

(** * The two layouts and the three parsers *)

Section Layouts.
Variable U : unicode_db.

Lemma pieces_from_not_nil (dump : pydict pystr) (first : bool) :
  dump <> [] -> pieces_from first dump <> [].
Proof. destruct dump; [contradiction | discriminate]. Qed.

Lemma pieces_have_marker (dump : pydict pystr) (first : bool) (s : pystr) :
  In s (pieces_from first dump) -> contains (str "FILE: ") s = true.
Proof.
  intros I. rewrite <- (rp_pieces_have_marker dump first) in I.
  apply filter_In in I. destruct I as [_ C]. exact C.
Qed.

Lemma serialize_starts (e : pystr * pystr) (dump : pydict pystr) :
  exists rest, serialize (e :: dump) = str "FILE: " ++ rest.
Proof.
  destruct dump as [|e' dump].
  - unfold serialize, serialize_section. cbn [map join].
    eexists. reflexivity.
  - rewrite serialize_cons. unfold serialize_section.
    rewrite <- !app_assoc. eexists. reflexivity.
Qed.

Lemma legacy_on_canonical (dump : pydict pystr) :
  forallb (plain_entry U) dump = true -> dump <> [] ->
  Legacy.parse_repository_text U (serialize dump) = Raise IndexError.
Proof.
  intros P N. destruct dump as [|e dump]; [contradiction|].
  destruct (serialize_starts e dump) as [rest E].
  apply legacy_parser_index_error.
  - rewrite E. discriminate.
  - assert (Legacy.skip_directory_structure (serialize (e :: dump))
            = serialize (e :: dump)) as Sk.
    { unfold Legacy.skip_directory_structure. rewrite E. reflexivity. }
    rewrite Sk. unfold split, Legacy.file_delimiter.
    pose proof (rp_split_serialize U (e :: dump) P N true) as S.
    unfold RepositoryParser.file_delimiter in S. rewrite S.
    apply (pieces_have_marker (e :: dump) true).
    apply last_In. apply pieces_from_not_nil. exact N.
Qed.


(** ** [src/repository_parser.py] on the framed layout *)

Lemma rp_parse_header (files : pydict pystr) (entry : pystr * pystr) :
  plain_entry U entry = true ->
  RepositoryParser.parse_section U files (framed_header entry)
  = dict_set (fst entry) [] files.
Proof.
  destruct entry as [path content]. intros P.
  destruct (plain_entry_inv U _ _ P) as [Np [Tp [Lp _]]].
  unfold RepositoryParser.parse_section, framed_header. cbn [fst].
  replace ([NL] ++ str "FILE: " ++ path ++ [NL])
    with (NL :: str "FILE: " ++ path ++ NL :: []) by reflexivity.
  rewrite file_re_search_after_newline by assumption.
  unfold group1. cbn [m_group m_rest]. rewrite Tp. reflexivity.
Qed.

Lemma body_without_marker (e : pystr * pystr) :
  markerless e = true -> contains (str "FILE: ") (framed_body e) = false.
Proof.
  intros Me. unfold markerless in Me. apply negb_true_iff in Me.
  unfold framed_body.
  change ([NL] ++ snd e ++ [NL; NL]) with ([] ++ NL :: snd e ++ [NL; NL]).
  apply contains_app_char; [reflexivity | reflexivity |].
  replace (snd e ++ [NL; NL]) with (snd e ++ NL :: [NL]) by reflexivity.
  apply contains_app_char; [reflexivity | exact Me | reflexivity].
Qed.

Lemma headers_of_framed (dump : pydict pystr) :
  forallb markerless dump = true ->
  filter (contains (str "FILE: "))
         (flat_map (fun e => [framed_header e; framed_body e]) dump)
  = map framed_header dump.
Proof.
  induction dump as [|e dump IH]; intros M; [reflexivity|].
  cbn [forallb] in M. apply andb_true_iff in M. destruct M as [Me Md].
  cbn [flat_map app filter map].
  assert (contains (str "FILE: ") (framed_header e) = true) as H
      by (unfold framed_header; apply contains_app_marker).
  rewrite H, (body_without_marker e Me), (IH Md). reflexivity.
Qed.

Lemma rp_fold_headers (dump : pydict pystr) :
  forallb (plain_entry U) dump = true ->
  forall files,
    fold_left (RepositoryParser.parse_section U) (map framed_header dump)
              files
    = store_all (map without_content dump) files.
Proof.
  induction dump as [|e dump IH]; intros P files; [reflexivity|].
  cbn [forallb] in P. apply andb_true_iff in P. destruct P as [Pe Pd].
  unfold store_all. cbn [map fold_left]. rewrite rp_parse_header by exact Pe.
  apply (IH Pd).
Qed.

Lemma rp_on_framed (dump : pydict pystr) :
  forallb (plain_entry U) dump = true ->
  forallb markerless dump = true ->
  RepositoryParser.parse_repository_text U (framed dump)
  = store_all (map without_content dump) [].
Proof.
  intros P M. unfold RepositoryParser.parse_repository_text, split.
  pose proof (split_framed U dump P []) as S.
  unfold Legacy.file_delimiter in S.
  unfold RepositoryParser.file_delimiter. rewrite S.
  cbn [rev filter].
  change (contains (str "FILE: ") []) with false. cbv iota.
  rewrite (headers_of_framed dump M). apply (rp_fold_headers dump P).
Qed.

(** ** [src/main.py] on the framed layout *)

Lemma bar_chars (c : char) : In c delimiter_bar -> c = chr "=".
Proof.
  unfold delimiter_bar, repeat_char. intros I.
  apply repeat_spec in I. exact I.
Qed.

Lemma main_parse_by_strip (files : pydict pystr) (s1 s2 : pystr) :
  strip U s1 = strip U s2 ->
  Main.parse_section U files s1 = Main.parse_section U files s2.
Proof. intros E. unfold Main.parse_section. rewrite E. reflexivity. Qed.

Lemma plain_entry_without_content (path content : pystr) :
  plain_entry U (path, content) = true -> plain_entry U (path, []) = true.
Proof.
  unfold plain_entry. intros H.
  repeat (apply andb_true_iff in H; destruct H as [H ?]).
  repeat (apply andb_true_iff; split); try assumption; reflexivity.
Qed.

Lemma main_parse_bare_header (files : pydict pystr) (path content : pystr) :
  plain_entry U (path, content) = true ->
  Main.parse_section U files (str "FILE: " ++ path)
  = dict_set path [] files.
Proof.
  intros P. pose proof (plain_entry_without_content _ _ P) as P0.
  transitivity (Main.parse_section U files (serialize_section (path, [])));
    [|exact (main_parse_section U files (path, []) P0)].
  apply main_parse_by_strip.
  unfold serialize_section. cbn [fst snd].
  replace (str "FILE: " ++ path ++ [NL] ++ [])
    with ([] ++ (str "FILE: " ++ path) ++ [NL])
    by (rewrite <- !app_assoc; reflexivity).
  unfold strip. rewrite strip_by_around by reflexivity. reflexivity.
Qed.

Lemma main_skips_content (files : pydict pystr) (content ws : pystr) :
  strip U content = content ->
  startswith (str "FILE:") content = false ->
  forallb (isspace U) ws = true ->
  Main.parse_section U files (content ++ ws) = files.
Proof.
  intros T S W. apply main_section_without_marker.
  change (content ++ ws) with ([] ++ content ++ ws).
  unfold strip. rewrite strip_by_around by (reflexivity || exact W).
  fold (strip U content). rewrite T. exact S.
Qed.

Lemma main_skips_first (files : pydict pystr) (rest : pystr) :
  Main.parse_section U files (delimiter_bar ++ rest) = files.
Proof.
  apply main_section_without_marker.
  unfold delimiter_bar, repeat_char. cbn [repeat app N.to_nat].
  unfold strip, strip_by, lstrip_by.
  rewrite dropwhile_stop by reflexivity.
  rewrite rstrip_cons_stop by reflexivity.
  reflexivity.
Qed.

(** The text after the header of [e] and the delimiter that follows
    it. *)
Lemma main_after_header (dump : pydict pystr) :
  forallb (plain_entry U) dump = true ->
  forallb unmarked dump = true ->
  forall (e : pystr * pystr) (files : pydict pystr),
    plain_entry U e = true -> unmarked e = true ->
    fold_left (Main.parse_section U)
      (split_go Main.file_delimiter 0 []
         (snd e ++ [NL] ++ [NL] ++ framed dump))
      files
    = store_all (map without_content dump) files.
Proof.
  induction dump as [|[p2 c2] dump IH]; intros P Um [p c] files Pe Ue.
  - change (framed []) with (@nil char). cbn [snd].
    destruct (plain_entry_inv U _ _ Pe) as [_ [_ [_ [_ [Tc Bc]]]]].
    rewrite split_go_end.
    + cbn [rev app fold_left map]. unfold store_all. cbn [fold_left].
      replace (c ++ [NL] ++ [NL] ++ []) with (c ++ [NL; NL])
        by reflexivity.
      apply main_skips_content; [exact Tc | | reflexivity].
      unfold unmarked in Ue. apply negb_true_iff in Ue. exact Ue.
    + destruct (contains Main.file_delimiter (c ++ [NL] ++ [NL] ++ []))
        eqn:C; [|reflexivity].
      exfalso. unfold Main.file_delimiter in C. cbn [app] in C.
      apply (framed_has_bar delimiter_bar NL) in C.
      assert (contains delimiter_bar (c ++ [NL; NL]) = false) as X.
      { change (c ++ [NL; NL]) with (c ++ NL :: [NL]).
        apply contains_app_char; [reflexivity | exact Bc | reflexivity]. }
      rewrite X in C. discriminate C.
  - cbn [forallb] in P, Um. apply andb_true_iff in P, Um.
    destruct P as [P2 Pd]. destruct Um as [U2 Ud].
    destruct (plain_entry_inv U _ _ Pe) as [_ [_ [_ [_ [Tc Bc]]]]].
    destruct (plain_entry_inv U _ _ P2) as [Np2 [Tp2 [Lp2 [Bp2 _]]]].
    cbn [snd]. rewrite framed_cons. unfold framed_header, framed_body.
    cbn [fst snd].
    replace (c ++ [NL] ++ [NL] ++ delimiter_bar
             ++ ([NL] ++ str "FILE: " ++ p2 ++ [NL]) ++ delimiter_bar
             ++ ([NL] ++ c2 ++ [NL; NL]) ++ framed dump)
      with ((c ++ [NL]) ++ Main.file_delimiter
            ++ (str "FILE: " ++ p2) ++ Main.file_delimiter
            ++ (c2 ++ [NL] ++ [NL] ++ framed dump))
      by (unfold Main.file_delimiter; rewrite <- !app_assoc; reflexivity).
    rewrite split_go_clear.
    2:{ intros a b E Nb. unfold Main.file_delimiter. cbn [app].
        apply (framed_not_inside delimiter_bar NL bar_has_no_newline
                 (c ++ [NL]) a b); [|exact E | exact Nb].
        replace (c ++ [NL]) with (c ++ NL :: []) by reflexivity.
        apply contains_app_char; [reflexivity | exact Bc | reflexivity]. }
    rewrite split_go_at_sep by discriminate.
    rewrite app_nil_r, rev_involutive.
    rewrite split_go_clear.
    2:{ intros a b E Nb. unfold Main.file_delimiter. cbn [app].
        apply (framed_not_inside delimiter_bar NL bar_has_no_newline
                 (str "FILE: " ++ p2) a b); [|exact E | exact Nb].
        change (str "FILE: " ++ p2) with (str "FILE:" ++ chr " " :: p2).
        apply contains_app_char; [reflexivity | reflexivity | exact Bp2]. }
    rewrite split_go_at_sep by discriminate.
    rewrite app_nil_r, rev_involutive.
    cbn [fold_left].
    rewrite (main_skips_content files c [NL]);
      [ | exact Tc
        | unfold unmarked in Ue; apply negb_true_iff in Ue; exact Ue
        | reflexivity ].
    rewrite (main_parse_bare_header files p2 c2 P2).
    rewrite (IH Pd Ud (p2, c2) _ P2 U2).
    reflexivity.
Qed.

Lemma main_on_framed (dump : pydict pystr) :
  forallb (plain_entry U) dump = true ->
  forallb unmarked dump = true ->
  Main.parse_repository_text U (framed dump)
  = store_all (map without_content (tl dump)) [].
Proof.
  intros P Um. unfold Main.parse_repository_text.
  destruct dump as [|[p c] dump]; [reflexivity|].
  destruct (framed_starts_with_bar (p, c) dump) as [rest0 E0].
  assert (Normalizer.is_nil (framed ((p, c) :: dump)) = false) as Z
      by (rewrite E0; reflexivity).
  rewrite Z. clear Z E0 rest0.
  cbn [forallb] in P, Um. apply andb_true_iff in P, Um.
  destruct P as [Pe Pd]. destruct Um as [Ue Ud].
  destruct (plain_entry_inv U _ _ Pe) as [Np [Tp [Lp [Bp _]]]].
  rewrite framed_cons. unfold framed_header, framed_body. cbn [fst snd tl].
  replace (delimiter_bar ++ ([NL] ++ str "FILE: " ++ p ++ [NL])
           ++ delimiter_bar ++ ([NL] ++ c ++ [NL; NL]) ++ framed dump)
    with ((delimiter_bar ++ [NL]) ++ (str "FILE: " ++ p)
          ++ Main.file_delimiter ++ (c ++ [NL] ++ [NL] ++ framed dump))
    by (unfold Main.file_delimiter; rewrite <- !app_assoc; reflexivity).
  unfold split.
  rewrite split_go_clear.
  2:{ intros a b E Nb. unfold Main.file_delimiter.
      destruct (app_snoc_split delimiter_bar NL a b E Nb) as [b0 [Eb Ebar]].
      rewrite Eb. destruct b0 as [|x b0]; cbn [app].
      - cbn [startswith]. rewrite N.eqb_refl. cbn [andb].
        unfold delimiter_bar, repeat_char. reflexivity.
      - apply startswith_head.
        rewrite (bar_chars x)
          by (rewrite Ebar; apply in_or_app; right; left; reflexivity).
        discriminate. }
  rewrite split_go_clear.
  2:{ intros a b E Nb. unfold Main.file_delimiter. cbn [app].
      apply (framed_not_inside delimiter_bar NL bar_has_no_newline
               (str "FILE: " ++ p) a b); [|exact E | exact Nb].
      change (str "FILE: " ++ p) with (str "FILE:" ++ chr " " :: p).
      apply contains_app_char; [reflexivity | reflexivity | exact Bp]. }
  rewrite split_go_at_sep by discriminate.
  cbn [fold_left].
  rewrite rev_app_distr, !rev_involutive, app_nil_r.
  rewrite ?rev_involutive, <- ?app_assoc.
  rewrite main_skips_first.
  apply (main_after_header dump Pd Ud (p, c) [] Pe Ue).
Qed.

Lemma unique_without_content (dump : pydict pystr) :
  unique_paths dump = true -> unique_paths (map without_content dump) = true.
Proof.
  induction dump as [|[p c] dump IH]; intros H; [reflexivity|].
  cbn [unique_paths map without_content fst] in *.
  apply andb_true_iff in H. destruct H as [H1 H2].
  apply andb_true_iff. split; [|apply IH; exact H2].
  replace (keys (map without_content dump)) with (keys dump); [exact H1|].
  unfold keys. rewrite map_map. reflexivity.
Qed.

End Layouts.

(** X18.  On a dump in the layout that [src/main.py] and
    [src/repository_parser.py] read back, with the content right after
    the line [FILE: <path>] and a delimiter line between the sections,
    [src/analyzer.py] always fails with [IndexError]: the last section
    has the marker and nothing after it to be joined with. *)
Theorem legacy_fails_on_canonical_layout
        (U : unicode_db) (dump : pydict pystr) :
  forallb (plain_entry U) dump = true ->
  Normalizer.is_nil dump = false ->
  Legacy.parse_repository_text U (serialize dump) = Raise IndexError.
Proof.
  intros P N. apply legacy_on_canonical; [exact P|].
  intros ->. discriminate N.
Qed.

Lemma legacy_fails_on_canonical_layout_witness :
  Legacy.parse_repository_text sample_db (serialize two_files)
  = Raise IndexError.
Proof.
  apply (legacy_fails_on_canonical_layout sample_db two_files); reflexivity.
Defined.

(** X19.  The layout that [src/analyzer.py] reads, with the line
    [FILE: <path>] between two bars, loses every content in the other two
    parsers: [src/repository_parser.py] returns every path with an empty
    content, and [src/main.py] returns every path but the first with an
    empty content. *)
Theorem framed_layout_loses_contents
        (U : unicode_db) (dump : pydict pystr) :
  forallb (plain_entry U) dump = true ->
  forallb markerless dump = true ->
  forallb unmarked dump = true ->
  unique_paths dump = true ->
  RepositoryParser.parse_repository_text U (framed dump)
  = map without_content dump
  /\ Main.parse_repository_text U (framed dump)
     = map without_content (tl dump).
Proof.
  intros P M Um Un. split.
  - rewrite (rp_on_framed U dump P M).
    rewrite store_all_unique;
      [reflexivity | apply unique_without_content; exact Un | reflexivity].
  - rewrite (main_on_framed U dump P Um).
    rewrite store_all_unique; [reflexivity | | reflexivity].
    destruct dump as [|[p c] dump]; [reflexivity|].
    cbn [tl]. cbn [unique_paths] in Un. apply andb_true_iff in Un.
    destruct Un as [_ Un]. apply unique_without_content. exact Un.
Qed.

Lemma framed_layout_loses_contents_witness :
  RepositoryParser.parse_repository_text sample_db (framed two_files)
  = [ (str "a.py", []); (str "b.py", []) ]
  /\ Main.parse_repository_text sample_db (framed two_files)
     = [ (str "b.py", []) ].
Proof.
  apply (framed_layout_loses_contents sample_db two_files); reflexivity.
Defined.

(** * The directory listing ahead of a dump *)

Lemma find_blank_line (x rest : pystr) :
  contains [NL; NL] (x ++ [NL]) = false ->
  find [NL; NL] (x ++ [NL; NL] ++ rest) = Some (List.length x).
Proof.
  induction x as [|c x IH]; intros H; [reflexivity|].
  change ((c :: x) ++ [NL; NL] ++ rest) with (c :: (x ++ [NL; NL] ++ rest)).
  change ((c :: x) ++ [NL]) with (c :: (x ++ [NL])) in H.
  cbn [contains] in H. apply orb_false_iff in H. destruct H as [H1 H2].
  cbn [find].
  assert (startswith [NL; NL] (c :: x ++ [NL; NL] ++ rest) = false) as S.
  { cbn [startswith] in *. destruct (N.eqb NL c); [|reflexivity].
    cbn [andb] in *. destruct x as [|y x]; cbn [app] in *.
    - rewrite N.eqb_refl in H1. discriminate H1.
    - destruct (N.eqb NL y); [discriminate H1 | reflexivity]. }
  rewrite S, (IH H2). reflexivity.
Qed.

Lemma skipn_past (x y : pystr) (n : nat) :
  n = List.length x -> skipn n (x ++ y) = y.
Proof.
  intros ->. rewrite skipn_app, Nat.sub_diag, skipn_all. reflexivity.
Qed.

Lemma skip_listing (listing rest : pystr) :
  single_spaced listing = true ->
  Legacy.skip_directory_structure (with_listing listing rest) = rest.
Proof.
  intros H. unfold single_spaced in H. apply negb_true_iff in H.
  unfold Legacy.skip_directory_structure, with_listing.
  rewrite startswith_app.
  replace (str "Directory structure:" ++ listing ++ [NL; NL] ++ rest)
    with ((str "Directory structure:" ++ listing) ++ [NL; NL] ++ rest)
    by (rewrite <- app_assoc; reflexivity).
  rewrite find_blank_line.
  - replace ((str "Directory structure:" ++ listing) ++ [NL; NL] ++ rest)
      with (((str "Directory structure:" ++ listing) ++ [NL; NL]) ++ rest)
      by (rewrite <- !app_assoc; reflexivity).
    apply skipn_past. rewrite !length_app. cbn [List.length]. lia.
  - rewrite <- app_assoc.
    change (str "Directory structure:" ++ listing ++ [NL])
      with (str "Directory structure" ++ chr ":" :: (listing ++ [NL])).
    apply contains_app_char; [reflexivity | reflexivity | exact H].
Qed.

Section Listing.
Variable U : unicode_db.

Lemma legacy_with_listing (listing rest : pystr) :
  single_spaced listing = true ->
  startswith (str "Directory structure:") rest = false ->
  Legacy.parse_repository_text U (with_listing listing rest)
  = Legacy.parse_repository_text U rest.
Proof.
  intros H S. unfold Legacy.parse_repository_text.
  assert (Normalizer.is_nil (with_listing listing rest) = false) as Z
      by reflexivity.
  rewrite Z, (skip_listing listing rest H).
  assert (Legacy.skip_directory_structure rest = rest) as K
      by (unfold Legacy.skip_directory_structure; rewrite S; reflexivity).
  rewrite K. destruct rest as [|c rest]; reflexivity.
Qed.

Lemma listing_section_is_skipped (files : pydict pystr) (rest : pystr) :
  Main.parse_section U files (str "Directory structure:" ++ rest) = files.
Proof.
  apply main_section_without_marker.
  change (str "Directory structure:" ++ rest)
    with (chr "D" :: str "irectory structure:" ++ rest).
  unfold strip, strip_by, lstrip_by.
  rewrite dropwhile_stop by reflexivity.
  rewrite rstrip_cons_stop by reflexivity.
  reflexivity.
Qed.

Lemma main_with_listing (listing : pystr) (dump : pydict pystr) :
  unbarred listing = true ->
  forallb (plain_entry U) dump = true ->
  dump <> [] ->
  Main.parse_repository_text U (with_listing listing (serialize dump))
  = store_all (tl dump) [].
Proof.
  intros B P N. unfold Main.parse_repository_text.
  assert (Normalizer.is_nil (with_listing listing (serialize dump)) = false)
    as Z by reflexivity.
  rewrite Z. clear Z.
  unfold unbarred in B. apply negb_true_iff in B.
  destruct dump as [|e dump]; [contradiction|].
  cbn [forallb] in P. apply andb_true_iff in P. destruct P as [Pe Pd].
  pose proof (section_has_no_bar U e Pe) as Be.
  set (head := str "Directory structure:" ++ listing ++ [NL; NL]
               ++ serialize_section e).
  assert (contains delimiter_bar head = false) as Bh.
  { unfold head.
    change (str "Directory structure:" ++ listing ++ [NL; NL]
            ++ serialize_section e)
      with (str "Directory structure" ++ chr ":"
            :: (listing ++ NL :: ([] ++ NL :: serialize_section e))).
    apply contains_app_char; [reflexivity | reflexivity |].
    apply contains_app_char; [reflexivity | exact B |].
    apply contains_app_char; [reflexivity | reflexivity | exact Be]. }
  cbn [tl]. unfold split, with_listing.
  destruct dump as [|e' dump'].
  - unfold serialize. cbn [map join]. fold head.
    rewrite split_go_end.
    + cbn [rev app fold_left]. unfold head.
      apply listing_section_is_skipped.
    + destruct (contains Main.file_delimiter head) eqn:C; [|reflexivity].
      apply (framed_has_bar delimiter_bar NL) in C.
      rewrite C in Bh. discriminate Bh.
  - rewrite serialize_cons.
    change section_separator with Main.file_delimiter.
    replace (str "Directory structure:" ++ listing ++ [NL; NL]
             ++ serialize_section e ++ Main.file_delimiter
             ++ serialize (e' :: dump'))
      with (head ++ Main.file_delimiter ++ serialize (e' :: dump'))
      by (unfold head; rewrite <- !app_assoc; reflexivity).
    rewrite split_go_clear.
    2:{ intros a b E Nb.
        apply (framed_not_inside delimiter_bar NL bar_has_no_newline
                 head a b); assumption. }
    rewrite split_go_at_sep by discriminate.
    rewrite app_nil_r, rev_involutive.
    rewrite (main_split_serialize U (e' :: dump') Pd) by discriminate.
    cbn [fold_left rev app].
    unfold head at 1. rewrite listing_section_is_skipped.
    change (map serialize_section (e' :: dump'))
      with (serialize_section e' :: map serialize_section dump').
    cbv iota.
    change (serialize_section e' :: map serialize_section dump')
      with (map serialize_section (e' :: dump')).
    generalize (e' :: dump') Pd. generalize (@nil (pystr * pystr)).
    intros files d. revert files.
    induction d as [|x d IHd]; intros files Pd'; [reflexivity|].
    cbn [forallb] in Pd'. apply andb_true_iff in Pd'.
    destruct Pd' as [Px Pd'].
    cbn [map fold_left]. rewrite main_parse_section by exact Px.
    unfold store_all. cbn [fold_left]. apply (IHd _ Pd').
Qed.

End Listing.

(** X20.  [src/analyzer.py] drops a directory listing at the head of the
    dump, up to the first blank line: when the listing has no blank line
    of its own, the dump parses as the text after the blank line. *)
Theorem legacy_skips_directory_listing
        (U : unicode_db) (listing rest : pystr) :
  single_spaced listing = true ->
  startswith (str "Directory structure:") rest = false ->
  Legacy.parse_repository_text U (with_listing listing rest)
  = Legacy.parse_repository_text U rest.
Proof. apply legacy_with_listing. Qed.

Lemma legacy_skips_directory_listing_witness :
  Legacy.parse_repository_text sample_db
    (with_listing sample_listing (framed two_files))
  = Legacy.parse_repository_text sample_db (framed two_files).
Proof.
  apply (legacy_skips_directory_listing sample_db sample_listing
           (framed two_files)); reflexivity.
Defined.

(** X21.  [src/main.py] does not skip a directory listing: the listing
    and the section that follows it form one section that does not begin
    with the marker, so the first file of the dump is lost and the others
    are kept. *)
Theorem listing_costs_the_first_file
        (U : unicode_db) (listing : pystr) (dump : pydict pystr) :
  unbarred listing = true ->
  forallb (plain_entry U) dump = true ->
  unique_paths dump = true ->
  Main.parse_repository_text U (with_listing listing (serialize dump))
  = tl dump.
Proof.
  intros B P Un. destruct dump as [|[p c] dump].
  - unfold Main.parse_repository_text.
    assert (Normalizer.is_nil (with_listing listing (serialize [])) = false)
      as Z by reflexivity.
    rewrite Z. unfold with_listing, split.
    change (serialize []) with (@nil char).
    unfold unbarred in B. apply negb_true_iff in B.
    rewrite split_go_end.
    + cbn [rev app fold_left tl]. apply listing_section_is_skipped.
    + destruct (contains Main.file_delimiter
                  (str "Directory structure:" ++ listing ++ [NL; NL] ++ []))
        eqn:C; [|reflexivity].
      apply (framed_has_bar delimiter_bar NL) in C.
      assert (contains delimiter_bar
                (str "Directory structure:" ++ listing ++ [NL; NL] ++ [])
              = false) as X.
      { change (str "Directory structure:" ++ listing ++ [NL; NL] ++ [])
          with (str "Directory structure" ++ chr ":"
                :: (listing ++ NL :: [NL])).
        apply contains_app_char; [reflexivity | reflexivity |].
        apply contains_app_char; [reflexivity | exact B | reflexivity]. }
      rewrite X in C. discriminate C.
  - rewrite (main_with_listing U listing _ B P) by discriminate.
    cbn [tl]. cbn [unique_paths] in Un. apply andb_true_iff in Un.
    destruct Un as [_ Un].
    rewrite store_all_unique; [reflexivity | exact Un | reflexivity].
Qed.

Lemma listing_costs_the_first_file_witness :
  Main.parse_repository_text sample_db
    (with_listing sample_listing (serialize two_files))
  = [ (str "b.py", str "print(2)") ].
Proof.
  apply (listing_costs_the_first_file sample_db sample_listing two_files);
    reflexivity.
Defined.
